(** * SAP-AUTOMATE-FD-TD: the FSD document-assembly pipeline

    A shallow embedding of [backend/main.py] and
    [backend/md_to_docs_converter.py]: the extraction batch, the merge into
    the FSD document, the Markdown renderer, the Markdown parser, the title
    extractor and the Word template filler, with the properties the
    specification states about them.

    Conventions.
    - Python [str] is [string], the bytes of the UTF-8 text, so [split],
      [startswith], [in], [replace] and [join] on ASCII patterns agree with
      Python's. [strip] removes the white space Python removes: the
      characters of [str.isspace], of one to three bytes. [upper] and
      [lower] put every ASCII letter where Python has it; a letter outside
      ASCII whose other case is outside ASCII too is left as it is.
    - A JSON value decoded by [json.loads] is a [json]; a JSON object keeps
      its pairs in order and [get] reads the first pair with the key.
    - Code that can raise returns [res E A]; [try_except] is
      [try: ... except Exception: ...]. Only instances of [Exception] are
      modelled ([exn]). *)

From Stdlib Require Import String Ascii List ZArith Bool Lia DecimalString.
From stdpp Require Import base option list gmap strings.
Import ListNotations.

Local Open Scope string_scope.
Local Open Scope list_scope.

(* ===================================================================== *)
(** ** Results and exceptions *)
(* ===================================================================== *)

Inductive res (E A : Type) : Type :=
| Ok (a : A)
| Err (e : E).
Arguments Ok {E A} a.
Arguments Err {E A} e.

Definition res_bind {E A B} (m : res E A) (k : A -> res E B) : res E B :=
  match m with
  | Ok a => k a
  | Err e => Err e
  end.

#[global] Instance res_mbind {E} : MBind (res E) := fun A B k m => res_bind m k.
#[global] Instance res_mret {E} : MRet (res E) := fun A a => Ok a.
#[global] Instance res_fmap {E} : FMap (res E) :=
  fun A B f m => res_bind m (fun a => Ok (f a)).

(** [try: body except Exception as e: handler e] *)
Definition try_except {E A} (body : res E A) (handler : E -> res E A) : res E A :=
  match body with
  | Ok a => Ok a
  | Err e => handler e
  end.

(** The classes of the exceptions the code raises or names in an [except]
    clause. [JSONDecodeError] is a subclass of [ValueError]. *)
Inductive exn : Type :=
| AttributeError
| TypeError
| IndexError
| KeyError
| ValueError
| JSONDecodeError
| FileNotFoundError
| OtherException (cls : string).

Abbreviation exc := (res exn).

Definition raise {A} (e : exn) : exc A := Err e.

(* ===================================================================== *)
(** ** JSON values as Python holds them *)
(* ===================================================================== *)

(** Numbers are the integers: no operation below reads the value of a
    number, only whether it is zero. *)
#[warnings="-register-all"]
Inductive json : Type :=
| JNull
| JBool (b : bool)
| JNum (n : Z)
| JStr (s : string)
| JList (l : list json)
| JDict (d : list (string * json)).

Definition empty_dict : json := JDict [].

(** [bool(v)] *)
Definition truthy (v : json) : bool :=
  match v with
  | JNull => false
  | JBool b => b
  | JNum n => negb (Z.eqb n 0)
  | JStr s => negb (String.eqb s "")
  | JList l => match l with [] => false | _ => true end
  | JDict d => match d with [] => false | _ => true end
  end.

Fixpoint assoc_get {A} (k : string) (d : list (string * A)) : option A :=
  match d with
  | [] => None
  | (k', v) :: rest => if String.eqb k k' then Some v else assoc_get k rest
  end.

(** [v.get(k, default)]: only a dict has [get]. *)
Definition py_get (v : json) (k : string) (dflt : json) : exc json :=
  match v with
  | JDict d => Ok (default dflt (assoc_get k d))
  | _ => raise AttributeError
  end.

(** [v[k]] on a dict, as an option. *)
Definition json_key (k : string) (v : json) : option json :=
  match v with
  | JDict d => assoc_get k d
  | _ => None
  end.

(** The items of a list. *)
Definition json_items (v : json) : list json :=
  match v with
  | JList l => l
  | _ => []
  end.

(** [v[0]] *)
Definition py_index0 (v : json) : exc json :=
  match v with
  | JList (x :: _) => Ok x
  | JList [] => raise IndexError
  | JStr (String c _) => Ok (JStr (String c ""))
  | JStr "" => raise IndexError
  | JDict _ => raise KeyError
  | _ => raise TypeError
  end.

(* ===================================================================== *)
(** ** LLMClient (main.py, class LLMClient) *)
(* ===================================================================== *)

(** What [session.post] hands back: the status and what [response.json()]
    and [response.text()] give when awaited. *)
Record http_response : Type := {
  status : Z;
  response_json : exc json;
  response_text : exc string
}.

(** One awaited [session.post(url, headers, json=payload)]: a response, or
    the exception the transport raises (time-out, connection error). *)
Definition transport : Type := string -> exc http_response.

Section LLMClient.

(** [json.loads] on a text: [None] is [JSONDecodeError]. *)
Variable json_loads : string -> option json.

(** [_build_prompt]: the fixed system prompt, the task prompt and the
    dumped context. The texts are not reproduced. *)
Variable _build_prompt : string -> json -> string.

(** [_call_api] *)
Definition _call_api (post : transport) (prompt : string) : exc json :=
  response ← post prompt;
  if Z.eqb (status response) 200 then
    response_json response
  else
    _ ← response_text response;
    raise (OtherException "Exception").

(** The [try] body of [_parse_response]. *)
Definition _parse_response_body (response : json) : exc json :=
  candidates ← py_get response "candidates" (JList [empty_dict]);
  candidate ← py_index0 candidates;
  content ← py_get candidate "content" empty_dict;
  parts ← py_get content "parts" (JList [empty_dict]);
  part ← py_index0 parts;
  text ← py_get part "text" (JStr "{}");
  match text with
  | JStr s =>
      match json_loads s with
      | Some v => Ok v
      | None => raise JSONDecodeError
      end
  | _ => raise TypeError
  end.

(** [_parse_response]: [except (json.JSONDecodeError, KeyError)] *)
Definition _parse_response (response : json) : exc json :=
  try_except (_parse_response_body response)
    (fun e => match e with
              | JSONDecodeError | KeyError => Ok empty_dict
              | _ => raise e
              end).

(** The [try] body of [analyze]. *)
Definition analyze_body (post : transport) (prompt : string) (context : json) : exc json :=
  response ← _call_api post (_build_prompt prompt context);
  _parse_response response.

(** The remote call of [analyze] raises: [_call_api] raises (time-out,
    network error, non-200 status, a body that is not JSON), or the text of
    the answer does not decode. *)
Definition remote_call_raises (post : transport) (prompt : string) (context : json) : bool :=
  match _call_api post (_build_prompt prompt context) with
  | Err _ => true
  | Ok response =>
      match _parse_response_body response with
      | Err _ => true
      | Ok _ => false
      end
  end.

(** What [analyze] returns: the value of its [try] body, or [{}]. *)
Definition answer (post : transport) (prompt : string) (context : json) : json :=
  match analyze_body post prompt context with
  | Ok v => v
  | Err _ => empty_dict
  end.

(** [analyze]: [except Exception: return {}] *)
Definition analyze (post : transport) (prompt : string) (context : json) : exc json :=
  try_except (analyze_body post prompt context) (fun _ => Ok empty_dict).

(* =================================================================== *)
(** ** The extraction batch (IntelligentFSDMapper) *)
(* =================================================================== *)

(** The nine task names of [analysis_tasks], in order. *)
Definition task_names : list string :=
  [ "basic_info"; "selection_screen"; "complete_field_mappings";
    "complete_valid_datasets"; "complete_lookup_forms"; "error_handling";
    "test_scenarios"; "validation_rules"; "authorization" ].

(** The prompt each [_create_*_prompt] builds from the raw data, by task
    name. The texts are not reproduced. *)
Variable prompt_of : string -> string.

Definition analysis_tasks : list (string * string) :=
  map (fun name => (name, prompt_of name)) task_names.

(** The context [{"task": task_name}] passed with each prompt. *)
Definition task_context (task_name : string) : json :=
  JDict [("task", JStr task_name)].

(** The [for task_name, prompt in analysis_tasks] loop. The remote service
    answers call number [i] through [llm i]. *)
Fixpoint analysis_loop (llm : nat -> transport) (i : nat)
    (tasks : list (string * string)) (results : gmap string json)
  : exc (gmap string json) :=
  match tasks with
  | [] => Ok results
  | (task_name, prompt) :: rest =>
      results' ←
        try_except
          (result ← analyze (llm i) prompt (task_context task_name);
           Ok (<[task_name := result]> results))
          (fun _ => Ok (<[task_name := empty_dict]> results));
      analysis_loop llm (S i) rest results'
  end.

Definition run_batch (llm : nat -> transport) : exc (gmap string json) :=
  analysis_loop llm 0 analysis_tasks ∅.

End LLMClient.

(* ===================================================================== *)
(** ** The FSD data structures (main.py, CORE FSD DATA STRUCTURES) *)
(* ===================================================================== *)

Inductive FieldProcessingType : Type :=
| DIRECT
| LOOKUP
| CALCULATION
| CONSTANT
| AGGREGATION.

(** [member.value] *)
Definition value (t : FieldProcessingType) : string :=
  match t with
  | DIRECT => "DIRECT"
  | LOOKUP => "LOOKUP"
  | CALCULATION => "CALCULATION"
  | CONSTANT => "CONSTANT"
  | AGGREGATION => "AGGREGATION"
  end.

Definition all_processing_types : list FieldProcessingType :=
  [DIRECT; LOOKUP; CALCULATION; CONSTANT; AGGREGATION].

(** [FieldProcessingType(v)]: the member whose value is [v], or
    [ValueError]. *)
Definition FieldProcessingType_call (v : json) : exc FieldProcessingType :=
  match v with
  | JStr s =>
      match find (fun t => String.eqb (value t) s) all_processing_types with
      | Some t => Ok t
      | None => raise ValueError
      end
  | _ => raise ValueError
  end.

Record FieldMapping : Type := {
  display_name : string;
  technical_field : string;
  source_table : string;
  processing_logic : string;
  processing_type : FieldProcessingType;
  join_condition : string;
  where_condition : string
}.

Record SelectionParameter : Type := {
  name : string;
  type : string;
  description : string;
  is_mandatory : bool;
  is_select_option : bool;
  has_no_intervals : bool;
  default_value : string
}.

Record ErrorScenario : Type := {
  error_description : string;
  resolution : string;
  error_code : string;
  severity : string
}.

(** The field [condition] of the class is [test_condition] here
    ([DataConditionRow] has a [condition] too). *)
Record TestScenario : Type := {
  test_condition : string;
  expected_result : string;
  test_data : string;
  priority : string
}.

Record DataConditionRow : Type := {
  data : string;
  condition : string
}.

(** A [Dict[str, str]] in insertion order. *)
Abbreviation str_dict := (list (string * string)).

Record FSDDocument : Type := {
  project_name : string;
  document_location : string;
  related_documents : list string;
  reviewers : list str_dict;
  version_history : list str_dict;
  user_requirements : string;
  assumptions : list string;
  program_name : string;
  transaction_code : string;
  menu_path : string;
  report_description : string;
  desain_report_description : string;
  selection_parameters : list SelectionParameter;
  field_mappings : list FieldMapping;
  validation_rules : list string;
  special_processing : str_dict;
  valid_dataset_rules : list DataConditionRow;
  country_info : list DataConditionRow;
  currency_t500c : list DataConditionRow;
  currency_t001 : list DataConditionRow;
  authorization_objects : list string;
  user_roles : list string;
  constraints : list string;
  dependencies : list string;
  error_scenarios : list ErrorScenario;
  test_scenarios : list TestScenario;
  test_data_location : string;
  design_changes : list string
}.

(** [FSDDocument()]: every field at its default. *)
Definition new_FSDDocument : FSDDocument :=
  {| project_name := ""; document_location := "";
     related_documents := []; reviewers := []; version_history := [];
     user_requirements := ""; assumptions := [];
     program_name := ""; transaction_code := ""; menu_path := "";
     report_description := ""; desain_report_description := "";
     selection_parameters := []; field_mappings := [];
     validation_rules := []; special_processing := [];
     valid_dataset_rules := []; country_info := [];
     currency_t500c := []; currency_t001 := [];
     authorization_objects := []; user_roles := [];
     constraints := []; dependencies := [];
     error_scenarios := []; test_scenarios := [];
     test_data_location := ""; design_changes := [] |}.

(** The fields declared [List[...]]. *)
Definition list_fields_empty (d : FSDDocument) : Prop :=
  related_documents d = [] /\ reviewers d = [] /\ version_history d = []
  /\ assumptions d = [] /\ selection_parameters d = [] /\ field_mappings d = []
  /\ validation_rules d = [] /\ valid_dataset_rules d = [] /\ country_info d = []
  /\ currency_t500c d = [] /\ currency_t001 d = []
  /\ authorization_objects d = [] /\ user_roles d = []
  /\ constraints d = [] /\ dependencies d = []
  /\ error_scenarios d = [] /\ test_scenarios d = [] /\ design_changes d = [].

(** *** Assignments to the document's fields *)

(** The fields the basic-info step assigns. *)
Definition with_basic_info (pn rd drd ur : string) (asm : list string) (tc mp : string)
    (rel : list string) (vh rev : list (list (string * string))) (d : FSDDocument) : FSDDocument :=
  {| project_name := project_name d;
     document_location := document_location d;
     related_documents := rel;
     reviewers := rev;
     version_history := vh;
     user_requirements := ur;
     assumptions := asm;
     program_name := pn;
     transaction_code := tc;
     menu_path := mp;
     report_description := rd;
     desain_report_description := drd;
     selection_parameters := selection_parameters d;
     field_mappings := field_mappings d;
     validation_rules := validation_rules d;
     special_processing := special_processing d;
     valid_dataset_rules := valid_dataset_rules d;
     country_info := country_info d;
     currency_t500c := currency_t500c d;
     currency_t001 := currency_t001 d;
     authorization_objects := authorization_objects d;
     user_roles := user_roles d;
     constraints := constraints d;
     dependencies := dependencies d;
     error_scenarios := error_scenarios d;
     test_scenarios := test_scenarios d;
     test_data_location := test_data_location d;
     design_changes := design_changes d |}.

(** [d.selection_parameters = v] *)
Definition with_selection_parameters (v : list SelectionParameter) (d : FSDDocument) : FSDDocument :=
  {| project_name := project_name d;
     document_location := document_location d;
     related_documents := related_documents d;
     reviewers := reviewers d;
     version_history := version_history d;
     user_requirements := user_requirements d;
     assumptions := assumptions d;
     program_name := program_name d;
     transaction_code := transaction_code d;
     menu_path := menu_path d;
     report_description := report_description d;
     desain_report_description := desain_report_description d;
     selection_parameters := v;
     field_mappings := field_mappings d;
     validation_rules := validation_rules d;
     special_processing := special_processing d;
     valid_dataset_rules := valid_dataset_rules d;
     country_info := country_info d;
     currency_t500c := currency_t500c d;
     currency_t001 := currency_t001 d;
     authorization_objects := authorization_objects d;
     user_roles := user_roles d;
     constraints := constraints d;
     dependencies := dependencies d;
     error_scenarios := error_scenarios d;
     test_scenarios := test_scenarios d;
     test_data_location := test_data_location d;
     design_changes := design_changes d |}.

(** [d.field_mappings = v] *)
Definition with_field_mappings (v : list FieldMapping) (d : FSDDocument) : FSDDocument :=
  {| project_name := project_name d;
     document_location := document_location d;
     related_documents := related_documents d;
     reviewers := reviewers d;
     version_history := version_history d;
     user_requirements := user_requirements d;
     assumptions := assumptions d;
     program_name := program_name d;
     transaction_code := transaction_code d;
     menu_path := menu_path d;
     report_description := report_description d;
     desain_report_description := desain_report_description d;
     selection_parameters := selection_parameters d;
     field_mappings := v;
     validation_rules := validation_rules d;
     special_processing := special_processing d;
     valid_dataset_rules := valid_dataset_rules d;
     country_info := country_info d;
     currency_t500c := currency_t500c d;
     currency_t001 := currency_t001 d;
     authorization_objects := authorization_objects d;
     user_roles := user_roles d;
     constraints := constraints d;
     dependencies := dependencies d;
     error_scenarios := error_scenarios d;
     test_scenarios := test_scenarios d;
     test_data_location := test_data_location d;
     design_changes := design_changes d |}.

(** [d.valid_dataset_rules = v] *)
Definition with_valid_dataset_rules (v : list DataConditionRow) (d : FSDDocument) : FSDDocument :=
  {| project_name := project_name d;
     document_location := document_location d;
     related_documents := related_documents d;
     reviewers := reviewers d;
     version_history := version_history d;
     user_requirements := user_requirements d;
     assumptions := assumptions d;
     program_name := program_name d;
     transaction_code := transaction_code d;
     menu_path := menu_path d;
     report_description := report_description d;
     desain_report_description := desain_report_description d;
     selection_parameters := selection_parameters d;
     field_mappings := field_mappings d;
     validation_rules := validation_rules d;
     special_processing := special_processing d;
     valid_dataset_rules := v;
     country_info := country_info d;
     currency_t500c := currency_t500c d;
     currency_t001 := currency_t001 d;
     authorization_objects := authorization_objects d;
     user_roles := user_roles d;
     constraints := constraints d;
     dependencies := dependencies d;
     error_scenarios := error_scenarios d;
     test_scenarios := test_scenarios d;
     test_data_location := test_data_location d;
     design_changes := design_changes d |}.

(** [d.error_scenarios = v] *)
Definition with_error_scenarios (v : list ErrorScenario) (d : FSDDocument) : FSDDocument :=
  {| project_name := project_name d;
     document_location := document_location d;
     related_documents := related_documents d;
     reviewers := reviewers d;
     version_history := version_history d;
     user_requirements := user_requirements d;
     assumptions := assumptions d;
     program_name := program_name d;
     transaction_code := transaction_code d;
     menu_path := menu_path d;
     report_description := report_description d;
     desain_report_description := desain_report_description d;
     selection_parameters := selection_parameters d;
     field_mappings := field_mappings d;
     validation_rules := validation_rules d;
     special_processing := special_processing d;
     valid_dataset_rules := valid_dataset_rules d;
     country_info := country_info d;
     currency_t500c := currency_t500c d;
     currency_t001 := currency_t001 d;
     authorization_objects := authorization_objects d;
     user_roles := user_roles d;
     constraints := constraints d;
     dependencies := dependencies d;
     error_scenarios := v;
     test_scenarios := test_scenarios d;
     test_data_location := test_data_location d;
     design_changes := design_changes d |}.

(** [d.test_scenarios = v] *)
Definition with_test_scenarios (v : list TestScenario) (d : FSDDocument) : FSDDocument :=
  {| project_name := project_name d;
     document_location := document_location d;
     related_documents := related_documents d;
     reviewers := reviewers d;
     version_history := version_history d;
     user_requirements := user_requirements d;
     assumptions := assumptions d;
     program_name := program_name d;
     transaction_code := transaction_code d;
     menu_path := menu_path d;
     report_description := report_description d;
     desain_report_description := desain_report_description d;
     selection_parameters := selection_parameters d;
     field_mappings := field_mappings d;
     validation_rules := validation_rules d;
     special_processing := special_processing d;
     valid_dataset_rules := valid_dataset_rules d;
     country_info := country_info d;
     currency_t500c := currency_t500c d;
     currency_t001 := currency_t001 d;
     authorization_objects := authorization_objects d;
     user_roles := user_roles d;
     constraints := constraints d;
     dependencies := dependencies d;
     error_scenarios := error_scenarios d;
     test_scenarios := v;
     test_data_location := test_data_location d;
     design_changes := design_changes d |}.

(** [d.validation_rules = v] *)
Definition with_validation_rules (v : list string) (d : FSDDocument) : FSDDocument :=
  {| project_name := project_name d;
     document_location := document_location d;
     related_documents := related_documents d;
     reviewers := reviewers d;
     version_history := version_history d;
     user_requirements := user_requirements d;
     assumptions := assumptions d;
     program_name := program_name d;
     transaction_code := transaction_code d;
     menu_path := menu_path d;
     report_description := report_description d;
     desain_report_description := desain_report_description d;
     selection_parameters := selection_parameters d;
     field_mappings := field_mappings d;
     validation_rules := v;
     special_processing := special_processing d;
     valid_dataset_rules := valid_dataset_rules d;
     country_info := country_info d;
     currency_t500c := currency_t500c d;
     currency_t001 := currency_t001 d;
     authorization_objects := authorization_objects d;
     user_roles := user_roles d;
     constraints := constraints d;
     dependencies := dependencies d;
     error_scenarios := error_scenarios d;
     test_scenarios := test_scenarios d;
     test_data_location := test_data_location d;
     design_changes := design_changes d |}.

(** [d.document_location = v] *)
Definition with_document_location (v : string) (d : FSDDocument) : FSDDocument :=
  {| project_name := project_name d;
     document_location := v;
     related_documents := related_documents d;
     reviewers := reviewers d;
     version_history := version_history d;
     user_requirements := user_requirements d;
     assumptions := assumptions d;
     program_name := program_name d;
     transaction_code := transaction_code d;
     menu_path := menu_path d;
     report_description := report_description d;
     desain_report_description := desain_report_description d;
     selection_parameters := selection_parameters d;
     field_mappings := field_mappings d;
     validation_rules := validation_rules d;
     special_processing := special_processing d;
     valid_dataset_rules := valid_dataset_rules d;
     country_info := country_info d;
     currency_t500c := currency_t500c d;
     currency_t001 := currency_t001 d;
     authorization_objects := authorization_objects d;
     user_roles := user_roles d;
     constraints := constraints d;
     dependencies := dependencies d;
     error_scenarios := error_scenarios d;
     test_scenarios := test_scenarios d;
     test_data_location := test_data_location d;
     design_changes := design_changes d |}.

(** [d.project_name = v] *)
Definition with_project_name (v : string) (d : FSDDocument) : FSDDocument :=
  {| project_name := v;
     document_location := document_location d;
     related_documents := related_documents d;
     reviewers := reviewers d;
     version_history := version_history d;
     user_requirements := user_requirements d;
     assumptions := assumptions d;
     program_name := program_name d;
     transaction_code := transaction_code d;
     menu_path := menu_path d;
     report_description := report_description d;
     desain_report_description := desain_report_description d;
     selection_parameters := selection_parameters d;
     field_mappings := field_mappings d;
     validation_rules := validation_rules d;
     special_processing := special_processing d;
     valid_dataset_rules := valid_dataset_rules d;
     country_info := country_info d;
     currency_t500c := currency_t500c d;
     currency_t001 := currency_t001 d;
     authorization_objects := authorization_objects d;
     user_roles := user_roles d;
     constraints := constraints d;
     dependencies := dependencies d;
     error_scenarios := error_scenarios d;
     test_scenarios := test_scenarios d;
     test_data_location := test_data_location d;
     design_changes := design_changes d |}.

(** The three lists the lookup-forms step appends to. *)
Definition with_lookup_forms (ci c5 c1 : list DataConditionRow) (d : FSDDocument) : FSDDocument :=
  {| project_name := project_name d;
     document_location := document_location d;
     related_documents := related_documents d;
     reviewers := reviewers d;
     version_history := version_history d;
     user_requirements := user_requirements d;
     assumptions := assumptions d;
     program_name := program_name d;
     transaction_code := transaction_code d;
     menu_path := menu_path d;
     report_description := report_description d;
     desain_report_description := desain_report_description d;
     selection_parameters := selection_parameters d;
     field_mappings := field_mappings d;
     validation_rules := validation_rules d;
     special_processing := special_processing d;
     valid_dataset_rules := valid_dataset_rules d;
     country_info := ci;
     currency_t500c := c5;
     currency_t001 := c1;
     authorization_objects := authorization_objects d;
     user_roles := user_roles d;
     constraints := constraints d;
     dependencies := dependencies d;
     error_scenarios := error_scenarios d;
     test_scenarios := test_scenarios d;
     test_data_location := test_data_location d;
     design_changes := design_changes d |}.

(** The two lists the authorization step extends. *)
Definition with_authorization (ao ur : list string) (d : FSDDocument) : FSDDocument :=
  {| project_name := project_name d;
     document_location := document_location d;
     related_documents := related_documents d;
     reviewers := reviewers d;
     version_history := version_history d;
     user_requirements := user_requirements d;
     assumptions := assumptions d;
     program_name := program_name d;
     transaction_code := transaction_code d;
     menu_path := menu_path d;
     report_description := report_description d;
     desain_report_description := desain_report_description d;
     selection_parameters := selection_parameters d;
     field_mappings := field_mappings d;
     validation_rules := validation_rules d;
     special_processing := special_processing d;
     valid_dataset_rules := valid_dataset_rules d;
     country_info := country_info d;
     currency_t500c := currency_t500c d;
     currency_t001 := currency_t001 d;
     authorization_objects := ao;
     user_roles := ur;
     constraints := constraints d;
     dependencies := dependencies d;
     error_scenarios := error_scenarios d;
     test_scenarios := test_scenarios d;
     test_data_location := test_data_location d;
     design_changes := design_changes d |}.

(* ===================================================================== *)
(** ** dataclass_to_dict *)
(* ===================================================================== *)

Definition str_list_to_json (l : list string) : json := JList (map JStr l).

Definition str_dict_to_json (d : str_dict) : json :=
  JDict (map (fun kv => (fst kv, JStr (snd kv))) d).

Definition FieldMapping_to_dict (f : FieldMapping) : json :=
  JDict [ ("display_name", JStr (display_name f));
          ("technical_field", JStr (technical_field f));
          ("source_table", JStr (source_table f));
          ("processing_logic", JStr (processing_logic f));
          ("processing_type", JStr (value (processing_type f)));
          ("join_condition", JStr (join_condition f));
          ("where_condition", JStr (where_condition f)) ].

Definition SelectionParameter_to_dict (p : SelectionParameter) : json :=
  JDict [ ("name", JStr (name p));
          ("type", JStr (type p));
          ("description", JStr (description p));
          ("is_mandatory", JBool (is_mandatory p));
          ("is_select_option", JBool (is_select_option p));
          ("has_no_intervals", JBool (has_no_intervals p));
          ("default_value", JStr (default_value p)) ].

Definition ErrorScenario_to_dict (e : ErrorScenario) : json :=
  JDict [ ("error_description", JStr (error_description e));
          ("resolution", JStr (resolution e));
          ("error_code", JStr (error_code e));
          ("severity", JStr (severity e)) ].

Definition TestScenario_to_dict (t : TestScenario) : json :=
  JDict [ ("condition", JStr (test_condition t));
          ("expected_result", JStr (expected_result t));
          ("test_data", JStr (test_data t));
          ("priority", JStr (priority t)) ].

Definition DataConditionRow_to_dict (r : DataConditionRow) : json :=
  JDict [ ("data", JStr (data r)); ("condition", JStr (condition r)) ].

(** [dataclass_to_dict(fsd_document)]: [asdict] turns the document and the
    records in its lists into dicts, in field order; the recursion then
    replaces each enum member by its value. *)
Definition dataclass_to_dict (d : FSDDocument) : json :=
  JDict [ ("project_name", JStr (project_name d));
          ("document_location", JStr (document_location d));
          ("related_documents", str_list_to_json (related_documents d));
          ("reviewers", JList (map str_dict_to_json (reviewers d)));
          ("version_history", JList (map str_dict_to_json (version_history d)));
          ("user_requirements", JStr (user_requirements d));
          ("assumptions", str_list_to_json (assumptions d));
          ("program_name", JStr (program_name d));
          ("transaction_code", JStr (transaction_code d));
          ("menu_path", JStr (menu_path d));
          ("report_description", JStr (report_description d));
          ("desain_report_description", JStr (desain_report_description d));
          ("selection_parameters",
             JList (map SelectionParameter_to_dict (selection_parameters d)));
          ("field_mappings", JList (map FieldMapping_to_dict (field_mappings d)));
          ("validation_rules", str_list_to_json (validation_rules d));
          ("special_processing", str_dict_to_json (special_processing d));
          ("valid_dataset_rules",
             JList (map DataConditionRow_to_dict (valid_dataset_rules d)));
          ("country_info", JList (map DataConditionRow_to_dict (country_info d)));
          ("currency_t500c", JList (map DataConditionRow_to_dict (currency_t500c d)));
          ("currency_t001", JList (map DataConditionRow_to_dict (currency_t001 d)));
          ("authorization_objects", str_list_to_json (authorization_objects d));
          ("user_roles", str_list_to_json (user_roles d));
          ("constraints", str_list_to_json (constraints d));
          ("dependencies", str_list_to_json (dependencies d));
          ("error_scenarios", JList (map ErrorScenario_to_dict (error_scenarios d)));
          ("test_scenarios", JList (map TestScenario_to_dict (test_scenarios d)));
          ("test_data_location", JStr (test_data_location d));
          ("design_changes", str_list_to_json (design_changes d)) ].

(* ===================================================================== *)
(** ** The merge (IntelligentFSDMapper._map_fixed_results_to_fsd) *)
(* ===================================================================== *)

(** The dataclasses declare the type of each field and Python does not
    check it: the merge stores or formats whatever value a task result holds.
    [FSDDocument] holds values of the declared types only, so the merge ends
    in one of three ways: it returns the document, it raises, or it meets a
    value that is not of the declared type and goes on with it (stores it,
    iterates over it, formats it), where this model stops. *)
Inductive merge_stop : Type :=
| Raised (e : exn)
| OutsideTypes (field : string) (v : json).

Abbreviation merged := (res merge_stop).

Definition lift {A} (m : exc A) : merged A :=
  match m with
  | Ok a => Ok a
  | Err e => Err (Raised e)
  end.

Definition as_str (field : string) (v : json) : merged string :=
  match v with
  | JStr s => Ok s
  | _ => Err (OutsideTypes field v)
  end.

Definition as_bool (field : string) (v : json) : merged bool :=
  match v with
  | JBool b => Ok b
  | _ => Err (OutsideTypes field v)
  end.

Fixpoint mapM {E A B} (f : A -> res E B) (l : list A) : res E (list B) :=
  match l with
  | [] => Ok []
  | x :: rest => y ← f x; ys ← mapM f rest; Ok (y :: ys)
  end.

(** A value stored where a [List[str]] is declared. *)
Definition as_str_list (field : string) (v : json) : merged (list string) :=
  match v with
  | JList l => mapM (as_str field) l
  | _ => Err (OutsideTypes field v)
  end.

(** [for x in v] and [list.extend(v)] where a list is expected: [None], a
    bool or a number is not iterable; a str or a dict is, item by item. *)
Definition iterate (field : string) (v : json) : merged (list json) :=
  match v with
  | JList l => Ok l
  | JNull | JBool _ | JNum _ => Err (Raised TypeError)
  | JStr _ | JDict _ => Err (OutsideTypes field v)
  end.

Definition is_str (v : json) : bool :=
  match v with JStr _ => true | _ => false end.

(** [sep.join(v)]: [TypeError] on a value that is not iterable or on an item
    that is not a str. *)
Definition py_join (field : string) (sep : string) (v : json) : merged string :=
  match v with
  | JList l =>
      if forallb is_str l then
        items ← mapM (as_str field) l; Ok (String.concat sep items)
      else Err (Raised TypeError)
  | JNull | JBool _ | JNum _ => Err (Raised TypeError)
  | JStr _ | JDict _ => Err (OutsideTypes field v)
  end.

(** [d.get(key, default)] stored in a str field. *)
Definition get_str (d : json) (key : string) (dflt : string) : merged string :=
  v ← lift (py_get d key (JStr dflt)); as_str key v.

Definition get_bool (d : json) (key : string) (dflt : bool) : merged bool :=
  v ← lift (py_get d key (JBool dflt)); as_bool key v.

(** [results.get(key, {})] *)
Definition results_get (results : gmap string json) (key : string) : json :=
  default empty_dict (results !! key).

(** *** Basic info *)

Definition map_basic_info (basic_info : json) (d : FSDDocument) : merged FSDDocument :=
  if truthy basic_info then
    pn ← get_str basic_info "program_name" "";
    rd ← get_str basic_info "report_description" "";
    drd ← get_str basic_info "desain_report_description" "";
    ur ← get_str basic_info "user_requirements" "";
    asm_v ← lift (py_get basic_info "assumptions" (JList []));
    asm ← as_str_list "assumptions" asm_v;
    tc ← get_str basic_info "transaction_code" "";
    mp ← get_str basic_info "menu_path" "N/A";
    ricefw_id ← lift (py_get basic_info "ricefw_id" (JStr ""));
    rel ← (if truthy ricefw_id then
             s ← as_str "ricefw_id" ricefw_id;
             Ok (related_documents d ++ ["RICEFW ID: " +:+ s])
           else Ok (related_documents d));
    created_date ← lift (py_get basic_info "created_date" (JStr ""));
    created_by ← lift (py_get basic_info "created_by" (JStr ""));
    vh ← (if truthy created_date && truthy created_by then
            author ← as_str "created_by" created_by;
            date ← as_str "created_date" created_date;
            Ok (version_history d ++
                  [[("version", "0.01"); ("change", "Initial draft");
                    ("author", author); ("date", date)]])
          else Ok (version_history d));
    functional_contact ← lift (py_get basic_info "functional_contact" (JStr ""));
    rev ← (if truthy functional_contact then
             contact ← as_str "functional_contact" functional_contact;
             Ok (reviewers d ++ [[("role", "Functional Lead"); ("name", contact)]])
           else Ok (reviewers d));
    Ok (with_basic_info pn rd drd ur asm tc mp rel vh rev d)
  else Ok d.

(** *** Selection parameters *)

Definition make_SelectionParameter (param_data : json) : merged SelectionParameter :=
  n ← get_str param_data "name" "";
  t ← get_str param_data "type" "";
  ds ← get_str param_data "description" "";
  m ← get_bool param_data "is_mandatory" false;
  so ← get_bool param_data "is_select_option" false;
  ni ← get_bool param_data "has_no_intervals" false;
  dv ← get_str param_data "default_value" "";
  Ok {| name := n; type := t; description := ds; is_mandatory := m;
        is_select_option := so; has_no_intervals := ni; default_value := dv |}.

Definition map_selection_screen (selection_screen : json) (d : FSDDocument)
  : merged FSDDocument :=
  if truthy selection_screen then
    v ← lift (py_get selection_screen "selection_parameters" (JList []));
    items ← iterate "selection_parameters" v;
    new ← mapM make_SelectionParameter items;
    Ok (with_selection_parameters (selection_parameters d ++ new) d)
  else Ok d.

(** *** Field mappings *)

(** [try: FieldProcessingType(field_data.get('processing_type', 'DIRECT'))
    except ValueError: FieldProcessingType.DIRECT] *)
Definition coerce_processing_type (field_data : json) : exc FieldProcessingType :=
  try_except
    (v ← py_get field_data "processing_type" (JStr "DIRECT");
     FieldProcessingType_call v)
    (fun e => match e with
              | ValueError | JSONDecodeError => Ok DIRECT
              | _ => raise e
              end).

Definition make_FieldMapping (field_data : json) : merged FieldMapping :=
  pt ← lift (coerce_processing_type field_data);
  dn ← get_str field_data "display_name" "";
  tf ← get_str field_data "technical_field" "";
  st ← get_str field_data "source_table" "";
  pl ← get_str field_data "processing_logic" "";
  jc ← get_str field_data "join_condition" "";
  wc ← get_str field_data "where_condition" "";
  Ok {| display_name := dn; technical_field := tf; source_table := st;
        processing_logic := pl; processing_type := pt;
        join_condition := jc; where_condition := wc |}.

Definition map_field_mappings (field_mappings_result : json) (d : FSDDocument)
  : merged FSDDocument :=
  if truthy field_mappings_result then
    v ← lift (py_get field_mappings_result "field_mappings" (JList []));
    items ← iterate "field_mappings" v;
    new ← mapM make_FieldMapping items;
    Ok (with_field_mappings (field_mappings d ++ new) d)
  else Ok d.

(** *** Valid dataset rules *)

Definition make_DataConditionRow (dataset_rule : json) : merged DataConditionRow :=
  dt ← get_str dataset_rule "data" "";
  c ← get_str dataset_rule "condition" "";
  Ok {| data := dt; condition := c |}.

Definition map_valid_datasets (valid_datasets : json) (d : FSDDocument)
  : merged FSDDocument :=
  if truthy valid_datasets then
    v ← lift (py_get valid_datasets "valid_dataset_rules" (JList []));
    items ← iterate "valid_dataset_rules" v;
    new ← mapM make_DataConditionRow items;
    Ok (with_valid_dataset_rules (valid_dataset_rules d ++ new) d)
  else Ok d.

(** *** Lookup forms *)

(** One rule of a lookup list: the row [' & '.join(target_fields)],
    [condition]. *)
Definition make_lookup_row (default_target : string) (rule : json) : merged DataConditionRow :=
  condition_text ← lift (py_get rule "condition" (JStr ""));
  target_fields ← lift (py_get rule "target_fields" (JList [JStr default_target]));
  dt ← py_join "target_fields" " & " target_fields;
  c ← as_str "condition" condition_text;
  Ok {| data := dt; condition := c |}.

Definition lookup_rows (lookup_forms : json) (key default_target : string)
  : merged (list DataConditionRow) :=
  v ← lift (py_get lookup_forms key (JList []));
  items ← iterate key v;
  mapM (make_lookup_row default_target) items.

Definition map_lookup_forms (lookup_forms : json) (d : FSDDocument) : merged FSDDocument :=
  if truthy lookup_forms then
    company ← lookup_rows lookup_forms "company_code_lookup" "BUTXT";
    business_area ← lookup_rows lookup_forms "business_area_lookup" "GTEXT";
    wage_type ← lookup_rows lookup_forms "wage_type_lookup" "LGTXT";
    payroll_reason ← lookup_rows lookup_forms "payroll_reason_lookup" "OCRTX";
    Ok (with_lookup_forms (country_info d ++ company)
          (currency_t500c d ++ business_area)
          (currency_t001 d ++ wage_type ++ payroll_reason) d)
  else Ok d.

(** *** Error scenarios, test scenarios, validation rules, authorization *)

Definition make_ErrorScenario (error_data : json) : merged ErrorScenario :=
  ed ← get_str error_data "error_description" "";
  r ← get_str error_data "resolution" "";
  ec ← get_str error_data "error_code" "";
  s ← get_str error_data "severity" "ERROR";
  Ok {| error_description := ed; resolution := r; error_code := ec; severity := s |}.

Definition map_error_handling (error_handling : json) (d : FSDDocument)
  : merged FSDDocument :=
  if truthy error_handling then
    v ← lift (py_get error_handling "error_scenarios" (JList []));
    items ← iterate "error_scenarios" v;
    new ← mapM make_ErrorScenario items;
    Ok (with_error_scenarios (error_scenarios d ++ new) d)
  else Ok d.

Definition make_TestScenario (test_data_ : json) : merged TestScenario :=
  c ← get_str test_data_ "condition" "";
  er ← get_str test_data_ "expected_result" "";
  td ← get_str test_data_ "test_data" "";
  p ← get_str test_data_ "priority" "HIGH";
  Ok {| test_condition := c; expected_result := er; test_data := td; priority := p |}.

Definition map_test_scenarios (test_scenarios_result : json) (d : FSDDocument)
  : merged FSDDocument :=
  if truthy test_scenarios_result then
    v ← lift (py_get test_scenarios_result "test_scenarios" (JList []));
    items ← iterate "test_scenarios" v;
    new ← mapM make_TestScenario items;
    Ok (with_test_scenarios (test_scenarios d ++ new) d)
  else Ok d.

(** [lst.extend(d.get(key, []))] on a [List[str]] *)
Definition extended (lst : list string) (d : json) (key : string) : merged (list string) :=
  v ← lift (py_get d key (JList []));
  items ← iterate key v;
  new ← mapM (as_str key) items;
  Ok (lst ++ new).

Definition map_validation_rules (validation_rules_result : json) (d : FSDDocument)
  : merged FSDDocument :=
  if truthy validation_rules_result then
    vr ← extended (validation_rules d) validation_rules_result "validation_rules";
    Ok (with_validation_rules vr d)
  else Ok d.

Definition map_authorization (authorization : json) (d : FSDDocument)
  : merged FSDDocument :=
  if truthy authorization then
    ao ← extended (authorization_objects d) authorization "authorization_objects";
    ur ← extended (user_roles d) authorization "user_roles";
    Ok (with_authorization ao ur d)
  else Ok d.

(** [_map_fixed_results_to_fsd]: the nine facets in the order of the code,
    on the mapper's document. *)
Definition _map_fixed_results_to_fsd (results : gmap string json) (d : FSDDocument)
  : merged FSDDocument :=
  d ← map_basic_info (results_get results "basic_info") d;
  d ← map_selection_screen (results_get results "selection_screen") d;
  d ← map_field_mappings (results_get results "complete_field_mappings") d;
  d ← map_valid_datasets (results_get results "complete_valid_datasets") d;
  d ← map_lookup_forms (results_get results "complete_lookup_forms") d;
  d ← map_error_handling (results_get results "error_handling") d;
  d ← map_test_scenarios (results_get results "test_scenarios") d;
  d ← map_validation_rules (results_get results "validation_rules") d;
  map_authorization (results_get results "authorization") d.

(** [IntelligentFSDMapper.__init__] *)
Definition mapper_document (config_project_name : string) : FSDDocument :=
  with_project_name config_project_name new_FSDDocument.

(* ===================================================================== *)
(** ** Task results of the declared shape *)
(* ===================================================================== *)

(** The JSON shape each prompt asks for, every key optional: a key that is
    present holds a value of the type the prompt and the dataclass declare.
    The code does not check any of this. *)

Definition opt_key (check : json -> bool) (key : string) (d : list (string * json)) : bool :=
  match assoc_get key d with
  | None => true
  | Some v => check v
  end.

Definition is_bool (v : json) : bool :=
  match v with JBool _ => true | _ => false end.

Definition is_list_of (check : json -> bool) (v : json) : bool :=
  match v with JList l => forallb check l | _ => false end.

Definition is_dict_with (check : list (string * json) -> bool) (v : json) : bool :=
  match v with JDict d => check d | _ => false end.

Definition all_keys (check : json -> bool) (keys : list string) (d : list (string * json)) : bool :=
  forallb (fun key => opt_key check key d) keys.

Definition basic_info_shape (d : list (string * json)) : bool :=
  all_keys is_str
    ["program_name"; "report_description"; "desain_report_description";
     "user_requirements"; "transaction_code"; "menu_path"; "ricefw_id";
     "created_date"; "created_by"; "functional_contact"] d
  && opt_key (is_list_of is_str) "assumptions" d.

Definition selection_parameter_shape (d : list (string * json)) : bool :=
  all_keys is_str ["name"; "type"; "description"; "default_value"] d
  && all_keys is_bool ["is_mandatory"; "is_select_option"; "has_no_intervals"] d.

(** [processing_type] may hold any value. *)
Definition field_mapping_shape (d : list (string * json)) : bool :=
  all_keys is_str
    ["display_name"; "technical_field"; "source_table"; "processing_logic";
     "join_condition"; "where_condition"] d.

Definition data_condition_shape (d : list (string * json)) : bool :=
  all_keys is_str ["data"; "condition"] d.

Definition lookup_rule_shape (d : list (string * json)) : bool :=
  opt_key is_str "condition" d && opt_key (is_list_of is_str) "target_fields" d.

Definition error_scenario_shape (d : list (string * json)) : bool :=
  all_keys is_str ["error_description"; "resolution"; "error_code"; "severity"] d.

Definition test_scenario_shape (d : list (string * json)) : bool :=
  all_keys is_str ["condition"; "expected_result"; "test_data"; "priority"] d.

Definition records_key (shape : list (string * json) -> bool) (key : string)
    (d : list (string * json)) : bool :=
  opt_key (is_list_of (is_dict_with shape)) key d.

(** The shape of the result of the task [task_name]. *)
Definition task_shape (task_name : string) (d : list (string * json)) : bool :=
  if String.eqb task_name "basic_info" then basic_info_shape d
  else if String.eqb task_name "selection_screen" then
    records_key selection_parameter_shape "selection_parameters" d
  else if String.eqb task_name "complete_field_mappings" then
    records_key field_mapping_shape "field_mappings" d
  else if String.eqb task_name "complete_valid_datasets" then
    records_key data_condition_shape "valid_dataset_rules" d
  else if String.eqb task_name "complete_lookup_forms" then
    forallb (fun key => records_key lookup_rule_shape key d)
      ["company_code_lookup"; "business_area_lookup"; "wage_type_lookup";
       "payroll_reason_lookup"]
  else if String.eqb task_name "error_handling" then
    records_key error_scenario_shape "error_scenarios" d
  else if String.eqb task_name "test_scenarios" then
    records_key test_scenario_shape "test_scenarios" d
  else if String.eqb task_name "validation_rules" then
    opt_key (is_list_of is_str) "validation_rules" d
  else if String.eqb task_name "authorization" then
    all_keys (is_list_of is_str) ["authorization_objects"; "user_roles"] d
  else true.

(** Every task is absent from the batch result or mapped to a mapping
    (possibly empty) of its shape. *)
Definition results_shape (results : gmap string json) : bool :=
  forallb (fun task_name =>
             match results !! task_name with
             | None => true
             | Some v => is_dict_with (task_shape task_name) v
             end) task_names.

(* ===================================================================== *)
(** ** Python's str operations *)
(* ===================================================================== *)

(** The line feed. *)
Definition LF : ascii := "010"%char.
Definition nl : string := String LF "".

(** [s.startswith(prefix)] *)
Fixpoint startswith (prefix s : string) : bool :=
  match prefix with
  | "" => true
  | String a prefix' =>
      match s with
      | "" => false
      | String b s' => Ascii.eqb a b && startswith prefix' s'
      end
  end.

(** [sub in s] *)
Fixpoint contains (sub s : string) : bool :=
  match s with
  | "" => startswith sub ""
  | String _ rest => startswith sub s || contains sub rest
  end.

(** [str.isspace] on the ASCII characters: tab, line feed, vertical tab,
    form feed, carriage return, the four separators 28 to 31 and the
    space. *)
Definition is_space (c : ascii) : bool :=
  let n := nat_of_ascii c in
  (Nat.leb 9 n && Nat.leb n 13) || (Nat.leb 28 n && Nat.leb n 32).

(** A byte that continues a character of more than one byte. *)
Definition continues (c : ascii) : bool :=
  let n := nat_of_ascii c in Nat.leb 128 n && Nat.ltb n 192.

(** The white space outside ASCII, in UTF-8: U+0085 and U+00A0 (C2 85,
    C2 A0); U+1680 (E1 9A 80); U+2000 to U+200A, U+2028, U+2029 and U+202F
    (E2 80 80 to 8A, A8, A9, AF); U+205F (E2 81 9F); U+3000 (E3 80 80).
    With the ASCII ones these are the characters of [str.isspace]. *)
Definition wide_space2 (c d : ascii) : bool :=
  Ascii.eqb c "194"%char && (Ascii.eqb d "133"%char || Ascii.eqb d "160"%char).

Definition wide_space3 (c d e : ascii) : bool :=
  (Ascii.eqb c "225"%char && Ascii.eqb d "154"%char && Ascii.eqb e "128"%char)
  || (Ascii.eqb c "226"%char && Ascii.eqb d "128"%char
      && ((Nat.leb 128 (nat_of_ascii e) && Nat.leb (nat_of_ascii e) 138)
          || Ascii.eqb e "168"%char || Ascii.eqb e "169"%char || Ascii.eqb e "175"%char))
  || (Ascii.eqb c "226"%char && Ascii.eqb d "129"%char && Ascii.eqb e "159"%char)
  || (Ascii.eqb c "227"%char && Ascii.eqb d "128"%char && Ascii.eqb e "128"%char).

(** The number of bytes of the white space character a text starts with,
    and 0 when it starts with none. *)
Definition space_width (s : string) : nat :=
  match s with
  | "" => 0
  | String c rest =>
      if is_space c then 1
      else match rest with
           | "" => 0
           | String d rest1 =>
               if wide_space2 c d then 2
               else match rest1 with
                    | "" => 0
                    | String e _ => if wide_space3 c d e then 3 else 0
                    end
           end
  end.

(** [s.lstrip()], [s.rstrip()], [s.strip()] *)
Fixpoint lstrip (s : string) : string :=
  match s with
  | "" => ""
  | String c rest =>
      if is_space c then lstrip rest
      else match rest with
           | "" => s
           | String d rest1 =>
               if wide_space2 c d then lstrip rest1
               else match rest1 with
                    | "" => s
                    | String e rest2 => if wide_space3 c d e then lstrip rest2 else s
                    end
           end
  end.

(** Nothing but white space. *)
Fixpoint all_space (s : string) : bool :=
  match s with
  | "" => true
  | String c rest =>
      if is_space c then all_space rest
      else match rest with
           | "" => false
           | String d rest1 =>
               if wide_space2 c d then all_space rest1
               else match rest1 with
                    | "" => false
                    | String e rest2 => wide_space3 c d e && all_space rest2
                    end
           end
  end.

(** The text up to the white space it ends with. *)
Fixpoint rstrip (s : string) : string :=
  match s with
  | "" => ""
  | String c rest => if all_space s then "" else String c (rstrip rest)
  end.

Definition strip (s : string) : string := rstrip (lstrip s).

(** The text starts with no byte that continues a character. *)
Definition starts_plain (s : string) : Prop :=
  match s with
  | "" => True
  | String c _ => continues c = false
  end.

(** A byte that starts no white space character. *)
Definition plain_byte (c : ascii) : bool :=
  negb (is_space c)
  && negb (Ascii.eqb c "194"%char || Ascii.eqb c "225"%char
           || Ascii.eqb c "226"%char || Ascii.eqb c "227"%char).

(** [c in s] for a character. *)
Fixpoint has_char (c : ascii) (s : string) : bool :=
  match s with
  | "" => false
  | String x rest => Ascii.eqb x c || has_char c rest
  end.

(** The characters of a text: each byte that continues none, with the
    bytes that continue it. *)
Fixpoint chars (s : string) : list string :=
  match s with
  | "" => []
  | String c rest =>
      match rest with
      | "" => [String c ""]
      | String d _ =>
          if continues d then
            match chars rest with
            | x :: xs => String c x :: xs
            | [] => [String c ""]
            end
          else String c "" :: chars rest
      end
  end.

(** [s.split(sep)] for a separator of one character: never empty. *)
Fixpoint split (sep : ascii) (s : string) : list string :=
  match s with
  | "" => [""]
  | String c rest =>
      if Ascii.eqb c sep then "" :: split sep rest
      else match split sep rest with
           | h :: t => String c h :: t
           | [] => [String c ""]
           end
  end.

(** [s.split(sep, 1)]: one or two pieces. *)
Fixpoint split_once (sep : ascii) (s : string) : list string :=
  match s with
  | "" => [""]
  | String c rest =>
      if Ascii.eqb c sep then [""; rest]
      else match split_once sep rest with
           | h :: t => String c h :: t
           | [] => [String c ""]
           end
  end.

(** [sep.join(items)] *)
Definition join (sep : string) (items : list string) : string :=
  String.concat sep items.

(** [str(n)] for a number that is not negative. *)
Definition str_of_nat (n : nat) : string :=
  NilEmpty.string_of_uint (Nat.to_uint n).

(** [s[n:]] *)
Fixpoint drop_chars (n : nat) (s : string) : string :=
  match n, s with
  | O, _ => s
  | S n', String _ rest => drop_chars n' rest
  | S _, "" => ""
  end.
(* ===================================================================== *)
(** ** The merge on the values as Python stores them *)
(* ===================================================================== *)

(** The merge above keeps to the declared types and stops where a value is
    of another type. The code does not stop there: an assignment stores any
    value, [for] walks a str character by character and a dict key by key,
    and only a value that cannot be walked, or an entry without [get],
    raises. This module follows the code on every JSON value. The fields
    declared as lists are lists here as well, because the code only appends
    to them or extends them; [assumptions] is assigned, so it holds whatever
    the task result holds, like the texts. *)

(** [for x in v], [list.extend(v)], [sep.join(v)]: the items of a list, the
    characters of a str, the keys of a dict; [None], a bool and a number are
    not iterable. A dict decoded from JSON has every key once. *)
Definition py_iter (v : json) : exc (list json) :=
  match v with
  | JList l => Ok l
  | JStr s => Ok (map JStr (chars s))
  | JDict d => Ok (map (fun kv => JStr (fst kv)) d)
  | JNull | JBool _ | JNum _ => raise TypeError
  end.

Definition str_value (v : json) : string :=
  match v with JStr s => s | _ => "" end.

(** [sep.join(v)]: [TypeError] on an item that is not a str. *)
Definition py_sep_join (sep : string) (v : json) : exc string :=
  items ← py_iter v;
  if forallb is_str items then Ok (String.concat sep (map str_value items))
  else raise TypeError.

Definition is_dict (v : json) : bool :=
  match v with JDict _ => true | _ => false end.

Definition is_list (v : json) : bool :=
  match v with JList _ => true | _ => false end.

Abbreviation json_dict := (list (string * json)).

Module Dyn.

Record FieldMapping : Type := {
  display_name : json;
  technical_field : json;
  source_table : json;
  processing_logic : json;
  processing_type : FieldProcessingType;
  join_condition : json;
  where_condition : json
}.

Record SelectionParameter : Type := {
  name : json;
  type : json;
  description : json;
  is_mandatory : json;
  is_select_option : json;
  has_no_intervals : json;
  default_value : json
}.

Record ErrorScenario : Type := {
  error_description : json;
  resolution : json;
  error_code : json;
  severity : json
}.

Record TestScenario : Type := {
  test_condition : json;
  expected_result : json;
  test_data : json;
  priority : json
}.

Record DataConditionRow : Type := {
  data : json;
  condition : json
}.

Record FSDDocument : Type := {
  project_name : json;
  document_location : string;
  related_documents : list string;
  reviewers : list json_dict;
  version_history : list json_dict;
  user_requirements : json;
  assumptions : json;
  program_name : json;
  transaction_code : json;
  menu_path : json;
  report_description : json;
  desain_report_description : json;
  selection_parameters : list SelectionParameter;
  field_mappings : list FieldMapping;
  validation_rules : list json;
  special_processing : list (string * string);
  valid_dataset_rules : list DataConditionRow;
  country_info : list DataConditionRow;
  currency_t500c : list DataConditionRow;
  currency_t001 : list DataConditionRow;
  authorization_objects : list json;
  user_roles : list json;
  constraints : list string;
  dependencies : list string;
  error_scenarios : list ErrorScenario;
  test_scenarios : list TestScenario;
  test_data_location : string;
  design_changes : list string
}.

(** [FSDDocument()]: every field at its default. *)
Definition new_FSDDocument : FSDDocument :=
  {| project_name := JStr ""; document_location := "";
     related_documents := []; reviewers := []; version_history := [];
     user_requirements := JStr ""; assumptions := JList [];
     program_name := JStr ""; transaction_code := JStr ""; menu_path := JStr "";
     report_description := JStr ""; desain_report_description := JStr "";
     selection_parameters := []; field_mappings := [];
     validation_rules := []; special_processing := [];
     valid_dataset_rules := []; country_info := [];
     currency_t500c := []; currency_t001 := [];
     authorization_objects := []; user_roles := [];
     constraints := []; dependencies := [];
     error_scenarios := []; test_scenarios := [];
     test_data_location := ""; design_changes := [] |}.

(** The fields declared [List[...]]: [assumptions], which the merge
    assigns, is the empty list; the others, to which it appends, are
    empty. *)
Definition list_fields_empty (d : FSDDocument) : Prop :=
  related_documents d = [] /\ reviewers d = [] /\ version_history d = []
  /\ assumptions d = JList [] /\ selection_parameters d = [] /\ field_mappings d = []
  /\ validation_rules d = [] /\ valid_dataset_rules d = [] /\ country_info d = []
  /\ currency_t500c d = [] /\ currency_t001 d = []
  /\ authorization_objects d = [] /\ user_roles d = []
  /\ constraints d = [] /\ dependencies d = []
  /\ error_scenarios d = [] /\ test_scenarios d = [] /\ design_changes d = [].

(** *** Assignments to the document's fields *)

(** The fields the basic-info step assigns. *)
Definition with_basic_info (pn : json) (rd : json) (drd : json) (ur : json) (asm : json) (tc : json) (mp : json) (rel : list string) (vh : list json_dict) (rev : list json_dict) (d : FSDDocument) : FSDDocument :=
  {| project_name := project_name d;
     document_location := document_location d;
     related_documents := rel;
     reviewers := rev;
     version_history := vh;
     user_requirements := ur;
     assumptions := asm;
     program_name := pn;
     transaction_code := tc;
     menu_path := mp;
     report_description := rd;
     desain_report_description := drd;
     selection_parameters := selection_parameters d;
     field_mappings := field_mappings d;
     validation_rules := validation_rules d;
     special_processing := special_processing d;
     valid_dataset_rules := valid_dataset_rules d;
     country_info := country_info d;
     currency_t500c := currency_t500c d;
     currency_t001 := currency_t001 d;
     authorization_objects := authorization_objects d;
     user_roles := user_roles d;
     constraints := constraints d;
     dependencies := dependencies d;
     error_scenarios := error_scenarios d;
     test_scenarios := test_scenarios d;
     test_data_location := test_data_location d;
     design_changes := design_changes d |}.

(** [d.selection_parameters = v] *)
Definition with_selection_parameters (v : list SelectionParameter) (d : FSDDocument) : FSDDocument :=
  {| project_name := project_name d;
     document_location := document_location d;
     related_documents := related_documents d;
     reviewers := reviewers d;
     version_history := version_history d;
     user_requirements := user_requirements d;
     assumptions := assumptions d;
     program_name := program_name d;
     transaction_code := transaction_code d;
     menu_path := menu_path d;
     report_description := report_description d;
     desain_report_description := desain_report_description d;
     selection_parameters := v;
     field_mappings := field_mappings d;
     validation_rules := validation_rules d;
     special_processing := special_processing d;
     valid_dataset_rules := valid_dataset_rules d;
     country_info := country_info d;
     currency_t500c := currency_t500c d;
     currency_t001 := currency_t001 d;
     authorization_objects := authorization_objects d;
     user_roles := user_roles d;
     constraints := constraints d;
     dependencies := dependencies d;
     error_scenarios := error_scenarios d;
     test_scenarios := test_scenarios d;
     test_data_location := test_data_location d;
     design_changes := design_changes d |}.

(** [d.field_mappings = v] *)
Definition with_field_mappings (v : list FieldMapping) (d : FSDDocument) : FSDDocument :=
  {| project_name := project_name d;
     document_location := document_location d;
     related_documents := related_documents d;
     reviewers := reviewers d;
     version_history := version_history d;
     user_requirements := user_requirements d;
     assumptions := assumptions d;
     program_name := program_name d;
     transaction_code := transaction_code d;
     menu_path := menu_path d;
     report_description := report_description d;
     desain_report_description := desain_report_description d;
     selection_parameters := selection_parameters d;
     field_mappings := v;
     validation_rules := validation_rules d;
     special_processing := special_processing d;
     valid_dataset_rules := valid_dataset_rules d;
     country_info := country_info d;
     currency_t500c := currency_t500c d;
     currency_t001 := currency_t001 d;
     authorization_objects := authorization_objects d;
     user_roles := user_roles d;
     constraints := constraints d;
     dependencies := dependencies d;
     error_scenarios := error_scenarios d;
     test_scenarios := test_scenarios d;
     test_data_location := test_data_location d;
     design_changes := design_changes d |}.

(** [d.valid_dataset_rules = v] *)
Definition with_valid_dataset_rules (v : list DataConditionRow) (d : FSDDocument) : FSDDocument :=
  {| project_name := project_name d;
     document_location := document_location d;
     related_documents := related_documents d;
     reviewers := reviewers d;
     version_history := version_history d;
     user_requirements := user_requirements d;
     assumptions := assumptions d;
     program_name := program_name d;
     transaction_code := transaction_code d;
     menu_path := menu_path d;
     report_description := report_description d;
     desain_report_description := desain_report_description d;
     selection_parameters := selection_parameters d;
     field_mappings := field_mappings d;
     validation_rules := validation_rules d;
     special_processing := special_processing d;
     valid_dataset_rules := v;
     country_info := country_info d;
     currency_t500c := currency_t500c d;
     currency_t001 := currency_t001 d;
     authorization_objects := authorization_objects d;
     user_roles := user_roles d;
     constraints := constraints d;
     dependencies := dependencies d;
     error_scenarios := error_scenarios d;
     test_scenarios := test_scenarios d;
     test_data_location := test_data_location d;
     design_changes := design_changes d |}.

(** [d.error_scenarios = v] *)
Definition with_error_scenarios (v : list ErrorScenario) (d : FSDDocument) : FSDDocument :=
  {| project_name := project_name d;
     document_location := document_location d;
     related_documents := related_documents d;
     reviewers := reviewers d;
     version_history := version_history d;
     user_requirements := user_requirements d;
     assumptions := assumptions d;
     program_name := program_name d;
     transaction_code := transaction_code d;
     menu_path := menu_path d;
     report_description := report_description d;
     desain_report_description := desain_report_description d;
     selection_parameters := selection_parameters d;
     field_mappings := field_mappings d;
     validation_rules := validation_rules d;
     special_processing := special_processing d;
     valid_dataset_rules := valid_dataset_rules d;
     country_info := country_info d;
     currency_t500c := currency_t500c d;
     currency_t001 := currency_t001 d;
     authorization_objects := authorization_objects d;
     user_roles := user_roles d;
     constraints := constraints d;
     dependencies := dependencies d;
     error_scenarios := v;
     test_scenarios := test_scenarios d;
     test_data_location := test_data_location d;
     design_changes := design_changes d |}.

(** [d.test_scenarios = v] *)
Definition with_test_scenarios (v : list TestScenario) (d : FSDDocument) : FSDDocument :=
  {| project_name := project_name d;
     document_location := document_location d;
     related_documents := related_documents d;
     reviewers := reviewers d;
     version_history := version_history d;
     user_requirements := user_requirements d;
     assumptions := assumptions d;
     program_name := program_name d;
     transaction_code := transaction_code d;
     menu_path := menu_path d;
     report_description := report_description d;
     desain_report_description := desain_report_description d;
     selection_parameters := selection_parameters d;
     field_mappings := field_mappings d;
     validation_rules := validation_rules d;
     special_processing := special_processing d;
     valid_dataset_rules := valid_dataset_rules d;
     country_info := country_info d;
     currency_t500c := currency_t500c d;
     currency_t001 := currency_t001 d;
     authorization_objects := authorization_objects d;
     user_roles := user_roles d;
     constraints := constraints d;
     dependencies := dependencies d;
     error_scenarios := error_scenarios d;
     test_scenarios := v;
     test_data_location := test_data_location d;
     design_changes := design_changes d |}.

(** [d.validation_rules = v] *)
Definition with_validation_rules (v : list json) (d : FSDDocument) : FSDDocument :=
  {| project_name := project_name d;
     document_location := document_location d;
     related_documents := related_documents d;
     reviewers := reviewers d;
     version_history := version_history d;
     user_requirements := user_requirements d;
     assumptions := assumptions d;
     program_name := program_name d;
     transaction_code := transaction_code d;
     menu_path := menu_path d;
     report_description := report_description d;
     desain_report_description := desain_report_description d;
     selection_parameters := selection_parameters d;
     field_mappings := field_mappings d;
     validation_rules := v;
     special_processing := special_processing d;
     valid_dataset_rules := valid_dataset_rules d;
     country_info := country_info d;
     currency_t500c := currency_t500c d;
     currency_t001 := currency_t001 d;
     authorization_objects := authorization_objects d;
     user_roles := user_roles d;
     constraints := constraints d;
     dependencies := dependencies d;
     error_scenarios := error_scenarios d;
     test_scenarios := test_scenarios d;
     test_data_location := test_data_location d;
     design_changes := design_changes d |}.

(** [d.document_location = v] *)
Definition with_document_location (v : string) (d : FSDDocument) : FSDDocument :=
  {| project_name := project_name d;
     document_location := v;
     related_documents := related_documents d;
     reviewers := reviewers d;
     version_history := version_history d;
     user_requirements := user_requirements d;
     assumptions := assumptions d;
     program_name := program_name d;
     transaction_code := transaction_code d;
     menu_path := menu_path d;
     report_description := report_description d;
     desain_report_description := desain_report_description d;
     selection_parameters := selection_parameters d;
     field_mappings := field_mappings d;
     validation_rules := validation_rules d;
     special_processing := special_processing d;
     valid_dataset_rules := valid_dataset_rules d;
     country_info := country_info d;
     currency_t500c := currency_t500c d;
     currency_t001 := currency_t001 d;
     authorization_objects := authorization_objects d;
     user_roles := user_roles d;
     constraints := constraints d;
     dependencies := dependencies d;
     error_scenarios := error_scenarios d;
     test_scenarios := test_scenarios d;
     test_data_location := test_data_location d;
     design_changes := design_changes d |}.

(** [d.project_name = v] *)
Definition with_project_name (v : json) (d : FSDDocument) : FSDDocument :=
  {| project_name := v;
     document_location := document_location d;
     related_documents := related_documents d;
     reviewers := reviewers d;
     version_history := version_history d;
     user_requirements := user_requirements d;
     assumptions := assumptions d;
     program_name := program_name d;
     transaction_code := transaction_code d;
     menu_path := menu_path d;
     report_description := report_description d;
     desain_report_description := desain_report_description d;
     selection_parameters := selection_parameters d;
     field_mappings := field_mappings d;
     validation_rules := validation_rules d;
     special_processing := special_processing d;
     valid_dataset_rules := valid_dataset_rules d;
     country_info := country_info d;
     currency_t500c := currency_t500c d;
     currency_t001 := currency_t001 d;
     authorization_objects := authorization_objects d;
     user_roles := user_roles d;
     constraints := constraints d;
     dependencies := dependencies d;
     error_scenarios := error_scenarios d;
     test_scenarios := test_scenarios d;
     test_data_location := test_data_location d;
     design_changes := design_changes d |}.

(** The three lists the lookup step appends to. *)
Definition with_lookup_forms (ci : list DataConditionRow) (c5 : list DataConditionRow) (c1 : list DataConditionRow) (d : FSDDocument) : FSDDocument :=
  {| project_name := project_name d;
     document_location := document_location d;
     related_documents := related_documents d;
     reviewers := reviewers d;
     version_history := version_history d;
     user_requirements := user_requirements d;
     assumptions := assumptions d;
     program_name := program_name d;
     transaction_code := transaction_code d;
     menu_path := menu_path d;
     report_description := report_description d;
     desain_report_description := desain_report_description d;
     selection_parameters := selection_parameters d;
     field_mappings := field_mappings d;
     validation_rules := validation_rules d;
     special_processing := special_processing d;
     valid_dataset_rules := valid_dataset_rules d;
     country_info := ci;
     currency_t500c := c5;
     currency_t001 := c1;
     authorization_objects := authorization_objects d;
     user_roles := user_roles d;
     constraints := constraints d;
     dependencies := dependencies d;
     error_scenarios := error_scenarios d;
     test_scenarios := test_scenarios d;
     test_data_location := test_data_location d;
     design_changes := design_changes d |}.

(** The two lists the authorization step extends. *)
Definition with_authorization (ao : list json) (ur : list json) (d : FSDDocument) : FSDDocument :=
  {| project_name := project_name d;
     document_location := document_location d;
     related_documents := related_documents d;
     reviewers := reviewers d;
     version_history := version_history d;
     user_requirements := user_requirements d;
     assumptions := assumptions d;
     program_name := program_name d;
     transaction_code := transaction_code d;
     menu_path := menu_path d;
     report_description := report_description d;
     desain_report_description := desain_report_description d;
     selection_parameters := selection_parameters d;
     field_mappings := field_mappings d;
     validation_rules := validation_rules d;
     special_processing := special_processing d;
     valid_dataset_rules := valid_dataset_rules d;
     country_info := country_info d;
     currency_t500c := currency_t500c d;
     currency_t001 := currency_t001 d;
     authorization_objects := ao;
     user_roles := ur;
     constraints := constraints d;
     dependencies := dependencies d;
     error_scenarios := error_scenarios d;
     test_scenarios := test_scenarios d;
     test_data_location := test_data_location d;
     design_changes := design_changes d |}.

(** *** The steps of the merge *)

Section Merge.

(** [str(v)] of a value that is no str, as an f-string formats it. *)
Variable str_of : json -> string.

(** [f"{v}"] *)
Definition format_value (v : json) : string :=
  match v with JStr s => s | _ => str_of v end.

Definition map_basic_info (basic_info : json) (d : FSDDocument) : exc FSDDocument :=
  if truthy basic_info then
    pn ← py_get basic_info "program_name" (JStr "");
    rd ← py_get basic_info "report_description" (JStr "");
    drd ← py_get basic_info "desain_report_description" (JStr "");
    ur ← py_get basic_info "user_requirements" (JStr "");
    asm ← py_get basic_info "assumptions" (JList []);
    tc ← py_get basic_info "transaction_code" (JStr "");
    mp ← py_get basic_info "menu_path" (JStr "N/A");
    ricefw_id ← py_get basic_info "ricefw_id" (JStr "");
    let rel :=
      if truthy ricefw_id
      then related_documents d ++ ["RICEFW ID: " +:+ format_value ricefw_id]
      else related_documents d in
    created_date ← py_get basic_info "created_date" (JStr "");
    created_by ← py_get basic_info "created_by" (JStr "");
    let vh :=
      if truthy created_date && truthy created_by
      then version_history d ++
             [[("version", JStr "0.01"); ("change", JStr "Initial draft");
               ("author", created_by); ("date", created_date)]]
      else version_history d in
    functional_contact ← py_get basic_info "functional_contact" (JStr "");
    let rev :=
      if truthy functional_contact
      then reviewers d ++ [[("role", JStr "Functional Lead"); ("name", functional_contact)]]
      else reviewers d in
    Ok (with_basic_info pn rd drd ur asm tc mp rel vh rev d)
  else Ok d.

Definition make_SelectionParameter (param_data : json) : exc SelectionParameter :=
  n ← py_get param_data "name" (JStr "");
  t ← py_get param_data "type" (JStr "");
  ds ← py_get param_data "description" (JStr "");
  m ← py_get param_data "is_mandatory" (JBool false);
  so ← py_get param_data "is_select_option" (JBool false);
  ni ← py_get param_data "has_no_intervals" (JBool false);
  dv ← py_get param_data "default_value" (JStr "");
  Ok {| name := n; type := t; description := ds; is_mandatory := m;
        is_select_option := so; has_no_intervals := ni; default_value := dv |}.

Definition map_selection_screen (selection_screen : json) (d : FSDDocument)
  : exc FSDDocument :=
  if truthy selection_screen then
    v ← py_get selection_screen "selection_parameters" (JList []);
    items ← py_iter v;
    new ← mapM make_SelectionParameter items;
    Ok (with_selection_parameters (selection_parameters d ++ new) d)
  else Ok d.

Definition make_FieldMapping (field_data : json) : exc FieldMapping :=
  pt ← coerce_processing_type field_data;
  dn ← py_get field_data "display_name" (JStr "");
  tf ← py_get field_data "technical_field" (JStr "");
  st ← py_get field_data "source_table" (JStr "");
  pl ← py_get field_data "processing_logic" (JStr "");
  jc ← py_get field_data "join_condition" (JStr "");
  wc ← py_get field_data "where_condition" (JStr "");
  Ok {| display_name := dn; technical_field := tf; source_table := st;
        processing_logic := pl; processing_type := pt;
        join_condition := jc; where_condition := wc |}.

Definition map_field_mappings (field_mappings_result : json) (d : FSDDocument)
  : exc FSDDocument :=
  if truthy field_mappings_result then
    v ← py_get field_mappings_result "field_mappings" (JList []);
    items ← py_iter v;
    new ← mapM make_FieldMapping items;
    Ok (with_field_mappings (field_mappings d ++ new) d)
  else Ok d.

Definition make_DataConditionRow (dataset_rule : json) : exc DataConditionRow :=
  dt ← py_get dataset_rule "data" (JStr "");
  c ← py_get dataset_rule "condition" (JStr "");
  Ok {| data := dt; condition := c |}.

Definition map_valid_datasets (valid_datasets : json) (d : FSDDocument)
  : exc FSDDocument :=
  if truthy valid_datasets then
    v ← py_get valid_datasets "valid_dataset_rules" (JList []);
    items ← py_iter v;
    new ← mapM make_DataConditionRow items;
    Ok (with_valid_dataset_rules (valid_dataset_rules d ++ new) d)
  else Ok d.

(** One rule of a lookup list: the row [' & '.join(target_fields)],
    [condition]. *)
Definition make_lookup_row (default_target : string) (rule : json) : exc DataConditionRow :=
  condition_text ← py_get rule "condition" (JStr "");
  target_fields ← py_get rule "target_fields" (JList [JStr default_target]);
  dt ← py_sep_join " & " target_fields;
  Ok {| data := JStr dt; condition := condition_text |}.

Definition lookup_rows (lookup_forms : json) (key default_target : string)
  : exc (list DataConditionRow) :=
  v ← py_get lookup_forms key (JList []);
  items ← py_iter v;
  mapM (make_lookup_row default_target) items.

Definition map_lookup_forms (lookup_forms : json) (d : FSDDocument) : exc FSDDocument :=
  if truthy lookup_forms then
    company ← lookup_rows lookup_forms "company_code_lookup" "BUTXT";
    business_area ← lookup_rows lookup_forms "business_area_lookup" "GTEXT";
    wage_type ← lookup_rows lookup_forms "wage_type_lookup" "LGTXT";
    payroll_reason ← lookup_rows lookup_forms "payroll_reason_lookup" "OCRTX";
    Ok (with_lookup_forms (country_info d ++ company)
          (currency_t500c d ++ business_area)
          (currency_t001 d ++ wage_type ++ payroll_reason) d)
  else Ok d.

Definition make_ErrorScenario (error_data : json) : exc ErrorScenario :=
  ed ← py_get error_data "error_description" (JStr "");
  r ← py_get error_data "resolution" (JStr "");
  ec ← py_get error_data "error_code" (JStr "");
  s ← py_get error_data "severity" (JStr "ERROR");
  Ok {| error_description := ed; resolution := r; error_code := ec; severity := s |}.

Definition map_error_handling (error_handling : json) (d : FSDDocument)
  : exc FSDDocument :=
  if truthy error_handling then
    v ← py_get error_handling "error_scenarios" (JList []);
    items ← py_iter v;
    new ← mapM make_ErrorScenario items;
    Ok (with_error_scenarios (error_scenarios d ++ new) d)
  else Ok d.

Definition make_TestScenario (test_data_ : json) : exc TestScenario :=
  c ← py_get test_data_ "condition" (JStr "");
  er ← py_get test_data_ "expected_result" (JStr "");
  td ← py_get test_data_ "test_data" (JStr "");
  p ← py_get test_data_ "priority" (JStr "HIGH");
  Ok {| test_condition := c; expected_result := er; test_data := td; priority := p |}.

Definition map_test_scenarios (test_scenarios_result : json) (d : FSDDocument)
  : exc FSDDocument :=
  if truthy test_scenarios_result then
    v ← py_get test_scenarios_result "test_scenarios" (JList []);
    items ← py_iter v;
    new ← mapM make_TestScenario items;
    Ok (with_test_scenarios (test_scenarios d ++ new) d)
  else Ok d.

(** [lst.extend(d.get(key, []))] *)
Definition extended (lst : list json) (d : json) (key : string) : exc (list json) :=
  v ← py_get d key (JList []);
  items ← py_iter v;
  Ok (lst ++ items).

Definition map_validation_rules (validation_rules_result : json) (d : FSDDocument)
  : exc FSDDocument :=
  if truthy validation_rules_result then
    vr ← extended (validation_rules d) validation_rules_result "validation_rules";
    Ok (with_validation_rules vr d)
  else Ok d.

Definition map_authorization (authorization : json) (d : FSDDocument)
  : exc FSDDocument :=
  if truthy authorization then
    ao ← extended (authorization_objects d) authorization "authorization_objects";
    ur ← extended (user_roles d) authorization "user_roles";
    Ok (with_authorization ao ur d)
  else Ok d.

(** [_map_fixed_results_to_fsd]: the nine facets in the order of the code,
    on the mapper's document. *)
Definition _map_fixed_results_to_fsd (results : gmap string json) (d : FSDDocument)
  : exc FSDDocument :=
  d ← map_basic_info (results_get results "basic_info") d;
  d ← map_selection_screen (results_get results "selection_screen") d;
  d ← map_field_mappings (results_get results "complete_field_mappings") d;
  d ← map_valid_datasets (results_get results "complete_valid_datasets") d;
  d ← map_lookup_forms (results_get results "complete_lookup_forms") d;
  d ← map_error_handling (results_get results "error_handling") d;
  d ← map_test_scenarios (results_get results "test_scenarios") d;
  d ← map_validation_rules (results_get results "validation_rules") d;
  map_authorization (results_get results "authorization") d.

End Merge.

(** [IntelligentFSDMapper.__init__]: [config.get('project_name')] is
    whatever the configuration holds. *)
Definition mapper_document (config_project_name : json) : FSDDocument :=
  with_project_name config_project_name new_FSDDocument.

Section Mapper.

Variable str_of : json -> string.
Variable json_loads : string -> option json.
Variable _build_prompt : string -> json -> string.
Variable prompt_of : string -> string.

(** [analyze_and_map] from the point where [extract_all] has returned the
    raw data: [file_name] is [raw_data['file_name']] and [d] is the document
    the mapper holds, which the call changes and returns. *)
Definition analyze_and_map (llm : nat -> transport) (file_name : string)
    (d : FSDDocument) : exc FSDDocument :=
  results ← run_batch json_loads _build_prompt prompt_of llm;
  _map_fixed_results_to_fsd str_of results (with_document_location file_name d).

End Mapper.

(** *** dataclass_to_dict *)

(** [asdict] copies the values; the recursion replaces the enum member by
    its value and leaves the JSON values as they are. *)
Definition FieldMapping_to_dict (f : FieldMapping) : json :=
  JDict [ ("display_name", display_name f);
          ("technical_field", technical_field f);
          ("source_table", source_table f);
          ("processing_logic", processing_logic f);
          ("processing_type", JStr (value (processing_type f)));
          ("join_condition", join_condition f);
          ("where_condition", where_condition f) ].

Definition SelectionParameter_to_dict (p : SelectionParameter) : json :=
  JDict [ ("name", name p);
          ("type", type p);
          ("description", description p);
          ("is_mandatory", is_mandatory p);
          ("is_select_option", is_select_option p);
          ("has_no_intervals", has_no_intervals p);
          ("default_value", default_value p) ].

Definition ErrorScenario_to_dict (e : ErrorScenario) : json :=
  JDict [ ("error_description", error_description e);
          ("resolution", resolution e);
          ("error_code", error_code e);
          ("severity", severity e) ].

Definition TestScenario_to_dict (t : TestScenario) : json :=
  JDict [ ("condition", test_condition t);
          ("expected_result", expected_result t);
          ("test_data", test_data t);
          ("priority", priority t) ].

Definition DataConditionRow_to_dict (r : DataConditionRow) : json :=
  JDict [ ("data", data r); ("condition", condition r) ].

Definition dataclass_to_dict (d : FSDDocument) : json :=
  JDict [ ("project_name", project_name d);
          ("document_location", JStr (document_location d));
          ("related_documents", str_list_to_json (related_documents d));
          ("reviewers", JList (map JDict (reviewers d)));
          ("version_history", JList (map JDict (version_history d)));
          ("user_requirements", user_requirements d);
          ("assumptions", assumptions d);
          ("program_name", program_name d);
          ("transaction_code", transaction_code d);
          ("menu_path", menu_path d);
          ("report_description", report_description d);
          ("desain_report_description", desain_report_description d);
          ("selection_parameters",
             JList (map SelectionParameter_to_dict (selection_parameters d)));
          ("field_mappings", JList (map FieldMapping_to_dict (field_mappings d)));
          ("validation_rules", JList (validation_rules d));
          ("special_processing", str_dict_to_json (special_processing d));
          ("valid_dataset_rules",
             JList (map DataConditionRow_to_dict (valid_dataset_rules d)));
          ("country_info", JList (map DataConditionRow_to_dict (country_info d)));
          ("currency_t500c", JList (map DataConditionRow_to_dict (currency_t500c d)));
          ("currency_t001", JList (map DataConditionRow_to_dict (currency_t001 d)));
          ("authorization_objects", JList (authorization_objects d));
          ("user_roles", JList (user_roles d));
          ("constraints", str_list_to_json (constraints d));
          ("dependencies", str_list_to_json (dependencies d));
          ("error_scenarios", JList (map ErrorScenario_to_dict (error_scenarios d)));
          ("test_scenarios", JList (map TestScenario_to_dict (test_scenarios d)));
          ("test_data_location", JStr (test_data_location d));
          ("design_changes", str_list_to_json (design_changes d)) ].

(** Every list of [d'] to which the merge appends starts with the list of
    [d], and the fields the merge does not touch are those of [d]. *)
Definition extends (d d' : FSDDocument) : Prop :=
  related_documents d `prefix_of` related_documents d'
  /\ reviewers d `prefix_of` reviewers d'
  /\ version_history d `prefix_of` version_history d'
  /\ selection_parameters d `prefix_of` selection_parameters d'
  /\ field_mappings d `prefix_of` field_mappings d'
  /\ valid_dataset_rules d `prefix_of` valid_dataset_rules d'
  /\ country_info d `prefix_of` country_info d'
  /\ currency_t500c d `prefix_of` currency_t500c d'
  /\ currency_t001 d `prefix_of` currency_t001 d'
  /\ error_scenarios d `prefix_of` error_scenarios d'
  /\ test_scenarios d `prefix_of` test_scenarios d'
  /\ validation_rules d `prefix_of` validation_rules d'
  /\ authorization_objects d `prefix_of` authorization_objects d'
  /\ user_roles d `prefix_of` user_roles d'
  /\ constraints d' = constraints d
  /\ dependencies d' = dependencies d
  /\ design_changes d' = design_changes d
  /\ special_processing d' = special_processing d
  /\ test_data_location d' = test_data_location d
  /\ project_name d' = project_name d
  /\ document_location d' = document_location d.

(** The fields the basic-info step assigns are those of [d]. *)
Definition texts_kept (d d' : FSDDocument) : Prop :=
  program_name d' = program_name d
  /\ report_description d' = report_description d
  /\ desain_report_description d' = desain_report_description d
  /\ user_requirements d' = user_requirements d
  /\ assumptions d' = assumptions d
  /\ transaction_code d' = transaction_code d
  /\ menu_path d' = menu_path d.

(** The value a field has after [d.field = basic_info.get(key, dflt)]
    under [if basic_info:]. *)
Definition assigned (basic_info : json) (key : string) (dflt old : json) : json :=
  if truthy basic_info then default dflt (json_key key basic_info) else old.

(** The fields the basic-info step assigns hold what the basic info holds,
    whatever its type; a missing key gives the default; a basic info that
    is falsy leaves them alone. *)
Definition texts_assigned (basic_info : json) (d d' : FSDDocument) : Prop :=
  program_name d' = assigned basic_info "program_name" (JStr "") (program_name d)
  /\ report_description d'
     = assigned basic_info "report_description" (JStr "") (report_description d)
  /\ desain_report_description d'
     = assigned basic_info "desain_report_description" (JStr "")
         (desain_report_description d)
  /\ user_requirements d'
     = assigned basic_info "user_requirements" (JStr "") (user_requirements d)
  /\ assumptions d' = assigned basic_info "assumptions" (JList []) (assumptions d)
  /\ transaction_code d'
     = assigned basic_info "transaction_code" (JStr "") (transaction_code d)
  /\ menu_path d' = assigned basic_info "menu_path" (JStr "N/A") (menu_path d).

(** The entries the field-mapping step walks. *)
Definition field_mapping_entries (field_mappings_result : json) : exc (list json) :=
  if truthy field_mappings_result then
    v ← py_get field_mappings_result "field_mappings" (JList []);
    py_iter v
  else Ok [].

End Dyn.

(* ===================================================================== *)
(** ** Task results whose lists are lists *)
(* ===================================================================== *)

(** What the loops of the merge need of a task result: a key that the
    merge walks, when present, holds a list; the entries of a record list
    are mappings; [target_fields] of a lookup rule, when present, is a list
    of texts. Nothing is asked of [assumptions], which is assigned, nor of
    any text, flag or [processing_type]. *)
Definition listed (entry : json -> bool) (key : string) (d : json_dict) : bool :=
  opt_key (is_list_of entry) key d.

Definition lookup_rule_listed (rule : json) : bool :=
  is_dict_with (opt_key (is_list_of is_str) "target_fields") rule.

Definition anything (v : json) : bool := true.

Definition anything_in (d : json_dict) : bool := true.

Definition task_lists (task_name : string) (d : json_dict) : bool :=
  if String.eqb task_name "selection_screen" then listed is_dict "selection_parameters" d
  else if String.eqb task_name "complete_field_mappings" then
    listed is_dict "field_mappings" d
  else if String.eqb task_name "complete_valid_datasets" then
    listed is_dict "valid_dataset_rules" d
  else if String.eqb task_name "complete_lookup_forms" then
    forallb (fun key => listed lookup_rule_listed key d)
      ["company_code_lookup"; "business_area_lookup"; "wage_type_lookup";
       "payroll_reason_lookup"]
  else if String.eqb task_name "error_handling" then listed is_dict "error_scenarios" d
  else if String.eqb task_name "test_scenarios" then listed is_dict "test_scenarios" d
  else if String.eqb task_name "validation_rules" then listed anything "validation_rules" d
  else if String.eqb task_name "authorization" then
    listed anything "authorization_objects" d && listed anything "user_roles" d
  else true.

(** Every task is absent from the batch result, or its result is falsy
    (the merge skips it), or it is a mapping whose lists are lists. *)
Definition lists_hold_lists (results : gmap string json) : bool :=
  forallb (fun task_name =>
             match results !! task_name with
             | None => true
             | Some v => negb (truthy v) || is_dict_with (task_lists task_name) v
             end) task_names.

(** [assumptions] of the basic info, when present, is a list. *)
Definition assumptions_listed (results : gmap string json) : bool :=
  match results_get results "basic_info" with
  | JDict d => opt_key is_list "assumptions" d
  | _ => true
  end.

(** A step of the merge is skipped on a falsy result; on a truthy one it
    reads a mapping. *)
Definition walked (check : json_dict -> bool) (v : json) : Prop :=
  truthy v = false \/ exists fd, v = JDict fd /\ check fd = true.

(* ===================================================================== *)
(** ** The reference table (the two lookups of EnhancedOutputGenerator) *)
(* ===================================================================== *)

(** A cell of the active sheet: [None] for an empty cell, else the text
    [str(value)] of its value. *)
Abbreviation cell := (option string).

(** The Excel file at the configured path: whether it exists, and what
    [openpyxl.load_workbook] followed by reading the active sheet's rows
    gives (the rows, or the exception raised on the way). *)
Record reference_table : Type := {
  excel_exists : bool;
  load_rows : exc (list (list cell))
}.

(** [headers.index(name)] *)
Fixpoint index_of (name : string) (headers : list cell) : exc nat :=
  match headers with
  | [] => raise ValueError
  | h :: rest =>
      match h with
      | Some s => if String.eqb s name then Ok O else S <$> index_of name rest
      | None => S <$> index_of name rest
      end
  end.

(** [row[i]] *)
Definition row_at (row : list cell) (i : nat) : exc cell :=
  match row !! i with
  | Some c => Ok c
  | None => raise IndexError
  end.

(** [str(v)] of a cell value *)
Definition str_of_cell (c : cell) : string :=
  match c with
  | Some s => s
  | None => "None"
  end.

(** The [for row in ws.iter_rows(min_row=2, values_only=True)] loop: the
    first row whose id matches decides. [None] inside [Ok] is the loop
    running out. *)
Fixpoint find_row (id_idx value_idx : nat) (ricefw_id : string)
    (rows : list (list cell)) : exc (option (option string)) :=
  match rows with
  | [] => Ok None
  | row :: rest =>
      id_cell ← row_at row id_idx;
      if String.eqb (strip (str_of_cell id_cell)) ricefw_id then
        value_cell ← row_at row value_idx;
        Ok (Some (match value_cell with
                  | Some s => Some (strip s)
                  | None => None
                  end))
      else find_row id_idx value_idx ricefw_id rest
  end.

(** The [try] body shared by the two lookups, for the column [column]. *)
Definition lookup_body (table : reference_table) (column ricefw_id : string)
  : exc (option (option string)) :=
  rows ← load_rows table;
  let headers := match rows with [] => [] | h :: _ => h end in
  id_idx ← index_of "SAP WRICEF ID" headers;
  value_idx ← index_of column headers;
  find_row id_idx value_idx ricefw_id (tail rows).

Definition lookup_column (table : reference_table) (column ricefw_id : string)
  : option string :=
  if negb (excel_exists table) then None
  else match lookup_body table column ricefw_id with
       | Ok (Some found) => found
       | Ok None => None
       | Err _ => None
       end.

Definition _lookup_assign_nodin (table : reference_table) (ricefw_id : string)
  : option string :=
  lookup_column table "Assign Nodin" ricefw_id.

Definition _lookup_requirement_description (table : reference_table)
    (ricefw_id : string) : option string :=
  lookup_column table "Requirement Description" ricefw_id.

(** Truth of an [Optional[str]]: [None] and the empty text are false. *)
Definition nonempty (o : option string) : option string :=
  match o with
  | Some "" => None
  | _ => o
  end.

(* ===================================================================== *)
(** ** The Markdown renderer (EnhancedOutputGenerator._generate_markdown) *)
(* ===================================================================== *)

(** [doc.split(":", 1)[1].strip()] under [doc.startswith("RICEFW ID:")] *)
Definition ricefw_id_of (doc : string) : option string :=
  if startswith "RICEFW ID:" doc then
    match split_once ":" doc with
    | [_; rest] => Some (strip rest)
    | _ => None
    end
  else None.

(** The loops [for doc in related_documents: if doc.startswith(...): ...;
    break]: only the first reference that starts with RICEFW ID: counts. *)
Fixpoint first_ricefw_id (docs : list string) : option string :=
  match docs with
  | [] => None
  | doc :: rest =>
      match ricefw_id_of doc with
      | Some id => Some id
      | None => first_ricefw_id rest
      end
  end.

Definition yes_no (b : bool) : string := if b then "Yes" else "No".

(** [d.get(key, '')] on a [Dict[str, str]] *)
Definition dict_get (key : string) (d : str_dict) : string :=
  default "" (assoc_get key d).

Section Renderer.

(** The reference table at the configured path. *)
Variable table : reference_table.

(** The text [_improve_text] returns for a text: the polished text of the
    LLM, or its argument when the call fails. *)
Variable _improve_text : string -> string.

(** [datetime.now().strftime('%Y-%m-%d %H:%M:%S')] *)
Variable now : string.

(** [_compose_report_description] *)
Definition _compose_report_description (d : FSDDocument) : string :=
  if negb (String.eqb (desain_report_description d) "") then
    desain_report_description d
  else
    let looked_up :=
      match first_ricefw_id (related_documents d) with
      | Some id => default "" (nonempty (_lookup_requirement_description table id))
      | None => ""
      end in
    let base_desc :=
      if String.eqb looked_up "" then user_requirements d else looked_up in
    let parts := if String.eqb base_desc "" then [] else [base_desc] in
    let parts :=
      match selection_parameters d with
      | [] => parts
      | _ => parts ++ ["Report ini memiliki "
                       +:+ str_of_nat (length (selection_parameters d))
                       +:+ " parameter selection screen."]
      end in
    let parts :=
      match field_mappings d with
      | [] => parts
      | _ => parts ++ ["Proses detail mencakup "
                       +:+ str_of_nat (length (field_mappings d))
                       +:+ " field utama."]
      end in
    let parts :=
      match parts with
      | [] => ["Report ini dirancang untuk memenuhi kebutuhan bisnis yang telah ditentukan."]
      | _ => parts
      end in
    _improve_text (join " " parts).

(** One line of the Related Documents list. *)
Definition related_document_line (doc : string) : string :=
  match ricefw_id_of doc with
  | Some id =>
      match nonempty (_lookup_assign_nodin table id) with
      | Some nodin => "  - RICEFW ID: " +:+ nodin
      | None => "  - " +:+ doc
      end
  | None => "  - " +:+ doc
  end.

Definition title_lines (d : FSDDocument) : list string :=
  [ "# Functional Specification Design (FSD)";
    "## " +:+ program_name d;
    "### " +:+ report_description d;
    "";
    "**Generated on:** " +:+ now;
    "" ].

Definition document_information_lines (d : FSDDocument) : list string :=
  [ "## 1. INFORMASI DOKUMEN";
    "";
    "- **Project**: " +:+ project_name d;
    "- **Document Location**: " +:+ document_location d;
    "" ]
  ++ match related_documents d with
     | [] => []
     | docs => ["- **Related Documents**:"] ++ map related_document_line docs ++ [""]
     end
  ++ match reviewers d with
     | [] => []
     | rs => ["- **Reviewers**:"]
             ++ map (fun r => "  - " +:+ dict_get "role" r +:+ ": " +:+ dict_get "name" r) rs
             ++ [""]
     end
  ++ match version_history d with
     | [] => []
     | vs => ["- **Version History**:"]
             ++ map (fun v => "  - " +:+ dict_get "version" v +:+ ": "
                              +:+ dict_get "change" v +:+ " by "
                              +:+ dict_get "author" v +:+ " on "
                              +:+ dict_get "date" v) vs
             ++ [""]
     end.

(** The value on the User Requirements line. *)
Definition requirement_value (d : FSDDocument) : string :=
  match first_ricefw_id (related_documents d) with
  | Some id =>
      match nonempty (_lookup_requirement_description table id) with
      | Some desc => _improve_text desc
      | None => user_requirements d
      end
  | None => user_requirements d
  end.

Definition general_requirements_lines (d : FSDDocument) : list string :=
  [ "## 2. PERSYARATAN UMUM";
    "";
    "**User Requirements**: " +:+ requirement_value d;
    "";
    "**Assumptions**:" ]
  ++ map (fun assumption => "- " +:+ assumption) (assumptions d)
  ++ [""].

(** The value on the Program Name line. *)
Definition program_name_value (d : FSDDocument) : string :=
  match first_ricefw_id (related_documents d) with
  | Some id =>
      match nonempty (_lookup_assign_nodin table id) with
      | Some nodin_val => nodin_val
      | None => program_name d
      end
  | None => program_name d
  end.

Definition existing_sap_objects_lines (d : FSDDocument) : list string :=
  [ "## 3. EXISTING SAP OBJECTS";
    "";
    "- **Program Name**: " +:+ program_name_value d;
    "- **Transaction Code**: " +:+ transaction_code d;
    "- **Menu Path**: " +:+ menu_path d;
    "" ].

Definition design_lines (d : FSDDocument) : list string :=
  [ "## 4. DESAIN";
    "";
    "### 4.1 Description detail dari Report";
    "";
    _compose_report_description d;
    "" ].

Definition selection_parameter_row (param : SelectionParameter) : string :=
  "| " +:+ name param +:+ " | " +:+ type param +:+ " | " +:+ description param
  +:+ " | " +:+ yes_no (is_mandatory param)
  +:+ " | " +:+ yes_no (is_select_option param)
  +:+ " | " +:+ yes_no (has_no_intervals param) +:+ " |".

Definition selection_screen_lines (d : FSDDocument) : list string :=
  match selection_parameters d with
  | [] => []
  | params =>
      [ "### 4.2 Selection Screen";
        "";
        "| Parameter | Type | Description | Mandatory | Select-Option | No Intervals |";
        "|-----------|------|-------------|-----------|---------------|--------------|" ]
      ++ map selection_parameter_row params
      ++ [""]
  end.

Definition field_mapping_row (field : FieldMapping) : string :=
  "| " +:+ display_name field +:+ " | " +:+ technical_field field
  +:+ " | " +:+ source_table field +:+ " | " +:+ processing_logic field
  +:+ " | " +:+ value (processing_type field) +:+ " |".

Definition detail_processing_lines (d : FSDDocument) : list string :=
  match field_mappings d with
  | [] => []
  | fields =>
      [ "### 4.3 Detail Processing";
        "";
        "| Field Name | Technical Field | Source Table | Processing Logic | Processing Type |";
        "|------------|-----------------|--------------|------------------|-----------------|" ]
      ++ map field_mapping_row fields
      ++ [""]
  end.

Definition data_condition_row (row : DataConditionRow) : string :=
  "| " +:+ data row +:+ " | " +:+ condition row +:+ " |".

(** The valid-datasets block and [append_form]: a heading and a
    Data/Kondisi table, nothing for an empty list. *)
Definition append_form (heading : string) (rows : list DataConditionRow) : list string :=
  match rows with
  | [] => []
  | _ =>
      [ heading;
        "";
        "| Data | Kondisi |";
        "|------|---------|" ]
      ++ map data_condition_row rows
      ++ [""]
  end.

(** [enumerate(items, 1)] *)
Definition enumerate1 {A} (items : list A) : list (nat * A) :=
  combine (seq 1 (length items)) items.

Definition error_row (ie : nat * ErrorScenario) : string :=
  "| " +:+ str_of_nat (fst ie) +:+ " | " +:+ error_description (snd ie)
  +:+ " | " +:+ resolution (snd ie) +:+ " | " +:+ error_code (snd ie)
  +:+ " | " +:+ severity (snd ie) +:+ " |".

Definition error_handling_lines (d : FSDDocument) : list string :=
  match error_scenarios d with
  | [] => []
  | errors =>
      [ "## 5. PENANGANAN ERROR";
        "";
        "| No | Error Description | Resolution | Error Code | Severity |";
        "|----|-------------------|------------|------------|----------|" ]
      ++ map error_row (enumerate1 errors)
      ++ [""]
  end.

Definition test_row (it : nat * TestScenario) : string :=
  "| " +:+ str_of_nat (fst it) +:+ " | " +:+ test_condition (snd it)
  +:+ " | " +:+ expected_result (snd it) +:+ " | " +:+ test_data (snd it)
  +:+ " | " +:+ priority (snd it) +:+ " |".

Definition testing_lines (d : FSDDocument) : list string :=
  match test_scenarios d with
  | [] => []
  | tests =>
      [ "## 6. PERSYARATAN PENGUJIAN";
        "";
        "| No | Test Condition | Expected Result | Test Data | Priority |";
        "|----|----------------|-----------------|-----------|----------|" ]
      ++ map test_row (enumerate1 tests)
  end.

(** [md_lines] when [_generate_markdown] returns. *)
Definition md_lines (d : FSDDocument) : list string :=
  title_lines d
  ++ document_information_lines d
  ++ general_requirements_lines d
  ++ existing_sap_objects_lines d
  ++ design_lines d
  ++ selection_screen_lines d
  ++ detail_processing_lines d
  ++ append_form "### 4.4 Detail Process Only valid datasets" (valid_dataset_rules d)
  ++ append_form "### Form Get_Country_Info" (country_info d)
  ++ append_form "### Form Get_Currency_T500C" (currency_t500c d)
  ++ append_form "### Form Get_Currency_T001" (currency_t001 d)
  ++ error_handling_lines d
  ++ testing_lines d.

(** [_generate_markdown] *)
Definition _generate_markdown (d : FSDDocument) : string :=
  join nl (md_lines d).

End Renderer.
(* ===================================================================== *)
(** ** The resolution of a reference, with the steps before the [try] *)
(* ===================================================================== *)

(** The renderer above takes the reference table as it is once the
    existence test has returned. The two lookups run two steps before their
    [try]: [Path(self.config.get('requirement_list_excel'))] and
    [excel_path.exists()]. What they meet there: the configured value (the
    default is a text; a configuration file can put any JSON value), what
    the existence test gives (it raises an [OSError] other than not found,
    such as a permission error), and what loading the rows gives. *)
Record reference_source : Type := {
  configured : json;
  excel_path_exists : exc bool;
  rows_loaded : exc (list (list cell))
}.

(** [Path(v)]: a [TypeError] on a value that is no text. *)
Definition Path (v : json) : exc string :=
  match v with
  | JStr s => Ok s
  | _ => raise TypeError
  end.

(** The table the [try] works on, once the existence test has returned
    [found]. *)
Definition table_of (src : reference_source) (found : bool) : reference_table :=
  {| excel_exists := found; load_rows := rows_loaded src |}.

(** A lookup from its first line on. *)
Definition lookup_source (src : reference_source) (column ricefw_id : string)
  : exc (option string) :=
  _ ← Path (configured src);
  found ← excel_path_exists src;
  Ok (lookup_column (table_of src found) column ricefw_id).

(** [_improve_text]: [asyncio.run] raises [RuntimeError] when an event loop
    is running, which is the case under [process_file], and the handler
    returns the text; without a running loop [run] is what
    [asyncio.run(_run(text))] gives, and the handler returns the text when
    it raises. *)
Definition _improve_text (loop_running : bool) (run : string -> exc string)
    (text : string) : string :=
  if loop_running then text
  else match run text with
       | Ok polished => polished
       | Err _ => text
       end.

(** The loops before the User Requirements line and before the Program
    Name line: [for doc in related_documents: if doc.startswith("RICEFW
    ID:"): ...; break]. [improve] is applied to a value that is found. *)
Fixpoint resolve (lookup : string -> exc (option string)) (improve : string -> string)
    (original : string) (docs : list string) : exc string :=
  match docs with
  | [] => Ok original
  | doc :: rest =>
      match ricefw_id_of doc with
      | Some ricefw_id =>
          found ← lookup ricefw_id;
          Ok (match nonempty found with
              | Some looked_up => improve looked_up
              | None => original
              end)
      | None => resolve lookup improve original rest
      end
  end.

Definition resolve_program_name (src : reference_source) (d : FSDDocument) : exc string :=
  resolve (lookup_source src "Assign Nodin") (fun nodin_val => nodin_val)
    (program_name d) (related_documents d).

Definition resolve_requirement (src : reference_source) (improve : string -> string)
    (d : FSDDocument) : exc string :=
  resolve (lookup_source src "Requirement Description") improve
    (user_requirements d) (related_documents d).

(** The source of scenario 2: the configured path is a text, the file is
    there, and its rows are those of the scenario. *)
Definition source_of (t : reference_table) : reference_source :=
  {| configured := JStr "lookup-sheets/Requirement-List.xlsx";
     excel_path_exists := Ok (excel_exists t);
     rows_loaded := load_rows t |}.

(* ===================================================================== *)
(** ** What the renderer emits, by section *)
(* ===================================================================== *)

Definition is_nil {A} (l : list A) : bool :=
  match l with [] => true | _ => false end.

Section RenderedSections.

Variable table : reference_table.
Variable _improve_text : string -> string.
Variable now : string.

(** The sections and subsections that depend on a record list: the
    heading, whether the list is empty, and the lines of the block. *)
Definition record_sections (d : FSDDocument) : list (string * bool * list string) :=
  [ ("### 4.2 Selection Screen", is_nil (selection_parameters d),
       selection_screen_lines d);
    ("### 4.3 Detail Processing", is_nil (field_mappings d),
       detail_processing_lines d);
    ("### 4.4 Detail Process Only valid datasets", is_nil (valid_dataset_rules d),
       append_form "### 4.4 Detail Process Only valid datasets" (valid_dataset_rules d));
    ("### Form Get_Country_Info", is_nil (country_info d),
       append_form "### Form Get_Country_Info" (country_info d));
    ("### Form Get_Currency_T500C", is_nil (currency_t500c d),
       append_form "### Form Get_Currency_T500C" (currency_t500c d));
    ("### Form Get_Currency_T001", is_nil (currency_t001 d),
       append_form "### Form Get_Currency_T001" (currency_t001 d));
    ("## 5. PENANGANAN ERROR", is_nil (error_scenarios d), error_handling_lines d);
    ("## 6. PERSYARATAN PENGUJIAN", is_nil (test_scenarios d), testing_lines d) ].

(** The headings that are always emitted. *)
Definition fixed_headings : list string :=
  [ "## 1. INFORMASI DOKUMEN"; "## 2. PERSYARATAN UMUM";
    "## 3. EXISTING SAP OBJECTS"; "## 4. DESAIN";
    "### 4.1 Description detail dari Report" ].

(** The numbered and form headings emitted for a document. *)
Definition emitted_headings (d : FSDDocument) : list string :=
  fixed_headings
  ++ map (fun s => fst (fst s))
       (List.filter (fun s => negb (snd (fst s))) (record_sections d)).

(** The emitted lines that are, or begin after a fixed mark with, a text
    of the document: the two title headings and the design description. *)
Definition free_text_lines (d : FSDDocument) : list string :=
  [ "## " +:+ program_name d;
    "### " +:+ report_description d;
    _compose_report_description table _improve_text d ].

(** The emitted lines that can start with a hash. *)
Definition hash_lines (d : FSDDocument) : list string :=
  "# Functional Specification Design (FSD)"
  :: free_text_lines d ++ emitted_headings d.

Definition heading_or_plain (d : FSDDocument) (line : string) : Prop :=
  startswith "#" line = true -> In line (hash_lines d).

End RenderedSections.
(* ===================================================================== *)
(** ** The lines of the Markdown text, by origin *)
(* ===================================================================== *)

(** The lines the joined text has for a list of items of [md_lines]: an
    item with line breaks gives several. *)
Definition rendered (items : list string) : list string :=
  flat_map (split LF) items.

(** How many of the lines read [line]. *)
Definition occurrences (line : string) (lines : list string) : nat :=
  length (List.filter (String.eqb line) lines).

(** The lines of a block that is written for a list that is not empty. *)
Definition shown_block (empty : bool) (block : list string) : list string :=
  if empty then [] else block.

Section RenderedLines.

Variable table : reference_table.
Variable _improve_text : string -> string.
Variable now : string.

(** The items of [md_lines] that hold a text of the document, a value that
    was looked up, or the date, in the order of the code. Such a text is
    written as it is, so it can bring any line with it. *)
Definition text_lines (d : FSDDocument) : list string :=
  [ "## " +:+ program_name d;
    "### " +:+ report_description d;
    "**Generated on:** " +:+ now ]
  ++ [ "- **Project**: " +:+ project_name d;
       "- **Document Location**: " +:+ document_location d ]
  ++ map (related_document_line table) (related_documents d)
  ++ map (fun r => "  - " +:+ dict_get "role" r +:+ ": " +:+ dict_get "name" r)
       (reviewers d)
  ++ map (fun v => "  - " +:+ dict_get "version" v +:+ ": "
                   +:+ dict_get "change" v +:+ " by "
                   +:+ dict_get "author" v +:+ " on "
                   +:+ dict_get "date" v) (version_history d)
  ++ [ "**User Requirements**: " +:+ requirement_value table _improve_text d ]
  ++ map (fun assumption => "- " +:+ assumption) (assumptions d)
  ++ [ "- **Program Name**: " +:+ program_name_value table d;
       "- **Transaction Code**: " +:+ transaction_code d;
       "- **Menu Path**: " +:+ menu_path d ]
  ++ [ _compose_report_description table _improve_text d ]
  ++ map selection_parameter_row (selection_parameters d)
  ++ map field_mapping_row (field_mappings d)
  ++ map data_condition_row (valid_dataset_rules d)
  ++ map data_condition_row (country_info d)
  ++ map data_condition_row (currency_t500c d)
  ++ map data_condition_row (currency_t001 d)
  ++ map error_row (enumerate1 (error_scenarios d))
  ++ map test_row (enumerate1 (test_scenarios d)).

(** The other items of [md_lines]: the headings, labels, table heads and
    blank lines the renderer writes of its own. A block is written for a
    list that is not empty. *)
Definition own_lines (d : FSDDocument) : list string :=
  [ "# Functional Specification Design (FSD)"; ""; "" ]
  ++ [ "## 1. INFORMASI DOKUMEN"; ""; "" ]
  ++ shown_block (is_nil (related_documents d)) [ "- **Related Documents**:"; "" ]
  ++ shown_block (is_nil (reviewers d)) [ "- **Reviewers**:"; "" ]
  ++ shown_block (is_nil (version_history d)) [ "- **Version History**:"; "" ]
  ++ [ "## 2. PERSYARATAN UMUM"; ""; ""; "**Assumptions**:"; "" ]
  ++ [ "## 3. EXISTING SAP OBJECTS"; ""; "" ]
  ++ [ "## 4. DESAIN"; ""; "### 4.1 Description detail dari Report"; ""; "" ]
  ++ shown_block (is_nil (selection_parameters d))
       [ "### 4.2 Selection Screen"; "";
         "| Parameter | Type | Description | Mandatory | Select-Option | No Intervals |";
         "|-----------|------|-------------|-----------|---------------|--------------|";
         "" ]
  ++ shown_block (is_nil (field_mappings d))
       [ "### 4.3 Detail Processing"; "";
         "| Field Name | Technical Field | Source Table | Processing Logic | Processing Type |";
         "|------------|-----------------|--------------|------------------|-----------------|";
         "" ]
  ++ shown_block (is_nil (valid_dataset_rules d))
       [ "### 4.4 Detail Process Only valid datasets"; "";
         "| Data | Kondisi |"; "|------|---------|"; "" ]
  ++ shown_block (is_nil (country_info d))
       [ "### Form Get_Country_Info"; "";
         "| Data | Kondisi |"; "|------|---------|"; "" ]
  ++ shown_block (is_nil (currency_t500c d))
       [ "### Form Get_Currency_T500C"; "";
         "| Data | Kondisi |"; "|------|---------|"; "" ]
  ++ shown_block (is_nil (currency_t001 d))
       [ "### Form Get_Currency_T001"; "";
         "| Data | Kondisi |"; "|------|---------|"; "" ]
  ++ shown_block (is_nil (error_scenarios d))
       [ "## 5. PENANGANAN ERROR"; "";
         "| No | Error Description | Resolution | Error Code | Severity |";
         "|----|-------------------|------------|------------|----------|";
         "" ]
  ++ shown_block (is_nil (test_scenarios d))
       [ "## 6. PERSYARATAN PENGUJIAN"; "";
         "| No | Test Condition | Expected Result | Test Data | Priority |";
         "|----|----------------|-----------------|-----------|----------|" ].

End RenderedLines.

(** The sections and subsections that depend on a record list: the
    heading, the header row and the separator row of the table, and whether
    the list is empty. *)
Definition table_marks (d : FSDDocument) : list (string * string * string * bool) :=
  [ ("### 4.2 Selection Screen",
     "| Parameter | Type | Description | Mandatory | Select-Option | No Intervals |",
     "|-----------|------|-------------|-----------|---------------|--------------|",
     is_nil (selection_parameters d));
    ("### 4.3 Detail Processing",
     "| Field Name | Technical Field | Source Table | Processing Logic | Processing Type |",
     "|------------|-----------------|--------------|------------------|-----------------|",
     is_nil (field_mappings d));
    ("### 4.4 Detail Process Only valid datasets",
     "| Data | Kondisi |", "|------|---------|", is_nil (valid_dataset_rules d));
    ("### Form Get_Country_Info",
     "| Data | Kondisi |", "|------|---------|", is_nil (country_info d));
    ("### Form Get_Currency_T500C",
     "| Data | Kondisi |", "|------|---------|", is_nil (currency_t500c d));
    ("### Form Get_Currency_T001",
     "| Data | Kondisi |", "|------|---------|", is_nil (currency_t001 d));
    ("## 5. PENANGANAN ERROR",
     "| No | Error Description | Resolution | Error Code | Severity |",
     "|----|-------------------|------------|------------|----------|",
     is_nil (error_scenarios d));
    ("## 6. PERSYARATAN PENGUJIAN",
     "| No | Test Condition | Expected Result | Test Data | Priority |",
     "|----|----------------|-----------------|-----------|----------|",
     is_nil (test_scenarios d)) ].

(** The number of record lists that are not empty and whose table has the
    row as its header row or as its separator row. *)
Definition tables_with (row : string) (d : FSDDocument) : nat :=
  length
    (List.filter
       (fun mark =>
          let '(_, header, separator, empty) := mark in
          negb empty && (String.eqb header row || String.eqb separator row))
       (table_marks d)).

(* ===================================================================== *)
(** ** The data of the specification's scenarios *)
(* ===================================================================== *)

(** The reference table of scenario 2: RHR006 is assigned Laporan
    Tunjangan. *)
Definition scenario_table : reference_table :=
  {| excel_exists := true;
     load_rows :=
       Ok [ [Some "SAP WRICEF ID"; Some "Assign Nodin"; Some "Requirement Description"];
            [Some "RHR006"; Some "Laporan Tunjangan"; Some "Laporan tunjangan tidak tetap"] ] |}.

Definition scenario_document (refs : list string) : FSDDocument :=
  with_basic_info "ZHR_R_IT0015" "" "" "Kebutuhan asli" [] "" "" refs [] []
    new_FSDDocument.


(* ===================================================================== *)
(** ** The Markdown parser (main.py, class MarkdownParser) *)
(* ===================================================================== *)

(** What [parsed_data] holds under a section key: a dict with the optional
    keys [content] and [subsections]. *)
Record section_data : Type := {
  content : option (list string);
  subsections : option (gmap string (list string))
}.

Definition empty_section : section_data :=
  {| content := None; subsections := None |}.

(** A value of [parsed_data]: the title text, or a section dict. *)
Inductive parsed_value : Type :=
| PTitle (text : string)
| PSection (s : section_data).

(** [parsed_data]. A key is a str or (when a subsection is saved before
    any section has started) [None]. *)
Abbreviation parsed := (gmap (option string) parsed_value).

(** Truth of a name that is a str or [None]. *)
Definition named (o : option string) : bool :=
  match o with
  | Some s => negb (String.eqb s "")
  | None => false
  end.

(** [if section not in self.parsed_data: self.parsed_data[section] = {}] *)
Definition ensure_section (pd : parsed) (section : option string) : parsed :=
  match pd !! section with
  | Some _ => pd
  | None => <[section := PSection empty_section]> pd
  end.

(** [_save_subsection]. Under the key of the title the value is a str,
    and the item assignment on it raises [TypeError]. *)
Definition _save_subsection (pd : parsed) (section : option string)
    (subsection : string) (lines : list string) : exc parsed :=
  let pd := ensure_section pd section in
  match pd !! section with
  | Some (PSection sd) =>
      let subs := default ∅ (subsections sd) in
      Ok (<[section := PSection {| content := content sd;
                                   subsections := Some (<[subsection := lines]> subs) |}]> pd)
  | Some (PTitle _) => raise TypeError
  | None => raise KeyError
  end.

(** [_save_section] *)
Definition _save_section (pd : parsed) (section : option string)
    (subsection : option string) (lines : list string) : exc parsed :=
  let pd := ensure_section pd section in
  match subsection with
  | Some sub =>
      if named subsection then _save_subsection pd section sub lines
      else match pd !! section with
           | Some (PSection sd) =>
               Ok (<[section := PSection {| content := Some lines;
                                            subsections := subsections sd |}]> pd)
           | Some (PTitle _) => raise TypeError
           | None => raise KeyError
           end
  | None =>
      match pd !! section with
      | Some (PSection sd) =>
          Ok (<[section := PSection {| content := Some lines;
                                       subsections := subsections sd |}]> pd)
      | Some (PTitle _) => raise TypeError
      | None => raise KeyError
      end
  end.

(** The variables of the loop of [parse]. *)
Record parser_state : Type := {
  parsed_data : parsed;
  current_section : option string;
  current_subsection : option string;
  current_content : list string
}.

Definition initial_parser_state : parser_state :=
  {| parsed_data := ∅; current_section := None; current_subsection := None;
     current_content := [] |}.

(** One turn of the loop, on the line as split. *)
Definition parse_line (st : parser_state) (raw : string) : exc parser_state :=
  let line := strip raw in
  if startswith "# " line then
    Ok {| parsed_data := <[Some "title" := PTitle (strip (drop_chars 2 line))]> (parsed_data st);
          current_section := current_section st;
          current_subsection := current_subsection st;
          current_content := current_content st |}
  else if startswith "## " line then
    pd ← (if named (current_section st) then
            _save_section (parsed_data st) (current_section st)
              (current_subsection st) (current_content st)
          else Ok (parsed_data st));
    Ok {| parsed_data := pd;
          current_section := Some (strip (drop_chars 3 line));
          current_subsection := None;
          current_content := [] |}
  else if startswith "### " line then
    pd ← (match current_subsection st with
          | Some sub =>
              if named (current_subsection st) then
                _save_subsection (parsed_data st) (current_section st) sub
                  (current_content st)
              else Ok (parsed_data st)
          | None => Ok (parsed_data st)
          end);
    Ok {| parsed_data := pd;
          current_section := current_section st;
          current_subsection := Some (strip (drop_chars 4 line));
          current_content := [] |}
  else if startswith "|" line && contains "|" line then
    Ok {| parsed_data := parsed_data st;
          current_section := current_section st;
          current_subsection := current_subsection st;
          current_content := current_content st ++ [line] |}
  else if negb (String.eqb line "") then
    Ok {| parsed_data := parsed_data st;
          current_section := current_section st;
          current_subsection := current_subsection st;
          current_content := current_content st ++ [line] |}
  else Ok st.

Fixpoint parse_lines (st : parser_state) (lines : list string) : exc parser_state :=
  match lines with
  | [] => Ok st
  | line :: rest => st' ← parse_line st line; parse_lines st' rest
  end.

(** [MarkdownParser(markdown_content).parse()] *)
Definition parse (markdown_content : string) : exc parsed :=
  st ← parse_lines initial_parser_state (split LF markdown_content);
  if named (current_section st) then
    _save_section (parsed_data st) (current_section st)
      (current_subsection st) (current_content st)
  else Ok (parsed_data st).

(** *** Reading the result *)

(** [name] is a section key of the result. *)
Definition is_section (pd : parsed) (name : string) : Prop :=
  exists sd, pd !! Some name = Some (PSection sd).

(** [sub] is a key of the subsections of the section [name]. *)
Definition is_subsection (pd : parsed) (name sub : string) : Prop :=
  exists sd subs,
    pd !! Some name = Some (PSection sd)
    /\ subsections sd = Some subs
    /\ is_Some (subs !! sub).

(** The section keys and the (section, subsection) keys, as lists. *)
Definition section_names (pd : parsed) : list string :=
  omap (fun kv => match kv with
                  | (Some name, PSection _) => Some name
                  | _ => None
                  end) (map_to_list pd).

Definition subsection_names (pd : parsed) : list (string * string) :=
  flat_map (fun kv => match kv with
                      | (Some name, PSection sd) =>
                          map (fun sub => (name, fst sub))
                            (map_to_list (default ∅ (subsections sd)))
                      | _ => []
                      end) (map_to_list pd).

(** *** The headings of a text, line by line *)

Inductive line_kind : Type :=
| KTitle
| KSection (name : string)
| KSubsection (name : string)
| KOther.

Definition classify (raw : string) : line_kind :=
  let line := strip raw in
  if startswith "# " line then KTitle
  else if startswith "## " line then KSection (strip (drop_chars 3 line))
  else if startswith "### " line then KSubsection (strip (drop_chars 4 line))
  else KOther.

(** The level-2 headings. *)
Fixpoint sections_in (lines : list string) : list string :=
  match lines with
  | [] => []
  | line :: rest =>
      match classify line with
      | KSection name => name :: sections_in rest
      | _ => sections_in rest
      end
  end.

(** The level-3 headings, each with the level-2 heading it follows. *)
Fixpoint subsections_in (cur : option string) (lines : list string)
  : list (string * string) :=
  match lines with
  | [] => []
  | line :: rest =>
      match classify line with
      | KSection name => subsections_in (Some name) rest
      | KSubsection sub =>
          match cur with
          | Some name => (name, sub) :: subsections_in cur rest
          | None => subsections_in cur rest
          end
      | _ => subsections_in cur rest
      end
  end.

(** No level-3 heading comes before the first level-2 heading. *)
Fixpoint opened (cur : option string) (lines : list string) : bool :=
  match lines with
  | [] => true
  | line :: rest =>
      match classify line with
      | KSection name => opened (Some name) rest
      | KSubsection _ =>
          match cur with
          | Some _ => opened cur rest
          | None => false
          end
      | _ => opened cur rest
      end
  end.

(** *** The loop's invariant *)

(** The sections met so far: those saved and the current one. *)
Definition state_sections (st : parser_state) (name : string) : Prop :=
  is_section (parsed_data st) name \/ current_section st = Some name.

(** The subsections met so far: those saved and the current one. *)
Definition state_subsections (st : parser_state) (name sub : string) : Prop :=
  is_subsection (parsed_data st) name sub
  \/ (current_section st = Some name /\ current_subsection st = Some sub).

(** Only the key of the title holds a str, and every other key is the name
    of a section. *)
Definition keys_wf (pd : parsed) : Prop :=
  forall k v, pd !! k = Some v ->
    match v with
    | PTitle _ => k = Some "title"
    | PSection _ => exists name, k = Some name /\ name <> "title"
    end.

(** The keys are well formed, the current names are not empty, and a
    current subsection has a current section. *)
Definition parser_wf (st : parser_state) : Prop :=
  keys_wf (parsed_data st)
  /\ (forall name, current_section st = Some name -> name <> "title" /\ name <> "")
  /\ (forall sub, current_subsection st = Some sub ->
        sub <> "" /\ current_section st <> None).

(** The section saved under a name, [{}] when there is none. *)
Definition section_at (pd : parsed) (name : string) : section_data :=
  match pd !! Some name with
  | Some (PSection sd) => sd
  | _ => empty_section
  end.

(** A heading line is recovered by a parse result: its name is a section
    key, or a subsection key of some section. *)
Definition heading_recovered (pd : parsed) (heading : string) : Prop :=
  match classify heading with
  | KSection name => is_section pd name
  | KSubsection sub => exists name, is_subsection pd name sub
  | _ => False
  end.

(* ===================================================================== *)
(** ** More str operations *)
(* ===================================================================== *)

Definition upper_char (c : ascii) : ascii :=
  let n := nat_of_ascii c in
  if Nat.leb 97 n && Nat.leb n 122 then ascii_of_nat (n - 32) else c.

Definition lower_char (c : ascii) : ascii :=
  let n := nat_of_ascii c in
  if Nat.leb 65 n && Nat.leb n 90 then ascii_of_nat (n + 32) else c.

(** The text of the given bytes. *)
Definition bytes (l : list nat) : string :=
  fold_right (fun n s => String (ascii_of_nat n) s) "" l.

(** The characters outside ASCII whose upper case has an ASCII letter, in
    UTF-8, with their upper case: U+00DF (SS), U+0131 (I), U+0149, U+017F
    (S), U+01F0; U+1E96 to U+1E9A; the ligatures U+FB00 to U+FB06. *)
Definition upper2 (c d : ascii) : option string :=
  match nat_of_ascii c, nat_of_ascii d with
  | 195, 159 => Some "SS"
  | 196, 177 => Some "I"
  | 197, 137 => Some (bytes [202; 188; 78])
  | 197, 191 => Some "S"
  | 199, 176 => Some (bytes [74; 204; 140])
  | _, _ => None
  end.

Definition upper3 (c d e : ascii) : option string :=
  match nat_of_ascii c, nat_of_ascii d, nat_of_ascii e with
  | 225, 186, 150 => Some (bytes [72; 204; 177])
  | 225, 186, 151 => Some (bytes [84; 204; 136])
  | 225, 186, 152 => Some (bytes [87; 204; 138])
  | 225, 186, 153 => Some (bytes [89; 204; 138])
  | 225, 186, 154 => Some (bytes [65; 202; 190])
  | 239, 172, 128 => Some "FF"
  | 239, 172, 129 => Some "FI"
  | 239, 172, 130 => Some "FL"
  | 239, 172, 131 => Some "FFI"
  | 239, 172, 132 => Some "FFL"
  | 239, 172, 133 => Some "ST"
  | 239, 172, 134 => Some "ST"
  | _, _, _ => None
  end.

(** Likewise for the lower case: U+0130 and the Kelvin sign U+212A. *)
Definition lower2 (c d : ascii) : option string :=
  match nat_of_ascii c, nat_of_ascii d with
  | 196, 176 => Some (bytes [105; 204; 135])
  | _, _ => None
  end.

Definition lower3 (c d e : ascii) : option string :=
  match nat_of_ascii c, nat_of_ascii d, nat_of_ascii e with
  | 226, 132, 170 => Some "k"
  | _, _, _ => None
  end.

(** A change of case: the ASCII letters by [one], the characters of two
    and three bytes that [two] and [three] know by what these give, every
    other byte as it is. *)
Fixpoint change_case (one : ascii -> ascii) (two : ascii -> ascii -> option string)
    (three : ascii -> ascii -> ascii -> option string) (s : string) : string :=
  match s with
  | "" => ""
  | String c rest =>
      match rest with
      | "" => String (one c) ""
      | String d rest1 =>
          match two c d with
          | Some changed => changed +:+ change_case one two three rest1
          | None =>
              match rest1 with
              | "" => String (one c) (change_case one two three rest)
              | String e rest2 =>
                  match three c d e with
                  | Some changed => changed +:+ change_case one two three rest2
                  | None => String (one c) (change_case one two three rest)
                  end
              end
          end
      end
  end.

(** [s.upper()] and [s.lower()] as far as ASCII goes: every ASCII letter
    of the result is where Python has it, so [word in s.upper()] is
    Python's for a word of ASCII letters. A letter outside ASCII whose other
    case is outside ASCII too is left as it is. *)
Definition upper (s : string) : string := change_case upper_char upper2 upper3 s.
Definition lower (s : string) : string := change_case lower_char lower2 lower3 s.

(** [s.replace(old, new)] for a non-empty [old]: the occurrences from the
    left, without overlap. [skip] counts the characters of an occurrence
    still to pass over. *)
Fixpoint replace_go (old new : string) (skip : nat) (s : string) : string :=
  match s with
  | "" => ""
  | String c rest =>
      match skip with
      | S k => replace_go old new k rest
      | O =>
          if startswith old s then
            new +:+ replace_go old new (String.length old - 1) rest
          else String c (replace_go old new 0 rest)
      end
  end.

(** [s.replace(old, new)]; an empty [old] is found before every character
    and at the end. *)
Definition replace (old new s : string) : string :=
  match old with
  | "" => new +:+ String.concat "" (map (fun ch => ch +:+ new) (chars s))
  | _ => replace_go old new 0 s
  end.

(** [l[1:-1]] *)
Definition middle {A} (l : list A) : list A := removelast (tail l).

(** [l[i]] where the length has been checked. *)
Definition item (l : list string) (i : nat) : string := nth i l "".

(* ===================================================================== *)
(** ** The title extractor (md_to_docs_converter.py, MarkdownTitleExtractor) *)
(* ===================================================================== *)

(** The list-valued entries of [title_info] that the loop of
    [extract_title_info] fills. A table row is a dict. The scalar entries
    (names, dates, user requirements) are left out: the loop never reads
    them back except to guard their own assignment. *)
Record title_tables : Type := {
  selection_screen_table : list str_dict;
  detail_processing_table : list str_dict;
  valid_datasets_table : list str_dict;
  country_info_table : list str_dict;
  currency_t500c_table : list str_dict;
  currency_t001_table : list str_dict;
  error_handling_table : list str_dict;
  testing_requirements_table : list str_dict;
  title_assumptions : list string;
  title_related_documents : list string;
  title_reviewers : list string;
  title_version_history : list string
}.

Definition empty_tables : title_tables :=
  {| selection_screen_table := []; detail_processing_table := [];
     valid_datasets_table := []; country_info_table := [];
     currency_t500c_table := []; currency_t001_table := [];
     error_handling_table := []; testing_requirements_table := [];
     title_assumptions := []; title_related_documents := [];
     title_reviewers := []; title_version_history := [] |}.

(** The values of [current_design_subsection]. *)
Inductive design_subsection : Type :=
| selection_screen
| detail_processing
| valid_datasets
| country_info_sub
| currency_t500c_sub
| currency_t001_sub.

(** The values of [current_section]. *)
Inductive list_section : Type :=
| sec_assumptions
| sec_related_documents
| sec_reviewers
| sec_version_history.

(** The variables of the loop. *)
Record extractor_state : Type := {
  tables : title_tables;
  current_list : option list_section;
  in_general_requirements : bool;
  in_existing_sap_objects : bool;
  in_design_section : bool;
  in_error_handling : bool;
  in_testing_requirements : bool;
  in_design_changes : bool;
  current_design_subsection : option design_subsection
}.

Definition initial_extractor_state : extractor_state :=
  {| tables := empty_tables; current_list := None;
     in_general_requirements := false; in_existing_sap_objects := false;
     in_design_section := false; in_error_handling := false;
     in_testing_requirements := false; in_design_changes := false;
     current_design_subsection := None |}.

(** The five flags of the major section, set together; [current_section]
    is reset. *)
Definition enter_section (st : extractor_state) (general sap design error testing : bool)
  : extractor_state :=
  {| tables := tables st; current_list := None;
     in_general_requirements := general; in_existing_sap_objects := sap;
     in_design_section := design; in_error_handling := error;
     in_testing_requirements := testing; in_design_changes := in_design_changes st;
     current_design_subsection := current_design_subsection st |}.

Definition with_design_changes (st : extractor_state) : extractor_state :=
  {| tables := tables st; current_list := None;
     in_general_requirements := false; in_existing_sap_objects := false;
     in_design_section := false; in_error_handling := false;
     in_testing_requirements := false; in_design_changes := true;
     current_design_subsection := current_design_subsection st |}.

Definition with_subsection (st : extractor_state) (sub : option design_subsection)
  : extractor_state :=
  {| tables := tables st; current_list := current_list st;
     in_general_requirements := in_general_requirements st;
     in_existing_sap_objects := in_existing_sap_objects st;
     in_design_section := in_design_section st;
     in_error_handling := in_error_handling st;
     in_testing_requirements := in_testing_requirements st;
     in_design_changes := in_design_changes st;
     current_design_subsection := sub |}.

Definition with_current_list (st : extractor_state) (sec : option list_section)
  : extractor_state :=
  {| tables := tables st; current_list := sec;
     in_general_requirements := in_general_requirements st;
     in_existing_sap_objects := in_existing_sap_objects st;
     in_design_section := in_design_section st;
     in_error_handling := in_error_handling st;
     in_testing_requirements := in_testing_requirements st;
     in_design_changes := in_design_changes st;
     current_design_subsection := current_design_subsection st |}.

Definition with_tables (st : extractor_state) (t : title_tables) : extractor_state :=
  {| tables := t; current_list := current_list st;
     in_general_requirements := in_general_requirements st;
     in_existing_sap_objects := in_existing_sap_objects st;
     in_design_section := in_design_section st;
     in_error_handling := in_error_handling st;
     in_testing_requirements := in_testing_requirements st;
     in_design_changes := in_design_changes st;
     current_design_subsection := current_design_subsection st |}.

(** [title_info[key].append(x)], one helper per list. *)
Definition add_selection_screen_table (x : str_dict) (t : title_tables) : title_tables :=
  {| selection_screen_table := selection_screen_table t ++ [x];
     detail_processing_table := detail_processing_table t;
     valid_datasets_table := valid_datasets_table t;
     country_info_table := country_info_table t;
     currency_t500c_table := currency_t500c_table t;
     currency_t001_table := currency_t001_table t;
     error_handling_table := error_handling_table t;
     testing_requirements_table := testing_requirements_table t;
     title_assumptions := title_assumptions t;
     title_related_documents := title_related_documents t;
     title_reviewers := title_reviewers t;
     title_version_history := title_version_history t |}.

Definition add_detail_processing_table (x : str_dict) (t : title_tables) : title_tables :=
  {| selection_screen_table := selection_screen_table t;
     detail_processing_table := detail_processing_table t ++ [x];
     valid_datasets_table := valid_datasets_table t;
     country_info_table := country_info_table t;
     currency_t500c_table := currency_t500c_table t;
     currency_t001_table := currency_t001_table t;
     error_handling_table := error_handling_table t;
     testing_requirements_table := testing_requirements_table t;
     title_assumptions := title_assumptions t;
     title_related_documents := title_related_documents t;
     title_reviewers := title_reviewers t;
     title_version_history := title_version_history t |}.

Definition add_valid_datasets_table (x : str_dict) (t : title_tables) : title_tables :=
  {| selection_screen_table := selection_screen_table t;
     detail_processing_table := detail_processing_table t;
     valid_datasets_table := valid_datasets_table t ++ [x];
     country_info_table := country_info_table t;
     currency_t500c_table := currency_t500c_table t;
     currency_t001_table := currency_t001_table t;
     error_handling_table := error_handling_table t;
     testing_requirements_table := testing_requirements_table t;
     title_assumptions := title_assumptions t;
     title_related_documents := title_related_documents t;
     title_reviewers := title_reviewers t;
     title_version_history := title_version_history t |}.

Definition add_country_info_table (x : str_dict) (t : title_tables) : title_tables :=
  {| selection_screen_table := selection_screen_table t;
     detail_processing_table := detail_processing_table t;
     valid_datasets_table := valid_datasets_table t;
     country_info_table := country_info_table t ++ [x];
     currency_t500c_table := currency_t500c_table t;
     currency_t001_table := currency_t001_table t;
     error_handling_table := error_handling_table t;
     testing_requirements_table := testing_requirements_table t;
     title_assumptions := title_assumptions t;
     title_related_documents := title_related_documents t;
     title_reviewers := title_reviewers t;
     title_version_history := title_version_history t |}.

Definition add_currency_t500c_table (x : str_dict) (t : title_tables) : title_tables :=
  {| selection_screen_table := selection_screen_table t;
     detail_processing_table := detail_processing_table t;
     valid_datasets_table := valid_datasets_table t;
     country_info_table := country_info_table t;
     currency_t500c_table := currency_t500c_table t ++ [x];
     currency_t001_table := currency_t001_table t;
     error_handling_table := error_handling_table t;
     testing_requirements_table := testing_requirements_table t;
     title_assumptions := title_assumptions t;
     title_related_documents := title_related_documents t;
     title_reviewers := title_reviewers t;
     title_version_history := title_version_history t |}.

Definition add_currency_t001_table (x : str_dict) (t : title_tables) : title_tables :=
  {| selection_screen_table := selection_screen_table t;
     detail_processing_table := detail_processing_table t;
     valid_datasets_table := valid_datasets_table t;
     country_info_table := country_info_table t;
     currency_t500c_table := currency_t500c_table t;
     currency_t001_table := currency_t001_table t ++ [x];
     error_handling_table := error_handling_table t;
     testing_requirements_table := testing_requirements_table t;
     title_assumptions := title_assumptions t;
     title_related_documents := title_related_documents t;
     title_reviewers := title_reviewers t;
     title_version_history := title_version_history t |}.

Definition add_error_handling_table (x : str_dict) (t : title_tables) : title_tables :=
  {| selection_screen_table := selection_screen_table t;
     detail_processing_table := detail_processing_table t;
     valid_datasets_table := valid_datasets_table t;
     country_info_table := country_info_table t;
     currency_t500c_table := currency_t500c_table t;
     currency_t001_table := currency_t001_table t;
     error_handling_table := error_handling_table t ++ [x];
     testing_requirements_table := testing_requirements_table t;
     title_assumptions := title_assumptions t;
     title_related_documents := title_related_documents t;
     title_reviewers := title_reviewers t;
     title_version_history := title_version_history t |}.

Definition add_testing_requirements_table (x : str_dict) (t : title_tables) : title_tables :=
  {| selection_screen_table := selection_screen_table t;
     detail_processing_table := detail_processing_table t;
     valid_datasets_table := valid_datasets_table t;
     country_info_table := country_info_table t;
     currency_t500c_table := currency_t500c_table t;
     currency_t001_table := currency_t001_table t;
     error_handling_table := error_handling_table t;
     testing_requirements_table := testing_requirements_table t ++ [x];
     title_assumptions := title_assumptions t;
     title_related_documents := title_related_documents t;
     title_reviewers := title_reviewers t;
     title_version_history := title_version_history t |}.

Definition add_title_assumptions (x : string) (t : title_tables) : title_tables :=
  {| selection_screen_table := selection_screen_table t;
     detail_processing_table := detail_processing_table t;
     valid_datasets_table := valid_datasets_table t;
     country_info_table := country_info_table t;
     currency_t500c_table := currency_t500c_table t;
     currency_t001_table := currency_t001_table t;
     error_handling_table := error_handling_table t;
     testing_requirements_table := testing_requirements_table t;
     title_assumptions := title_assumptions t ++ [x];
     title_related_documents := title_related_documents t;
     title_reviewers := title_reviewers t;
     title_version_history := title_version_history t |}.

Definition add_title_related_documents (x : string) (t : title_tables) : title_tables :=
  {| selection_screen_table := selection_screen_table t;
     detail_processing_table := detail_processing_table t;
     valid_datasets_table := valid_datasets_table t;
     country_info_table := country_info_table t;
     currency_t500c_table := currency_t500c_table t;
     currency_t001_table := currency_t001_table t;
     error_handling_table := error_handling_table t;
     testing_requirements_table := testing_requirements_table t;
     title_assumptions := title_assumptions t;
     title_related_documents := title_related_documents t ++ [x];
     title_reviewers := title_reviewers t;
     title_version_history := title_version_history t |}.

Definition add_title_reviewers (x : string) (t : title_tables) : title_tables :=
  {| selection_screen_table := selection_screen_table t;
     detail_processing_table := detail_processing_table t;
     valid_datasets_table := valid_datasets_table t;
     country_info_table := country_info_table t;
     currency_t500c_table := currency_t500c_table t;
     currency_t001_table := currency_t001_table t;
     error_handling_table := error_handling_table t;
     testing_requirements_table := testing_requirements_table t;
     title_assumptions := title_assumptions t;
     title_related_documents := title_related_documents t;
     title_reviewers := title_reviewers t ++ [x];
     title_version_history := title_version_history t |}.

Definition add_title_version_history (x : string) (t : title_tables) : title_tables :=
  {| selection_screen_table := selection_screen_table t;
     detail_processing_table := detail_processing_table t;
     valid_datasets_table := valid_datasets_table t;
     country_info_table := country_info_table t;
     currency_t500c_table := currency_t500c_table t;
     currency_t001_table := currency_t001_table t;
     error_handling_table := error_handling_table t;
     testing_requirements_table := testing_requirements_table t;
     title_assumptions := title_assumptions t;
     title_related_documents := title_related_documents t;
     title_reviewers := title_reviewers t;
     title_version_history := title_version_history t ++ [x] |}.

(** The subsection a level-3 heading of the design section opens. *)
Definition subsection_of (line : string) : option design_subsection :=
  let header := lower (strip (replace "###" "" line)) in
  if contains "selection screen" header then Some selection_screen
  else if contains "detail processing" header then Some detail_processing
  else if contains "Detail Process Only valid datasets" line then Some valid_datasets
  else if contains "Form Get_Country_Info" line then Some country_info_sub
  else if contains "Form Get_Currency_T500C" line then Some currency_t500c_sub
  else if contains "Form Get_Currency_T001" line then Some currency_t001_sub
  else None.

(** [any(word in cell for cell in line.split('|'))] *)
Definition any_cell_contains (word line : string) : bool :=
  existsb (contains word) (split "|" line).

(** [[cell.strip() for cell in line.split('|')[1:-1]]] *)
Definition cells_of (line : string) : list string :=
  map strip (middle (split "|" line)).

(** A row of a table of the design section. *)
Definition design_table_row (sub : design_subsection) (line : string)
    (t : title_tables) : title_tables :=
  let cells := cells_of line in
  match sub with
  | selection_screen =>
      if negb (any_cell_contains "Parameter" line) && Nat.leb 6 (length cells) then
        add_selection_screen_table
          [ ("parameter", item cells 0); ("type", item cells 1);
            ("description", item cells 2); ("mandatory", item cells 3);
            ("select_option", item cells 4); ("no_intervals", item cells 5) ] t
      else t
  | detail_processing =>
      if negb (any_cell_contains "Field Name" line) && Nat.leb 5 (length cells) then
        add_detail_processing_table
          [ ("field_name", item cells 0); ("technical_field", item cells 1);
            ("source_table", item cells 2); ("processing_logic", item cells 3);
            ("processing_type", item cells 4) ] t
      else t
  | _ =>
      if negb (any_cell_contains "Data" line) && Nat.leb 2 (length cells) then
        let entry := [ ("data", item cells 0); ("condition", item cells 1) ] in
        match sub with
        | valid_datasets => add_valid_datasets_table entry t
        | country_info_sub => add_country_info_table entry t
        | currency_t500c_sub => add_currency_t500c_table entry t
        | currency_t001_sub => add_currency_t001_table entry t
        | _ => t
        end
      else t
  end.

Definition error_table_row (line : string) (t : title_tables) : title_tables :=
  let cells := cells_of line in
  if negb (any_cell_contains "Error Description" line) && Nat.leb 5 (length cells) then
    add_error_handling_table
      [ ("no", item cells 0); ("error_description", item cells 1);
        ("resolution", item cells 2); ("error_code", item cells 3);
        ("severity", item cells 4) ] t
  else t.

Definition testing_table_row (line : string) (t : title_tables) : title_tables :=
  let cells := cells_of line in
  if negb (any_cell_contains "Test Condition" line) && Nat.leb 5 (length cells) then
    add_testing_requirements_table
      [ ("no", item cells 0); ("test_condition", item cells 1);
        ("expected_result", item cells 2); ("test_data", item cells 3);
        ("priority", item cells 4) ] t
  else t.

(** A line that starts with a pipe and has no run of three dashes. *)
Definition is_table_row (line : string) : bool :=
  startswith "|" line && negb (contains "---" line).

Definition is_assumptions (o : option list_section) : bool :=
  match o with Some sec_assumptions => true | _ => false end.

(** An assumption of the general requirements: a list item while the
    assumptions are the current list. *)
Definition read_assumption (st : extractor_state) (line : string) : extractor_state :=
  if in_general_requirements st && is_assumptions (current_list st)
     && startswith "- " line
  then with_tables st (add_title_assumptions (strip (replace "- " "" line)) (tables st))
  else st.

Definition read_design_row (st : extractor_state) (line : string) : extractor_state :=
  match current_design_subsection st with
  | Some sub =>
      if in_design_section st && is_table_row line
      then with_tables st (design_table_row sub line (tables st))
      else st
  | None => st
  end.

Definition read_error_row (st : extractor_state) (line : string) : extractor_state :=
  if in_error_handling st && is_table_row line
  then with_tables st (error_table_row line (tables st)) else st.

Definition read_testing_row (st : extractor_state) (line : string) : extractor_state :=
  if in_testing_requirements st && is_table_row line
  then with_tables st (testing_table_row line (tables st)) else st.

(** The lists of the document information: which one is current, and its
    items. *)
Definition track_lists (st : extractor_state) (line : string) : extractor_state :=
  if contains "**Related Documents**:" line then
    with_current_list st (Some sec_related_documents)
  else if contains "**Reviewers**:" line then
    with_current_list st (Some sec_reviewers)
  else if contains "**Version History**:" line then
    with_current_list st (Some sec_version_history)
  else
    let st :=
      if startswith "##" line && negb (startswith "### " line)
         && negb (is_assumptions (current_list st))
      then with_current_list st None else st in
    if startswith "  - " line then
      let text := strip (replace "  - " "" line) in
      match current_list st with
      | Some sec_related_documents =>
          with_tables st (add_title_related_documents text (tables st))
      | Some sec_reviewers => with_tables st (add_title_reviewers text (tables st))
      | Some sec_version_history =>
          with_tables st (add_title_version_history text (tables st))
      | _ => st
      end
    else st.

(** The part of a turn after the section and subsection tracking: the
    assumptions, the tables, the lists, in the order of the code. *)
Definition extract_content (st : extractor_state) (line : string) : extractor_state :=
  if in_general_requirements st && contains "**Assumptions**:" line then
    with_current_list st (Some sec_assumptions)
  else
    track_lists
      (read_testing_row
         (read_error_row
            (read_design_row (read_assumption st line) line) line) line) line.

(** One turn of the loop of [extract_title_info], on the line as split. *)
Definition extract_line (st : extractor_state) (raw : string) : extractor_state :=
  let line := strip raw in
  let up := upper line in
  let h2 := startswith "## " line in
  if h2 && (contains "GENERAL REQUIREMENTS" up || contains "PERSYARATAN UMUM" up
            || contains "INFORMASI DOKUMEN" up) then
    enter_section st true false false false false
  else if h2 && (contains "EXISTING SAP OBJECTS" up || contains "OBJEK SAP EXISTING" up) then
    enter_section st false true false false false
  else if h2 && (contains "DESIGN" up || contains "DESAIN" up) then
    enter_section st false false true false false
  else if h2 && (contains "ERROR HANDLING" up || contains "PENANGANAN ERROR" up) then
    enter_section st false false false true false
  else if h2 && (contains "TESTING REQUIREMENTS" up
                 || contains "PERSYARATAN PENGUJIAN" up) then
    enter_section st false false false false true
  else if h2 && (contains "DESIGN CHANGE" up || contains "PERUBAHAN DESAIN" up) then
    with_design_changes st
  else
    let st :=
      if h2 && negb (startswith "### " line)
      then enter_section st false false false false false else st in
    if in_design_section st && startswith "### " line then
      with_subsection st (subsection_of line)
    else extract_content st line.

(** The tables of [extract_title_info()] for a Markdown text. *)
Definition extract_tables (markdown_content : string) : title_tables :=
  tables (fold_left extract_line (split LF markdown_content) initial_extractor_state).

(** [create_data_condition_table_data]: the rows and the headers of a
    Data/Kondisi table of the Word document. *)
Definition create_data_condition_table_data (table_rows : list str_dict)
  : list (list string) * list string :=
  match table_rows with
  | [] => ([], [])
  | _ =>
      (map (fun row => [ default "N/A" (assoc_get "data" row);
                         default "N/A" (assoc_get "condition" row) ]) table_rows,
       ["Data"; "Kondisi"])
  end.

(** The four Data/Kondisi tables. *)
Definition data_tables (t : title_tables) : list (list str_dict) :=
  [ valid_datasets_table t; country_info_table t;
    currency_t500c_table t; currency_t001_table t ].

(** An entry of a Data/Kondisi table none of whose two texts contains
    Data. *)
Definition entry_without_Data (entry : str_dict) : Prop :=
  exists label cond,
    entry = [("data", label); ("condition", cond)]
    /\ contains "Data" label = false
    /\ contains "Data" cond = false.

(** Every entry of the four tables is without Data. *)
Definition clean (t : title_tables) : Prop :=
  Forall (Forall entry_without_Data) (data_tables t).

(* ===================================================================== *)
(** ** Word documents as python-docx holds them *)
(* ===================================================================== *)

(** [s.endswith(suffix)] *)
Fixpoint endswith (suffix s : string) : bool :=
  String.eqb s suffix
  || match s with
     | "" => false
     | String _ rest => endswith suffix rest
     end.

(** [len(s)]: the characters of the text, one for each byte that does not
    continue a UTF-8 sequence. *)
Fixpoint len (s : string) : nat :=
  match s with
  | "" => 0
  | String c rest => (if continues c then 0 else 1) + len rest
  end.

(** [bool(s)] *)
Definition str_truthy (s : string) : bool := negb (String.eqb s "").

(** [bool(d.get(key))] on a [Dict[str, str]] *)
Definition get_truthy (key : string) (d : str_dict) : bool :=
  match assoc_get key d with
  | Some s => str_truthy s
  | None => false
  end.

(** [enumerate(items)] *)
Definition enumerate {A} (items : list A) : list (nat * A) :=
  combine (seq 0 (length items)) items.

(** The index of the first item a test accepts. *)
Fixpoint first_index {A} (test : A -> bool) (l : list A) : option nat :=
  match l with
  | [] => None
  | x :: rest => if test x then Some 0 else S <$> first_index test rest
  end.

(** The font of a run; a property the run inherits is [None]. Sizes are in
    points, colours are RGB values. *)
Record Font : Type := {
  font_name : option string;
  font_size : option Z;
  font_bold : option bool;
  font_italic : option bool;
  font_color : option string
}.

Definition plain : Font :=
  {| font_name := None; font_size := None; font_bold := None;
     font_italic := None; font_color := None |}.

(** A run of text; a line break is a run whose text is the line feed. *)
Record Run : Type := {
  run_text : string;
  run_font : Font
}.

(** A paragraph: its properties (here the alignment) and its runs. *)
Record Paragraph : Type := {
  alignment : option string;
  runs : list Run
}.

(** [paragraph.text] *)
Definition paragraph_text (p : Paragraph) : string :=
  join "" (map run_text (runs p)).

(** [paragraph.clear()]: the runs go, the properties stay. *)
Definition clear (p : Paragraph) : Paragraph :=
  {| alignment := alignment p; runs := [] |}.

(** [paragraph.add_run(text)] with the font set afterwards. *)
Definition add_run (text : string) (f : Font) (p : Paragraph) : Paragraph :=
  {| alignment := alignment p;
     runs := runs p ++ [{| run_text := text; run_font := f |}] |}.

(** [paragraph.text = text] *)
Definition set_text (text : string) (p : Paragraph) : Paragraph :=
  add_run text plain (clear p).

(** A cell of a table: its paragraphs, and whether the four borders have
    been set. *)
Record Cell : Type := {
  cell_paragraphs : list Paragraph;
  cell_borders : bool
}.

(** [cell.text] *)
Definition cell_text (c : Cell) : string :=
  join nl (map paragraph_text (cell_paragraphs c)).

(** A table: widths are in tenths of an inch, [None] for the share of the
    page [add_table] gives a column. The cells of a row are different
    cells: no cell spans two columns. *)
Record Table : Type := {
  table_style : option string;
  table_alignment : option string;
  column_widths : list (option Z);
  table_rows : list (list Cell)
}.

(** The body of a document is a sequence of paragraphs and tables. *)
Inductive Block : Type :=
| BParagraph (p : Paragraph)
| BTable (t : Table).

(** A document: the names of its styles and its body. *)
Record Document : Type := {
  styles : list string;
  body : list Block
}.

Definition with_body (b : list Block) (doc : Document) : Document :=
  {| styles := styles doc; body := b |}.

(** [doc.paragraphs] and [doc.tables]: the paragraphs and tables of the
    body, in order. *)
Fixpoint doc_paragraphs (b : list Block) : list Paragraph :=
  match b with
  | [] => []
  | BParagraph p :: rest => p :: doc_paragraphs rest
  | BTable _ :: rest => doc_paragraphs rest
  end.

Fixpoint doc_tables (b : list Block) : list Table :=
  match b with
  | [] => []
  | BParagraph _ :: rest => doc_tables rest
  | BTable t :: rest => t :: doc_tables rest
  end.

(** A change made through [doc.paragraphs[k]]. *)
Fixpoint alter_paragraph (f : Paragraph -> Paragraph) (k : nat) (b : list Block)
  : list Block :=
  match b with
  | [] => []
  | BTable t :: rest => BTable t :: alter_paragraph f k rest
  | BParagraph p :: rest =>
      match k with
      | O => BParagraph (f p) :: rest
      | S k' => BParagraph p :: alter_paragraph f k' rest
      end
  end.

(** A change made to each paragraph of [doc.paragraphs] in turn. *)
Definition map_paragraphs (f : Paragraph -> Paragraph) (b : list Block) : list Block :=
  map (fun x => match x with BParagraph p => BParagraph (f p) | BTable t => BTable t end) b.

(** A change made to each table of [doc.tables] in turn. *)
Definition map_tables (f : Table -> Table) (b : list Block) : list Block :=
  map (fun x => match x with BParagraph p => BParagraph p | BTable t => BTable (f t) end) b.

(** The table put right after [doc.paragraphs[k]]. *)
Fixpoint insert_after_paragraph (k : nat) (t : Table) (b : list Block) : list Block :=
  match b with
  | [] => []
  | BTable t' :: rest => BTable t' :: insert_after_paragraph k t rest
  | BParagraph p :: rest =>
      match k with
      | O => BParagraph p :: BTable t :: rest
      | S k' => BParagraph p :: insert_after_paragraph k' t rest
      end
  end.

(** [doc.paragraphs[k]._element.addnext(table._element)] for the table
    [doc.add_table] has put at the end of the body: the table moves. *)
Definition addnext (k : nat) (b : list Block) : list Block :=
  match last b with
  | Some (BTable t) => insert_after_paragraph k t (removelast b)
  | _ => b
  end.

(** The first item a change applies to is changed, the others are left. *)
Fixpoint first_update {A} (f : A -> option A) (l : list A) : option (list A) :=
  match l with
  | [] => None
  | x :: rest =>
      match f x with
      | Some y => Some (y :: rest)
      | None => cons x <$> first_update f rest
      end
  end.

(** The number of rows of each table of the body. *)
Definition row_counts (b : list Block) : list nat :=
  map (fun t => length (table_rows t)) (doc_tables b).

(* ===================================================================== *)
(** ** WordTableManager *)
(* ===================================================================== *)

(** A cell as [add_table] and [add_row] make it: one empty paragraph. *)
Definition empty_cell : Cell :=
  {| cell_paragraphs := [{| alignment := None; runs := [] |}];
     cell_borders := false |}.

(** [doc.add_table(rows=1, cols=cols)]: the table goes to the end of the
    body. *)
Definition new_table (cols : nat) : Table :=
  {| table_style := None; table_alignment := None;
     column_widths := repeat None cols;
     table_rows := [repeat empty_cell cols] |}.

Definition add_table (cols : nat) (doc : Document) : Document :=
  with_body (body doc ++ [BTable (new_table cols)]) doc.

(** [cell.text = text], then the alignment of its paragraph and the font of
    its run. *)
Definition text_cell (align : string) (f : Font) (text : string) : Cell :=
  {| cell_paragraphs :=
       [{| alignment := Some align;
           runs := [{| run_text := text; run_font := f |}] |}];
     cell_borders := false |}.

Definition header_font : Font :=
  {| font_name := Some "Arial"; font_size := Some 10%Z; font_bold := Some true;
     font_italic := None; font_color := None |}.

Definition data_font : Font :=
  {| font_name := Some "Arial"; font_size := Some 9%Z; font_bold := None;
     font_italic := None; font_color := None |}.

(** The widths by the number of columns and the headers. *)
Definition widths (headers : list string) : list (option Z) :=
  match length headers with
  | 3 => if contains "Nama Field" (item headers 0)
         then map Some [20; 15; 40]%Z
         else map Some [15; 30; 30]%Z
  | 6 => map Some [12; 10; 20; 8; 10; 8]%Z
  | 2 => map Some [35; 40]%Z
  | 4 => map Some [5; 30; 30; 10]%Z
  | 5 => if contains "KONDISI PENGUJIAN" (item headers 1)
         then map Some [4; 28; 28; 15; 8]%Z
         else map Some [5; 25; 25; 10; 8]%Z
  | n => repeat None n
  end.

(** The cells of the row added for [row_data]: the values beyond the last
    column are left out, the cells beyond the last value stay empty. *)
Definition data_row (cols : nat) (row_data : list string) : list Cell :=
  map (text_cell "LEFT" data_font) (take cols row_data)
  ++ repeat empty_cell (cols - length row_data).

Definition with_borders (c : Cell) : Cell :=
  {| cell_paragraphs := cell_paragraphs c; cell_borders := true |}.

(** The table [create_bordered_table] has built when it returns. *)
Definition bordered_table (data : list (list string)) (headers : list string) : Table :=
  {| table_style := Some "Table Grid";
     table_alignment := Some "LEFT";
     column_widths := widths headers;
     table_rows :=
       map (map with_borders)
         (map (text_cell "CENTER" header_font) headers
          :: map (data_row (length headers)) data) |}.

(** [WordTableManager.create_bordered_table(doc, data, headers)]: [None]
    without data or headers; otherwise the table is added to the end of the
    body, and naming a style the document does not have raises [KeyError]
    with the new table already there. *)
Definition create_bordered_table (doc : Document) (data : list (list string))
    (headers : list string) : Document * exc (option Table) :=
  if is_nil data || is_nil headers then (doc, Ok None)
  else
    let doc1 := add_table (length headers) doc in
    if existsb (String.eqb "Table Grid") (styles doc) then
      let t := bordered_table data headers in
      (with_body (body doc ++ [BTable t]) doc, Ok (Some t))
    else (doc1, raise KeyError).

(* ===================================================================== *)
(** ** TitlePageWordGenerator: the Word template filler *)
(* ===================================================================== *)

(** The title information: [info] holds the entries whose value is a text,
    [info_tables] the entries whose value is a list. *)
Record title_info : Type := {
  info : str_dict;
  info_tables : title_tables
}.

(** [title_info.get(key, dflt)] for a text. *)
Definition title_get (ti : title_info) (key dflt : string) : string :=
  default dflt (assoc_get key (info ti)).

(** [item.get(key, dflt)] *)
Definition item_get (it : str_dict) (key dflt : string) : string :=
  default dflt (assoc_get key it).

Definition create_selection_screen_table_data (selection_screen_table : list str_dict)
  : list (list string) * list string :=
  if is_nil selection_screen_table then ([], [])
  else
    (map (fun it =>
            [item_get it "parameter" "N/A";
             item_get it "type" "N/A";
             item_get it "description" "N/A";
             item_get it "mandatory" "No";
             item_get it "select_option" "No";
             item_get it "no_intervals" "No"])
         selection_screen_table,
     ["Parameter"; "Type"; "Description"; "Mandatory"; "Select-Option"; "No Intervals"]).

Definition keterangan (it : str_dict) : string :=
  let keterangan_parts :=
    (if get_truthy "source_table" it
     then ["Ambil " +:+ item_get it "technical_field" "N/A" +:+ " dari tabel "
           +:+ item_get it "source_table" ""]
     else [])
    ++ (if get_truthy "processing_logic" it
           && negb (String.eqb (strip (item_get it "processing_logic" "")) "N/A")
        then
          let logic := strip (item_get it "processing_logic" "") in
          if str_truthy logic then [logic] else []
        else [])
    ++ (if get_truthy "processing_type" it
           && negb (String.eqb (item_get it "processing_type" "") "DIRECT")
        then ["Processing Type: " +:+ item_get it "processing_type" ""]
        else [])
  in
  if is_nil keterangan_parts then "N/A" else join ". " keterangan_parts.

Definition create_detail_processing_table_data (detail_processing_table : list str_dict)
  : list (list string) * list string :=
  if is_nil detail_processing_table then ([], [])
  else
    (map (fun it =>
            [item_get it "field_name" "N/A";
             item_get it "technical_field" "N/A";
             keterangan it])
         detail_processing_table,
     ["Nama Field"; "Technical Field"; "Keterangan"]).

(** The number [len(data) + 1] of a row is its place in the list, from 1. *)
Definition create_error_handling_table_data (error_handling_table : list str_dict)
  : list (list string) * list string :=
  if is_nil error_handling_table then ([], [])
  else
    (map (fun nit =>
            let it := snd nit in
            let error_code := item_get it "error_code" "N/A" in
            let severity := item_get it "severity" "ERROR" in
            let code_severity :=
              if negb (String.eqb error_code "N/A")
              then error_code +:+ " (" +:+ severity +:+ ")"
              else "(" +:+ severity +:+ ")" in
            [item_get it "no" (str_of_nat (fst nit));
             item_get it "error_description" "N/A";
             item_get it "resolution" "N/A";
             code_severity])
         (enumerate1 error_handling_table),
     ["No"; "Potensi Error"; "Penyelesaian"; "Kode Error & Severity"]).

Definition create_testing_requirements_table_data
    (testing_requirements_table : list str_dict) : list (list string) * list string :=
  if is_nil testing_requirements_table then ([], [])
  else
    (map (fun nit =>
            let it := snd nit in
            [item_get it "no" (str_of_nat (fst nit));
             item_get it "test_condition" "N/A";
             item_get it "expected_result" "N/A";
             item_get it "test_data" "N/A";
             upper (item_get it "priority" "MEDIUM")])
         (enumerate1 testing_requirements_table),
     ["No"; "KONDISI PENGUJIAN"; "HASIL YANG DIHARAPKAN"; "DATA UJI"; "PRIORITAS"]).

(** The headers [create_data_condition_table_data] returns with the rows. *)
Definition data_condition_headers (table_rows : list str_dict) : list string :=
  if is_nil table_rows then [] else ["Data"; "Kondisi"].

Definition generate_testing_requirements_content_text
    (testing_requirements_table : list str_dict) : string :=
  if is_nil testing_requirements_table
  then "Melakukan pengujian menyeluruh terhadap semua fungsi dan fitur program untuk memastikan kesesuaian dengan spesifikasi yang telah ditentukan."
  else "Pengujian harus dilakukan pada environment development dengan data representatif yang mencakup berbagai skenario bisnis.".

(** The properties of the first run that [replace_text_preserve_formatting]
    gives to the new runs: those whose value is true in Python. *)
Definition preserved (f : Font) : Font :=
  {| font_name := match font_name f with
                  | Some "" => None
                  | o => o
                  end;
     font_size := match font_size f with
                  | Some 0%Z => None
                  | o => o
                  end;
     font_bold := match font_bold f with
                  | Some true => Some true
                  | _ => None
                  end;
     font_italic := match font_italic f with
                    | Some true => Some true
                    | _ => None
                    end;
     font_color := font_color f |}.

(** The runs for the lines of a text: a line break before each line but the
    first. *)
Definition add_lines (lines : list string) (f : Font) (p : Paragraph) : Paragraph :=
  fold_left
    (fun p il =>
       add_run (snd il) f
         (if Nat.ltb 0 (fst il) then add_run nl plain p else p))
    (enumerate lines) p.

(** [replace_text_preserve_formatting(paragraph, old_text, new_text)]: the
    paragraph afterwards and the value returned. [old_text] is never
    empty. *)
Definition replace_text_preserve_formatting (p : Paragraph) (old_text new_text : string)
  : Paragraph * bool :=
  if contains old_text (paragraph_text p) then
    let new_full_text := replace old_text new_text (paragraph_text p) in
    (match runs p with
     | first_run :: _ =>
         let f := preserved (run_font first_run) in
         if has_char LF new_full_text
         then add_lines (split LF new_full_text) f (clear p)
         else add_run new_full_text f (clear p)
     | [] => set_text new_full_text p
     end, true)
  else (p, false).

(** The call where the value returned is dropped. *)
Definition replaced (old_text new_text : string) (p : Paragraph) : Paragraph :=
  fst (replace_text_preserve_formatting p old_text new_text).

(** The loop over [replacements.items()] on one paragraph. *)
Definition apply_replacements (replacements : list (string * string)) (p : Paragraph)
  : Paragraph :=
  fold_left
    (fun p on =>
       if contains (fst on) (paragraph_text p) then replaced (fst on) (snd on) p
       else p)
    replacements p.

Definition title_font : Font :=
  {| font_name := Some "Arial"; font_size := Some 12%Z; font_bold := Some true;
     font_italic := None; font_color := None |}.

(** The anchor paragraph cleared, then the title if there is one. *)
Definition titled (title : option string) (p : Paragraph) : Paragraph :=
  match title with
  | Some t => if str_truthy t then add_run t title_font (clear p) else clear p
  | None => clear p
  end.

(** The first loop of [find_and_insert_table_after_text], over the indexes
    [ks] of [doc.paragraphs] still to visit: the document afterwards, and
    [inserted] or the exception raised. *)
Fixpoint insert_after_text (search_text : string) (table_data : list (list string))
    (headers : list string) (title : option string) (ks : list nat) (doc : Document)
  : Document * exc bool :=
  match ks with
  | [] => (doc, Ok false)
  | k :: rest =>
      match doc_paragraphs (body doc) !! k with
      | Some p =>
          if contains search_text (paragraph_text p) then
            let doc1 := with_body (alter_paragraph (titled title) k (body doc)) doc in
            match create_bordered_table doc1 table_data headers with
            | (doc2, Ok (Some _)) => (with_body (addnext k (body doc2)) doc2, Ok true)
            | (doc2, Ok None) =>
                insert_after_text search_text table_data headers title rest doc2
            | (doc2, Err e) => (doc2, Err e)
            end
          else insert_after_text search_text table_data headers title rest doc
      | None => insert_after_text search_text table_data headers title rest doc
      end
  end.

(** The summary written into a table cell that holds the anchor. *)
Definition summary_text (title : option string) (table_data : list (list string)) : string :=
  match title with
  | Some t =>
      if str_truthy t then t +:+ ": " +:+ str_of_nat (length table_data) +:+ " items"
      else "Table with " +:+ str_of_nat (length table_data) +:+ " rows"
  | None => "Table with " +:+ str_of_nat (length table_data) +:+ " rows"
  end.

(** The second loop: the first paragraph of a cell of a table of the body
    that holds the anchor gets the summary. *)
Definition summarize_paragraph (search_text summary : string) (p : Paragraph)
  : option Paragraph :=
  if contains search_text (paragraph_text p) then Some (set_text summary (clear p))
  else None.

Definition summarize_cell (search_text summary : string) (c : Cell) : option Cell :=
  (fun ps => {| cell_paragraphs := ps; cell_borders := cell_borders c |})
    <$> first_update (summarize_paragraph search_text summary) (cell_paragraphs c).

Definition summarize_table (search_text summary : string) (t : Table) : option Table :=
  (fun rs => {| table_style := table_style t; table_alignment := table_alignment t;
                column_widths := column_widths t; table_rows := rs |})
    <$> first_update (first_update (summarize_cell search_text summary)) (table_rows t).

Definition summarize_block (search_text summary : string) (x : Block) : option Block :=
  match x with
  | BParagraph _ => None
  | BTable t => BTable <$> summarize_table search_text summary t
  end.

(** [find_and_insert_table_after_text(doc, search_text, table_data, headers,
    title)]: the document afterwards and the value returned; an exception
    is logged and gives [False]. *)
Definition find_and_insert_table_after_text (doc : Document) (search_text : string)
    (table_data : list (list string)) (headers : list string) (title : option string)
  : Document * bool :=
  match insert_after_text search_text table_data headers title
          (seq 0 (length (doc_paragraphs (body doc)))) doc with
  | (doc1, Ok true) => (doc1, true)
  | (doc1, Ok false) =>
      match first_update (summarize_block search_text (summary_text title table_data))
              (body doc1) with
      | Some b => (with_body b doc1, true)
      | None => (doc1, false)
      end
  | (doc1, Err _) => (doc1, false)
  end.

Definition cleanup_patterns : list string :=
  ["Prioritas Tinggi:";
   "Prioritas Menengah:";
   "Prioritas Rendah:";
   "User has authorization";
   "User does not have authorization";
   "Process RHR006_01";
   "Selection option s_lgart";
   "Infotype 0015";
   "Large dataset";
   "Employee has IT0015 record";
   "[*Masukkan kondisi fungsional";
   "**KONDISI PENGUJIAN**";
   "**HASIL YANG DIHARAPKAN**";
   "Persyaratan pengujian mencakup skenario";
   "skenario prioritas tinggi";
   "skenario prioritas menengah";
   "skenario prioritas rendah";
   "Detail kondisi pengujian tercantum";
   "authorization, security";
   "functional testing";
   "performance, edge cases"].

(** Whether [_cleanup_testing_paragraphs_aggressive] marks a paragraph. *)
Definition marked_for_cleanup (p : Paragraph) : bool :=
  let paragraph_text := strip (paragraph_text p) in
  existsb (fun pattern => contains pattern paragraph_text) cleanup_patterns
  || (Nat.ltb 50 (len paragraph_text)
      && existsb (fun word => contains word (lower paragraph_text))
           ["prioritas"; "skenario"; "authorization"; "functional"]).

(** [_cleanup_testing_paragraphs_aggressive(doc, start_index)]: the
    paragraphs marked in the window are cleared once the window has been
    read. *)
Definition _cleanup_testing_paragraphs_aggressive (start_index : nat) (b : list Block)
  : list Block :=
  let ps := doc_paragraphs b in
  let lo := start_index - 5 in
  let hi := Nat.min (start_index + 30) (length ps) in
  let paragraphs_to_clean :=
    List.filter (fun i => match ps !! i with
                          | Some p => marked_for_cleanup p
                          | None => false
                          end)
                (seq lo (hi - lo)) in
  fold_left (fun b i => alter_paragraph clear i b) paragraphs_to_clean b.

Definition search_patterns : list string :=
  ["{{persyaratan_pengujian}}";
   "Persyaratan pengujian yang harus dipenuhi:";
   "Prioritas Tinggi:";
   "[*Masukkan kondisi fungsional yang diperlukan untuk pengujian.*]";
   "**KONDISI PENGUJIAN**";
   "KONDISI PENGUJIAN";
   "Persyaratan pengujian mencakup skenario"].

(** The loop over the paragraphs for one pattern. *)
Fixpoint replace_testing_paragraph (pattern : string) (testing_data : list (list string))
    (testing_headers : list string) (ks : list nat) (doc : Document)
  : Document * exc bool :=
  match ks with
  | [] => (doc, Ok false)
  | k :: rest =>
      match doc_paragraphs (body doc) !! k with
      | Some p =>
          if contains pattern (paragraph_text p) then
            let doc1 := with_body (alter_paragraph clear k (body doc)) doc in
            match create_bordered_table doc1 testing_data testing_headers with
            | (doc2, Ok (Some _)) =>
                (with_body
                   (_cleanup_testing_paragraphs_aggressive k (addnext k (body doc2)))
                   doc2,
                 Ok true)
            | (doc2, Ok None) =>
                replace_testing_paragraph pattern testing_data testing_headers rest doc2
            | (doc2, Err e) => (doc2, Err e)
            end
          else replace_testing_paragraph pattern testing_data testing_headers rest doc
      | None => replace_testing_paragraph pattern testing_data testing_headers rest doc
      end
  end.

(** The loop over the patterns. *)
Fixpoint replace_testing_patterns (patterns : list string)
    (testing_data : list (list string)) (testing_headers : list string) (doc : Document)
  : Document * exc bool :=
  match patterns with
  | [] => (doc, Ok false)
  | pattern :: rest =>
      match replace_testing_paragraph pattern testing_data testing_headers
              (seq 0 (length (doc_paragraphs (body doc)))) doc with
      | (doc1, Ok true) => (doc1, Ok true)
      | (doc1, Ok false) =>
          replace_testing_patterns rest testing_data testing_headers doc1
      | (doc1, Err e) => (doc1, Err e)
      end
  end.

(** [find_and_replace_testing_section(doc, testing_data, testing_headers)] *)
Definition find_and_replace_testing_section (doc : Document)
    (testing_data : list (list string)) (testing_headers : list string)
  : Document * bool :=
  match replace_testing_patterns search_patterns testing_data testing_headers doc with
  | (doc1, Ok inserted) => (doc1, inserted)
  | (doc1, Err _) => (doc1, false)
  end.

Definition _generate_report_description (ti : title_info) : string :=
  let description_parts :=
    (if get_truthy "user_requirements" (info ti)
     then [title_get ti "user_requirements" ""] else [])
    ++ (if is_nil (selection_screen_table (info_tables ti)) then []
        else ["Report ini memiliki "
              +:+ str_of_nat (length (selection_screen_table (info_tables ti)))
              +:+ " parameter selection screen."])
    ++ (if is_nil (detail_processing_table (info_tables ti)) then []
        else ["Proses detail melibatkan "
              +:+ str_of_nat (length (detail_processing_table (info_tables ti)))
              +:+ " field utama."]) in
  join " "
    (if is_nil description_parts
     then ["Report ini dirancang untuk memenuhi kebutuhan bisnis sesuai spesifikasi yang telah ditentukan."]
     else description_parts).

Definition _generate_authorization_info (ti : title_info) : string :=
  let auth_parts :=
    List.filter
      (fun assumption =>
         contains "authorization" (lower assumption)
         || contains "authorizations" (lower assumption))
      (title_assumptions (info_tables ti)) in
  join nl
    (if is_nil auth_parts
     then ["User harus memiliki otorisasi yang sesuai untuk mengakses dan menjalankan report ini."]
     else auth_parts).

Definition _generate_design_constraints (ti : title_info) : string :=
  let constraints_parts :=
    (if get_truthy "sap_program_name" (info ti)
     then ["Report harus kompatibel dengan program SAP "
           +:+ title_get ti "sap_program_name" "" +:+ "."]
     else [])
    ++ List.filter
         (fun assumption =>
            existsb (fun keyword => contains keyword (lower assumption))
              ["locking"; "performance"; "data"; "infotype"])
         (title_assumptions (info_tables ti)) in
  join nl
    (if is_nil constraints_parts
     then ["Report harus mengikuti standard development guidelines dan best practices SAP."]
     else constraints_parts).

(** [assumptions_text] *)
Definition assumptions_text (ti : title_info) : string :=
  match title_assumptions (info_tables ti) with
  | [] => "(1) Tidak ada asumsi khusus"
  | assumptions =>
      join nl
        (map (fun ia => "(" +:+ str_of_nat (fst ia) +:+ ") " +:+ snd ia)
             (enumerate1 assumptions))
  end.

(** [transaction_menu_text] *)
Definition transaction_menu_text (ti : title_info) : string :=
  let transaction_code := strip (title_get ti "transaction_code" "") in
  let menu_path := strip (title_get ti "menu_path" "") in
  let given s := str_truthy s && negb (String.eqb s "N/A") in
  if given transaction_code then
    "Transaksi: " +:+ transaction_code
    +:+ (if given menu_path then nl +:+ "Menu Path: " +:+ menu_path else "")
  else if given menu_path then "Menu Path: " +:+ menu_path
  else "N/A".

Definition fsd_type : string := "Functional Specification Design (FSD)".

Definition ssot_program : string :=
  "System Integrator for Management Information System Towards Single Source of Truth Implementation Program".

(** [replacements.items()]: the keys are different texts, so the pairs come
    in the order of the dict display. *)
Definition replacements (ti : title_info) : list (string * string) :=
  [("(Nama Modul)", "");
   ("Human Resource (Nama Modul)", title_get ti "module_name" "Human Resource");
   ("(DAPI ID)", title_get ti "ricefw_id" "N/A");
   (fsd_type, title_get ti "document_type" fsd_type);
   (title_get ti "ricefw_id" "RHR041" +:+ " (DAPI ID) " +:+ fsd_type,
    title_get ti "document_type" fsd_type);
   ("(Nama File)", "");
   ("(Link NAS)", title_get ti "document_location" "N/A");
   ("Draft awal oleh", "AI Generated");
   (ssot_program, title_get ti "project_name" ssot_program);
   ("{{persyaratan_pengguna}}",
    title_get ti "user_requirements" "Tidak ada persyaratan khusus yang didefinisikan.");
   ("{{asumsi}}", assumptions_text ti);
   ("{{nama_program_sap}}", title_get ti "sap_program_name" "N/A");
   ("{{transaksi_menu_sap}}", transaction_menu_text ti);
   ("{{deskripsi_detail_report}}", _generate_report_description ti);
   ("{{otorisasi}}", _generate_authorization_info ti);
   ("{{keterbatasan_desain}}", _generate_design_constraints ti);
   ("{{latar_belakang}}", "N/A");
   ("{{opsi}}", "N/A");
   ("{{rekomendasi}}", "N/A");
   ("{{persyaratan_pengujian}}",
    generate_testing_requirements_content_text
      (testing_requirements_table (info_tables ti)));
   ("[*Masukkan kondisi fungsional yang diperlukan untuk pengujian.*]", "");
   ("{{data_uji}}",
    title_get ti "test_data_location" "Data uji tersedia di environment development SAP");
   ("{{transaksi}}", title_get ti "test_transaction" "N/A");
   ("{{menu_path}}", title_get ti "test_menu_path" "N/A")].

(** The first paragraph that ends with the file-name placeholder becomes the
    heading. *)
Definition replace_title_placeholder (ti : title_info) (b : list Block) : list Block :=
  let ricefw := strip (title_get ti "ricefw_id" "") in
  let filename := strip (title_get ti "file_name" "") in
  let new_heading := ricefw +:+ " " +:+ filename in
  match first_index
          (fun p => endswith "(Nama File)" (strip (paragraph_text p)))
          (doc_paragraphs b) with
  | Some k =>
      alter_paragraph
        (fun p => replaced (strip (paragraph_text p)) new_heading p) k b
  | None => b
  end.

(** A change made through [row.cells[ci].paragraphs[pi]]. *)
Definition alter_cell_paragraph (f : Paragraph -> Paragraph) (ci pi : nat)
    (row : list Cell) : list Cell :=
  alter
    (fun c => {| cell_paragraphs := alter f pi (cell_paragraphs c);
                 cell_borders := cell_borders c |})
    ci row.

Definition cell_paragraph (ci pi : nat) (row : list Cell) : string :=
  match row !! ci with
  | Some c => match cell_paragraphs c !! pi with
              | Some p => paragraph_text p
              | None => ""
              end
  | None => ""
  end.

Definition row_texts (row : list Cell) : list string :=
  map (fun c => strip (cell_text c)) row.

(** The body of the loop over the paragraphs of the cells of a row: the
    replacements, then the date of the version history. *)
Definition fill_cell_paragraph (ti : title_info) (ci pi : nat) (row : list Cell)
  : list Cell :=
  let generated_date := title_get ti "generated_date" "" in
  let row1 := alter_cell_paragraph (apply_replacements (replacements ti)) ci pi row in
  let text1 := cell_paragraph ci pi row1 in
  let row2 :=
    if (contains "AI Generated" text1 || contains "0.01" text1)
       && String.eqb (strip text1) ""
       && existsb (fun text => contains "0.01" text || contains "AI Generated" text)
            (row_texts row1)
       && Nat.eqb ci (length row1 - 1)
    then alter_cell_paragraph (set_text generated_date) ci pi row1
    else row1 in
  let text2 := cell_paragraph ci pi row2 in
  if String.eqb (strip text2) ""
     && contains "AI Generated" (join " " (row_texts row2))
     && Nat.eqb ci (length row2 - 1)
  then alter_cell_paragraph (set_text generated_date) ci pi row2
  else row2.

Definition fill_cell (ti : title_info) (row : list Cell) (ci : nat) : list Cell :=
  match row !! ci with
  | Some c =>
      fold_left (fun row pi => fill_cell_paragraph ti ci pi row)
        (seq 0 (length (cell_paragraphs c))) row
  | None => row
  end.

Definition fill_row (ti : title_info) (row : list Cell) : list Cell :=
  fold_left (fill_cell ti) (seq 0 (length row)) row.

Definition fill_table (ti : title_info) (t : Table) : Table :=
  {| table_style := table_style t; table_alignment := table_alignment t;
     column_widths := column_widths t;
     table_rows := map (fill_row ti) (table_rows t) |}.

Definition placeholders_to_remove : list string :=
  ["{{detail_processing}}";
   "{{kondisi_pengujian_tabel}}";
   "{{potensi_error}}";
   "Prioritas Tinggi: - User has authorization";
   "Prioritas Menengah: - Process RHR006";
   "Prioritas Rendah: - Employee has IT0015";
   "**KONDISI PENGUJIAN**";
   "**HASIL YANG DIHARAPKAN**";
   "Persyaratan pengujian mencakup skenario berikut:";
   "Detail kondisi pengujian tercantum dalam tabel di bawah ini.";
   "skenario prioritas tinggi (authorization, security)";
   "skenario prioritas menengah (functional testing)";
   "skenario prioritas rendah (performance, edge cases)";
   "[*Masukkan kondisi fungsional yang diperlukan untuk pengujian.*]"].

(** The loop over the placeholders on one paragraph: the paragraph
    afterwards and [should_clear]. *)
Fixpoint remove_placeholders (placeholders : list string) (p : Paragraph)
  : Paragraph * bool :=
  match placeholders with
  | [] => (p, false)
  | placeholder :: rest =>
      if contains placeholder (paragraph_text p) then
        if Nat.leb (len (strip (paragraph_text p))) (len placeholder + 50)
        then (p, true)
        else remove_placeholders rest
               (set_text (strip (replace placeholder "" (paragraph_text p))) p)
      else remove_placeholders rest p
  end.

(** The body of the final loop over the paragraphs. *)
Definition final_cleanup (p : Paragraph) : Paragraph :=
  let (p1, should_clear) := remove_placeholders placeholders_to_remove p in
  let text_lower := lower (paragraph_text p1) in
  let redundant :=
    negb should_clear
    && str_truthy (strip (paragraph_text p1))
    && Nat.ltb (len (strip (paragraph_text p1))) 200
    && existsb (fun phrase => contains phrase text_lower)
         ["prioritas tinggi"; "prioritas menengah"; "prioritas rendah"; "skenario"]
    && existsb (fun phrase => contains phrase text_lower)
         ["authorization"; "functional"; "performance"] in
  if should_clear || redundant then clear p1 else p1.

(** A table step of [generate_with_proper_tables]: nothing without data. *)
Definition table_step (search_text title : string) (data : list (list string))
    (headers : list string) (doc : Document) : Document :=
  if is_nil data || is_nil headers then doc
  else fst (find_and_insert_table_after_text doc search_text data headers (Some title)).

Definition data_condition_step (search_text title : string) (table_rows : list str_dict)
    (doc : Document) : Document :=
  let data := map (fun it => [item_get it "data" "N/A"; item_get it "condition" "N/A"])
                  table_rows in
  if is_nil data then doc
  else fst (find_and_insert_table_after_text doc search_text data
              (data_condition_headers table_rows) (Some title)).

Definition error_log_placeholder : string :=
  "[*Masukkan deskripsi tentang error log, laporan, dan/atau pesan yang relevan.*]".

Definition error_step (ti : title_info) (doc : Document) : Document :=
  let (error_data, error_headers) :=
    create_error_handling_table_data (error_handling_table (info_tables ti)) in
  if is_nil error_data || is_nil error_headers then doc
  else
    let doc1 :=
      fst (find_and_insert_table_after_text doc "{{potensi_error}}" error_data
             error_headers (Some "Potensi Error:")) in
    with_body
      (map_paragraphs
         (fun p =>
            if contains error_log_placeholder (paragraph_text p)
            then replaced error_log_placeholder
                   "Error akan dicatat dalam log sistem SAP dan dapat dilihat melalui transaction ST22 (Dump Analysis) atau SLG1 (Application Log)."
                   p
            else p)
         (body doc1))
      doc1.

Definition testing_step (ti : title_info) (doc : Document) : Document :=
  let (testing_data, testing_headers) :=
    create_testing_requirements_table_data
      (testing_requirements_table (info_tables ti)) in
  if is_nil testing_data || is_nil testing_headers then doc
  else
    let (doc1, testing_inserted) :=
      find_and_replace_testing_section doc testing_data testing_headers in
    if testing_inserted then doc1
    else fst (find_and_insert_table_after_text doc1 "{{kondisi_pengujian_tabel}}"
                testing_data testing_headers None).

Definition selection_step (ti : title_info) (doc : Document) : Document :=
  let (selection_data, selection_headers) :=
    create_selection_screen_table_data (selection_screen_table (info_tables ti)) in
  table_step "Selection Screen" "Selection Screen:" selection_data selection_headers doc.

Definition detail_step (ti : title_info) (doc : Document) : Document :=
  let (detail_data, detail_headers) :=
    create_detail_processing_table_data (detail_processing_table (info_tables ti)) in
  table_step "Detail Processing" "Detail Processing:" detail_data detail_headers doc.

(** The eight tables in the order of the steps. *)
Definition insert_tables (ti : title_info) (doc : Document) : Document :=
  let t := info_tables ti in
  let doc := selection_step ti doc in
  let doc := detail_step ti doc in
  let doc := data_condition_step "Detail Process Only valid datasets"
               "Detail Process Only valid datasets:" (valid_datasets_table t) doc in
  let doc := data_condition_step "Form Get_Country_Info" "Form Get_Country_Info:"
               (country_info_table t) doc in
  let doc := data_condition_step "Form Get_Currency_T500C" "Form Get_Currency_T500C:"
               (currency_t500c_table t) doc in
  let doc := data_condition_step "Form Get_Currency_T001" "Form Get_Currency_T001:"
               (currency_t001_table t) doc in
  let doc := error_step ti doc in
  testing_step ti doc.

(** The files of the machine: Word documents, the JSON files [json.dump]
    writes for a value, and files of text; and the paths that cannot be
    written. *)
Inductive file : Type :=
| DocxFile (doc : Document)
| JsonFile (value : json)
| TextFile (content : string).

Record world : Type := {
  files : gmap string file;
  read_only : string -> bool
}.

(** [os.path.exists(path)] *)
Definition path_exists (w : world) (path : string) : bool :=
  bool_decide (is_Some (files w !! path)).

(** [DocxDocument(path)] *)
Definition DocxDocument (w : world) (path : string) : exc Document :=
  match files w !! path with
  | Some (DocxFile doc) => Ok doc
  | Some (JsonFile _) => raise (OtherException "PackageNotFoundError")
  | Some (TextFile _) => raise (OtherException "PackageNotFoundError")
  | None => raise (OtherException "PackageNotFoundError")
  end.

(** [doc.save(path)] *)
Definition write (path : string) (f : file) (w : world) : world :=
  {| files := <[path := f]> (files w); read_only := read_only w |}.

Definition save (doc : Document) (path : string) (w : world) : world * exc unit :=
  if read_only w path then (w, raise (OtherException "PermissionError"))
  else (write path (DocxFile doc) w, Ok tt).

Section WordFiller.

(** [re.compile(pattern).search(text)]: the text of the first match of the
    pattern, which is never empty for the two patterns below. *)
Variable re_search : string -> string -> option string.

Definition file_pattern : string := "RHR\d+[^\n]*\(Nama File\)".
Definition doc_pattern : string :=
  "RHR\d+\s*\(DAPI ID\)\s*Functional Specification Design \(FSD\)".

(** The two searches made after the loop over the paragraphs, on the
    paragraph the loop ended with. *)
Definition replace_match (pattern new_text : string) (p : Paragraph) : Paragraph :=
  match re_search pattern (paragraph_text p) with
  | Some matched => replaced matched new_text p
  | None => p
  end.

Definition replace_patterns (ti : title_info) (p : Paragraph) : Paragraph :=
  replace_match doc_pattern (title_get ti "document_type" fsd_type)
    (replace_match file_pattern
       (title_get ti "ricefw_id" "RHR041" +:+ " " +:+ title_get ti "file_name" "Process")
       p).

(** The body of the [try] of [generate_with_proper_tables] between opening
    the template and saving the document. Without a paragraph in the body
    the name [paragraph] is not bound after the loops. *)
Definition fill_template (ti : title_info) (doc : Document) : exc Document :=
  let b := replace_title_placeholder ti (body doc) in
  let b := map_paragraphs (apply_replacements (replacements ti)) b in
  match length (doc_paragraphs b) with
  | O => raise (OtherException "UnboundLocalError")
  | S k =>
      let b := alter_paragraph (replace_patterns ti) k b in
      let b := map_tables (fill_table ti) b in
      let doc := insert_tables ti (with_body b doc) in
      Ok (with_body (map_paragraphs final_cleanup (body doc)) doc)
  end.

(** [generate_with_proper_tables(title_info, output_path)] of a generator
    with [self.template_path = template_path], in a world. *)
Definition generate_with_proper_tables (template_path : option string) (w : world)
    (ti : title_info) (output_path : string) : world * exc bool :=
  match template_path with
  | Some path =>
      if negb (str_truthy path) || negb (path_exists w path) then (w, Ok false)
      else
        match doc ← DocxDocument w path; fill_template ti doc with
        | Ok doc =>
            match save doc output_path w with
            | (w', Ok _) => (w', Ok (path_exists w' output_path))
            | (w', Err _) => (w', Ok false)
            end
        | Err _ => (w, Ok false)
        end
  | None => (w, Ok false)
  end.

End WordFiller.

(* ===================================================================== *)
(** ** What a run of the filler leaves *)
(* ===================================================================== *)

(** No template at the configured path. *)
Definition template_missing (w : world) (template_path : option string) : Prop :=
  match template_path with
  | Some path => files w !! path = None
  | None => True
  end.

(** The world and the value a run returns, from the filled document or
    the exception of the filling. *)
Definition outcome (output_path : string) (filled : exc Document) (w : world)
  : world * exc bool :=
  match filled with
  | Ok doc => (write output_path (DocxFile doc) w, Ok true)
  | Err _ => (w, Ok false)
  end.

(** The document has the style of the tables the filler creates. *)
Definition has_table_grid (doc : Document) : Prop :=
  existsb (String.eqb "Table Grid") (styles doc) = true.

(** The rows of the table a step inserts for a list of the title
    information: the header and one row for each entry, and no table for
    an empty list. *)
Definition table_row_count (entries : list str_dict) : list nat :=
  if is_nil entries then [] else [S (length entries)].

(** The eight lists in the order of the steps. *)
Definition expected_row_counts (ti : title_info) : list nat :=
  let t := info_tables ti in
  table_row_count (selection_screen_table t)
  ++ table_row_count (detail_processing_table t)
  ++ table_row_count (valid_datasets_table t)
  ++ table_row_count (country_info_table t)
  ++ table_row_count (currency_t500c_table t)
  ++ table_row_count (currency_t001_table t)
  ++ table_row_count (error_handling_table t)
  ++ table_row_count (testing_requirements_table t).

(** [doc'] has the styles of [doc], and its tables are those of [doc], row
    for row, and tables of [added] rows. *)
Definition grows_by (added : list nat) (doc doc' : Document) : Prop :=
  styles doc' = styles doc
  /\ row_counts (body doc') ≡ₚ row_counts (body doc) ++ added.

(** A template, a title information and a world for the examples. *)
Definition text_paragraph (text : string) : Paragraph :=
  {| alignment := None; runs := [{| run_text := text; run_font := plain |}] |}.

Definition example_template : Document :=
  {| styles := ["Normal"; "Table Grid"];
     body :=
       [BParagraph (text_paragraph "RHR041 Travel Requisition Process (Nama File)");
        BParagraph (text_paragraph "(DAPI ID) Functional Specification Design (FSD)");
        BTable
          {| table_style := None; table_alignment := None;
             column_widths := [None; None];
             table_rows :=
               [[{| cell_paragraphs := [text_paragraph "Draft awal oleh"];
                    cell_borders := false |};
                 {| cell_paragraphs := [text_paragraph ""];
                    cell_borders := false |}]] |};
        BParagraph (text_paragraph "{{persyaratan_pengguna}}");
        BParagraph (text_paragraph "Selection Screen");
        BParagraph (text_paragraph "Selection Screen");
        BParagraph (text_paragraph "{{potensi_error}}");
        BParagraph (text_paragraph "{{persyaratan_pengujian}}")] |}.

Definition example_info : title_info :=
  {| info := [("ricefw_id", "RHR006"); ("file_name", "Laporan Tunjangan");
              ("user_requirements", "Laporan tunjangan tidak tetap");
              ("generated_date", "2025-01-31")];
     info_tables :=
       {| selection_screen_table :=
            [[("parameter", "P_BUKRS"); ("type", "BUKRS")];
             [("parameter", "S_PERNR"); ("type", "PERNR")]];
          detail_processing_table := [];
          valid_datasets_table := [];
          country_info_table := [];
          currency_t500c_table := [];
          currency_t001_table := [];
          error_handling_table := [[("error_description", "No data found")]];
          testing_requirements_table := [];
          title_assumptions := [];
          title_related_documents := [];
          title_reviewers := [];
          title_version_history := [] |} |}.

Definition example_world (path : string) : world :=
  {| files := {[ path := DocxFile example_template ]};
     read_only := fun _ => false |}.

(** No regular expression matches. *)
Definition no_match (pattern text : string) : option string := None.

(* ===================================================================== *)
(** ** EnhancedOutputGenerator.generate_all_outputs *)
(* ===================================================================== *)

(** [WordTemplateProcessor(template_path)]: the constructor raises when the
    template is not there. *)
Definition WordTemplateProcessor (w : world) (template_path : string) : exc string :=
  if path_exists w template_path then Ok template_path
  else raise FileNotFoundError.

(** [open(path, 'w')] and the text or the JSON value written. *)
Definition write_file (path : string) (f : file) (w : world) : world * exc unit :=
  if read_only w path then (w, raise (OtherException "PermissionError"))
  else (write path f w, Ok tt).

(** [directory / name] *)
Definition joinpath (directory name : string) : string :=
  directory +:+ "/" +:+ name.

(** [_generate_summary]: the lines of the summary. *)
Definition summary_lines (now : string) (d : FSDDocument) : list string :=
  let mark (b : bool) : string := if b then "✓" else "✗" in
  ["=== FSD ANALYSIS SUMMARY ===";
   "Generated on: " +:+ now;
   "";
   "Program Name: " +:+ program_name d;
   "Description: " +:+ report_description d;
   "Transaction Code: " +:+ transaction_code d;
   "";
   "STATISTICS:";
   "- Selection Parameters: " +:+ str_of_nat (length (selection_parameters d));
   "- Field Mappings: " +:+ str_of_nat (length (field_mappings d));
   "- Error Scenarios: " +:+ str_of_nat (length (error_scenarios d));
   "- Test Scenarios: " +:+ str_of_nat (length (test_scenarios d));
   "- Validation Rules: " +:+ str_of_nat (length (validation_rules d));
   "- Authorization Objects: " +:+ str_of_nat (length (authorization_objects d));
   "";
   "ANALYSIS COMPLETENESS:";
   "- User Requirements: " +:+ mark (str_truthy (user_requirements d));
   "- Assumptions: " +:+ mark (negb (is_nil (assumptions d)));
   "- Field Mappings: " +:+ mark (negb (is_nil (field_mappings d)));
   "- Error Handling: " +:+ mark (negb (is_nil (error_scenarios d)));
   "- Test Coverage: " +:+ mark (negb (is_nil (test_scenarios d)))].

Section OutputGenerator.

(** The renderer's reference table and text polishing, and the clock when
    the Markdown and when the summary are written. *)
Variable table : reference_table.
Variable _improve_text : string -> string.
Variable now_markdown now_summary : string.

(** [self.output_dir] and [self.template_dir]. *)
Variable output_dir template_dir : string.

(** [self.template_dir.glob('*.docx')] in a world: [None] when the
    directory does not exist, otherwise the names in the order of the
    file system. *)
Variable glob_docx : world -> option (list string).

(** What a processor does with a template that exists: [load_template]
    and [fill_template_with_markdown(markdown_content, output_path)]. *)
Variable fill_template_with_markdown :
  world -> string -> string -> string -> world * exc unit.

(** [_find_template_file] *)
Definition _find_template_file (w : world) : option string :=
  match glob_docx w with
  | None => None
  | Some names =>
      match List.find (fun name => contains "FSD" name || contains "template" (lower name))
              names with
      | Some name => Some (joinpath template_dir name)
      | None =>
          match names with
          | name :: _ => Some (joinpath template_dir name)
          | [] => None
          end
      end
  end.

(** [_generate_word_document]: whatever the processor raises is logged. *)
Definition _generate_word_document (w : world) (markdown_content template_path : string)
    (output_file : string) : world * exc unit :=
  match WordTemplateProcessor w template_path with
  | Ok processor =>
      match fill_template_with_markdown w processor markdown_content output_file with
      | (w1, Ok _) => (w1, Ok tt)
      | (w1, Err _) => (w1, Ok tt)
      end
  | Err _ => (w, Ok tt)
  end.

(** The summary written and the outputs returned. *)
Definition write_summary (w : world) (d : FSDDocument) (base_filename : string)
    (outputs : list (string * string)) : world * exc (list (string * string)) :=
  let summary_file := joinpath output_dir (base_filename +:+ "_summary.txt") in
  match write_file summary_file (TextFile (join nl (summary_lines now_summary d))) w with
  | (w1, Ok _) => (w1, Ok (outputs ++ [("summary", summary_file)]))
  | (w1, Err e) => (w1, Err e)
  end.

(** [generate_all_outputs(fsd_document, base_filename, template_path)]:
    the world afterwards, and the outputs or the exception raised. *)
Definition generate_all_outputs (w : world) (d : FSDDocument) (base_filename : string)
    (template_path : option string) : world * exc (list (string * string)) :=
  let md_file := joinpath output_dir (base_filename +:+ "_fsd.md") in
  let json_file := joinpath output_dir (base_filename +:+ "_fsd.json") in
  let docx_file := joinpath output_dir (base_filename +:+ "_fsd.docx") in
  let markdown_content := _generate_markdown table _improve_text now_markdown d in
  match write_file md_file (TextFile markdown_content) w with
  | (w1, Err e) => (w1, Err e)
  | (w1, Ok _) =>
      match write_file json_file (JsonFile (dataclass_to_dict d)) w1 with
      | (w2, Err e) => (w2, Err e)
      | (w2, Ok _) =>
          let outputs := [("markdown", md_file); ("json", json_file)] in
          let given :=
            match template_path with
            | Some path => if str_truthy path && path_exists w2 path then Some path else None
            | None => None
            end in
          match given with
          | Some path =>
              let (w3, _) := _generate_word_document w2 markdown_content path docx_file in
              write_summary w3 d base_filename (outputs ++ [("docx", docx_file)])
          | None =>
              match _find_template_file w2 with
              | Some template_file =>
                  let (w3, _) :=
                    _generate_word_document w2 markdown_content template_file docx_file in
                  write_summary w3 d base_filename (outputs ++ [("docx", docx_file)])
              | None => write_summary w2 d base_filename outputs
              end
          end
      end
  end.

End OutputGenerator.

(* ===================================================================== *)
(** ** Reading a Word document *)
(* ===================================================================== *)

(** The paragraphs of the cells of the tables of the body, in the order of
    the loops [for table ... for row ... for cell ... for paragraph]. *)
Definition table_paragraphs (b : list Block) : list Paragraph :=
  flat_map (fun t => flat_map (flat_map cell_paragraphs) (table_rows t)) (doc_tables b).

(** The texts a table shows, row by row and cell by cell. *)
Definition table_texts (t : Table) : list (list string) :=
  map (map cell_text) (table_rows t).

(** A paragraph holds a text. *)
Definition holds (text : string) (p : Paragraph) : bool :=
  contains text (paragraph_text p).

(** The window of [_cleanup_testing_paragraphs_aggressive] around the
    paragraph [start_index] of a body of [n] paragraphs. *)
Definition in_cleanup_window (start_index n i : nat) : bool :=
  Nat.leb (start_index - 5) i && Nat.ltb i (Nat.min (start_index + 30) n).

(** A name [_find_template_file] prefers. *)
Definition preferred_template (name : string) : bool :=
  contains "FSD" name || contains "template" (lower name).

(* ===================================================================== *)
(** ** IntelligentFSDMapper.analyze_and_map *)
(* ===================================================================== *)

Section Mapper.

Variable json_loads : string -> option json.
Variable _build_prompt : string -> json -> string.
Variable prompt_of : string -> string.

(** [analyze_and_map] from the point where [extract_all] has returned the
    raw data: [file_name] is [raw_data['file_name']], [prompt_of] gives the
    prompts built from the raw data, and [d] is the document the mapper
    holds, which the call changes and returns. *)
Definition analyze_and_map (llm : nat -> transport) (file_name : string)
    (d : FSDDocument) : merged FSDDocument :=
  results ← lift (run_batch json_loads _build_prompt prompt_of llm);
  _map_fixed_results_to_fsd results (with_document_location file_name d).

End Mapper.

(** Every list the merge appends to: the lists of [d'] start with the
    lists of [d]. *)
Definition extends (d d' : FSDDocument) : Prop :=
  related_documents d `prefix_of` related_documents d'
  /\ reviewers d `prefix_of` reviewers d'
  /\ version_history d `prefix_of` version_history d'
  /\ selection_parameters d `prefix_of` selection_parameters d'
  /\ field_mappings d `prefix_of` field_mappings d'
  /\ valid_dataset_rules d `prefix_of` valid_dataset_rules d'
  /\ country_info d `prefix_of` country_info d'
  /\ currency_t500c d `prefix_of` currency_t500c d'
  /\ currency_t001 d `prefix_of` currency_t001 d'
  /\ error_scenarios d `prefix_of` error_scenarios d'
  /\ test_scenarios d `prefix_of` test_scenarios d'
  /\ validation_rules d `prefix_of` validation_rules d'
  /\ authorization_objects d `prefix_of` authorization_objects d'
  /\ user_roles d `prefix_of` user_roles d'.

(** What a step of the merge keeps: the lists, and the location. *)
Definition step_keeps_lists (d d' : FSDDocument) : Prop :=
  extends d d' /\ document_location d' = document_location d.

(* ===================================================================== *)
(** ** WordTemplateProcessor: reading the parsed Markdown *)
(* ===================================================================== *)

(** [parsed_data.get('title', '')] followed by [.split]: a dict saved under
    the key has no [split]. *)
Definition title_text (pd : parsed) : exc string :=
  match pd !! Some "title" with
  | Some (PTitle t) => Ok t
  | Some (PSection _) => raise AttributeError
  | None => Ok ""
  end.

(** [_extract_program_name(parsed_data)] *)
Definition _extract_program_name (pd : parsed) : exc string :=
  title ← title_text pd;
  Ok (match List.find (startswith "## ") (split LF title) with
      | Some line => strip (drop_chars 3 line)
      | None => "Unknown Program"
      end).

(** [_extract_description(parsed_data)] *)
Definition _extract_description (pd : parsed) : exc string :=
  title ← title_text pd;
  Ok (match List.find (startswith "### ") (split LF title) with
      | Some line => strip (drop_chars 4 line)
      | None => "Program Description"
      end).

(** [s[2:-2]] *)
Definition inner (s : string) : string :=
  let rest := drop_chars 2 s in
  substring 0 (String.length rest - 2) rest.

(** What [_process_content] returns: the texts with their type, the
    tables as rows of cells, the list items. *)
Record processed : Type := {
  processed_text : list (string * string);
  processed_tables : list (list (list string));
  processed_lists : list string
}.

(** The variables of the loop of [_process_content]. *)
Record content_state : Type := {
  processed_so_far : processed;
  current_table : list (list string);
  in_table : bool
}.

Definition initial_content_state : content_state :=
  {| processed_so_far :=
       {| processed_text := []; processed_tables := []; processed_lists := [] |};
     current_table := []; in_table := false |}.

Definition close_table (st : content_state) : processed :=
  if in_table st then
    {| processed_text := processed_text (processed_so_far st);
       processed_tables := processed_tables (processed_so_far st) ++ [current_table st];
       processed_lists := processed_lists (processed_so_far st) |}
  else processed_so_far st.

(** One turn of the loop. *)
Definition process_line (st : content_state) (line : string) : content_state :=
  if startswith "|" line && contains "|" line then
    {| processed_so_far := processed_so_far st;
       current_table := (if in_table st then current_table st else []) ++ [cells_of line];
       in_table := true |}
  else
    let p := close_table st in
    let p :=
      if startswith "- " line then
        {| processed_text := processed_text p;
           processed_tables := processed_tables p;
           processed_lists := processed_lists p ++ [strip (drop_chars 2 line)] |}
      else if startswith "**" line && endswith "**" line then
        {| processed_text := processed_text p ++ [("bold", inner line)];
           processed_tables := processed_tables p;
           processed_lists := processed_lists p |}
      else if str_truthy line then
        {| processed_text := processed_text p ++ [("normal", line)];
           processed_tables := processed_tables p;
           processed_lists := processed_lists p |}
      else p in
    {| processed_so_far := p;
       current_table := (if in_table st then [] else current_table st);
       in_table := false |}.

(** [_process_content(content)] *)
Definition _process_content (content : list string) : processed :=
  let st := fold_left process_line content initial_content_state in
  if in_table st && negb (is_nil (current_table st)) then close_table st
  else processed_so_far st.

(** A line [_process_content] takes for a row of a table. *)
Definition is_content_row (line : string) : bool :=
  startswith "|" line && contains "|" line.

(** [line.count('|')] *)
Definition count_pipes (line : string) : nat := length (split "|" line) - 1.

(** A row of dashes: every cell starts with three dashes. *)
Definition is_separator (cells : list string) : bool :=
  forallb (fun c => String.eqb c "---" || startswith "---" c) cells.

(** [_extract_table_from_content(content)] *)
Definition _extract_table_from_content (content : list string) : list (list string) :=
  flat_map
    (fun line =>
       if startswith "|" line && Nat.leb 2 (count_pipes line) then
         let cells := cells_of line in
         if negb (is_nil cells) && negb (is_separator cells) then [cells] else []
       else [])
    content.

(** The titles of a text: the texts of its lines that start with one
    hash. *)
Fixpoint titles_in (lines : list string) : list string :=
  match lines with
  | [] => []
  | raw :: rest =>
      if startswith "# " (strip raw)
      then strip (drop_chars 2 (strip raw)) :: titles_in rest
      else titles_in rest
  end.

(** A line that is no heading of the second or third level. *)
Definition no_heading (raw : string) : bool :=
  match classify raw with
  | KSection _ | KSubsection _ => false
  | _ => true
  end.

(** Every title of the mapping is a text of one line. *)
Definition titles_plain (pd : parsed) : Prop :=
  forall k t, pd !! k = Some (PTitle t) -> has_char LF t = false.

(** The kinds of line the parser tells apart. *)
Definition opens_section (raw : string) : bool :=
  match classify raw with KSection _ => true | _ => false end.

Definition opens_subsection (raw : string) : bool :=
  match classify raw with KSubsection _ => true | _ => false end.

Definition is_content_line (raw : string) : bool :=
  match classify raw with KOther => true | _ => false end.

(** *** What the extracted tables hold *)

(** Every entry of the table has the keys, in this order. *)
Definition keyed (keys : list string) (table : list str_dict) : Prop :=
  Forall (fun entry => map fst entry = keys) table.

(** The tables with the keys the table-data creators read. *)
Definition every_key (t : title_tables) : Prop :=
  keyed ["parameter"; "type"; "description"; "mandatory"; "select_option"; "no_intervals"]
    (selection_screen_table t)
  /\ keyed ["field_name"; "technical_field"; "source_table"; "processing_logic";
            "processing_type"] (detail_processing_table t)
  /\ keyed ["data"; "condition"] (valid_datasets_table t)
  /\ keyed ["data"; "condition"] (country_info_table t)
  /\ keyed ["data"; "condition"] (currency_t500c_table t)
  /\ keyed ["data"; "condition"] (currency_t001_table t)
  /\ keyed ["no"; "error_description"; "resolution"; "error_code"; "severity"]
       (error_handling_table t)
  /\ keyed ["no"; "test_condition"; "expected_result"; "test_data"; "priority"]
       (testing_requirements_table t).

(** The entry holds the keys with the first cells of the line, which has a
    cell for every key. *)
Definition row_of (keys : list string) (raw : string) (entry : str_dict) : Prop :=
  let cells := cells_of (strip raw) in
  length keys <= length cells /\ entry = combine keys (firstn (length keys) cells).

(** Every entry of the table is such a row of one of the lines. *)
Definition read_from (lines : list string) (keys : list string) (table : list str_dict)
  : Prop :=
  Forall (fun entry => exists raw, In raw lines /\ row_of keys raw entry) table.

(** The eight tables, each with the keys of its columns. *)
Definition every_entry_read (lines : list string) (t : title_tables) : Prop :=
  read_from lines
    ["parameter"; "type"; "description"; "mandatory"; "select_option"; "no_intervals"]
    (selection_screen_table t)
  /\ read_from lines
       ["field_name"; "technical_field"; "source_table"; "processing_logic";
        "processing_type"] (detail_processing_table t)
  /\ read_from lines ["data"; "condition"] (valid_datasets_table t)
  /\ read_from lines ["data"; "condition"] (country_info_table t)
  /\ read_from lines ["data"; "condition"] (currency_t500c_table t)
  /\ read_from lines ["data"; "condition"] (currency_t001_table t)
  /\ read_from lines ["no"; "error_description"; "resolution"; "error_code"; "severity"]
       (error_handling_table t)
  /\ read_from lines ["no"; "test_condition"; "expected_result"; "test_data"; "priority"]
       (testing_requirements_table t).

(** No value of an entry of the table contains the word. *)
Definition without (word : string) (table : list str_dict) : Prop :=
  Forall (Forall (fun kv => contains word (snd kv) = false)) table.

(** The tables without the word that marks their header row. *)
Definition header_free (t : title_tables) : Prop :=
  without "Parameter" (selection_screen_table t)
  /\ without "Field Name" (detail_processing_table t)
  /\ without "Error Description" (error_handling_table t)
  /\ without "Test Condition" (testing_requirements_table t).

(** The heading tests of [extract_title_info], on the stripped line. *)
Definition general_heading (line : string) : bool :=
  startswith "## " line
  && (contains "GENERAL REQUIREMENTS" (upper line) || contains "PERSYARATAN UMUM" (upper line)
      || contains "INFORMASI DOKUMEN" (upper line)).

Definition existing_heading (line : string) : bool :=
  startswith "## " line
  && (contains "EXISTING SAP OBJECTS" (upper line) || contains "OBJEK SAP EXISTING" (upper line)).

Definition design_changes_heading (line : string) : bool :=
  startswith "## " line
  && (contains "DESIGN CHANGE" (upper line) || contains "PERUBAHAN DESAIN" (upper line)).

(* ===================================================================== *)
(** ** MarkdownTitleExtractor._extract_table_of_contents *)
(* ===================================================================== *)

(** An entry of the table of contents. *)
Record toc_item : Type := {
  toc_number : string;
  toc_title : string;
  toc_page : nat
}.

(** A subsection and a main section as the first pass collects them. *)
Record found_subsection : Type := {
  sub_number : nat;
  sub_title : string
}.

Record found_section : Type := {
  original_number : nat;
  section_title : string;
  found_subsections : list found_subsection
}.

(** [section_mappings]: every key is mapped to itself. *)
Definition section_mappings : str_dict :=
  map (fun key => (key, key))
    [ "INFORMASI DOKUMEN";
      "PERSYARATAN UMUM";
      "OBJEK SAP EXISTING YANG TERKAIT DENGAN REPORT (Existing SAP Object Related to the Reports)";
      "DESAIN";
      "Selection Screen";
      "Detail Processing";
      "Detail Process Only valid datasets";
      "Form Get_Country_Info";
      "Form Get_Currency_T500C";
      "Form Get_Currency_T001";
      "PENANGANAN ERROR";
      "DESAIN ALTERNATIF";
      "PERSYARATAN PENGUJIAN";
      "PERUBAHAN DESAIN" ].

(** The subsection goes to the first section found with the number; it is
    dropped when there is none. *)
Fixpoint attach (main_num : nat) (sub : found_subsection) (sections : list found_section)
  : list found_section :=
  match sections with
  | [] => []
  | section :: rest =>
      if Nat.eqb (original_number section) main_num then
        {| original_number := original_number section;
           section_title := section_title section;
           found_subsections := found_subsections section ++ [sub] |} :: rest
      else section :: attach main_num sub rest
  end.

Section TableOfContents.

(** [re.match(r'## (\d+)\.\s*(.+)', line)]: the number [int(group(1))] and
    the text [group(2)]. *)
Variable main_section_match : string -> option (nat * string).

(** [re.match(r'### (\d+)\.(\d+)\s*(.+)', line)]: the two numbers and the
    text [group(3)]. *)
Variable subsection_match : string -> option (nat * nat * string).

(** One turn of the first pass. *)
Definition collect (sections_found : list found_section) (raw : string)
  : list found_section :=
  let line := strip raw in
  let sections_found :=
    match main_section_match line with
    | Some (section_num, title) =>
        if Nat.leb 1 section_num then
          sections_found ++ [{| original_number := section_num;
                                section_title := strip title;
                                found_subsections := [] |}]
        else sections_found
    | None => sections_found
    end in
  match subsection_match line with
  | Some (main_num, sub_num, title) =>
      attach main_num {| sub_number := sub_num; sub_title := strip title |} sections_found
  | None => sections_found
  end.

(** The entries of the subsections of a section, numbered from 1. *)
Definition subsection_items (current_main_section page_number : nat)
    (subs : list found_subsection) : list toc_item :=
  map (fun isub =>
         {| toc_number := str_of_nat current_main_section +:+ "."
                          +:+ str_of_nat (S (fst isub));
            toc_title := default (sub_title (snd isub))
                           (assoc_get (sub_title (snd isub)) section_mappings);
            toc_page := page_number + fst isub |})
      (enumerate subs).

(** The second pass, from the counter of the sections and the page. *)
Fixpoint number_sections (section_counter page_number : nat)
    (sections : list found_section) : list toc_item :=
  match sections with
  | [] => []
  | section :: rest =>
      {| toc_number := str_of_nat section_counter;
         toc_title := default (section_title section)
                        (assoc_get (upper (section_title section)) section_mappings);
         toc_page := page_number |}
      :: subsection_items section_counter (page_number + 1) (found_subsections section)
      ++ number_sections (section_counter + 1)
           (page_number + 1 + length (found_subsections section)) rest
  end.

(** [_extract_table_of_contents(lines)] *)
Definition _extract_table_of_contents (lines : list string) : list toc_item :=
  [ {| toc_number := "1"; toc_title := "INFORMASI DOKUMEN"; toc_page := 2 |};
    {| toc_number := "2"; toc_title := "DAFTAR ISI"; toc_page := 3 |} ]
  ++ number_sections 3 4 (fold_left collect lines []).

End TableOfContents.

(** The headings the first pass keeps. *)
Definition headings_found (sections : list found_section) : nat :=
  length sections + length (flat_map found_subsections sections).

(* ===================================================================== *)
(** ** EnhancedIntelligentFSDGenerator.process_multiple_files *)
(* ===================================================================== *)

(** [d[k] = v] on a dict: the value of a key that is there is replaced in
    its place, a new key goes to the end. *)
Fixpoint dict_set {A} (k : string) (v : A) (d : list (string * A)) : list (string * A) :=
  match d with
  | [] => [(k, v)]
  | (k', v') :: rest =>
      if String.eqb k k' then (k', v) :: rest else (k', v') :: dict_set k v rest
  end.

Section MultipleFiles.

(** The generator with all it holds and reaches (the mapper and its
    document, the output generator, the files), and the results of a
    file. *)
Variables G R : Type.

(** [await self.process_file(html_file, template_path, output_dir)] for the
    template and the directory of the batch: the generator afterwards, and
    the results or the exception raised. *)
Variable process_file : G -> string -> G * exc R.

(** [str(e)] *)
Variable str_of_exception : exn -> string.

(** A value of [results]: the results of the file, or [{'error': str(e)}]. *)
Inductive file_entry : Type :=
| FileResults (file_results : R)
| FileError (message : string).

(** The summary returned. *)
Record batch_summary : Type := {
  total_files : nat;
  successful : nat;
  failed : nat;
  results : list (string * file_entry)
}.

(** The loop over the files, from the values of [results], [successful]
    and [failed] so far. *)
Fixpoint process_files (g : G) (html_files : list string)
    (results : list (string * file_entry)) (successful failed : nat)
  : G * (list (string * file_entry) * nat * nat) :=
  match html_files with
  | [] => (g, (results, successful, failed))
  | html_file :: rest =>
      match process_file g html_file with
      | (g1, Ok file_results) =>
          process_files g1 rest (dict_set html_file (FileResults file_results) results)
            (successful + 1) failed
      | (g1, Err e) =>
          process_files g1 rest
            (dict_set html_file (FileError (str_of_exception e)) results)
            successful (failed + 1)
      end
  end.

(** [process_multiple_files(html_files, template_path, output_dir)] *)
Definition process_multiple_files (g : G) (html_files : list string) : G * batch_summary :=
  match process_files g html_files [] 0 0 with
  | (g1, (results, successful, failed)) =>
      (g1, {| total_files := length html_files; successful := successful;
              failed := failed; results := results |})
  end.

End MultipleFiles.

Arguments FileResults {R} file_results.
Arguments FileError {R} message.
Arguments total_files {R} _.
Arguments successful {R} _.
Arguments failed {R} _.
Arguments results {R} _.
Arguments process_files {G R} process_file str_of_exception g html_files _ _ _.
Arguments process_multiple_files {G R} process_file str_of_exception g html_files.

(* ===================================================================== *)
(** * Properties *)
(* ===================================================================== *)

(* ===================================================================== *)
(** ** The extraction batch isolates a failing task *)
(* ===================================================================== *)

Section BatchProperties.

Variable json_loads : string -> option json.
Variable _build_prompt : string -> json -> string.
Variable prompt_of : string -> string.

Local Abbreviation analyze' := (analyze json_loads _build_prompt).
Local Abbreviation analyze_body' := (analyze_body json_loads _build_prompt).
Local Abbreviation analysis_loop' := (analysis_loop json_loads _build_prompt).
Local Abbreviation run_batch' := (run_batch json_loads _build_prompt prompt_of).

Local Abbreviation answer' := (answer json_loads _build_prompt).

Lemma analyze_answer post prompt context :
  analyze' post prompt context = Ok (answer' post prompt context).
Proof.
  unfold analyze', answer', try_except.
  destruct (analyze_body' post prompt context); reflexivity.
Qed.

Lemma analyze_body_ext post post' prompt context :
  (forall p, post p = post' p) ->
  analyze_body' post prompt context = analyze_body' post' prompt context.
Proof.
  intros Hext. unfold analyze_body, _call_api.
  rewrite Hext. reflexivity.
Qed.

Lemma answer_ext post post' prompt context :
  (forall p, post p = post' p) ->
  answer' post prompt context = answer' post' prompt context.
Proof.
  intros Hext. unfold answer'. rewrite (analyze_body_ext post post'); auto.
Qed.

Lemma answer_failed post prompt context e :
  analyze_body' post prompt context = Err e ->
  answer' post prompt context = empty_dict.
Proof. intros H. unfold answer'. rewrite H. reflexivity. Qed.

(** The loop always returns; a name it does not run keeps its entry, and
    (names being distinct) the entry of the [j]-th task is its answer'. *)
Lemma analysis_loop_spec llm tasks :
  forall i results,
  exists r,
    analysis_loop' llm i tasks results = Ok r
    /\ (forall n, n ∉ tasks.*1 -> r !! n = results !! n)
    /\ (NoDup tasks.*1 ->
        forall j task_name prompt,
          tasks !! j = Some (task_name, prompt) ->
          r !! task_name
          = Some (answer' (llm (i + j)%nat) prompt (task_context task_name))).
Proof.
  induction tasks as [|[name prompt] rest IH]; intros i results.
  - exists results. split; [reflexivity|]. split; [reflexivity|].
    intros _ j ? ? Hj. rewrite lookup_nil in Hj. discriminate.
  - cbn [analysis_loop].
    rewrite analyze_answer. cbn.
    destruct (IH (S i) (<[name := answer' (llm i) prompt (task_context name)]> results))
      as (r & Hr & Hout & Hin).
    exists r. split; [exact Hr|]. split.
    + intros n Hn. cbn in Hn. apply not_elem_of_cons in Hn.
      destruct Hn as [Hne Hn]. rewrite (Hout n Hn).
      apply lookup_insert_ne. congruence.
    + intros Hnd j task_name prompt' Hj.
      cbn in Hnd. apply NoDup_cons in Hnd. destruct Hnd as [Hfresh Hnd].
      destruct j as [|j]; cbn in Hj.
      * injection Hj as <- <-. rewrite (Hout name Hfresh).
        rewrite Nat.add_0_r. apply lookup_insert_eq.
      * rewrite (Hin Hnd j task_name prompt' Hj).
        do 3 f_equal. lia.
Qed.

Lemma answer_remote_call_raises post prompt context :
  remote_call_raises json_loads _build_prompt post prompt context = true ->
  answer' post prompt context = empty_dict.
Proof.
  unfold remote_call_raises, answer, analyze_body,
    _parse_response, try_except.
  destruct (_call_api post _) as [response|e0]; cbn; [|reflexivity].
  destruct (_parse_response_body json_loads response) as [v|e0]; [discriminate|].
  intros _. destruct e0; reflexivity.
Qed.

Lemma task_names_NoDup : NoDup task_names.
Proof. apply (bool_decide_unpack _). vm_compute. reflexivity. Qed.

Lemma analysis_tasks_names : (analysis_tasks prompt_of).*1 = task_names.
Proof. unfold analysis_tasks. rewrite <- list_fmap_compose. apply list_fmap_id. Qed.

Lemma run_batch_spec llm :
  exists r,
    run_batch' llm = Ok r
    /\ (forall n, n ∉ task_names -> r !! n = None)
    /\ (forall j task_name,
          task_names !! j = Some task_name ->
          r !! task_name
          = Some (answer' (llm j) (prompt_of task_name) (task_context task_name))).
Proof.
  destruct (analysis_loop_spec llm (analysis_tasks prompt_of) 0 ∅)
    as (r & Hr & Hout & Hin).
  rewrite analysis_tasks_names in Hout, Hin.
  exists r. split; [exact Hr|]. split.
  - intros n Hn. rewrite (Hout n Hn). apply lookup_empty.
  - intros j task_name Hj. apply (Hin task_names_NoDup j).
    unfold analysis_tasks. rewrite list_lookup_fmap, Hj. reflexivity.
Qed.

(** C1. If the remote call of a task of the battery raises, the batch
    returns, maps that task to the empty mapping, and maps every other
    task to what it maps it to when the service answers that one call
    differently (and all other calls alike). *)
Theorem batch_isolates_failing_task
    (llm llm' : nat -> transport) (k : nat) (task_name : string) :
  task_names !! k = Some task_name ->
  remote_call_raises json_loads _build_prompt (llm k)
    (prompt_of task_name) (task_context task_name) = true ->
  (forall i p, i <> k -> llm' i p = llm i p) ->
  exists results results',
    run_batch' llm = Ok results
    /\ run_batch' llm' = Ok results'
    /\ results !! task_name = Some empty_dict
    /\ (forall other, other <> task_name -> results !! other = results' !! other).
Proof.
  intros Hk Hfail Hsame.
  destruct (run_batch_spec llm) as (r & Hr & Hout & Hin).
  destruct (run_batch_spec llm') as (r' & Hr' & Hout' & Hin').
  exists r, r'. repeat split; try assumption.
  - rewrite (Hin k task_name Hk).
    rewrite (answer_remote_call_raises _ _ _ Hfail). reflexivity.
  - intros other Hother.
    destruct (decide (other ∈ task_names)) as [Hmem|Hmem].
    + apply list_elem_of_lookup in Hmem. destruct Hmem as [j Hj].
      rewrite (Hin j other Hj), (Hin' j other Hj).
      assert (j <> k) as Hjk.
      { intros ->. rewrite Hk in Hj. congruence. }
      f_equal. apply answer_ext. intros p. symmetry. apply Hsame, Hjk.
    + rewrite (Hout other Hmem), (Hout' other Hmem). reflexivity.
Qed.

End BatchProperties.

(** A service that times out on the third call and answers the others. *)
Lemma batch_isolates_failing_task_witness :
  let loads := fun _ : string => Some (JDict [("ok", JBool true)]) in
  let build := fun (p : string) (_ : json) => p in
  let good : exc http_response :=
    Ok {| status := 200;
          response_json := Ok (JDict [("candidates",
                   JList [JDict [("content",
                     JDict [("parts", JList [JDict [("text", JStr "{}")]])])]])]);
          response_text := Ok "" |} in
  let llm := fun (i : nat) (_ : string) =>
    if Nat.eqb i 2 then raise (OtherException "TimeoutError") else good in
  let llm' := fun (_ : nat) (_ : string) => good in
  exists results results',
    run_batch loads build (fun n => n) llm = Ok results
    /\ run_batch loads build (fun n => n) llm' = Ok results'
    /\ results !! "complete_field_mappings" = Some empty_dict
    /\ (forall other, other <> "complete_field_mappings" ->
        results !! other = results' !! other).
Proof.
  intros loads build good llm llm'.
  apply (batch_isolates_failing_task loads build (fun n => n) llm llm' 2
           "complete_field_mappings").
  - reflexivity.
  - reflexivity.
  - intros i p Hi. unfold llm, llm'.
    destruct (Nat.eqb_spec i 2); [contradiction|reflexivity].
Defined.


(* ===================================================================== *)
(** ** The merge *)
(* ===================================================================== *)

Section MergeLemmas.

Lemma bind_Ok {E A B} (m : res E A) (k : A -> res E B) (r : B) :
  m ≫= k = Ok r -> exists a, m = Ok a /\ k a = Ok r.
Proof. destruct m as [a|e]; cbn; [eauto | discriminate]. Qed.

Lemma bind_Ok_l {E A B} (m : res E A) (k : A -> res E B) (a : A) :
  m = Ok a -> m ≫= k = k a.
Proof. intros ->. reflexivity. Qed.

Lemma mapM_Forall2 {E A B} (f : A -> res E B) (l : list A) (ys : list B) :
  mapM f l = Ok ys <-> Forall2 (fun x y => f x = Ok y) l ys.
Proof.
  revert ys. induction l as [|x l IH]; intros ys; cbn.
  - split.
    + intros [= <-]. constructor.
    + intros H. inversion H. reflexivity.
  - split.
    + intros H. apply bind_Ok in H. destruct H as (y & Hy & H).
      apply bind_Ok in H. destruct H as (ys' & Hys & [= <-]).
      constructor; [exact Hy | apply IH, Hys].
    + intros H. inversion H as [|? y ? ys' Hy Hys]; subst.
      rewrite Hy. cbn. apply IH in Hys. rewrite Hys. reflexivity.
Qed.

Lemma mapM_total {E A B} (f : A -> res E B) (l : list A) :
  Forall (fun x => exists y, f x = Ok y) l -> exists ys, mapM f l = Ok ys.
Proof.
  induction 1 as [|x l [y Hy] _ [ys Hys]]; cbn.
  - eauto.
  - rewrite Hy. cbn. rewrite Hys. cbn. eauto.
Qed.

Lemma all_keys_elim check keys d key :
  all_keys check keys d = true -> In key keys -> opt_key check key d = true.
Proof.
  unfold all_keys. rewrite forallb_forall. intros H Hin. apply H, Hin.
Qed.

Lemma get_str_ok d key dflt :
  opt_key is_str key d = true -> exists s, get_str (JDict d) key dflt = Ok s.
Proof.
  unfold opt_key, get_str, py_get. cbn.
  destruct (assoc_get key d) as [[]|]; cbn; try discriminate; eauto.
Qed.

Lemma get_bool_ok d key dflt :
  opt_key is_bool key d = true -> exists b, get_bool (JDict d) key dflt = Ok b.
Proof.
  unfold opt_key, get_bool, py_get. cbn.
  destruct (assoc_get key d) as [[]|]; cbn; try discriminate; eauto.
Qed.

Lemma as_str_list_ok field l :
  forallb is_str l = true -> exists ss, mapM (as_str field) l = Ok ss.
Proof.
  intros H. apply mapM_total. rewrite forallb_forall in H.
  apply List.Forall_forall. intros x Hx. specialize (H x Hx).
  destruct x; try discriminate. cbn. eauto.
Qed.

(** A list-valued key of the declared shape: the key's records are read
    one by one. *)
Lemma records_ok {B} (shape : list (string * json) -> bool)
    (make : json -> merged B) key d :
  (forall e, shape e = true -> exists y, make (JDict e) = Ok y) ->
  records_key shape key d = true ->
  exists items ys,
    lift (py_get (JDict d) key (JList [])) = Ok (JList items)
    /\ iterate key (JList items) = Ok items
    /\ mapM make items = Ok ys.
Proof.
  intros Hmake. unfold records_key, opt_key. cbn.
  destruct (assoc_get key d) as [v|]; cbn.
  - destruct v as [| | | |items|]; cbn; try discriminate. intros Hall.
    rewrite forallb_forall in Hall.
    destruct (mapM_total make items) as [ys Hys].
    { apply List.Forall_forall. intros x Hx. specialize (Hall x Hx).
      destruct x; try discriminate. apply Hmake, Hall. }
    exists items, ys. auto.
  - intros _. exists [], []. auto.
Qed.

End MergeLemmas.

Ltac split_shape H :=
  cbn [all_keys forallb] in H;
  rewrite ?andb_true_iff in H; destruct_and?.

Ltac read_keys :=
  repeat match goal with
    | H : opt_key is_str ?k ?e = true |- context [get_str (JDict ?e) ?k ?dflt] =>
        let s := fresh "s" in
        destruct (get_str_ok e k dflt H) as [s ->]; cbn [mbind res_mbind res_bind]
    | H : opt_key is_bool ?k ?e = true |- context [get_bool (JDict ?e) ?k ?dflt] =>
        let b := fresh "b" in
        destruct (get_bool_ok e k dflt H) as [b ->]; cbn [mbind res_mbind res_bind]
    end.

Section MergeFacets.

Lemma make_SelectionParameter_ok e :
  selection_parameter_shape e = true ->
  exists y, make_SelectionParameter (JDict e) = Ok y.
Proof.
  intros H. unfold selection_parameter_shape in H. split_shape H.
  unfold make_SelectionParameter. read_keys. eauto.
Qed.

Lemma coerce_processing_type_total e :
  exists t, coerce_processing_type (JDict e) = Ok t.
Proof.
  unfold coerce_processing_type, py_get. cbn [mbind res_mbind res_bind].
  destruct (FieldProcessingType_call _) as [t|err] eqn:Hcall; cbn; [eauto|].
  unfold FieldProcessingType_call in Hcall.
  destruct (default _ _); try (injection Hcall as <-; eauto).
  destruct (List.find _ _); [discriminate|]. injection Hcall as <-; eauto.
Qed.

Lemma make_FieldMapping_ok e :
  field_mapping_shape e = true ->
  exists y, make_FieldMapping (JDict e) = Ok y.
Proof.
  intros H. unfold field_mapping_shape in H. split_shape H.
  unfold make_FieldMapping.
  destruct (coerce_processing_type_total e) as [t ->].
  cbn [lift mbind res_mbind res_bind].
  read_keys. eauto.
Qed.

Lemma make_DataConditionRow_ok e :
  data_condition_shape e = true ->
  exists y, make_DataConditionRow (JDict e) = Ok y.
Proof.
  intros H. unfold data_condition_shape in H. split_shape H.
  unfold make_DataConditionRow. read_keys. eauto.
Qed.

Lemma make_ErrorScenario_ok e :
  error_scenario_shape e = true ->
  exists y, make_ErrorScenario (JDict e) = Ok y.
Proof.
  intros H. unfold error_scenario_shape in H. split_shape H.
  unfold make_ErrorScenario. read_keys. eauto.
Qed.

Lemma make_TestScenario_ok e :
  test_scenario_shape e = true ->
  exists y, make_TestScenario (JDict e) = Ok y.
Proof.
  intros H. unfold test_scenario_shape in H. split_shape H.
  unfold make_TestScenario. read_keys. eauto.
Qed.

Lemma make_lookup_row_ok dflt e :
  lookup_rule_shape e = true ->
  exists y, make_lookup_row dflt (JDict e) = Ok y.
Proof.
  unfold lookup_rule_shape. rewrite andb_true_iff. intros [Hc Ht].
  unfold make_lookup_row, py_get, opt_key in *. cbn.
  destruct (assoc_get "target_fields" e) as [v|]; cbn.
  - destruct v as [| | | |l|]; try discriminate. cbn in Ht. cbn. rewrite Ht.
    destruct (as_str_list_ok "target_fields" l Ht) as [ss ->]. cbn.
    destruct (assoc_get "condition" e) as [[]|]; cbn; try discriminate; eauto.
  - destruct (assoc_get "condition" e) as [[]|]; cbn; try discriminate; eauto.
Qed.

Lemma lookup_rows_ok d key dflt :
  records_key lookup_rule_shape key d = true ->
  exists rows, lookup_rows (JDict d) key dflt = Ok rows.
Proof.
  intros H.
  destruct (records_ok lookup_rule_shape (make_lookup_row dflt) key d
              (make_lookup_row_ok dflt) H) as (items & ys & Hget & Hit & Hys).
  unfold lookup_rows. rewrite Hget. cbn [mbind res_mbind res_bind].
  rewrite Hit. cbn [mbind res_mbind res_bind]. eauto.
Qed.

Lemma extended_ok lst d key :
  opt_key (is_list_of is_str) key d = true ->
  exists l, extended lst (JDict d) key = Ok l.
Proof.
  unfold opt_key, extended, py_get. cbn.
  destruct (assoc_get key d) as [v|]; cbn.
  - destruct v as [| | | |l|]; try discriminate. cbn. intros H.
    destruct (as_str_list_ok key l H) as [ss ->]. cbn. eauto.
  - eauto.
Qed.

End MergeFacets.

Ltac bind_inv H :=
  repeat (apply bind_Ok in H; let a := fresh "a" in let Ha := fresh "Ha" in
          destruct H as (a & Ha & H)).

Section MergeSteps.

Lemma py_get_str d key dflt :
  opt_key is_str key d = true ->
  exists s, py_get (JDict d) key (JStr dflt) = Ok (JStr s).
Proof.
  unfold opt_key, py_get.
  destruct (assoc_get key d) as [[]|]; cbn; try discriminate; eauto.
Qed.

Lemma map_basic_info_ok fd d :
  basic_info_shape fd = true -> exists d', map_basic_info (JDict fd) d = Ok d'.
Proof.
  intros H. unfold basic_info_shape in H. split_shape H.
  unfold map_basic_info. destruct (truthy (JDict fd)); [|eauto].
  read_keys.
  assert (exists l, lift (py_get (JDict fd) "assumptions" (JList [])) = Ok (JList l)
                    /\ forallb is_str l = true) as (l & -> & Hl).
  { unfold opt_key, py_get in *. cbn.
    destruct (assoc_get "assumptions" fd) as [v|]; cbn.
    - destruct v; try discriminate. eauto.
    - exists []. auto. }
  cbn [mbind res_mbind res_bind as_str_list].
  destruct (as_str_list_ok "assumptions" l Hl) as [ss ->].
  cbn [mbind res_mbind res_bind]. read_keys.
  repeat match goal with
    | Hk : opt_key is_str ?k fd = true
      |- context [py_get (JDict fd) ?k (JStr ?dflt)] =>
        let s := fresh "s" in
        destruct (py_get_str fd k dflt Hk) as [s ->];
        cbn [lift mbind res_mbind res_bind]
    end.
  repeat match goal with
    | |- context [if ?c then _ else _] => destruct c; cbn
    end; eauto.
Qed.

(** A step that reads the records of one key and appends them to one
    list. *)
Lemma map_selection_screen_ok fd d :
  records_key selection_parameter_shape "selection_parameters" fd = true ->
  exists d', map_selection_screen (JDict fd) d = Ok d'.
Proof.
  intros H. unfold map_selection_screen. destruct (truthy _); [|eauto].
  destruct (records_ok _ _ _ _ make_SelectionParameter_ok H)
    as (items & ys & -> & Hit & Hys).
  cbn [mbind res_mbind res_bind]. rewrite Hit. cbn [mbind res_mbind res_bind].
  rewrite Hys. cbn. eauto.
Qed.

Lemma map_field_mappings_ok fd d :
  records_key field_mapping_shape "field_mappings" fd = true ->
  exists new,
    map_field_mappings (JDict fd) d
    = Ok (with_field_mappings (field_mappings d ++ new) d)
    /\ mapM make_FieldMapping
         (json_items (default (JList []) (assoc_get "field_mappings" fd))) = Ok new.
Proof.
  intros H. unfold map_field_mappings.
  destruct (records_ok _ _ _ _ make_FieldMapping_ok H)
    as (items & ys & Hget & Hit & Hys).
  assert (default (JList []) (assoc_get "field_mappings" fd) = JList items) as Hitems.
  { unfold py_get in Hget. cbn in Hget. congruence. }
  rewrite Hitems. cbn [json_items].
  destruct (truthy (JDict fd)) eqn:Htruthy.
  - rewrite Hget. cbn [mbind res_mbind res_bind]. rewrite Hit.
    cbn [mbind res_mbind res_bind]. rewrite Hys. cbn. eauto.
  - destruct fd; [|discriminate]. cbn in Hitems. injection Hitems as <-.
    cbn in Hys. injection Hys as <-. exists []. split; [|reflexivity].
    rewrite app_nil_r. destruct d; reflexivity.
Qed.

Lemma map_valid_datasets_ok fd d :
  records_key data_condition_shape "valid_dataset_rules" fd = true ->
  exists d', map_valid_datasets (JDict fd) d = Ok d'.
Proof.
  intros H. unfold map_valid_datasets. destruct (truthy _); [|eauto].
  destruct (records_ok _ _ _ _ make_DataConditionRow_ok H)
    as (items & ys & -> & Hit & Hys).
  cbn [mbind res_mbind res_bind]. rewrite Hit. cbn [mbind res_mbind res_bind].
  rewrite Hys. cbn. eauto.
Qed.

Lemma map_lookup_forms_ok fd d :
  forallb (fun key => records_key lookup_rule_shape key fd)
    ["company_code_lookup"; "business_area_lookup"; "wage_type_lookup";
     "payroll_reason_lookup"] = true ->
  exists d', map_lookup_forms (JDict fd) d = Ok d'.
Proof.
  intros H. cbn [forallb] in H. rewrite ?andb_true_iff in H. destruct_and?.
  unfold map_lookup_forms. destruct (truthy _); [|eauto].
  repeat match goal with
    | Hk : records_key lookup_rule_shape ?k fd = true
      |- context [lookup_rows (JDict fd) ?k ?dflt] =>
        let rows := fresh "rows" in
        destruct (lookup_rows_ok fd k dflt Hk) as [rows ->];
        cbn [mbind res_mbind res_bind]
    end.
  eauto.
Qed.

Lemma map_error_handling_ok fd d :
  records_key error_scenario_shape "error_scenarios" fd = true ->
  exists d', map_error_handling (JDict fd) d = Ok d'.
Proof.
  intros H. unfold map_error_handling. destruct (truthy _); [|eauto].
  destruct (records_ok _ _ _ _ make_ErrorScenario_ok H)
    as (items & ys & -> & Hit & Hys).
  cbn [mbind res_mbind res_bind]. rewrite Hit. cbn [mbind res_mbind res_bind].
  rewrite Hys. cbn. eauto.
Qed.

Lemma map_test_scenarios_ok fd d :
  records_key test_scenario_shape "test_scenarios" fd = true ->
  exists d', map_test_scenarios (JDict fd) d = Ok d'.
Proof.
  intros H. unfold map_test_scenarios. destruct (truthy _); [|eauto].
  destruct (records_ok _ _ _ _ make_TestScenario_ok H)
    as (items & ys & -> & Hit & Hys).
  cbn [mbind res_mbind res_bind]. rewrite Hit. cbn [mbind res_mbind res_bind].
  rewrite Hys. cbn. eauto.
Qed.

Lemma map_validation_rules_ok fd d :
  opt_key (is_list_of is_str) "validation_rules" fd = true ->
  exists d', map_validation_rules (JDict fd) d = Ok d'.
Proof.
  intros H. unfold map_validation_rules. destruct (truthy _); [|eauto].
  destruct (extended_ok (validation_rules d) fd _ H) as [l ->]. cbn. eauto.
Qed.

Lemma map_authorization_ok fd d :
  all_keys (is_list_of is_str) ["authorization_objects"; "user_roles"] fd = true ->
  exists d', map_authorization (JDict fd) d = Ok d'.
Proof.
  intros H. split_shape H.
  unfold map_authorization. destruct (truthy _); [|eauto].
  destruct (extended_ok (authorization_objects d) fd "authorization_objects")
    as [l ->]; [assumption|]. cbn [mbind res_mbind res_bind].
  destruct (extended_ok (user_roles d) fd "user_roles") as [l' ->]; [assumption|].
  cbn. eauto.
Qed.

Lemma results_shape_get results task_name :
  results_shape results = true ->
  In task_name task_names ->
  exists fd, results_get results task_name = JDict fd
             /\ task_shape task_name fd = true.
Proof.
  unfold results_shape. rewrite forallb_forall. intros H Hin.
  specialize (H task_name Hin). unfold results_get.
  destruct (results !! task_name) as [v|]; cbn.
  - destruct v; try discriminate. eauto.
  - exists []. split; [reflexivity|].
    cbn in Hin. intuition subst; reflexivity.
Qed.

End MergeSteps.

Ltac step_inv H :=
  repeat (apply bind_Ok in H; cbv beta in H;
          let a := fresh "a" in let Ha := fresh "Ha" in
          destruct H as (a & Ha & H)).

Ltac step_keeps step :=
  let H := fresh "H" in
  unfold step; intros H;
  match type of H with
  | (if ?c then _ else _) = _ => destruct c
  end;
  [ step_inv H; injection H as <-; reflexivity
  | injection H as <-; reflexivity ].

Section MergeWhole.

(** The other steps leave [field_mappings] alone. *)
Lemma map_basic_info_field_mappings v d d' :
  map_basic_info v d = Ok d' -> field_mappings d' = field_mappings d.
Proof. step_keeps map_basic_info. Qed.

Lemma map_selection_screen_field_mappings v d d' :
  map_selection_screen v d = Ok d' -> field_mappings d' = field_mappings d.
Proof. step_keeps map_selection_screen. Qed.

Lemma map_valid_datasets_field_mappings v d d' :
  map_valid_datasets v d = Ok d' -> field_mappings d' = field_mappings d.
Proof. step_keeps map_valid_datasets. Qed.

Lemma map_lookup_forms_field_mappings v d d' :
  map_lookup_forms v d = Ok d' -> field_mappings d' = field_mappings d.
Proof. step_keeps map_lookup_forms. Qed.

Lemma map_error_handling_field_mappings v d d' :
  map_error_handling v d = Ok d' -> field_mappings d' = field_mappings d.
Proof. step_keeps map_error_handling. Qed.

Lemma map_test_scenarios_field_mappings v d d' :
  map_test_scenarios v d = Ok d' -> field_mappings d' = field_mappings d.
Proof. step_keeps map_test_scenarios. Qed.

Lemma map_validation_rules_field_mappings v d d' :
  map_validation_rules v d = Ok d' -> field_mappings d' = field_mappings d.
Proof. step_keeps map_validation_rules. Qed.

Lemma map_authorization_field_mappings v d d' :
  map_authorization v d = Ok d' -> field_mappings d' = field_mappings d.
Proof. step_keeps map_authorization. Qed.

(** On results of the declared shape the merge returns a document whose
    field mappings are the old ones followed by one per entry. *)
Lemma merge_shaped results d :
  results_shape results = true ->
  exists d' new,
    _map_fixed_results_to_fsd results d = Ok d'
    /\ field_mappings d' = field_mappings d ++ new
    /\ mapM make_FieldMapping
         (json_items
            (default (JList [])
               (json_key "field_mappings"
                  (results_get results "complete_field_mappings")))) = Ok new.
Proof.
  intros Hshape. unfold _map_fixed_results_to_fsd.
  assert (forall n, In n task_names ->
            exists fd, results_get results n = JDict fd /\ task_shape n fd = true)
    as Hget by (intros n Hn; apply results_shape_get; assumption).
  destruct (Hget "basic_info") as (fd1 & -> & S1); [cbn; tauto|].
  destruct (Hget "selection_screen") as (fd2 & -> & S2); [cbn; tauto|].
  destruct (Hget "complete_field_mappings") as (fd3 & -> & S3); [cbn; tauto|].
  destruct (Hget "complete_valid_datasets") as (fd4 & -> & S4); [cbn; tauto|].
  destruct (Hget "complete_lookup_forms") as (fd5 & -> & S5); [cbn; tauto|].
  destruct (Hget "error_handling") as (fd6 & -> & S6); [cbn; tauto|].
  destruct (Hget "test_scenarios") as (fd7 & -> & S7); [cbn; tauto|].
  destruct (Hget "validation_rules") as (fd8 & -> & S8); [cbn; tauto|].
  destruct (Hget "authorization") as (fd9 & -> & S9); [cbn; tauto|].
  clear Hget.
  change (task_shape "basic_info" fd1) with (basic_info_shape fd1) in S1.
  change (task_shape "selection_screen" fd2)
    with (records_key selection_parameter_shape "selection_parameters" fd2) in S2.
  change (task_shape "complete_field_mappings" fd3)
    with (records_key field_mapping_shape "field_mappings" fd3) in S3.
  change (task_shape "complete_valid_datasets" fd4)
    with (records_key data_condition_shape "valid_dataset_rules" fd4) in S4.
  change (task_shape "error_handling" fd6)
    with (records_key error_scenario_shape "error_scenarios" fd6) in S6.
  change (task_shape "test_scenarios" fd7)
    with (records_key test_scenario_shape "test_scenarios" fd7) in S7.
  change (task_shape "validation_rules" fd8)
    with (opt_key (is_list_of is_str) "validation_rules" fd8) in S8.
  destruct (map_basic_info_ok fd1 d S1) as [d1 H1].
  destruct (map_selection_screen_ok fd2 d1 S2) as [d2 H2].
  destruct (map_field_mappings_ok fd3 d2 S3) as (new & H3 & Hnew).
  set (d3 := with_field_mappings (field_mappings d2 ++ new) d2) in H3.
  destruct (map_valid_datasets_ok fd4 d3 S4) as [d4 H4].
  destruct (map_lookup_forms_ok fd5 d4 S5) as [d5 H5].
  destruct (map_error_handling_ok fd6 d5 S6) as [d6 H6].
  destruct (map_test_scenarios_ok fd7 d6 S7) as [d7 H7].
  destruct (map_validation_rules_ok fd8 d7 S8) as [d8 H8].
  destruct (map_authorization_ok fd9 d8 S9) as [d9 H9].
  exists d9, new.
  rewrite H1; cbn [mbind res_mbind res_bind].
  rewrite H2; cbn [mbind res_mbind res_bind].
  rewrite H3; cbn [mbind res_mbind res_bind].
  rewrite H4; cbn [mbind res_mbind res_bind].
  rewrite H5; cbn [mbind res_mbind res_bind].
  rewrite H6; cbn [mbind res_mbind res_bind].
  rewrite H7; cbn [mbind res_mbind res_bind].
  rewrite H8; cbn [mbind res_mbind res_bind].
  split; [exact H9|]. split; [|exact Hnew].
  rewrite (map_authorization_field_mappings _ _ _ H9).
  rewrite (map_validation_rules_field_mappings _ _ _ H8).
  rewrite (map_test_scenarios_field_mappings _ _ _ H7).
  rewrite (map_error_handling_field_mappings _ _ _ H6).
  rewrite (map_lookup_forms_field_mappings _ _ _ H5).
  rewrite (map_valid_datasets_field_mappings _ _ _ H4).
  unfold d3. cbn [field_mappings with_field_mappings].
  rewrite (map_selection_screen_field_mappings _ _ _ H2).
  rewrite (map_basic_info_field_mappings _ _ _ H1). reflexivity.
Qed.

End MergeWhole.

Section MergeClaims.

Lemma FieldProcessingType_call_invalid (s : string) :
  s ∉ value <$> all_processing_types ->
  FieldProcessingType_call (JStr s) = raise ValueError.
Proof.
  intros Hs. unfold FieldProcessingType_call.
  destruct (List.find _ _) as [t|] eqn:Hfind; [|reflexivity].
  apply find_some in Hfind. destruct Hfind as [Hin Heq].
  apply String.eqb_eq in Heq. exfalso. apply Hs. subst s.
  apply list_elem_of_fmap. exists t. split; [reflexivity|].
  apply list_elem_of_In, Hin.
Qed.

Lemma coerce_processing_type_invalid entry (s : string) :
  assoc_get "processing_type" entry = Some (JStr s) ->
  s ∉ value <$> all_processing_types ->
  coerce_processing_type (JDict entry) = Ok DIRECT.
Proof.
  intros Hget Hs. unfold coerce_processing_type, py_get. rewrite Hget.
  cbn [default mbind res_mbind res_bind id].
  rewrite (FieldProcessingType_call_invalid s Hs). reflexivity.
Qed.

End MergeClaims.

(* ===================================================================== *)
(** ** The merge on the values as Python stores them *)
(* ===================================================================== *)

Section DynFacets.

Lemma dyn_make_SelectionParameter_total fd :
  exists y, Dyn.make_SelectionParameter (JDict fd) = Ok y.
Proof. unfold Dyn.make_SelectionParameter. cbn. eauto. Qed.

Lemma dyn_make_FieldMapping_total fd :
  exists y, Dyn.make_FieldMapping (JDict fd) = Ok y.
Proof.
  unfold Dyn.make_FieldMapping.
  destruct (coerce_processing_type_total fd) as [t ->]. cbn. eauto.
Qed.

Lemma dyn_make_DataConditionRow_total fd :
  exists y, Dyn.make_DataConditionRow (JDict fd) = Ok y.
Proof. unfold Dyn.make_DataConditionRow. cbn. eauto. Qed.

Lemma dyn_make_ErrorScenario_total fd :
  exists y, Dyn.make_ErrorScenario (JDict fd) = Ok y.
Proof. unfold Dyn.make_ErrorScenario. cbn. eauto. Qed.

Lemma dyn_make_TestScenario_total fd :
  exists y, Dyn.make_TestScenario (JDict fd) = Ok y.
Proof. unfold Dyn.make_TestScenario. cbn. eauto. Qed.

Lemma dyn_make_lookup_row_total dflt rule :
  lookup_rule_listed rule = true -> exists y, Dyn.make_lookup_row dflt rule = Ok y.
Proof.
  unfold lookup_rule_listed, is_dict_with. destruct rule as [| | | | |fd]; try discriminate.
  unfold opt_key, Dyn.make_lookup_row, py_get. cbn [mbind res_mbind res_bind].
  destruct (assoc_get "target_fields" fd) as [v|]; cbn [default id].
  - destruct v as [| | | |l|]; cbn; try discriminate. intros ->. eauto.
  - intros _. cbn. eauto.
Qed.

(** A key whose list is a list of entries that can be read: the walk over
    it returns. *)
Lemma dyn_walk {B} (entry : json -> bool) (make : json -> exc B) key fd :
  (forall e, entry e = true -> exists y, make e = Ok y) ->
  listed entry key fd = true ->
  exists items ys,
    py_get (JDict fd) key (JList []) = Ok (JList items) /\ mapM make items = Ok ys.
Proof.
  intros Hmake. unfold listed, opt_key, py_get.
  destruct (assoc_get key fd) as [v|]; cbn.
  - destruct v as [| | | |items|]; cbn; try discriminate. intros Hall.
    rewrite forallb_forall in Hall.
    destruct (mapM_total make items) as [ys Hys].
    { apply List.Forall_forall. intros x Hx. apply Hmake, Hall, Hx. }
    eauto.
  - intros _. exists [], []. auto.
Qed.

Lemma is_dict_inv (make_total : json -> Prop) :
  (forall fd, make_total (JDict fd)) -> forall e, is_dict e = true -> make_total e.
Proof. intros H [] He; try discriminate. apply H. Qed.

End DynFacets.

Section DynSteps.

Variable str_of : json -> string.

Ltac skipped H :=
  destruct H as [H|(fd & -> & H)]; [rewrite H; eauto|];
  destruct (truthy (JDict fd)); [|eauto].

Lemma dyn_map_basic_info_returns v d :
  walked anything_in v -> exists d', Dyn.map_basic_info str_of v d = Ok d'.
Proof.
  intros H. unfold Dyn.map_basic_info. skipped H. cbn. eauto.
Qed.

Lemma dyn_map_selection_screen_returns v d :
  walked (listed is_dict "selection_parameters") v ->
  exists d', Dyn.map_selection_screen v d = Ok d'.
Proof.
  intros H. unfold Dyn.map_selection_screen. skipped H.
  destruct (dyn_walk is_dict Dyn.make_SelectionParameter _ fd
              (is_dict_inv _ dyn_make_SelectionParameter_total) H)
    as (items & ys & -> & Hys).
  cbn [mbind res_mbind res_bind py_iter]. rewrite Hys. cbn. eauto.
Qed.

Lemma dyn_map_field_mappings_returns v d :
  walked (listed is_dict "field_mappings") v ->
  exists d', Dyn.map_field_mappings v d = Ok d'.
Proof.
  intros H. unfold Dyn.map_field_mappings. skipped H.
  destruct (dyn_walk is_dict Dyn.make_FieldMapping _ fd
              (is_dict_inv _ dyn_make_FieldMapping_total) H)
    as (items & ys & -> & Hys).
  cbn [mbind res_mbind res_bind py_iter]. rewrite Hys. cbn. eauto.
Qed.

Lemma dyn_map_valid_datasets_returns v d :
  walked (listed is_dict "valid_dataset_rules") v ->
  exists d', Dyn.map_valid_datasets v d = Ok d'.
Proof.
  intros H. unfold Dyn.map_valid_datasets. skipped H.
  destruct (dyn_walk is_dict Dyn.make_DataConditionRow _ fd
              (is_dict_inv _ dyn_make_DataConditionRow_total) H)
    as (items & ys & -> & Hys).
  cbn [mbind res_mbind res_bind py_iter]. rewrite Hys. cbn. eauto.
Qed.

Lemma dyn_lookup_rows_returns fd key dflt :
  listed lookup_rule_listed key fd = true ->
  exists rows, Dyn.lookup_rows (JDict fd) key dflt = Ok rows.
Proof.
  intros H. unfold Dyn.lookup_rows.
  destruct (dyn_walk lookup_rule_listed (Dyn.make_lookup_row dflt) _ fd
              (dyn_make_lookup_row_total dflt) H)
    as (items & ys & -> & Hys).
  cbn [mbind res_mbind res_bind py_iter]. rewrite Hys. eauto.
Qed.

Lemma dyn_map_lookup_forms_returns v d :
  walked (fun fd => forallb (fun key => listed lookup_rule_listed key fd)
                      ["company_code_lookup"; "business_area_lookup";
                       "wage_type_lookup"; "payroll_reason_lookup"]) v ->
  exists d', Dyn.map_lookup_forms v d = Ok d'.
Proof.
  intros H. unfold Dyn.map_lookup_forms. skipped H.
  cbn [forallb] in H. rewrite !andb_true_iff in H.
  destruct H as (H1 & H2 & H3 & H4 & _).
  destruct (dyn_lookup_rows_returns fd _ "BUTXT" H1) as [r1 ->].
  destruct (dyn_lookup_rows_returns fd _ "GTEXT" H2) as [r2 ->].
  destruct (dyn_lookup_rows_returns fd _ "LGTXT" H3) as [r3 ->].
  destruct (dyn_lookup_rows_returns fd _ "OCRTX" H4) as [r4 ->].
  cbn. eauto.
Qed.

Lemma dyn_map_error_handling_returns v d :
  walked (listed is_dict "error_scenarios") v ->
  exists d', Dyn.map_error_handling v d = Ok d'.
Proof.
  intros H. unfold Dyn.map_error_handling. skipped H.
  destruct (dyn_walk is_dict Dyn.make_ErrorScenario _ fd
              (is_dict_inv _ dyn_make_ErrorScenario_total) H)
    as (items & ys & -> & Hys).
  cbn [mbind res_mbind res_bind py_iter]. rewrite Hys. cbn. eauto.
Qed.

Lemma dyn_map_test_scenarios_returns v d :
  walked (listed is_dict "test_scenarios") v ->
  exists d', Dyn.map_test_scenarios v d = Ok d'.
Proof.
  intros H. unfold Dyn.map_test_scenarios. skipped H.
  destruct (dyn_walk is_dict Dyn.make_TestScenario _ fd
              (is_dict_inv _ dyn_make_TestScenario_total) H)
    as (items & ys & -> & Hys).
  cbn [mbind res_mbind res_bind py_iter]. rewrite Hys. cbn. eauto.
Qed.

Lemma dyn_extended_returns lst fd key :
  listed anything key fd = true ->
  exists l, Dyn.extended lst (JDict fd) key = Ok l.
Proof.
  unfold listed, opt_key, Dyn.extended, py_get.
  destruct (assoc_get key fd) as [v|]; cbn.
  - destruct v; cbn; try discriminate. eauto.
  - eauto.
Qed.

Lemma dyn_map_validation_rules_returns v d :
  walked (listed anything "validation_rules") v ->
  exists d', Dyn.map_validation_rules v d = Ok d'.
Proof.
  intros H. unfold Dyn.map_validation_rules. skipped H.
  destruct (dyn_extended_returns (Dyn.validation_rules d) fd _ H) as [l ->].
  cbn. eauto.
Qed.

Lemma dyn_map_authorization_returns v d :
  walked (fun fd => listed anything "authorization_objects" fd
                    && listed anything "user_roles" fd) v ->
  exists d', Dyn.map_authorization v d = Ok d'.
Proof.
  intros H. unfold Dyn.map_authorization. skipped H.
  apply andb_true_iff in H as [H1 H2].
  destruct (dyn_extended_returns (Dyn.authorization_objects d) fd _ H1) as [l1 ->].
  destruct (dyn_extended_returns (Dyn.user_roles d) fd _ H2) as [l2 ->].
  cbn. eauto.
Qed.

Lemma lists_hold_lists_get results task_name :
  lists_hold_lists results = true ->
  In task_name task_names ->
  walked (task_lists task_name) (results_get results task_name).
Proof.
  unfold lists_hold_lists. rewrite forallb_forall. intros H Hin.
  specialize (H task_name Hin). unfold results_get, walked.
  destruct (results !! task_name) as [v|]; cbn.
  - apply orb_true_iff in H as [H|H].
    + left. now apply negb_true_iff.
    + right. destruct v; try discriminate. eauto.
  - left. reflexivity.
Qed.

(** On results whose lists are lists the merge returns. *)
Lemma dyn_merge_returns results d :
  lists_hold_lists results = true ->
  exists d', Dyn._map_fixed_results_to_fsd str_of results d = Ok d'.
Proof.
  intros Hshape. unfold Dyn._map_fixed_results_to_fsd.
  pose proof (fun t Hin => lists_hold_lists_get results t Hshape Hin) as Hget.
  destruct (dyn_map_basic_info_returns (results_get results "basic_info") d)
    as [d1 ->]; [apply (Hget "basic_info"); cbn; tauto|].
  cbn [mbind res_mbind res_bind].
  destruct (dyn_map_selection_screen_returns (results_get results "selection_screen") d1)
    as [d2 ->]; [apply (Hget "selection_screen"); cbn; tauto|].
  cbn [mbind res_mbind res_bind].
  destruct (dyn_map_field_mappings_returns
              (results_get results "complete_field_mappings") d2)
    as [d3 ->]; [apply (Hget "complete_field_mappings"); cbn; tauto|].
  cbn [mbind res_mbind res_bind].
  destruct (dyn_map_valid_datasets_returns
              (results_get results "complete_valid_datasets") d3)
    as [d4 ->]; [apply (Hget "complete_valid_datasets"); cbn; tauto|].
  cbn [mbind res_mbind res_bind].
  destruct (dyn_map_lookup_forms_returns
              (results_get results "complete_lookup_forms") d4)
    as [d5 ->]; [apply (Hget "complete_lookup_forms"); cbn; tauto|].
  cbn [mbind res_mbind res_bind].
  destruct (dyn_map_error_handling_returns (results_get results "error_handling") d5)
    as [d6 ->]; [apply (Hget "error_handling"); cbn; tauto|].
  cbn [mbind res_mbind res_bind].
  destruct (dyn_map_test_scenarios_returns (results_get results "test_scenarios") d6)
    as [d7 ->]; [apply (Hget "test_scenarios"); cbn; tauto|].
  cbn [mbind res_mbind res_bind].
  destruct (dyn_map_validation_rules_returns (results_get results "validation_rules") d7)
    as [d8 ->]; [apply (Hget "validation_rules"); cbn; tauto|].
  cbn [mbind res_mbind res_bind].
  apply dyn_map_authorization_returns. apply (Hget "authorization"). cbn; tauto.
Qed.

(** *** What a step changes *)

Lemma dyn_extends_refl d : Dyn.extends d d.
Proof. unfold Dyn.extends. split_and!; reflexivity. Qed.

Lemma dyn_extends_trans d1 d2 d3 :
  Dyn.extends d1 d2 -> Dyn.extends d2 d3 -> Dyn.extends d1 d3.
Proof.
  unfold Dyn.extends. intros H12 H23. destruct_and!.
  split_and!; try (etrans; eassumption); congruence.
Qed.

Lemma dyn_texts_kept_refl d : Dyn.texts_kept d d.
Proof. unfold Dyn.texts_kept. split_and!; reflexivity. Qed.

Lemma dyn_texts_kept_trans d1 d2 d3 :
  Dyn.texts_kept d1 d2 -> Dyn.texts_kept d2 d3 -> Dyn.texts_kept d1 d3.
Proof. unfold Dyn.texts_kept. intros H12 H23. destruct_and!. split_and!; congruence. Qed.

Lemma dyn_texts_assigned_kept v d1 d2 d3 :
  Dyn.texts_assigned v d1 d2 -> Dyn.texts_kept d2 d3 -> Dyn.texts_assigned v d1 d3.
Proof.
  unfold Dyn.texts_assigned, Dyn.texts_kept. intros H12 H23. destruct_and!.
  split_and!; congruence.
Qed.

Ltac grown :=
  unfold Dyn.extends, Dyn.texts_kept; cbn;
  split_and!; try reflexivity; try (eexists; reflexivity).

Ltac dyn_step_inv step H :=
  unfold step in H;
  match type of H with
  | (if ?c then _ else _) = _ => destruct c
  end;
  [ step_inv H; injection H as <-
  | injection H as <- ].

Lemma dyn_map_basic_info_effect v d d' :
  Dyn.map_basic_info str_of v d = Ok d' ->
  Dyn.extends d d' /\ Dyn.texts_assigned v d d'
  /\ Dyn.field_mappings d' = Dyn.field_mappings d.
Proof.
  intros H. unfold Dyn.map_basic_info in H.
  destruct (truthy v) eqn:Hv.
  - destruct v as [| | | | |fd]; try discriminate H.
    cbn [py_get mbind res_mbind res_bind] in H. injection H as <-.
    split; [|split].
    + unfold Dyn.extends. cbn.
      split_and!; try reflexivity;
        match goal with
        | |- _ `prefix_of` (if ?c then _ else _) => destruct c
        end; try reflexivity; eexists; reflexivity.
    + unfold Dyn.texts_assigned, Dyn.assigned. rewrite Hv. cbn.
      split_and!; reflexivity.
    + reflexivity.
  - injection H as <-. split; [apply dyn_extends_refl|]. split; [|reflexivity].
    unfold Dyn.texts_assigned, Dyn.assigned. rewrite Hv. split_and!; reflexivity.
Qed.

Lemma dyn_map_selection_screen_effect v d d' :
  Dyn.map_selection_screen v d = Ok d' ->
  Dyn.extends d d' /\ Dyn.texts_kept d d'
  /\ Dyn.field_mappings d' = Dyn.field_mappings d.
Proof.
  intros H. dyn_step_inv Dyn.map_selection_screen H;
    [|split; [apply dyn_extends_refl|split; [apply dyn_texts_kept_refl|reflexivity]]].
  split; [|split]; [grown|grown|reflexivity].
Qed.

Lemma dyn_map_field_mappings_effect v d d' :
  Dyn.map_field_mappings v d = Ok d' ->
  Dyn.extends d d' /\ Dyn.texts_kept d d'
  /\ exists items new,
       Dyn.field_mapping_entries v = Ok items
       /\ mapM Dyn.make_FieldMapping items = Ok new
       /\ Dyn.field_mappings d' = Dyn.field_mappings d ++ new.
Proof.
  intros H. unfold Dyn.map_field_mappings, Dyn.field_mapping_entries in *.
  destruct (truthy v).
  - step_inv H. injection H as <-.
    split; [|split]; [grown|grown|].
    rewrite Ha. cbn [mbind res_mbind res_bind]. eauto.
  - injection H as <-.
    split; [apply dyn_extends_refl|split; [apply dyn_texts_kept_refl|]].
    exists [], []. rewrite app_nil_r. auto.
Qed.

Lemma dyn_map_valid_datasets_effect v d d' :
  Dyn.map_valid_datasets v d = Ok d' ->
  Dyn.extends d d' /\ Dyn.texts_kept d d'
  /\ Dyn.field_mappings d' = Dyn.field_mappings d.
Proof.
  intros H. dyn_step_inv Dyn.map_valid_datasets H;
    [|split; [apply dyn_extends_refl|split; [apply dyn_texts_kept_refl|reflexivity]]].
  split; [|split]; [grown|grown|reflexivity].
Qed.

Lemma dyn_map_lookup_forms_effect v d d' :
  Dyn.map_lookup_forms v d = Ok d' ->
  Dyn.extends d d' /\ Dyn.texts_kept d d'
  /\ Dyn.field_mappings d' = Dyn.field_mappings d.
Proof.
  intros H. dyn_step_inv Dyn.map_lookup_forms H;
    [|split; [apply dyn_extends_refl|split; [apply dyn_texts_kept_refl|reflexivity]]].
  split; [|split]; [grown|grown|reflexivity].
Qed.

Lemma dyn_map_error_handling_effect v d d' :
  Dyn.map_error_handling v d = Ok d' ->
  Dyn.extends d d' /\ Dyn.texts_kept d d'
  /\ Dyn.field_mappings d' = Dyn.field_mappings d.
Proof.
  intros H. dyn_step_inv Dyn.map_error_handling H;
    [|split; [apply dyn_extends_refl|split; [apply dyn_texts_kept_refl|reflexivity]]].
  split; [|split]; [grown|grown|reflexivity].
Qed.

Lemma dyn_map_test_scenarios_effect v d d' :
  Dyn.map_test_scenarios v d = Ok d' ->
  Dyn.extends d d' /\ Dyn.texts_kept d d'
  /\ Dyn.field_mappings d' = Dyn.field_mappings d.
Proof.
  intros H. dyn_step_inv Dyn.map_test_scenarios H;
    [|split; [apply dyn_extends_refl|split; [apply dyn_texts_kept_refl|reflexivity]]].
  split; [|split]; [grown|grown|reflexivity].
Qed.

Lemma dyn_extended_grows lst v key l :
  Dyn.extended lst v key = Ok l -> lst `prefix_of` l.
Proof.
  unfold Dyn.extended. intros H. step_inv H. injection H as <-. eexists; reflexivity.
Qed.

Lemma dyn_map_validation_rules_effect v d d' :
  Dyn.map_validation_rules v d = Ok d' ->
  Dyn.extends d d' /\ Dyn.texts_kept d d'
  /\ Dyn.field_mappings d' = Dyn.field_mappings d.
Proof.
  intros H. unfold Dyn.map_validation_rules in H. destruct (truthy v);
    [|injection H as <-;
      split; [apply dyn_extends_refl|split; [apply dyn_texts_kept_refl|reflexivity]]].
  apply bind_Ok in H. destruct H as (l & Hl & H). injection H as <-.
  apply dyn_extended_grows in Hl.
  split; [|split]; [|grown|reflexivity].
  unfold Dyn.extends. cbn. split_and!; try reflexivity. exact Hl.
Qed.

Lemma dyn_map_authorization_effect v d d' :
  Dyn.map_authorization v d = Ok d' ->
  Dyn.extends d d' /\ Dyn.texts_kept d d'
  /\ Dyn.field_mappings d' = Dyn.field_mappings d.
Proof.
  intros H. unfold Dyn.map_authorization in H. destruct (truthy v);
    [|injection H as <-;
      split; [apply dyn_extends_refl|split; [apply dyn_texts_kept_refl|reflexivity]]].
  apply bind_Ok in H. destruct H as (l1 & Hl1 & H).
  apply bind_Ok in H. destruct H as (l2 & Hl2 & H). injection H as <-.
  apply dyn_extended_grows in Hl1, Hl2.
  split; [|split]; [|grown|reflexivity].
  unfold Dyn.extends. cbn. split_and!; try reflexivity; assumption.
Qed.

(** What a merge that returns has done: the lists have grown at their
    end, the texts and [assumptions] hold what the basic info holds, and the
    field mappings are the old ones followed by one per entry walked. *)
Lemma dyn_merge_effect results d d' :
  Dyn._map_fixed_results_to_fsd str_of results d = Ok d' ->
  Dyn.extends d d'
  /\ Dyn.texts_assigned (results_get results "basic_info") d d'
  /\ exists items new,
       Dyn.field_mapping_entries (results_get results "complete_field_mappings")
       = Ok items
       /\ mapM Dyn.make_FieldMapping items = Ok new
       /\ Dyn.field_mappings d' = Dyn.field_mappings d ++ new.
Proof.
  intros H. unfold Dyn._map_fixed_results_to_fsd in H.
  apply bind_Ok in H. destruct H as (d1 & H1 & H).
  apply bind_Ok in H. destruct H as (d2 & H2 & H).
  apply bind_Ok in H. destruct H as (d3 & H3 & H).
  apply bind_Ok in H. destruct H as (d4 & H4 & H).
  apply bind_Ok in H. destruct H as (d5 & H5 & H).
  apply bind_Ok in H. destruct H as (d6 & H6 & H).
  apply bind_Ok in H. destruct H as (d7 & H7 & H).
  apply bind_Ok in H. destruct H as (d8 & H8 & H9).
  apply dyn_map_basic_info_effect in H1. destruct H1 as (E1 & T1 & F1).
  apply dyn_map_selection_screen_effect in H2. destruct H2 as (E2 & T2 & F2).
  apply dyn_map_field_mappings_effect in H3.
  destruct H3 as (E3 & T3 & items & new & Hitems & Hnew & F3).
  apply dyn_map_valid_datasets_effect in H4. destruct H4 as (E4 & T4 & F4).
  apply dyn_map_lookup_forms_effect in H5. destruct H5 as (E5 & T5 & F5).
  apply dyn_map_error_handling_effect in H6. destruct H6 as (E6 & T6 & F6).
  apply dyn_map_test_scenarios_effect in H7. destruct H7 as (E7 & T7 & F7).
  apply dyn_map_validation_rules_effect in H8. destruct H8 as (E8 & T8 & F8).
  apply dyn_map_authorization_effect in H9. destruct H9 as (E9 & T9 & F9).
  split; [|split].
  - eapply dyn_extends_trans; [exact E1|]. eapply dyn_extends_trans; [exact E2|].
    eapply dyn_extends_trans; [exact E3|]. eapply dyn_extends_trans; [exact E4|].
    eapply dyn_extends_trans; [exact E5|]. eapply dyn_extends_trans; [exact E6|].
    eapply dyn_extends_trans; [exact E7|]. eapply dyn_extends_trans; [exact E8|].
    exact E9.
  - eapply dyn_texts_assigned_kept; [exact T1|].
    eapply dyn_texts_kept_trans; [exact T2|]. eapply dyn_texts_kept_trans; [exact T3|].
    eapply dyn_texts_kept_trans; [exact T4|]. eapply dyn_texts_kept_trans; [exact T5|].
    eapply dyn_texts_kept_trans; [exact T6|]. eapply dyn_texts_kept_trans; [exact T7|].
    eapply dyn_texts_kept_trans; [exact T8|]. exact T9.
  - exists items, new. split; [exact Hitems|]. split; [exact Hnew|]. congruence.
Qed.

End DynSteps.

Section DynClaims.

Variable str_of : json -> string.

Lemma dyn_make_FieldMapping_invalid entry (s : string) :
  assoc_get "processing_type" entry = Some (JStr s) ->
  s ∉ value <$> all_processing_types ->
  exists f,
    Dyn.make_FieldMapping (JDict entry) = Ok f /\ Dyn.processing_type f = DIRECT.
Proof.
  intros Hget Hs. unfold Dyn.make_FieldMapping.
  rewrite (coerce_processing_type_invalid entry s Hget Hs). cbn. eauto.
Qed.



End DynClaims.


(** The run of that entry: the merge returns, the field mapping is stored
    with [DIRECT] and with null as its display name. *)
Lemma bogus_entry_is_stored :
  let entry := [("display_name", JNull); ("processing_type", JStr "BOGUS")] in
  let results : gmap string json :=
    {[ "complete_field_mappings" := JDict [("field_mappings", JList [JDict entry])] ]} in
  lists_hold_lists results = true
  /\ exists d',
       Dyn._map_fixed_results_to_fsd (fun _ => "") results Dyn.new_FSDDocument = Ok d'
       /\ Dyn.field_mappings d'
          = [ {| Dyn.display_name := JNull; Dyn.technical_field := JStr "";
                 Dyn.source_table := JStr ""; Dyn.processing_logic := JStr "";
                 Dyn.processing_type := DIRECT;
                 Dyn.join_condition := JStr ""; Dyn.where_condition := JStr "" |} ].
Proof.
  intros entry results. split; [vm_compute; reflexivity|].
  eexists. split; vm_compute; reflexivity.
Qed.

(** C4 as stated fails: the merge raises with such an entry in the task
    results, when another list-valued key holds null or another entry of
    the list is null. *)
Lemma invalid_processing_type_counterexample :
  let entry := [("display_name", JStr "Company"); ("processing_type", JStr "BOGUS")] in
  Dyn._map_fixed_results_to_fsd (fun _ => "")
    {[ "complete_field_mappings" := JDict [("field_mappings", JList [JDict entry])];
       "selection_screen" := JDict [("selection_parameters", JNull)] ]}
    Dyn.new_FSDDocument
  = raise TypeError
  /\ Dyn._map_fixed_results_to_fsd (fun _ => "")
       {[ "complete_field_mappings" :=
            JDict [("field_mappings", JList [JDict entry; JNull])] ]}
       Dyn.new_FSDDocument
     = raise AttributeError.
Proof. intros entry. split; vm_compute; reflexivity. Qed.


(** The run of those results: the number and the text are stored where a
    text and a flag are declared. *)
Lemma ill_typed_values_are_stored :
  let results : gmap string json :=
    {[ "basic_info" := JDict [("program_name", JNum 123);
                              ("assumptions", JList [JStr "SAP HR aktif"])];
       "selection_screen" :=
         JDict [("selection_parameters",
                 JList [JDict [("name", JStr "P_BUKRS"); ("is_mandatory", JStr "yes")]])];
       "error_handling" := empty_dict ]} in
  lists_hold_lists results = true
  /\ assumptions_listed results = true
  /\ exists d',
       Dyn._map_fixed_results_to_fsd (fun _ => "") results
         (Dyn.mapper_document (JStr "SSoT")) = Ok d'
       /\ Dyn.program_name d' = JNum 123
       /\ Dyn.assumptions d' = JList [JStr "SAP HR aktif"]
       /\ map Dyn.is_mandatory (Dyn.selection_parameters d') = [JStr "yes"].
Proof.
  intros results. split; [vm_compute; reflexivity|].
  split; [vm_compute; reflexivity|].
  eexists. split; [vm_compute; reflexivity|]. split_and!; reflexivity.
Qed.


(* ===================================================================== *)
(** ** Strings *)
(* ===================================================================== *)

Section StringLemmas.

Lemma app_String c (s t : string) : String c s +:+ t = String c (s +:+ t).
Proof. reflexivity. Qed.

Lemma app_empty_l (t : string) : "" +:+ t = t.
Proof. reflexivity. Qed.

Lemma app_empty_r (s : string) : s +:+ "" = s.
Proof. induction s as [|c s IH]; [reflexivity|]. rewrite app_String, IH. reflexivity. Qed.

Lemma app_assoc_str (s t u : string) : (s +:+ t) +:+ u = s +:+ (t +:+ u).
Proof.
  induction s as [|c s IH]; [reflexivity|].
  rewrite !app_String, IH. reflexivity.
Qed.

Lemma join_cons2 sep x y l : join sep (x :: y :: l) = x +:+ sep +:+ join sep (y :: l).
Proof. reflexivity. Qed.

Lemma join_app sep (l1 l2 : list string) :
  l1 <> [] -> l2 <> [] ->
  join sep (l1 ++ l2) = join sep l1 +:+ sep +:+ join sep l2.
Proof.
  intros H1 H2. induction l1 as [|x l1 IH]; [contradiction|].
  destruct l1 as [|y l1].
  - destruct l2 as [|z l2]; [contradiction|]. reflexivity.
  - change ((x :: y :: l1) ++ l2) with (x :: y :: (l1 ++ l2)).
    rewrite !join_cons2. change (y :: l1 ++ l2) with ((y :: l1) ++ l2).
    rewrite IH by discriminate. rewrite ?app_assoc_str. reflexivity.
Qed.

(** A block in the middle of the lines is a block in the middle of the
    text. *)
Lemma join_block sep (pre block post : list string) :
  pre <> [] -> block <> [] ->
  exists after,
    join sep (pre ++ block ++ post) = join sep pre +:+ sep +:+ join sep block +:+ after.
Proof.
  intros Hpre Hblock. destruct post as [|p post].
  - exists "". rewrite app_nil_r, app_empty_r. apply join_app; assumption.
  - exists (sep +:+ join sep (p :: post)).
    rewrite join_app by (try assumption; destruct block; discriminate).
    rewrite (join_app sep block) by (try assumption; discriminate).
    rewrite ?app_assoc_str. reflexivity.
Qed.

End StringLemmas.

(* ===================================================================== *)
(** ** The renderer *)
(* ===================================================================== *)

Section RendererProperties.

Variable table : reference_table.
Variable _improve_text : string -> string.
Variable now : string.

Local Abbreviation md_lines' := (md_lines table _improve_text now).
Local Abbreviation _generate_markdown' := (_generate_markdown table _improve_text now).

Lemma title_lines_nonempty d : title_lines now d <> [].
Proof. discriminate. Qed.

(** C6. The selection screen of scenario 1: the heading 4.2, the fixed
    header rows and the row of P_BUKRS, as lines and in the text. *)
Theorem selection_screen_P_BUKRS (d : FSDDocument) (dv : string) :
  selection_parameters d =
    [ {| name := "P_BUKRS"; type := "BUKRS"; description := "Company Code";
         is_mandatory := true; is_select_option := false;
         has_no_intervals := false; default_value := dv |} ] ->
  let block :=
    [ "### 4.2 Selection Screen";
      "";
      "| Parameter | Type | Description | Mandatory | Select-Option | No Intervals |";
      "|-----------|------|-------------|-----------|---------------|--------------|";
      "| P_BUKRS | BUKRS | Company Code | Yes | No | No |";
      "" ] in
  (exists pre post, md_lines' d = pre ++ block ++ post)
  /\ (exists before after,
        _generate_markdown' d = before +:+ nl +:+ join nl block +:+ after).
Proof.
  intros Hsel block.
  assert (exists pre post, pre <> [] /\ md_lines' d = pre ++ block ++ post)
    as (pre & post & Hpre & Hlines).
  { exists (title_lines now d
            ++ document_information_lines table d
            ++ general_requirements_lines table _improve_text d
            ++ existing_sap_objects_lines table d
            ++ design_lines table _improve_text d).
    exists (detail_processing_lines d
            ++ append_form "### 4.4 Detail Process Only valid datasets"
                 (valid_dataset_rules d)
            ++ append_form "### Form Get_Country_Info" (country_info d)
            ++ append_form "### Form Get_Currency_T500C" (currency_t500c d)
            ++ append_form "### Form Get_Currency_T001" (currency_t001 d)
            ++ error_handling_lines d
            ++ testing_lines d).
    split; [discriminate|].
    unfold md_lines, selection_screen_lines. rewrite Hsel.
    rewrite <- !app_assoc. reflexivity. }
  split; [eauto|].
  unfold _generate_markdown. rewrite Hlines.
  destruct (join_block nl pre block post Hpre) as [after Hafter]; [discriminate|].
  exists (join nl pre), after. exact Hafter.
Qed.


(** *** Which emitted lines start with a hash *)

Local Abbreviation allowed d := (hash_lines table _improve_text d).
Local Abbreviation heading_or_plain := (heading_or_plain table _improve_text).

Lemma plain_line d (line : string) :
  startswith "#" line = false -> heading_or_plain d line.
Proof. intros H H'. congruence. Qed.

Lemma allowed_line d (line : string) :
  In line (allowed d) -> heading_or_plain d line.
Proof. intros H _. exact H. Qed.

Lemma emitted_heading_intro d heading block :
  In (heading, false, block) (record_sections d) ->
  In heading (emitted_headings d).
Proof.
  intros H. unfold emitted_headings. apply in_or_app. right.
  apply in_map_iff. exists (heading, false, block). split; [reflexivity|].
  apply filter_In. split; [exact H | reflexivity].
Qed.

Lemma emitted_heading_elim d heading :
  In heading (emitted_headings d) ->
  In heading fixed_headings
  \/ exists block, In (heading, false, block) (record_sections d).
Proof.
  unfold emitted_headings. intros H. apply in_app_or in H.
  destruct H as [H|H]; [left; exact H|]. right.
  apply in_map_iff in H. destruct H as ([[h b] blk] & Heq & Hin).
  apply filter_In in Hin. destruct Hin as [Hin Hb]. cbn in Heq, Hb. subst h.
  destruct b; [discriminate|]. eauto.
Qed.

Ltac plain := apply plain_line; rewrite ?app_String; reflexivity.

Ltac in_allowed :=
  apply allowed_line; unfold hash_lines; cbn [In app free_text_lines]; tauto.

Lemma Forall_map_plain {A} d (f : A -> string) (l : list A) :
  (forall x, startswith "#" (f x) = false) ->
  Forall (heading_or_plain d) (map f l).
Proof.
  intros Hf. apply List.Forall_forall. intros line Hin.
  apply in_map_iff in Hin. destruct Hin as (x & <- & _).
  apply plain_line, Hf.
Qed.

Lemma fixed_heading_line d heading :
  In heading fixed_headings -> heading_or_plain d heading.
Proof.
  intros H. apply allowed_line. right. apply in_or_app. right.
  unfold emitted_headings. apply in_or_app. left. exact H.
Qed.

Lemma record_heading_line d heading block :
  In (heading, false, block) (record_sections d) -> heading_or_plain d heading.
Proof.
  intros H. apply allowed_line. right. apply in_or_app. right.
  apply (emitted_heading_intro d heading block H).
Qed.

Lemma append_form_lines d heading rows :
  (rows <> [] -> heading_or_plain d heading) ->
  Forall (heading_or_plain d) (append_form heading rows).
Proof.
  intros Hh. unfold append_form. destruct rows as [|r rows]; [constructor|].
  repeat match goal with
    | |- Forall _ (_ ++ _) => apply Forall_app; split
    | |- Forall _ (_ :: _) => apply List.Forall_cons
    | |- Forall _ [] => apply List.Forall_nil
    end;
    try plain.
  - apply Hh. discriminate.
  - apply Forall_map_plain. intros x. unfold data_condition_row.
    rewrite ?app_String. reflexivity.
Qed.

Ltac lines :=
  repeat match goal with
    | |- Forall _ (_ ++ _) => apply Forall_app; split
    | |- Forall _ (_ :: _) => apply List.Forall_cons
    | |- Forall _ [] => apply List.Forall_nil
    end.

Lemma title_lines_ok d : Forall (heading_or_plain d) (title_lines now d).
Proof. unfold title_lines. lines; first [ plain | in_allowed ]. Qed.

Lemma document_information_lines_ok d :
  Forall (heading_or_plain d) (document_information_lines table d).
Proof.
  unfold document_information_lines.
  apply Forall_app; split; [|apply Forall_app; split; [|apply Forall_app; split]].
  - lines; first [ plain | apply fixed_heading_line; cbn; tauto ].
  - destruct (related_documents d) as [|doc docs]; [constructor|].
    lines; try plain.
    apply Forall_map_plain. intros x. unfold related_document_line.
    destruct (ricefw_id_of x); [destruct (nonempty _)|];
      rewrite ?app_String; reflexivity.
  - destruct (reviewers d) as [|r rs]; [constructor|].
    lines; try plain.
    apply Forall_map_plain. intros x. rewrite ?app_String. reflexivity.
  - destruct (version_history d) as [|v vs]; [constructor|].
    lines; try plain.
    apply Forall_map_plain. intros x. rewrite ?app_String. reflexivity.
Qed.

Lemma general_requirements_lines_ok d :
  Forall (heading_or_plain d) (general_requirements_lines table _improve_text d).
Proof.
  unfold general_requirements_lines.
  apply Forall_app; split; [|apply Forall_app; split].
  - lines; first [ plain | apply fixed_heading_line; cbn; tauto ].
  - apply Forall_map_plain. intros x. rewrite ?app_String. reflexivity.
  - lines. plain.
Qed.

Lemma existing_sap_objects_lines_ok d :
  Forall (heading_or_plain d) (existing_sap_objects_lines table d).
Proof.
  unfold existing_sap_objects_lines.
  lines; first [ plain | apply fixed_heading_line; cbn; tauto ].
Qed.

Lemma design_lines_ok d :
  Forall (heading_or_plain d) (design_lines table _improve_text d).
Proof.
  unfold design_lines.
  lines; first [ plain | apply fixed_heading_line; cbn; tauto | in_allowed ].
Qed.

Lemma selection_screen_lines_ok d :
  Forall (heading_or_plain d) (selection_screen_lines d).
Proof.
  unfold selection_screen_lines.
  destruct (selection_parameters d) as [|p ps] eqn:Hl; [constructor|].
  lines; try plain.
  - apply (record_heading_line d _ (selection_screen_lines d)).
    cbn. rewrite Hl. tauto.
  - apply Forall_map_plain. intros x. unfold selection_parameter_row.
    rewrite ?app_String. reflexivity.
Qed.

Lemma detail_processing_lines_ok d :
  Forall (heading_or_plain d) (detail_processing_lines d).
Proof.
  unfold detail_processing_lines.
  destruct (field_mappings d) as [|p ps] eqn:Hl; [constructor|].
  lines; try plain.
  - apply (record_heading_line d _ (detail_processing_lines d)).
    cbn. rewrite Hl. tauto.
  - apply Forall_map_plain. intros x. unfold field_mapping_row.
    rewrite ?app_String. reflexivity.
Qed.

Lemma error_handling_lines_ok d :
  Forall (heading_or_plain d) (error_handling_lines d).
Proof.
  unfold error_handling_lines.
  destruct (error_scenarios d) as [|p ps] eqn:Hl; [constructor|].
  lines; try plain.
  - apply (record_heading_line d _ (error_handling_lines d)).
    cbn. rewrite Hl. tauto.
  - apply Forall_map_plain. intros x. unfold error_row.
    rewrite ?app_String. reflexivity.
Qed.

Lemma testing_lines_ok d :
  Forall (heading_or_plain d) (testing_lines d).
Proof.
  unfold testing_lines.
  destruct (test_scenarios d) as [|p ps] eqn:Hl; [constructor|].
  lines; try plain.
  - apply (record_heading_line d _ (testing_lines d)).
    cbn. rewrite Hl. tauto.
  - apply Forall_map_plain. intros x. unfold test_row.
    rewrite ?app_String. reflexivity.
Qed.

Lemma form_lines_ok d heading rows block :
  In (heading, is_nil rows, block) (record_sections d) ->
  Forall (heading_or_plain d) (append_form heading rows).
Proof.
  intros Hin. apply append_form_lines. intros Hne.
  apply (record_heading_line d heading block).
  destruct rows; [contradiction|exact Hin].
Qed.

Lemma md_lines_heading_or_plain d :
  Forall (heading_or_plain d) (md_lines' d).
Proof.
  unfold md_lines. rewrite !Forall_app.
  repeat split.
  - apply title_lines_ok.
  - apply document_information_lines_ok.
  - apply general_requirements_lines_ok.
  - apply existing_sap_objects_lines_ok.
  - apply design_lines_ok.
  - apply selection_screen_lines_ok.
  - apply detail_processing_lines_ok.
  - eapply form_lines_ok. cbn. tauto.
  - eapply form_lines_ok. cbn. tauto.
  - eapply form_lines_ok. cbn. tauto.
  - eapply form_lines_ok. cbn. tauto.
  - apply error_handling_lines_ok.
  - apply testing_lines_ok.
Qed.

(** The eight headings start with a hash, differ from the title and
    from the fixed headings, and name one section each. *)
Lemma record_sections_heading d heading empty block :
  In (heading, empty, block) (record_sections d) ->
  startswith "#" heading = true
  /\ heading <> "# Functional Specification Design (FSD)"
  /\ ~ In heading fixed_headings
  /\ (forall empty' block',
        In (heading, empty', block') (record_sections d) -> empty' = empty).
Proof.
  intros Hsec. cbn in Hsec.
  repeat (destruct Hsec as [Hsec|Hsec];
          [ injection Hsec as <- <- <-;
            split; [reflexivity|]; split; [discriminate|]; split;
            [ cbn; intuition discriminate
            | intros empty' block' Hin; cbn in Hin;
              repeat (destruct Hin as [Hin|Hin];
                      [ first [ discriminate Hin
                              | injection Hin as <- _; reflexivity ] | ]);
              contradiction ]
          | ]).
  contradiction.
Qed.

Lemma record_sections_block d heading block :
  In (heading, true, block) (record_sections d) -> block = [].
Proof.
  intros Hsec. cbn in Hsec.
  unfold selection_screen_lines, detail_processing_lines, append_form,
    error_handling_lines, testing_lines in Hsec.
  repeat (destruct Hsec as [Hsec|Hsec];
          [ injection Hsec as _ Hnil <-;
            match type of Hnil with
            | is_nil ?l = true => destruct l; [reflexivity | discriminate Hnil]
            end
          | ]).
  contradiction.
Qed.

(** *** The reference table *)

Lemma lookup_column_absent column ricefw_id :
  excel_exists table = false -> lookup_column table column ricefw_id = None.
Proof. intros H. unfold lookup_column. rewrite H. reflexivity. Qed.

Lemma lookup_column_raises column ricefw_id e :
  lookup_body table column ricefw_id = Err e ->
  lookup_column table column ricefw_id = None.
Proof.
  intros H. unfold lookup_column. rewrite H. destruct (negb _); reflexivity.
Qed.

Lemma lookup_column_not_found column ricefw_id :
  lookup_body table column ricefw_id = Ok None ->
  lookup_column table column ricefw_id = None.
Proof.
  intros H. unfold lookup_column. rewrite H. destruct (negb _); reflexivity.
Qed.

Lemma lookup_body_load_raises column ricefw_id e :
  load_rows table = Err e -> lookup_body table column ricefw_id = Err e.
Proof. intros H. unfold lookup_body. rewrite H. reflexivity. Qed.

Lemma lookup_body_header_missing column ricefw_id rows e :
  load_rows table = Ok rows ->
  index_of column (match rows with [] => [] | h :: _ => h end) = Err e ->
  exists e', lookup_body table column ricefw_id = Err e'.
Proof.
  intros Hrows Hcol. unfold lookup_body. rewrite Hrows. cbn.
  destruct (index_of "SAP WRICEF ID" _); cbn; [|eauto].
  rewrite Hcol. cbn. eauto.
Qed.

Lemma program_name_line d :
  In ("- **Program Name**: " +:+ program_name_value table d) (md_lines' d).
Proof.
  unfold md_lines. do 3 (apply in_or_app; right). apply in_or_app; left.
  cbn. tauto.
Qed.

Lemma user_requirements_line d :
  In ("**User Requirements**: " +:+ requirement_value table _improve_text d)
     (md_lines' d).
Proof.
  unfold md_lines. do 2 (apply in_or_app; right). apply in_or_app; left.
  cbn. tauto.
Qed.

End RendererProperties.

Lemma selection_screen_P_BUKRS_witness :
  let table := {| excel_exists := false; load_rows := raise FileNotFoundError |} in
  let d := with_selection_parameters
      [ {| name := "P_BUKRS"; type := "BUKRS"; description := "Company Code";
           is_mandatory := true; is_select_option := false;
           has_no_intervals := false; default_value := "" |} ] new_FSDDocument in
  let block :=
      [ "### 4.2 Selection Screen";
        "";
        "| Parameter | Type | Description | Mandatory | Select-Option | No Intervals |";
        "|-----------|------|-------------|-----------|---------------|--------------|";
        "| P_BUKRS | BUKRS | Company Code | Yes | No | No |";
        "" ] in
  (exists pre post, md_lines table (fun t => t) "2026-01-01 00:00:00" d = pre ++ block ++ post)
  /\ (exists before after,
        _generate_markdown table (fun t => t) "2026-01-01 00:00:00" d
        = before +:+ nl +:+ join nl block +:+ after).
Proof.
  intros table d block.
  apply (selection_screen_P_BUKRS table (fun t => t) "2026-01-01 00:00:00" d "").
  reflexivity.
Defined.


(** Scenario 2: one reference, found. *)
Lemma scenario_2_program_name :
  let d := scenario_document ["RICEFW ID: RHR006"] in
  program_name_value scenario_table d = "Laporan Tunjangan"
  /\ In "- **Program Name**: Laporan Tunjangan"
       (md_lines scenario_table (fun t => t) "2026-01-01 00:00:00" d).
Proof.
  intros d. split; [vm_compute; reflexivity|].
  apply (program_name_line scenario_table (fun t => t) "2026-01-01 00:00:00" d).
Qed.

(* ===================================================================== *)
(** ** The resolution of the first reference *)
(* ===================================================================== *)

Section Resolution.

Variable src : reference_source.
Variable loop_running : bool.
Variable run : string -> exc string.
Variable now : string.

Lemma ricefw_id_of_other doc : startswith "RICEFW ID:" doc = false -> ricefw_id_of doc = None.
Proof. intros H. unfold ricefw_id_of. rewrite H. reflexivity. Qed.

Lemma resolve_none lookup improve original docs :
  Forall (fun doc => startswith "RICEFW ID:" doc = false) docs ->
  resolve lookup improve original docs = Ok original.
Proof.
  induction 1 as [|doc docs Hdoc _ IH]; [reflexivity|].
  cbn [resolve]. rewrite (ricefw_id_of_other doc Hdoc). exact IH.
Qed.

Lemma resolve_first lookup improve original before ref after id :
  Forall (fun doc => startswith "RICEFW ID:" doc = false) before ->
  ricefw_id_of ref = Some id ->
  resolve lookup improve original (before ++ ref :: after)
  = (found ← lookup id;
     Ok (match nonempty found with
         | Some looked_up => improve looked_up
         | None => original
         end)).
Proof.
  intros Hbefore Hid. induction Hbefore as [|doc docs Hdoc _ IH].
  - cbn [app resolve]. rewrite Hid. reflexivity.
  - cbn [app resolve]. rewrite (ricefw_id_of_other doc Hdoc). exact IH.
Qed.

Lemma first_ricefw_id_none docs :
  Forall (fun doc => startswith "RICEFW ID:" doc = false) docs ->
  first_ricefw_id docs = None.
Proof.
  induction 1 as [|doc docs Hdoc _ IH]; [reflexivity|].
  cbn [first_ricefw_id]. rewrite (ricefw_id_of_other doc Hdoc). exact IH.
Qed.

Lemma first_ricefw_id_first before ref after id :
  Forall (fun doc => startswith "RICEFW ID:" doc = false) before ->
  ricefw_id_of ref = Some id ->
  first_ricefw_id (before ++ ref :: after) = Some id.
Proof.
  intros Hbefore Hid. induction Hbefore as [|doc docs Hdoc _ IH].
  - cbn [app first_ricefw_id]. rewrite Hid. reflexivity.
  - cbn [app first_ricefw_id]. rewrite (ricefw_id_of_other doc Hdoc). exact IH.
Qed.

(** Every list of references has no reference with a RICEFW ID, or a
    first one. *)
Lemma first_reference_split docs :
  Forall (fun doc => startswith "RICEFW ID:" doc = false) docs
  \/ exists before ref after,
       docs = before ++ ref :: after
       /\ Forall (fun doc => startswith "RICEFW ID:" doc = false) before
       /\ startswith "RICEFW ID:" ref = true.
Proof.
  induction docs as [|doc docs IH]; [left; constructor|].
  destruct (startswith "RICEFW ID:" doc) eqn:Hdoc.
  - right. exists [], doc, docs. split; [reflexivity|]. split; [constructor|exact Hdoc].
  - destruct IH as [IH|(before & ref & after & -> & Hbefore & Href)].
    + left. constructor; assumption.
    + right. exists (doc :: before), ref, after.
      split; [reflexivity|]. split; [constructor; assumption|exact Href].
Qed.

(** The lookups return when the two steps before their [try] do. *)
Lemma lookup_source_returns path found column id :
  configured src = JStr path ->
  excel_path_exists src = Ok found ->
  lookup_source src column id = Ok (lookup_column (table_of src found) column id).
Proof. intros Hp He. unfold lookup_source. rewrite Hp, He. reflexivity. Qed.

Lemma resolve_pure (lookup : string -> exc (option string)) (f : string -> option string)
    improve original docs :
  (forall id, lookup id = Ok (f id)) ->
  resolve lookup improve original docs
  = Ok (match first_ricefw_id docs with
        | Some id =>
            match nonempty (f id) with
            | Some looked_up => improve looked_up
            | None => original
            end
        | None => original
        end).
Proof.
  intros Hlookup. induction docs as [|doc docs IH]; [reflexivity|].
  cbn [resolve first_ricefw_id]. destruct (ricefw_id_of doc) as [id|]; [|exact IH].
  rewrite Hlookup. reflexivity.
Qed.

Local Abbreviation improve := (_improve_text loop_running run).


End Resolution.



(* ===================================================================== *)
(** ** Stripped lines and heading names *)
(* ===================================================================== *)

Section StripLemmas.

(** *** The bytes of the white space *)

Lemma is_space_start c : is_space c = true -> continues c = false.
Proof.
  unfold is_space, continues. cbv zeta. intros H.
  apply andb_false_iff. left. apply Nat.leb_gt.
  apply orb_true_iff in H as [H|H]; apply andb_true_iff in H as [H1 H2];
    apply Nat.leb_le in H1, H2; lia.
Qed.

Lemma wide_space2_bytes c d :
  wide_space2 c d = true ->
  is_space c = false /\ continues c = false /\ continues d = true.
Proof.
  unfold wide_space2. intros H. apply andb_true_iff in H as [Hc Hd].
  apply Ascii.eqb_eq in Hc. subst c. split; [reflexivity|]. split; [reflexivity|].
  apply orb_true_iff in Hd as [Hd|Hd]; apply Ascii.eqb_eq in Hd; subst d; reflexivity.
Qed.

Lemma wide_space3_bytes c d e :
  wide_space3 c d e = true ->
  is_space c = false /\ continues c = false /\ wide_space2 c d = false
  /\ continues d = true /\ continues e = true.
Proof.
  unfold wide_space3. intros H.
  repeat (apply orb_true_iff in H as [H|H]);
    repeat (apply andb_true_iff in H as [H ?]);
    repeat match goal with
      | H : Ascii.eqb _ _ = true |- _ => apply Ascii.eqb_eq in H; subst
      end;
    repeat split; try reflexivity.
  match goal with
  | H : _ || _ = true |- _ =>
      repeat (apply orb_true_iff in H as [H|H]);
      try (apply Ascii.eqb_eq in H; subst; reflexivity);
      apply andb_true_iff in H as [H1 H2]
  end.
  unfold continues. cbv zeta. apply Nat.leb_le in H1, H2.
  apply andb_true_iff. split; [apply Nat.leb_le|apply Nat.ltb_lt]; lia.
Qed.

Lemma space_width_start s : space_width s <> 0 -> starts_plain s.
Proof.
  destruct s as [|c rest]; [intros _; exact I|]. cbn [space_width starts_plain].
  destruct (is_space c) eqn:Hc; [intros _; apply is_space_start, Hc|].
  destruct rest as [|d rest]; [contradiction|].
  destruct (wide_space2 c d) eqn:H2; [intros _; apply (wide_space2_bytes c d H2)|].
  destruct rest as [|e rest]; [contradiction|].
  destruct (wide_space3 c d e) eqn:H3; [intros _; apply (wide_space3_bytes c d e H3)|].
  contradiction.
Qed.

(** *** The cases of a text: white space in front, or none *)

Lemma lstrip_none s : space_width s = 0 -> lstrip s = s.
Proof.
  destruct s as [|c rest]; [reflexivity|]. cbn [space_width lstrip].
  destruct (is_space c); [discriminate|].
  destruct rest as [|d rest]; [reflexivity|].
  destruct (wide_space2 c d); [discriminate|].
  destruct rest as [|e rest]; [reflexivity|].
  destruct (wide_space3 c d e); [discriminate|reflexivity].
Qed.

Lemma all_space_none s : s <> "" -> space_width s = 0 -> all_space s = false.
Proof.
  destruct s as [|c rest]; [contradiction|]. intros _. cbn [space_width all_space].
  destruct (is_space c); [discriminate|].
  destruct rest as [|d rest]; [reflexivity|].
  destruct (wide_space2 c d); [discriminate|].
  destruct rest as [|e rest]; [reflexivity|].
  destruct (wide_space3 c d e); [discriminate|reflexivity].
Qed.

Lemma lstrip_space1 c rest : is_space c = true -> lstrip (String c rest) = lstrip rest.
Proof. intros H. cbn [lstrip]. rewrite H. reflexivity. Qed.

Lemma all_space_space1 c rest :
  is_space c = true -> all_space (String c rest) = all_space rest.
Proof. intros H. cbn [all_space]. rewrite H. reflexivity. Qed.

Lemma lstrip_space2 c d rest :
  wide_space2 c d = true -> lstrip (String c (String d rest)) = lstrip rest.
Proof.
  intros H. destruct (wide_space2_bytes c d H) as (Hc & _). cbn [lstrip].
  rewrite Hc, H. reflexivity.
Qed.

Lemma all_space_space2 c d rest :
  wide_space2 c d = true -> all_space (String c (String d rest)) = all_space rest.
Proof.
  intros H. destruct (wide_space2_bytes c d H) as (Hc & _). cbn [all_space].
  rewrite Hc, H. reflexivity.
Qed.

Lemma lstrip_space3 c d e rest :
  wide_space3 c d e = true -> lstrip (String c (String d (String e rest))) = lstrip rest.
Proof.
  intros H. destruct (wide_space3_bytes c d e H) as (Hc & _ & H2 & _). cbn [lstrip].
  rewrite Hc, H2, H. reflexivity.
Qed.

Lemma all_space_space3 c d e rest :
  wide_space3 c d e = true ->
  all_space (String c (String d (String e rest))) = all_space rest.
Proof.
  intros H. destruct (wide_space3_bytes c d e H) as (Hc & _ & H2 & _). cbn [all_space].
  rewrite Hc, H2, H. reflexivity.
Qed.

(** Induction over a text, one white space character at a time. *)
Lemma space_ind (P : string -> Prop) :
  P "" ->
  (forall c rest, is_space c = true -> P rest -> P (String c rest)) ->
  (forall c d rest, wide_space2 c d = true -> P rest -> P (String c (String d rest))) ->
  (forall c d e rest, wide_space3 c d e = true -> P rest ->
                      P (String c (String d (String e rest)))) ->
  (forall s, s <> "" -> space_width s = 0 -> P s) ->
  forall s, P s.
Proof.
  intros Hnil H1 H2 H3 Hnone s.
  assert (forall n s, String.length s <= n -> P s)%nat as Hall.
  { induction n as [|n IH]; intros t Hlen.
    - destruct t; [exact Hnil|cbn in Hlen; lia].
    - destruct t as [|c rest]; [exact Hnil|].
      destruct (is_space c) eqn:Hc.
      { apply H1; [exact Hc|]. apply IH. cbn in Hlen. lia. }
      destruct rest as [|d rest].
      { apply Hnone; [discriminate|]. cbn. rewrite Hc. reflexivity. }
      destruct (wide_space2 c d) eqn:Hw2.
      { apply H2; [exact Hw2|]. apply IH. cbn in Hlen. lia. }
      destruct rest as [|e rest].
      { apply Hnone; [discriminate|]. cbn. rewrite Hc, Hw2. reflexivity. }
      destruct (wide_space3 c d e) eqn:Hw3.
      { apply H3; [exact Hw3|]. apply IH. cbn in Hlen. lia. }
      apply Hnone; [discriminate|]. cbn. rewrite Hc, Hw2, Hw3. reflexivity. }
  apply (Hall (String.length s)). lia.
Qed.

Lemma all_space_width s : s <> "" -> all_space s = true -> space_width s <> 0.
Proof.
  intros Hs Hall Hw. rewrite (all_space_none s Hs Hw) in Hall. discriminate.
Qed.

Lemma all_space_starts_plain s : all_space s = true -> starts_plain s.
Proof.
  intros H. destruct s as [|c rest] eqn:Hs; [exact I|].
  apply space_width_start, all_space_width; [discriminate|exact H].
Qed.

(** Bytes that begin a white space character do not end one that a text
    before them has begun. *)
Lemma space_width_app_none s r :
  s <> "" -> space_width s = 0 -> starts_plain r -> space_width (s +:+ r) = 0.
Proof.
  intros Hs Hw Hr. destruct s as [|c rest]; [contradiction|]. clear Hs.
  rewrite app_String. cbn [space_width] in *.
  destruct (is_space c); [discriminate|].
  destruct rest as [|d rest].
  - rewrite app_empty_l. destruct r as [|x r]; [reflexivity|]. cbn [starts_plain] in Hr.
    destruct (wide_space2 c x) eqn:H2.
    { apply wide_space2_bytes in H2 as (_ & _ & H2). congruence. }
    destruct r as [|y r]; [reflexivity|].
    destruct (wide_space3 c x y) eqn:H3; [|reflexivity].
    apply wide_space3_bytes in H3 as (_ & _ & _ & H3 & _). congruence.
  - rewrite app_String. destruct (wide_space2 c d); [discriminate|].
    destruct rest as [|e rest].
    + rewrite app_empty_l. destruct r as [|x r]; [reflexivity|]. cbn [starts_plain] in Hr.
      destruct (wide_space3 c d x) eqn:H3; [|reflexivity].
      apply wide_space3_bytes in H3 as (_ & _ & _ & _ & H3). congruence.
    + rewrite app_String. destruct (wide_space3 c d e); [discriminate|reflexivity].
Qed.

Lemma all_space_app_l s r :
  all_space r = true -> all_space (s +:+ r) = all_space s.
Proof.
  intros Hr. induction s as [|c rest Hc IH|c d rest H2 IH|c d e rest H3 IH|s Hs Hw]
    using space_ind.
  - rewrite app_empty_l. exact Hr.
  - rewrite app_String, !all_space_space1 by assumption. exact IH.
  - rewrite !app_String, !all_space_space2 by assumption. exact IH.
  - rewrite !app_String, !all_space_space3 by assumption. exact IH.
  - rewrite (all_space_none s Hs Hw). apply all_space_none.
    + destruct s; [contradiction|rewrite app_String; discriminate].
    + apply space_width_app_none; [assumption|assumption|].
      apply all_space_starts_plain, Hr.
Qed.

Lemma all_space_app s r :
  all_space s = true -> all_space r = true -> all_space (s +:+ r) = true.
Proof. intros Hs Hr. rewrite (all_space_app_l s r Hr). exact Hs. Qed.

(** *** [lstrip] *)

Lemma lstrip_suffix s : exists w, s = w +:+ lstrip s /\ all_space w = true.
Proof.
  induction s as [|c rest Hc [w [IH Hw]]|c d rest H2 [w [IH Hw]]
                  |c d e rest H3 [w [IH Hw]]|s Hs Hw] using space_ind.
  - exists "". split; reflexivity.
  - exists (String c w). rewrite lstrip_space1 by assumption. split.
    + rewrite app_String. f_equal. exact IH.
    + rewrite all_space_space1 by assumption. exact Hw.
  - exists (String c (String d w)). rewrite lstrip_space2 by assumption. split.
    + rewrite !app_String. do 2 f_equal. exact IH.
    + rewrite all_space_space2 by assumption. exact Hw.
  - exists (String c (String d (String e w))). rewrite lstrip_space3 by assumption. split.
    + rewrite !app_String. do 3 f_equal. exact IH.
    + rewrite all_space_space3 by assumption. exact Hw.
  - exists "". rewrite (lstrip_none s Hw). split; reflexivity.
Qed.

Lemma lstrip_width s : space_width (lstrip s) = 0.
Proof.
  induction s as [|c rest Hc IH|c d rest H2 IH|c d e rest H3 IH|s Hs Hw] using space_ind.
  - reflexivity.
  - rewrite lstrip_space1 by assumption. exact IH.
  - rewrite lstrip_space2 by assumption. exact IH.
  - rewrite lstrip_space3 by assumption. exact IH.
  - rewrite (lstrip_none s Hw). exact Hw.
Qed.

Lemma lstrip_empty s : lstrip s = "" -> all_space s = true.
Proof.
  induction s as [|c rest Hc IH|c d rest H2 IH|c d e rest H3 IH|s Hs Hw] using space_ind.
  - reflexivity.
  - rewrite lstrip_space1, all_space_space1 by assumption. exact IH.
  - rewrite lstrip_space2, all_space_space2 by assumption. exact IH.
  - rewrite lstrip_space3, all_space_space3 by assumption. exact IH.
  - rewrite (lstrip_none s Hw). intros ->. contradiction.
Qed.

Lemma space_width_plain c rest : plain_byte c = true -> space_width (String c rest) = 0.
Proof.
  unfold plain_byte. intros H. apply andb_true_iff in H as [Hc Hlead].
  apply negb_true_iff in Hc, Hlead.
  repeat (apply orb_false_iff in Hlead as [Hlead ?]).
  cbn [space_width]. rewrite Hc.
  destruct rest as [|d rest]; [reflexivity|].
  unfold wide_space2. rewrite Hlead. cbn [andb].
  destruct rest as [|e rest]; [reflexivity|].
  unfold wide_space3.
  repeat match goal with H : Ascii.eqb c _ = false |- _ => rewrite H; clear H end.
  reflexivity.
Qed.

Lemma lstrip_plain c rest : plain_byte c = true -> lstrip (String c rest) = String c rest.
Proof. intros H. apply lstrip_none, space_width_plain, H. Qed.

Lemma all_space_plain c rest : plain_byte c = true -> all_space (String c rest) = false.
Proof.
  intros H. apply all_space_none; [discriminate|]. apply space_width_plain, H.
Qed.

(** *** [rstrip] *)

Lemma rstrip_all_space s : all_space s = true -> rstrip s = "".
Proof. destruct s as [|c s]; [reflexivity|]. intros H. cbn [rstrip]. rewrite H. reflexivity. Qed.

Lemma rstrip_empty s : rstrip s = "" -> all_space s = true.
Proof.
  destruct s as [|c s]; [reflexivity|]. cbn [rstrip].
  destruct (all_space (String c s)); [reflexivity|discriminate].
Qed.

Lemma rstrip_cons c s :
  all_space (String c s) = false -> rstrip (String c s) = String c (rstrip s).
Proof. intros H. cbn [rstrip]. rewrite H. reflexivity. Qed.

Lemma rstrip_prefix_space s : exists t, s = rstrip s +:+ t /\ all_space t = true.
Proof.
  induction s as [|c s [t [IH Ht]]]; [exists ""; split; reflexivity|].
  cbn [rstrip]. destruct (all_space (String c s)) eqn:Hall.
  - exists (String c s). rewrite app_empty_l. split; [reflexivity|exact Hall].
  - exists t. rewrite app_String. split; [f_equal; exact IH|exact Ht].
Qed.

Lemma rstrip_prefix s : exists t, s = rstrip s +:+ t.
Proof. destruct (rstrip_prefix_space s) as [t [H _]]. exists t. exact H. Qed.

Lemma rstrip_app_space s r :
  all_space r = true -> rstrip (s +:+ r) = rstrip s.
Proof.
  intros Hr. induction s as [|c s IH].
  - rewrite app_empty_l. apply rstrip_all_space, Hr.
  - rewrite app_String. cbn [rstrip].
    rewrite <- app_String, (all_space_app_l (String c s) r Hr), IH. reflexivity.
Qed.

Lemma rstrip_idem s : rstrip (rstrip s) = rstrip s.
Proof.
  induction s as [|c s IH]; [reflexivity|]. cbn [rstrip].
  destruct (all_space (String c s)) eqn:Hall; [reflexivity|].
  rewrite rstrip_cons, IH; [reflexivity|].
  destruct (all_space (String c (rstrip s))) eqn:Hall'; [|reflexivity].
  destruct (rstrip_prefix_space s) as [t [Hs Ht]].
  rewrite Hs, <- app_String, (all_space_app_l _ t Ht) in Hall. congruence.
Qed.

Lemma strip_rstrip s : rstrip (strip s) = strip s.
Proof. unfold strip. apply rstrip_idem. Qed.

Lemma strip_empty s : strip s = "" -> all_space s = true.
Proof.
  unfold strip. intros H. apply rstrip_empty in H.
  destruct (lstrip s) as [|c rest] eqn:Hl.
  - apply lstrip_empty, Hl.
  - exfalso. apply (all_space_width (String c rest)); [discriminate|exact H|].
    rewrite <- Hl. apply lstrip_width.
Qed.

Lemma length_app_str (a b : string) :
  String.length (a +:+ b) = (String.length a + String.length b)%nat.
Proof.
  induction a as [|c a IH]; [reflexivity|]. rewrite app_String. cbn. rewrite IH. reflexivity.
Qed.

Lemma rstrip_length s : (String.length (rstrip s) <= String.length s)%nat.
Proof.
  destruct (rstrip_prefix s) as [t Ht]. rewrite Ht at 2. rewrite length_app_str. lia.
Qed.

Lemma rstrip_same_length s :
  String.length (rstrip s) = String.length s -> rstrip s = s.
Proof.
  intros Hlen. destruct (rstrip_prefix s) as [t Ht].
  rewrite Ht in Hlen at 2. rewrite length_app_str in Hlen.
  destruct t; [rewrite app_empty_r in Ht; congruence|cbn in Hlen; lia].
Qed.

Lemma prefix_split p s :
  startswith p s = true -> s = p +:+ drop_chars (String.length p) s.
Proof.
  revert s. induction p as [|c p IH]; intros s; [reflexivity|].
  destruct s as [|c' s]; [discriminate|]. cbn.
  rewrite andb_true_iff. intros [Hc H]. apply Ascii.eqb_eq in Hc. subst c'.
  rewrite app_String. f_equal. apply IH, H.
Qed.

(** The name of a heading of a stripped line is not empty. *)
Lemma heading_name_nonempty mark raw :
  rstrip mark <> mark ->
  startswith mark (strip raw) = true ->
  strip (drop_chars (String.length mark) (strip raw)) <> "".
Proof.
  intros Hmark Hpre Hempty. apply strip_empty in Hempty.
  apply prefix_split in Hpre.
  pose proof (strip_rstrip raw) as Hclean.
  rewrite Hpre in Hclean at 1.
  rewrite (rstrip_app_space _ _ Hempty) in Hclean.
  assert (String.length (strip raw) <= String.length (rstrip mark))%nat as Hlen
    by (rewrite <- Hclean; lia).
  clear Hclean.
  assert (String.length (rstrip mark) < String.length mark)%nat as Hlt.
  { pose proof (rstrip_length mark) as Hle.
    destruct (Nat.eq_dec (String.length (rstrip mark)) (String.length mark)) as [Heq|];
      [|lia].
    exfalso. apply Hmark, rstrip_same_length, Heq. }
  rewrite Hpre, length_app_str in Hlen. lia.
Qed.

(** *** What stripping keeps *)

Lemma has_char_app c (a b : string) :
  has_char c (a +:+ b) = has_char c a || has_char c b.
Proof.
  induction a as [|x a IH]; [reflexivity|]. rewrite app_String. cbn [has_char].
  rewrite IH. apply orb_assoc.
Qed.

Lemma has_char_lstrip c s : has_char c s = false -> has_char c (lstrip s) = false.
Proof.
  destruct (lstrip_suffix s) as [w [Hs _]]. rewrite Hs at 1. rewrite has_char_app.
  intros H. apply orb_false_iff in H. apply H.
Qed.

Lemma has_char_rstrip c s : has_char c s = false -> has_char c (rstrip s) = false.
Proof.
  destruct (rstrip_prefix s) as [t Hs]. rewrite Hs at 1. rewrite has_char_app.
  intros H. apply orb_false_iff in H. apply H.
Qed.

Lemma has_char_strip c s : has_char c s = false -> has_char c (strip s) = false.
Proof. intros H. unfold strip. now apply has_char_rstrip, has_char_lstrip. Qed.

End StripLemmas.

(* ===================================================================== *)
(** ** The parser *)
(* ===================================================================== *)

Section ParserSaves.

Implicit Types (pd : parsed) (st : parser_state).

Lemma keys_wf_section pd name :
  keys_wf pd -> name <> "title" ->
  pd !! Some name = None \/ pd !! Some name = Some (PSection (section_at pd name)).
Proof.
  intros Hwf Hname. unfold section_at.
  destruct (pd !! Some name) as [[t|sd]|] eqn:Hk; auto.
  specialize (Hwf _ _ Hk). cbn in Hwf. congruence.
Qed.

Lemma keys_wf_insert pd name sd :
  keys_wf pd -> name <> "title" -> keys_wf (<[Some name := PSection sd]> pd).
Proof.
  intros Hwf Hname k v Hk.
  destruct (decide (k = Some name)) as [->|Hne].
  - rewrite lookup_insert_eq in Hk. injection Hk as <-. eauto.
  - rewrite lookup_insert_ne in Hk by congruence. apply (Hwf k v Hk).
Qed.

Lemma ensure_section_lookup pd name :
  keys_wf pd -> name <> "title" ->
  ensure_section pd (Some name) !! Some name = Some (PSection (section_at pd name))
  /\ (forall k, k <> Some name -> ensure_section pd (Some name) !! k = pd !! k)
  /\ section_at (ensure_section pd (Some name)) name = section_at pd name.
Proof.
  intros Hwf Hname. unfold ensure_section.
  destruct (keys_wf_section pd name Hwf Hname) as [Hk|Hk]; rewrite Hk.
  - assert (section_at pd name = empty_section) as Hempty
      by (unfold section_at; rewrite Hk; reflexivity).
    rewrite Hempty. split; [apply lookup_insert_eq|]. split.
    + intros k Hne. apply lookup_insert_ne. congruence.
    + unfold section_at. rewrite lookup_insert_eq. reflexivity.
  - split; [exact Hk|]. split; [reflexivity|reflexivity].
Qed.

Lemma _save_subsection_ok pd name sub lines :
  keys_wf pd -> name <> "title" ->
  exists pd',
    _save_subsection pd (Some name) sub lines = Ok pd'
    /\ keys_wf pd'
    /\ pd' !! Some name
       = Some (PSection
                 {| content := content (section_at pd name);
                    subsections :=
                      Some (<[sub := lines]>
                              (default ∅ (subsections (section_at pd name)))) |})
    /\ (forall k, k <> Some name -> pd' !! k = pd !! k).
Proof.
  intros Hwf Hname. unfold _save_subsection.
  destruct (ensure_section_lookup pd name Hwf Hname) as (Hat & Hother & _).
  rewrite Hat. eexists. split; [reflexivity|]. split; [|split].
  - apply keys_wf_insert; [|exact Hname].
    intros k v Hk. destruct (decide (k = Some name)) as [->|Hne].
    + rewrite Hat in Hk. injection Hk as <-. eauto.
    + rewrite Hother in Hk by exact Hne. apply (Hwf k v Hk).
  - apply lookup_insert_eq.
  - intros k Hne. rewrite lookup_insert_ne by congruence. apply Hother, Hne.
Qed.

Lemma ensure_section_idem pd name :
  keys_wf pd -> name <> "title" ->
  ensure_section (ensure_section pd (Some name)) (Some name)
  = ensure_section pd (Some name).
Proof.
  intros Hwf Hname.
  destruct (ensure_section_lookup pd name Hwf Hname) as (Hat & _ & _).
  unfold ensure_section at 1. rewrite Hat. reflexivity.
Qed.

Lemma ensure_section_wf pd name :
  keys_wf pd -> name <> "title" -> keys_wf (ensure_section pd (Some name)).
Proof.
  intros Hwf Hname. unfold ensure_section.
  destruct (pd !! Some name); [exact Hwf|].
  apply keys_wf_insert; assumption.
Qed.

(** [_save_section] with a current subsection saves the subsection; with
    none it saves the content. *)
Lemma _save_section_ok pd name osub lines :
  keys_wf pd -> name <> "title" ->
  (forall sub, osub = Some sub -> sub <> "") ->
  exists pd',
    _save_section pd (Some name) osub lines = Ok pd'
    /\ keys_wf pd'
    /\ pd' !! Some name
       = Some (PSection
                 match osub with
                 | Some sub =>
                     {| content := content (section_at pd name);
                        subsections :=
                          Some (<[sub := lines]>
                                  (default ∅ (subsections (section_at pd name)))) |}
                 | None =>
                     {| content := Some lines;
                        subsections := subsections (section_at pd name) |}
                 end)
    /\ (forall k, k <> Some name -> pd' !! k = pd !! k).
Proof.
  intros Hwf Hname Hsub. unfold _save_section.
  destruct (ensure_section_lookup pd name Hwf Hname) as (Hat & Hother & Hsame).
  destruct osub as [sub|].
  - assert (named (Some sub) = true) as ->.
    { cbn. apply negb_true_iff, String.eqb_neq, Hsub. reflexivity. }
    destruct (_save_subsection_ok (ensure_section pd (Some name)) name sub lines)
      as (pd' & Hsave & Hwf' & Hat' & Hother'); [|exact Hname|].
    { apply ensure_section_wf; assumption. }
    exists pd'. split; [exact Hsave|]. split; [exact Hwf'|]. split.
    + rewrite Hat', Hsame. reflexivity.
    + intros k Hne. rewrite Hother' by exact Hne. apply Hother, Hne.
  - rewrite Hat. eexists. split; [reflexivity|]. split; [|split].
    + apply keys_wf_insert; [|exact Hname]. apply ensure_section_wf; assumption.
    + apply lookup_insert_eq.
    + intros k Hne. rewrite lookup_insert_ne by congruence. apply Hother, Hne.
Qed.

End ParserSaves.

Section ParserInvariant.

Implicit Types (pd : parsed) (st : parser_state).

Lemma is_subsection_at pd name x :
  keys_wf pd -> name <> "title" ->
  is_subsection pd name x
  <-> is_Some (default ∅ (subsections (section_at pd name)) !! x).
Proof.
  intros Hwf Hname. unfold is_subsection.
  destruct (keys_wf_section pd name Hwf Hname) as [Hk|Hk].
  - unfold section_at. rewrite Hk. cbn. rewrite lookup_empty. split.
    + intros (sd & subs & H & _). discriminate.
    + intros [? H]. discriminate.
  - rewrite Hk. split.
    + intros (sd & subs & [= <-] & -> & Hx). exact Hx.
    + intros Hx. destruct (subsections (section_at pd name)) as [subs|] eqn:Hs.
      * eauto.
      * cbn in Hx. rewrite lookup_empty in Hx. destruct Hx. discriminate.
Qed.

(** The keys after a save under [name]. *)
Lemma is_section_saved pd pd' name sd' :
  pd' !! Some name = Some (PSection sd') ->
  (forall k, k <> Some name -> pd' !! k = pd !! k) ->
  forall s, is_section pd' s <-> is_section pd s \/ s = name.
Proof.
  intros Hat Hother s. unfold is_section.
  destruct (decide (s = name)) as [->|Hne].
  - rewrite Hat. split; eauto.
  - rewrite Hother by congruence. split; [eauto|]. intros [H|H]; [exact H|contradiction].
Qed.

Lemma is_subsection_saved pd pd' name sd' :
  keys_wf pd -> name <> "title" ->
  pd' !! Some name = Some (PSection sd') ->
  (forall k, k <> Some name -> pd' !! k = pd !! k) ->
  forall s x,
    is_subsection pd' s x
    <-> (s <> name /\ is_subsection pd s x)
        \/ (s = name /\ is_Some (default ∅ (subsections sd') !! x)).
Proof.
  intros Hwf Hname Hat Hother s x. unfold is_subsection.
  destruct (decide (s = name)) as [->|Hne].
  - rewrite Hat. split.
    + intros (sd & subs & [= <-] & -> & Hx). right. split; [reflexivity|exact Hx].
    + intros [[Hne _]|[_ Hx]]; [contradiction|].
      destruct (subsections sd') as [subs|] eqn:Hs.
      * eauto.
      * cbn in Hx. rewrite lookup_empty in Hx. destruct Hx. discriminate.
  - rewrite Hother by congruence. split.
    + intros H. left. split; [exact Hne|exact H].
    + intros [[_ H]|[Heq _]]; [exact H|contradiction].
Qed.

(** Saving the current section (and subsection) of a well-formed state
    puts every name met so far among the keys. *)
Lemma save_current st name :
  parser_wf st ->
  current_section st = Some name ->
  exists pd',
    _save_section (parsed_data st) (Some name) (current_subsection st)
      (current_content st) = Ok pd'
    /\ keys_wf pd'
    /\ (forall s, is_section pd' s <-> state_sections st s)
    /\ (forall s x, is_subsection pd' s x <-> state_subsections st s x).
Proof.
  intros (Hwf & Hcs & Hsub) Hname.
  destruct (Hcs name Hname) as [Htitle _].
  destruct (_save_section_ok (parsed_data st) name (current_subsection st)
              (current_content st) Hwf Htitle) as (pd' & Hsave & Hwf' & Hat & Hother).
  { intros sub Hs. apply (Hsub sub Hs). }
  exists pd'. split; [exact Hsave|]. split; [exact Hwf'|]. split.
  - intros s. rewrite (is_section_saved _ _ _ _ Hat Hother).
    unfold state_sections. rewrite Hname. split.
    + intros [H | ->]; auto.
    + intros [H|H]; [auto|]. injection H as ->. auto.
  - intros s x. rewrite (is_subsection_saved _ _ _ _ Hwf Htitle Hat Hother).
    unfold state_subsections. rewrite Hname.
    destruct (current_subsection st) as [sub|]; cbn.
    + rewrite lookup_insert_is_Some.
      rewrite <- (is_subsection_at _ _ _ Hwf Htitle). split.
      * intros [[Hne H]| [-> [<- | [_ H]]]]; auto.
      * intros [H|[H1 H2]].
        -- destruct (decide (s = name)) as [->|Hne]; [|auto].
           right. split; [reflexivity|].
           destruct (decide (sub = x)); auto.
        -- injection H1 as ->. injection H2 as ->. auto.
    + rewrite <- (is_subsection_at _ _ _ Hwf Htitle). split.
      * intros [[Hne H] | [-> H]]; auto.
      * intros [H|[_ H]]; [|discriminate].
        destruct (decide (s = name)) as [->|Hne]; auto.
Qed.

Lemma named_Some (name : string) : name <> "" -> named (Some name) = true.
Proof. intros H. cbn. apply negb_true_iff, String.eqb_neq, H. Qed.

End ParserInvariant.

Section ParserLoop.

Implicit Types (pd : parsed) (st : parser_state).

Lemma title_insert_wf pd text : keys_wf pd -> keys_wf (<[Some "title" := PTitle text]> pd).
Proof.
  intros Hwf k v Hk. destruct (decide (k = Some "title")) as [->|Hne].
  - rewrite lookup_insert_eq in Hk. injection Hk as <-. reflexivity.
  - rewrite lookup_insert_ne in Hk by congruence. apply (Hwf k v Hk).
Qed.

Lemma title_insert_section pd text s :
  keys_wf pd ->
  is_section (<[Some "title" := PTitle text]> pd) s <-> is_section pd s.
Proof.
  intros Hwf. unfold is_section.
  destruct (decide (s = "title")) as [->|Hne].
  - rewrite lookup_insert_eq. split.
    + intros [sd H]. discriminate.
    + intros [sd H]. specialize (Hwf _ _ H). cbn in Hwf.
      destruct Hwf as (name & [= <-] & Hname). contradiction.
  - rewrite lookup_insert_ne by congruence. reflexivity.
Qed.

Lemma title_insert_subsection pd text s x :
  keys_wf pd ->
  is_subsection (<[Some "title" := PTitle text]> pd) s x <-> is_subsection pd s x.
Proof.
  intros Hwf. unfold is_subsection.
  destruct (decide (s = "title")) as [->|Hne].
  - rewrite lookup_insert_eq. split.
    + intros (sd & subs & H & _). discriminate.
    + intros (sd & subs & H & _). specialize (Hwf _ _ H). cbn in Hwf.
      destruct Hwf as (name & [= <-] & Hname). contradiction.
  - rewrite lookup_insert_ne by congruence. reflexivity.
Qed.

(** One line: the names met grow by the heading of the line. *)
Lemma parse_line_step st raw :
  parser_wf st ->
  (forall name, classify raw = KSection name -> name <> "title") ->
  (forall sub, classify raw = KSubsection sub -> current_section st <> None) ->
  exists st',
    parse_line st raw = Ok st'
    /\ parser_wf st'
    /\ current_section st'
       = match classify raw with
         | KSection name => Some name
         | _ => current_section st
         end
    /\ (forall s, state_sections st' s
                  <-> state_sections st s \/ classify raw = KSection s)
    /\ (forall s x, state_subsections st' s x
                    <-> state_subsections st s x
                        \/ (classify raw = KSubsection x /\ current_section st = Some s)).
Proof.
  intros Hst Htitle Hopen. pose proof Hst as (Hwf & Hcs & Hsub).
  unfold parse_line, classify in *.
  destruct (startswith "# " (strip raw)) eqn:H1.
  { (* the title *)
    eexists. split; [reflexivity|]. split; [|split; [reflexivity|split]].
    - split; [apply title_insert_wf, Hwf|]. split; [exact Hcs|exact Hsub].
    - intros s. unfold state_sections. cbn [current_section current_subsection parsed_data current_content].
      rewrite (title_insert_section _ _ _ Hwf). intuition discriminate.
    - intros s x. unfold state_subsections. cbn [current_section current_subsection parsed_data current_content].
      rewrite (title_insert_subsection _ _ _ _ Hwf). intuition discriminate. }
  destruct (startswith "## " (strip raw)) eqn:H2.
  { (* a section starts *)
    set (name := strip (drop_chars 3 (strip raw))) in *.
    assert (name <> "") as Hne.
    { apply (heading_name_nonempty "## " raw); [discriminate|exact H2]. }
    assert (name <> "title") as Hnt by (apply Htitle; reflexivity).
    destruct (current_section st) as [cur|] eqn:Hcur.
    - destruct (Hcs cur eq_refl) as [_ Hcurne].
      rewrite (named_Some cur Hcurne).
      destruct (save_current st cur Hst Hcur) as (pd' & Hsave & Hwf' & Hsec & Hsubs).
      rewrite Hsave. cbn [mbind res_mbind res_bind]. eexists. split; [reflexivity|].
      split; [|split; [reflexivity|split]].
      + split; [exact Hwf'|]. cbn [current_section current_subsection parsed_data current_content]. split.
        * intros ? [= <-]. auto.
        * intros ? [=].
      + intros s. unfold state_sections at 1. cbn [current_section current_subsection parsed_data current_content]. rewrite Hsec.
        intuition congruence.
      + intros s x. unfold state_subsections at 1. cbn [current_section current_subsection parsed_data current_content]. rewrite Hsubs.
        intuition discriminate.
    - cbn [named mbind res_mbind res_bind]. eexists. split; [reflexivity|].
      split; [|split; [reflexivity|split]].
      + split; [exact Hwf|]. cbn [current_section current_subsection parsed_data current_content]. split.
        * intros ? [= <-]. auto.
        * intros ? [=].
      + intros s. unfold state_sections. cbn [current_section current_subsection parsed_data current_content]. rewrite Hcur.
        intuition congruence.
      + intros s x. unfold state_subsections. cbn [current_section current_subsection parsed_data current_content]. rewrite Hcur.
        intuition discriminate. }
  destruct (startswith "### " (strip raw)) eqn:H3.
  { (* a subsection starts *)
    set (sub := strip (drop_chars 4 (strip raw))) in *.
    assert (sub <> "") as Hne.
    { apply (heading_name_nonempty "### " raw); [discriminate|exact H3]. }
    destruct (current_section st) as [cur|] eqn:Hcur;
      [|exfalso; apply (Hopen sub eq_refl); reflexivity].
    destruct (Hcs cur eq_refl) as [Hcurtitle Hcurne].
    destruct (current_subsection st) as [old|] eqn:Hold.
    - destruct (Hsub old eq_refl) as [Holdne _].
      rewrite (named_Some old Holdne).
      destruct (_save_subsection_ok (parsed_data st) cur old (current_content st)
                  Hwf Hcurtitle) as (pd' & Hsave & Hwf' & Hat & Hother).
      rewrite Hsave. cbn [mbind res_mbind res_bind]. eexists. split; [reflexivity|].
      split; [|split; [reflexivity|split]].
      + split; [exact Hwf'|]. cbn [current_section current_subsection parsed_data current_content]. split.
        * intros ? [= <-]. auto.
        * intros ? [= <-]. split; [exact Hne|discriminate].
      + intros s. unfold state_sections. cbn [current_section current_subsection parsed_data current_content].
        rewrite (is_section_saved _ _ _ _ Hat Hother). rewrite Hcur.
        intuition (try discriminate; subst; auto).
      + intros s x. unfold state_subsections. cbn [current_section current_subsection parsed_data current_content].
        rewrite (is_subsection_saved _ _ _ _ Hwf Hcurtitle Hat Hother).
        cbn [default from_option subsections id]. rewrite lookup_insert_is_Some.
        rewrite <- (is_subsection_at _ _ _ Hwf Hcurtitle). rewrite Hcur, Hold.
        split.
        * intros [[[Hs H]|[-> [<- | [_ H]]]]|[[= ->] [= <-]]]; auto.
        * intros [[H|[[= ->] [= ->]]]|[[= <-] [= ->]]]; auto.
          destruct (decide (s = cur)) as [->|Hs]; [|auto].
          left. right. split; [reflexivity|].
          destruct (decide (old = x)); auto.
    - cbn [named mbind res_mbind res_bind]. eexists. split; [reflexivity|].
      split; [|split; [reflexivity|split]].
      + split; [exact Hwf|]. cbn [current_section current_subsection parsed_data current_content]. split.
        * intros ? [= <-]. auto.
        * intros ? [= <-]. split; [exact Hne|discriminate].
      + intros s. unfold state_sections. cbn [current_section current_subsection parsed_data current_content]. rewrite Hcur.
        intuition discriminate.
      + intros s x. unfold state_subsections. cbn [current_section current_subsection parsed_data current_content]. rewrite Hcur, Hold.
        split.
        * intros [H|[[= ->] [= <-]]]; auto.
        * intros [[H|[_ [=]]]|[[= <-] [= ->]]]; auto. }
  (* any other line is content or nothing *)
  assert (exists lines,
            (if startswith "|" (strip raw) && contains "|" (strip raw)
             then Ok {| parsed_data := parsed_data st;
                        current_section := current_section st;
                        current_subsection := current_subsection st;
                        current_content := current_content st ++ [strip raw] |}
             else if negb (String.eqb (strip raw) "")
                  then Ok {| parsed_data := parsed_data st;
                             current_section := current_section st;
                             current_subsection := current_subsection st;
                             current_content := current_content st ++ [strip raw] |}
                  else Ok st)
            = Ok {| parsed_data := parsed_data st;
                    current_section := current_section st;
                    current_subsection := current_subsection st;
                    current_content := lines |} :> exc parser_state)
    as [lines ->].
  { destruct (_ && _); [eauto|]. destruct (negb _); [eauto|].
    exists (current_content st). destruct st; reflexivity. }
  eexists. split; [reflexivity|]. split; [|split; [reflexivity|split]].
  - split; [exact Hwf|]. split; [exact Hcs|exact Hsub].
  - intros s. unfold state_sections. cbn [current_section current_subsection parsed_data current_content]. intuition discriminate.
  - intros s x. unfold state_subsections. cbn [current_section current_subsection parsed_data current_content]. intuition discriminate.
Qed.

(** The loop over the lines. *)
Lemma parse_lines_spec lines :
  forall st,
    parser_wf st ->
    ~ In "title" (sections_in lines) ->
    opened (current_section st) lines = true ->
    exists st',
      parse_lines st lines = Ok st'
      /\ parser_wf st'
      /\ (forall s, state_sections st' s
                    <-> state_sections st s \/ In s (sections_in lines))
      /\ (forall s x, state_subsections st' s x
                      <-> state_subsections st s x
                          \/ In (s, x) (subsections_in (current_section st) lines)).
Proof.
  induction lines as [|raw rest IH]; intros st Hst Htitle Hopen.
  - exists st. cbn. intuition.
  - cbn [parse_lines].
    destruct (parse_line_step st raw Hst) as (st1 & Hstep & Hst1 & Hcur & Hsec & Hsub).
    { intros name Hk Heq. apply Htitle. cbn. rewrite Hk. left. congruence. }
    { intros sub Hk Hnone. cbn in Hopen. rewrite Hk, Hnone in Hopen. discriminate. }
    rewrite Hstep. cbn [mbind res_mbind res_bind].
    destruct (IH st1 Hst1) as (st' & Hrun & Hst' & Hsec' & Hsub').
    { intros Hin. apply Htitle. cbn. destruct (classify raw); cbn; auto. }
    { rewrite Hcur. cbn in Hopen.
      destruct (classify raw); try exact Hopen.
      destruct (current_section st); [exact Hopen|discriminate]. }
    exists st'. split; [exact Hrun|]. split; [exact Hst'|]. split.
    + intros s. rewrite Hsec', Hsec. cbn [sections_in].
      destruct (classify raw); cbn [In]; intuition congruence.
    + intros s x. rewrite Hsub', Hsub, Hcur. cbn [subsections_in].
      destruct (classify raw) as [|name|sub|]; try (intuition congruence).
      destruct (current_section st) as [cur|]; cbn [In]; [|intuition congruence].
      split.
      * intros [[H|[[= ->] [= ->]]]|H]; auto.
      * intros [H|[[= -> ->]|H]]; auto.
Qed.

Lemma initial_parser_state_wf : parser_wf initial_parser_state.
Proof.
  split; [|split].
  - intros k v Hk. cbn in Hk. rewrite lookup_empty in Hk. discriminate.
  - intros name [=].
  - intros sub [=].
Qed.

(** The parser on any text in which no level-2 heading reads title and
    no level-3 heading comes before the first level-2 heading: it returns,
    the section keys of its result are the level-2 headings, and the
    subsection keys of a section are the level-3 headings that follow it. *)
Theorem parse_keys (markdown_content : string) :
  let lines := split LF markdown_content in
  ~ In "title" (sections_in lines) ->
  opened None lines = true ->
  exists pd,
    parse markdown_content = Ok pd
    /\ (forall s, is_section pd s <-> In s (sections_in lines))
    /\ (forall s x, is_subsection pd s x <-> In (s, x) (subsections_in None lines)).
Proof.
  intros lines Htitle Hopen. unfold parse. fold lines.
  destruct (parse_lines_spec lines initial_parser_state initial_parser_state_wf
              Htitle Hopen) as (st & Hrun & Hst & Hsec & Hsub).
  rewrite Hrun. cbn [mbind res_mbind res_bind].
  assert (forall s, state_sections initial_parser_state s <-> False) as Hs0.
  { intros s. unfold state_sections, is_section. cbn. rewrite lookup_empty.
    split; [|contradiction]. intros [[sd H]|H]; discriminate. }
  assert (forall s x, state_subsections initial_parser_state s x <-> False) as Hx0.
  { intros s x. unfold state_subsections, is_subsection. cbn. rewrite lookup_empty.
    split; [|contradiction]. intros [(sd & subs & H & _)|[H _]]; discriminate. }
  destruct (current_section st) as [cur|] eqn:Hcur.
  - pose proof Hst as (_ & Hcs & _). destruct (Hcs cur Hcur) as [_ Hne].
    rewrite (named_Some cur Hne).
    destruct (save_current st cur Hst Hcur) as (pd & Hsave & _ & Hsec' & Hsub').
    exists pd. split; [exact Hsave|]. split.
    + intros s. rewrite Hsec', Hsec, Hs0. cbn. tauto.
    + intros s x. rewrite Hsub', Hsub, Hx0. cbn. tauto.
  - cbn [named]. exists (parsed_data st). split; [reflexivity|]. split.
    + intros s. split.
      * intros H. assert (state_sections st s) as H' by (left; exact H).
        apply Hsec in H'. destruct H' as [H'|H']; [|exact H'].
        apply Hs0 in H'. contradiction.
      * intros H. assert (state_sections st s) as H' by (apply Hsec; right; exact H).
        destruct H' as [H'|H']; [exact H'|]. rewrite Hcur in H'. discriminate.
    + intros s x. split.
      * intros H. assert (state_subsections st s x) as H' by (left; exact H).
        apply Hsub in H'. destruct H' as [H'|H']; [|exact H'].
        apply Hx0 in H'. contradiction.
      * intros H.
        assert (state_subsections st s x) as H' by (apply Hsub; right; exact H).
        destruct H' as [H'|[H' _]]; [exact H'|]. rewrite Hcur in H'. discriminate.
Qed.

End ParserLoop.

(* ===================================================================== *)
(** ** Rendering, then parsing *)
(* ===================================================================== *)

Section SplitJoin.

Lemma split_nonempty c s : split c s <> [].
Proof.
  destruct s as [|x s]; cbn; [discriminate|].
  destruct (Ascii.eqb x c); [discriminate|].
  destruct (split c s); discriminate.
Qed.

Lemma split_no_sep c s : has_char c s = false -> split c s = [s].
Proof.
  induction s as [|x s IH]; [reflexivity|]. cbn.
  destruct (Ascii.eqb x c); [discriminate|]. cbn. intros H.
  rewrite (IH H). reflexivity.
Qed.

Lemma split_app c (a b : string) :
  split c (a +:+ String c b) = split c a ++ split c b.
Proof.
  induction a as [|x a IH].
  - rewrite app_empty_l. cbn. rewrite Ascii.eqb_refl. reflexivity.
  - rewrite app_String. cbn. destruct (Ascii.eqb x c).
    + rewrite IH. reflexivity.
    + rewrite IH. pose proof (split_nonempty c a) as Hne.
      destruct (split c a); [contradiction|reflexivity].
Qed.

Lemma split_join_cons (x : string) (rest : list string) :
  rest <> [] ->
  split LF (join nl (x :: rest)) = split LF x ++ split LF (join nl rest).
Proof.
  intros Hrest. destruct rest as [|y rest]; [contradiction|].
  rewrite join_cons2. unfold nl. rewrite app_String, app_empty_l.
  apply split_app.
Qed.

Lemma In_split_join (ls : list string) (x : string) :
  In x ls -> has_char LF x = false -> In x (split LF (join nl ls)).
Proof.
  intros Hin Hx. induction ls as [|y ls IH]; [contradiction|].
  destruct ls as [|z ls].
  - destruct Hin as [->|[]]. change (join nl [x]) with x. rewrite (split_no_sep _ _ Hx). left. reflexivity.
  - rewrite split_join_cons by discriminate. apply in_or_app.
    destruct Hin as [->|Hin].
    + left. rewrite (split_no_sep _ _ Hx). left. reflexivity.
    + right. apply IH, Hin.
Qed.

End SplitJoin.

Section Headings.

Lemma opened_Some lines : forall name, opened (Some name) lines = true.
Proof.
  induction lines as [|raw rest IH]; intros name; [reflexivity|]. cbn.
  destruct (classify raw); auto.
Qed.

Lemma sections_in_In lines heading name :
  In heading lines -> classify heading = KSection name ->
  In name (sections_in lines).
Proof.
  intros Hin Hk. induction lines as [|raw rest IH]; [contradiction|].
  cbn. destruct Hin as [->|Hin].
  - rewrite Hk. left. reflexivity.
  - destruct (classify raw); cbn; auto.
Qed.

Lemma subsections_in_In lines heading sub :
  forall cur,
    opened cur lines = true ->
    In heading lines -> classify heading = KSubsection sub ->
    exists name, In (name, sub) (subsections_in cur lines).
Proof.
  induction lines as [|raw rest IH]; intros cur Hopen Hin Hk; [contradiction|].
  cbn in Hopen |- *. destruct Hin as [->|Hin].
  - rewrite Hk in Hopen |- *. destruct cur as [name|]; [|discriminate].
    exists name. left. reflexivity.
  - destruct (classify raw) as [|name'|sub'|].
    + apply (IH cur Hopen Hin Hk).
    + apply (IH (Some name') Hopen Hin Hk).
    + destruct cur as [name|]; [|discriminate].
      destruct (IH (Some name) Hopen Hin Hk) as [n Hn]. exists n. right. exact Hn.
    + apply (IH cur Hopen Hin Hk).
Qed.

Lemma rstrip_nonblank t : all_space t = false -> rstrip t <> "".
Proof.
  intros Ht Hr. apply rstrip_empty in Hr. congruence.
Qed.

(** A mark of a heading in front of a text that is not blank. *)
Lemma rstrip_mark2 t :
  all_space t = false -> rstrip ("## " +:+ t) = "## " +:+ rstrip t.
Proof.
  intros Ht. rewrite !app_String, app_empty_l.
  rewrite rstrip_cons by (apply all_space_plain; reflexivity).
  rewrite rstrip_cons by (apply all_space_plain; reflexivity).
  rewrite rstrip_cons by (rewrite all_space_space1 by reflexivity; exact Ht).
  reflexivity.
Qed.

(** The second line of the Markdown is a level-2 heading when the
    program name is not blank. *)
Lemma title_heading_classified (program : string) :
  all_space program = false ->
  exists name, classify ("## " +:+ program) = KSection name.
Proof.
  intros Hp. unfold classify, strip.
  assert (lstrip ("## " +:+ program) = "## " +:+ program) as ->.
  { rewrite app_String. apply lstrip_plain. reflexivity. }
  rewrite (rstrip_mark2 program Hp).
  rewrite !app_String, app_empty_l.
  eexists. reflexivity.
Qed.

End Headings.

Section ParsedNames.

Lemma section_names_spec (pd : parsed) (s : string) :
  In s (section_names pd) <-> is_section pd s.
Proof.
  unfold section_names, is_section.
  rewrite <- list_elem_of_In, list_elem_of_omap. split.
  - intros ([k v] & Hin & Hs). apply elem_of_map_to_list in Hin.
    destruct k as [name|]; [|discriminate].
    destruct v as [|sd]; [discriminate|]. injection Hs as ->. eauto.
  - intros [sd H]. exists (Some s, PSection sd). split; [|reflexivity].
    apply elem_of_map_to_list, H.
Qed.

Lemma subsection_names_spec (pd : parsed) (s x : string) :
  In (s, x) (subsection_names pd) <-> is_subsection pd s x.
Proof.
  unfold subsection_names, is_subsection. rewrite in_flat_map. split.
  - intros ([k v] & Hin & Hs).
    apply list_elem_of_In, elem_of_map_to_list in Hin.
    destruct k as [name|]; [|contradiction].
    destruct v as [|sd]; [contradiction|].
    apply in_map_iff in Hs. destruct Hs as ([sub lines] & [= -> ->] & Hsub).
    apply list_elem_of_In, elem_of_map_to_list in Hsub.
    destruct (subsections sd) as [subs|] eqn:Hsd.
    + exists sd, subs. cbn in Hsub. eauto.
    + cbn in Hsub. rewrite lookup_empty in Hsub. discriminate.
  - intros (sd & subs & Hk & Hsd & [lines Hx]).
    exists (Some s, PSection sd). split.
    + apply list_elem_of_In, elem_of_map_to_list, Hk.
    + apply in_map_iff. exists (x, lines). split; [reflexivity|].
      apply list_elem_of_In, elem_of_map_to_list. rewrite Hsd. exact Hx.
Qed.

End ParsedNames.

Section RoundTrip.

Variable table : reference_table.
Variable _improve_text : string -> string.
Variable now : string.

Local Abbreviation md_lines' := (md_lines table _improve_text now).
Local Abbreviation _generate_markdown' := (_generate_markdown table _improve_text now).

Lemma fixed_headings_emitted d heading :
  In heading fixed_headings -> In heading (md_lines' d).
Proof.
  intros H. unfold md_lines. cbn in H.
  destruct H as [<-|[<-|[<-|[<-|[<-|[]]]]]].
  - apply in_or_app; right. apply in_or_app; left. cbn. tauto.
  - do 2 (apply in_or_app; right). apply in_or_app; left. cbn. tauto.
  - do 3 (apply in_or_app; right). apply in_or_app; left. cbn. tauto.
  - do 4 (apply in_or_app; right). apply in_or_app; left. cbn. tauto.
  - do 4 (apply in_or_app; right). apply in_or_app; left. cbn. tauto.
Qed.

Lemma append_form_heading heading rows :
  rows <> [] -> In heading (append_form heading rows).
Proof. destruct rows; [contradiction|]. intros _. cbn. tauto. Qed.

Lemma record_headings_emitted d heading block :
  In (heading, false, block) (record_sections d) -> In heading (md_lines' d).
Proof.
  intros H. unfold md_lines. cbn in H.
  destruct H as [H|[H|[H|[H|[H|[H|[H|[H|[]]]]]]]]];
    injection H as <- Hnil _.
  - do 5 (apply in_or_app; right). apply in_or_app; left.
    unfold selection_screen_lines.
    destruct (selection_parameters d); [discriminate|]. cbn. tauto.
  - do 6 (apply in_or_app; right). apply in_or_app; left.
    unfold detail_processing_lines.
    destruct (field_mappings d); [discriminate|]. cbn. tauto.
  - do 7 (apply in_or_app; right). apply in_or_app; left.
    apply append_form_heading. destruct (valid_dataset_rules d); discriminate.
  - do 8 (apply in_or_app; right). apply in_or_app; left.
    apply append_form_heading. destruct (country_info d); discriminate.
  - do 9 (apply in_or_app; right). apply in_or_app; left.
    apply append_form_heading. destruct (currency_t500c d); discriminate.
  - do 10 (apply in_or_app; right). apply in_or_app; left.
    apply append_form_heading. destruct (currency_t001 d); discriminate.
  - do 11 (apply in_or_app; right). apply in_or_app; left.
    unfold error_handling_lines.
    destruct (error_scenarios d); [discriminate|]. cbn. tauto.
  - do 12 (apply in_or_app; right).
    unfold testing_lines.
    destruct (test_scenarios d); [discriminate|]. cbn. tauto.
Qed.

(** An emitted heading is a line of the Markdown, has no line feed, and
    is a level-2 or level-3 heading. *)
Lemma emitted_heading_line d heading :
  In heading (emitted_headings d) ->
  In heading (md_lines' d)
  /\ has_char LF heading = false
  /\ match classify heading with
     | KSection _ | KSubsection _ => True
     | _ => False
     end.
Proof.
  intros H. split.
  - apply emitted_heading_elim in H. destruct H as [H|[block H]].
    + apply fixed_headings_emitted, H.
    + apply (record_headings_emitted d heading block H).
  - apply emitted_heading_elim in H. destruct H as [H|[block H]].
    + cbn in H. destruct H as [<-|[<-|[<-|[<-|[<-|[]]]]]];
        split; vm_compute; auto.
    + cbn in H.
      destruct H as [H|[H|[H|[H|[H|[H|[H|[H|[]]]]]]]]];
        injection H as <- _ _; split; vm_compute; auto.
Qed.

(** The lines of the Markdown begin with the title line and the line of
    the program name. *)
Lemma rendered_lines d :
  has_char LF (program_name d) = false ->
  exists rest,
    split LF (_generate_markdown' d)
    = "# Functional Specification Design (FSD)"
      :: ("## " +:+ program_name d) :: rest.
Proof.
  intros Hp. unfold _generate_markdown, md_lines.
  set (rest := document_information_lines table d ++ _).
  unfold title_lines.
  change ([?a; ?b; ?c; ?d0; ?e; ?f] ++ rest)
    with (a :: b :: c :: d0 :: e :: f :: rest).
  rewrite split_join_cons by discriminate.
  rewrite split_join_cons by discriminate.
  rewrite (split_no_sep LF "# Functional Specification Design (FSD)") by reflexivity.
  rewrite (split_no_sep LF ("## " +:+ program_name d)).
  - eexists. reflexivity.
  - rewrite !app_String, app_empty_l. cbn. exact Hp.
Qed.

(** C3, as amended. The program name has no line feed and is not blank,
    and no level-2 heading of the Markdown reads title. Then the parser
    returns on the rendered Markdown; the section keys of its result are
    exactly the level-2 headings of the Markdown and the subsection keys of
    a section exactly the level-3 headings that follow it; and every
    numbered or form heading the renderer emits is recovered. *)
Theorem render_then_parse (d : FSDDocument) :
  let lines := split LF (_generate_markdown' d) in
  has_char LF (program_name d) = false ->
  all_space (program_name d) = false ->
  ~ In "title" (sections_in lines) ->
  exists pd,
    parse (_generate_markdown' d) = Ok pd
    /\ (forall s, is_section pd s <-> In s (sections_in lines))
    /\ (forall s x, is_subsection pd s x <-> In (s, x) (subsections_in None lines))
    /\ (forall heading, In heading (emitted_headings d) ->
          heading_recovered pd heading).
Proof.
  intros lines Hlf Hblank Htitle.
  assert (opened None lines = true) as Hopen.
  { destruct (rendered_lines d Hlf) as [rest Hlines].
    unfold lines. rewrite Hlines.
    destruct (title_heading_classified (program_name d) Hblank) as [name Hname].
    cbn [opened]. change (classify "# Functional Specification Design (FSD)")
      with KTitle. cbn iota. rewrite Hname. apply opened_Some. }
  destruct (parse_keys (_generate_markdown' d) Htitle Hopen)
    as (pd & Hparse & Hsec & Hsub).
  exists pd. split; [exact Hparse|]. split; [exact Hsec|]. split; [exact Hsub|].
  intros heading Hin.
  destruct (emitted_heading_line d heading Hin) as (Hline & Hnolf & Hkind).
  assert (In heading lines) as Hlines by (apply In_split_join; assumption).
  unfold heading_recovered.
  destruct (classify heading) as [|name|sub|] eqn:Hk; try contradiction.
  - apply Hsec. apply (sections_in_In lines heading name Hlines Hk).
  - destruct (subsections_in_In lines heading sub None Hopen Hlines Hk) as [name Hn].
    exists name. apply Hsub, Hn.
Qed.

End RoundTrip.

Lemma render_then_parse_witness :
  let d := scenario_document ["RICEFW ID: RHR006"] in
  let md := _generate_markdown scenario_table (fun t => t) "2026-01-01 00:00:00" d in
  exists pd,
    parse md = Ok pd
    /\ (forall s, is_section pd s <-> In s (sections_in (split LF md)))
    /\ (forall s x, is_subsection pd s x <-> In (s, x) (subsections_in None (split LF md)))
    /\ (forall heading, In heading (emitted_headings d) -> heading_recovered pd heading).
Proof.
  intros d md.
  apply (render_then_parse scenario_table (fun t => t) "2026-01-01 00:00:00" d).
  - reflexivity.
  - reflexivity.
  - vm_compute. intros H.
    repeat (destruct H as [H|H]; [discriminate H|]). exact H.
Defined.

(** C3 as stated fails. With an empty program name the renderer emits the
    level-3 heading of the report description before any level-2 heading,
    and the parse result has it neither as a section nor as a subsection.
    With the program name title the parser raises [TypeError]. *)
Lemma render_then_parse_counterexample :
  let d := with_basic_info "" "Laporan" "" "" [] "" "" [] [] [] new_FSDDocument in
  let d' := with_basic_info "title" "Laporan" "" "" [] "" "" [] [] [] new_FSDDocument in
  let render := _generate_markdown scenario_table (fun t => t) "2026-01-01 00:00:00" in
  (In "### Laporan" (md_lines scenario_table (fun t => t) "2026-01-01 00:00:00" d)
   /\ exists pd,
        parse (render d) = Ok pd
        /\ ~ is_section pd "Laporan"
        /\ (forall s, ~ is_subsection pd s "Laporan"))
  /\ parse (render d') = Err TypeError.
Proof.
  intros d d' render. split; [split|].
  - right. right. left. reflexivity.
  - assert (match parse (render d) with
            | Ok pd =>
                forallb (fun n => negb (String.eqb n "Laporan")) (section_names pd)
                && forallb (fun p => negb (String.eqb (snd p) "Laporan"))
                     (subsection_names pd) = true
            | Err _ => False
            end) as H by (vm_compute; reflexivity).
    destruct (parse (render d)) as [pd|]; [|contradiction].
    apply andb_true_iff in H. destruct H as [Hs Hx].
    rewrite forallb_forall in Hs, Hx.
    exists pd. split; [reflexivity|]. split.
    + intros Hsec. apply section_names_spec in Hsec.
      specialize (Hs _ Hsec). rewrite String.eqb_refl in Hs. discriminate.
    + intros s Hsub. apply subsection_names_spec in Hsub.
      specialize (Hx _ Hsub). cbn in Hx. discriminate.
  - vm_compute. reflexivity.
Qed.

(* ===================================================================== *)
(** ** The lines of the Markdown text, by origin *)
(* ===================================================================== *)

Section LineCounts.

Lemma occurrences_app line (a b : list string) :
  occurrences line (a ++ b) = occurrences line a + occurrences line b.
Proof. unfold occurrences. rewrite List.filter_app, length_app. reflexivity. Qed.

Lemma occurrences_In line (lines : list string) :
  In line lines <-> occurrences line lines <> 0.
Proof.
  unfold occurrences. induction lines as [|x lines IH]; cbn; [tauto|].
  destruct (String.eqb line x) eqn:E; cbn.
  - apply String.eqb_eq in E. subst x. split; [discriminate|tauto].
  - apply String.eqb_neq in E. rewrite <- IH. split; [|tauto].
    intros [H|H]; [congruence|exact H].
Qed.

Lemma occurrences_In_not line (lines : list string) :
  occurrences line lines = 0 -> ~ In line lines.
Proof. intros H Hin. apply occurrences_In in Hin. contradiction. Qed.

Lemma occurrences_shown line empty block :
  occurrences line (shown_block empty block)
  = if empty then 0 else occurrences line block.
Proof. destruct empty; reflexivity. Qed.

Lemma rendered_app (a b : list string) : rendered (a ++ b) = rendered a ++ rendered b.
Proof. unfold rendered. apply flat_map_app. Qed.

Lemma weight_nil line : occurrences line (rendered []) = 0.
Proof. reflexivity. Qed.

Lemma weight_cons line x (l : list string) :
  occurrences line (rendered (x :: l))
  = occurrences line (split LF x) + occurrences line (rendered l).
Proof. unfold rendered. cbn [flat_map]. apply occurrences_app. Qed.

Lemma weight_app line (a b : list string) :
  occurrences line (rendered (a ++ b))
  = occurrences line (rendered a) + occurrences line (rendered b).
Proof. rewrite rendered_app. apply occurrences_app. Qed.

(** The lines of the joined text are the lines of its items. *)
Lemma split_join_rendered (items : list string) :
  items <> [] -> split LF (join nl items) = rendered items.
Proof.
  induction items as [|x items IH]; [contradiction|]. intros _.
  destruct items as [|y items].
  - change (join nl [x]) with x. unfold rendered. cbn. rewrite app_nil_r. reflexivity.
  - rewrite split_join_cons by discriminate. rewrite IH by discriminate. reflexivity.
Qed.

Lemma rendered_plain (items : list string) :
  forallb (fun x => negb (has_char LF x)) items = true -> rendered items = items.
Proof.
  induction items as [|x items IH]; [reflexivity|]. cbn [forallb].
  intros H. apply andb_true_iff in H as [Hx H]. apply negb_true_iff in Hx.
  unfold rendered in *. cbn [flat_map]. rewrite (split_no_sep _ _ Hx), (IH H). reflexivity.
Qed.

Lemma rendered_shown empty block :
  rendered block = block -> rendered (shown_block empty block) = shown_block empty block.
Proof. destruct empty; [reflexivity|auto]. Qed.

End LineCounts.

Ltac weigh := rewrite ?weight_app, ?weight_cons, ?weight_nil.

Section LineOrigins.

Variable table : reference_table.
Variable _improve_text : string -> string.
Variable now : string.

Local Abbreviation md_lines' := (md_lines table _improve_text now).
Local Abbreviation text_lines' := (text_lines table _improve_text now).

Implicit Types (d : FSDDocument) (line : string).

Lemma title_lines_weight line d :
  occurrences line (rendered (title_lines now d))
  = occurrences line (rendered [ "# Functional Specification Design (FSD)"; ""; "" ])
    + occurrences line
        (rendered [ "## " +:+ program_name d; "### " +:+ report_description d;
                    "**Generated on:** " +:+ now ]).
Proof. unfold title_lines. weigh. lia. Qed.

Lemma document_information_lines_weight line d :
  occurrences line (rendered (document_information_lines table d))
  = (occurrences line (rendered [ "## 1. INFORMASI DOKUMEN"; ""; "" ])
     + occurrences line
         (rendered (shown_block (is_nil (related_documents d))
                      [ "- **Related Documents**:"; "" ]))
     + occurrences line
         (rendered (shown_block (is_nil (reviewers d)) [ "- **Reviewers**:"; "" ]))
     + occurrences line
         (rendered (shown_block (is_nil (version_history d))
                      [ "- **Version History**:"; "" ])))
    + (occurrences line
         (rendered [ "- **Project**: " +:+ project_name d;
                     "- **Document Location**: " +:+ document_location d ])
       + occurrences line (rendered (map (related_document_line table)
                                       (related_documents d)))
       + occurrences line
           (rendered (map (fun r => "  - " +:+ dict_get "role" r +:+ ": "
                                    +:+ dict_get "name" r) (reviewers d)))
       + occurrences line
           (rendered (map (fun v => "  - " +:+ dict_get "version" v +:+ ": "
                                    +:+ dict_get "change" v +:+ " by "
                                    +:+ dict_get "author" v +:+ " on "
                                    +:+ dict_get "date" v) (version_history d)))).
Proof.
  unfold document_information_lines.
  destruct (related_documents d) as [|doc docs];
    destruct (reviewers d) as [|r rs];
    destruct (version_history d) as [|v vs];
    cbn [is_nil shown_block]; weigh; cbn [map]; weigh; lia.
Qed.

Lemma general_requirements_lines_weight line d :
  occurrences line (rendered (general_requirements_lines table _improve_text d))
  = occurrences line
      (rendered [ "## 2. PERSYARATAN UMUM"; ""; ""; "**Assumptions**:"; "" ])
    + (occurrences line
         (rendered [ "**User Requirements**: "
                     +:+ requirement_value table _improve_text d ])
       + occurrences line
           (rendered (map (fun assumption => "- " +:+ assumption) (assumptions d)))).
Proof. unfold general_requirements_lines. weigh. lia. Qed.

Lemma existing_sap_objects_lines_weight line d :
  occurrences line (rendered (existing_sap_objects_lines table d))
  = occurrences line (rendered [ "## 3. EXISTING SAP OBJECTS"; ""; "" ])
    + occurrences line
        (rendered [ "- **Program Name**: " +:+ program_name_value table d;
                    "- **Transaction Code**: " +:+ transaction_code d;
                    "- **Menu Path**: " +:+ menu_path d ]).
Proof. unfold existing_sap_objects_lines. weigh. lia. Qed.

Lemma design_lines_weight line d :
  occurrences line (rendered (design_lines table _improve_text d))
  = occurrences line
      (rendered [ "## 4. DESAIN"; ""; "### 4.1 Description detail dari Report"; ""; "" ])
    + occurrences line (rendered [ _compose_report_description table _improve_text d ]).
Proof. unfold design_lines. weigh. lia. Qed.

Lemma selection_screen_lines_weight line d :
  occurrences line (rendered (selection_screen_lines d))
  = occurrences line
      (rendered
         (shown_block (is_nil (selection_parameters d))
            [ "### 4.2 Selection Screen"; "";
              "| Parameter | Type | Description | Mandatory | Select-Option | No Intervals |";
              "|-----------|------|-------------|-----------|---------------|--------------|";
              "" ]))
    + occurrences line (rendered (map selection_parameter_row (selection_parameters d))).
Proof.
  unfold selection_screen_lines. destruct (selection_parameters d) as [|p ps];
    cbn [is_nil shown_block]; weigh; [reflexivity|lia].
Qed.

Lemma detail_processing_lines_weight line d :
  occurrences line (rendered (detail_processing_lines d))
  = occurrences line
      (rendered
         (shown_block (is_nil (field_mappings d))
            [ "### 4.3 Detail Processing"; "";
              "| Field Name | Technical Field | Source Table | Processing Logic | Processing Type |";
              "|------------|-----------------|--------------|------------------|-----------------|";
              "" ]))
    + occurrences line (rendered (map field_mapping_row (field_mappings d))).
Proof.
  unfold detail_processing_lines. destruct (field_mappings d) as [|f fs];
    cbn [is_nil shown_block]; weigh; [reflexivity|lia].
Qed.

Lemma append_form_weight line heading rows :
  occurrences line (rendered (append_form heading rows))
  = occurrences line
      (rendered
         (shown_block (is_nil rows)
            [ heading; ""; "| Data | Kondisi |"; "|------|---------|"; "" ]))
    + occurrences line (rendered (map data_condition_row rows)).
Proof.
  unfold append_form. destruct rows as [|r rs];
    cbn [is_nil shown_block]; weigh; [reflexivity|lia].
Qed.

Lemma error_handling_lines_weight line d :
  occurrences line (rendered (error_handling_lines d))
  = occurrences line
      (rendered
         (shown_block (is_nil (error_scenarios d))
            [ "## 5. PENANGANAN ERROR"; "";
              "| No | Error Description | Resolution | Error Code | Severity |";
              "|----|-------------------|------------|------------|----------|";
              "" ]))
    + occurrences line (rendered (map error_row (enumerate1 (error_scenarios d)))).
Proof.
  unfold error_handling_lines. destruct (error_scenarios d) as [|e es];
    cbn [is_nil shown_block]; weigh; [reflexivity|lia].
Qed.

Lemma testing_lines_weight line d :
  occurrences line (rendered (testing_lines d))
  = occurrences line
      (rendered
         (shown_block (is_nil (test_scenarios d))
            [ "## 6. PERSYARATAN PENGUJIAN"; "";
              "| No | Test Condition | Expected Result | Test Data | Priority |";
              "|----|----------------|-----------------|-----------|----------|" ]))
    + occurrences line (rendered (map test_row (enumerate1 (test_scenarios d)))).
Proof.
  unfold testing_lines. destruct (test_scenarios d) as [|t ts];
    cbn [is_nil shown_block]; weigh; [reflexivity|lia].
Qed.

(** Every item of [md_lines] is one of the renderer's own lines or one of
    the lines with a text. *)
Lemma md_lines_weight line d :
  occurrences line (rendered (md_lines' d))
  = occurrences line (rendered (own_lines d))
    + occurrences line (rendered (text_lines' d)).
Proof.
  unfold md_lines, own_lines, text_lines. rewrite !weight_app.
  rewrite title_lines_weight, document_information_lines_weight,
    general_requirements_lines_weight, existing_sap_objects_lines_weight,
    design_lines_weight, selection_screen_lines_weight, detail_processing_lines_weight,
    !append_form_weight, error_handling_lines_weight, testing_lines_weight.
  lia.
Qed.

Lemma own_lines_plain d : rendered (own_lines d) = own_lines d.
Proof.
  unfold own_lines. rewrite !rendered_app.
  repeat match goal with
    | |- context [rendered (shown_block ?e ?b)] =>
        rewrite (rendered_shown e b) by (apply rendered_plain; reflexivity)
    end.
  repeat match goal with
    | |- context [rendered (?x :: ?l)] =>
        rewrite (rendered_plain (x :: l)) by reflexivity
    end.
  reflexivity.
Qed.

(** The lines of the Markdown text: the renderer's own and those of the
    texts. *)
Lemma markdown_lines_by_origin line d :
  occurrences line (split LF (_generate_markdown table _improve_text now d))
  = occurrences line (own_lines d) + occurrences line (rendered (text_lines' d)).
Proof.
  unfold _generate_markdown. rewrite split_join_rendered.
  - rewrite md_lines_weight, own_lines_plain. reflexivity.
  - unfold md_lines, title_lines. discriminate.
Qed.

Lemma if_same (b : bool) (n : nat) : (if b then n else n) = n.
Proof. destruct b; reflexivity. Qed.

Ltac count_literals :=
  repeat match goal with
    | |- context [occurrences ?l (?x :: ?b)] =>
        let n := eval vm_compute in (occurrences l (x :: b)) in
        change (occurrences l (x :: b)) with n
    end.

(** The renderer's own lines hold the heading of a record list once when
    the list is not empty and not at all when it is empty, and a header or
    separator row once for every list that is not empty and has that
    table. *)
Lemma own_lines_marks d :
  Forall (fun mark : string * string * string * bool =>
            let '(heading, header, separator, empty) := mark in
            occurrences heading (own_lines d) = (if empty then 0 else 1)
            /\ occurrences header (own_lines d) = tables_with header d
            /\ occurrences separator (own_lines d) = tables_with separator d)
    (table_marks d).
Proof.
  unfold own_lines, tables_with, table_marks.
  generalize (is_nil (related_documents d)) (is_nil (reviewers d))
    (is_nil (version_history d)) (is_nil (selection_parameters d))
    (is_nil (field_mappings d)) (is_nil (valid_dataset_rules d))
    (is_nil (country_info d)) (is_nil (currency_t500c d)) (is_nil (currency_t001 d))
    (is_nil (error_scenarios d)) (is_nil (test_scenarios d)).
  intros b1 b2 b3 e1 e2 e3 e4 e5 e6 e7 e8.
  repeat apply List.Forall_cons; try apply List.Forall_nil;
    (split; [|split]);
    rewrite !occurrences_app, !occurrences_shown; count_literals;
    rewrite ?if_same;
    destruct e1, e2, e3, e4, e5, e6, e7, e8; reflexivity.
Qed.


End LineOrigins.


(* ===================================================================== *)
(** ** The title extractor *)
(* ===================================================================== *)

Section ContainsLemmas.

Lemma startswith_app sub (a t : string) :
  startswith sub a = true -> startswith sub (a +:+ t) = true.
Proof.
  revert a. induction sub as [|c sub IH]; intros a; [reflexivity|].
  destruct a as [|x a]; [discriminate|]. rewrite app_String. cbn.
  rewrite !andb_true_iff. intros [Hc H]. split; [exact Hc|apply IH, H].
Qed.

Lemma startswith_nonempty_nil sub : sub <> "" -> startswith sub "" = false.
Proof. destruct sub; [contradiction|reflexivity]. Qed.

Lemma contains_app_r sub (a t : string) :
  sub <> "" -> contains sub a = true -> contains sub (a +:+ t) = true.
Proof.
  intros Hsub. induction a as [|x a IH].
  - cbn. rewrite (startswith_nonempty_nil sub Hsub). discriminate.
  - rewrite app_String. cbn [contains]. rewrite !orb_true_iff.
    intros [H|H].
    + left. rewrite <- app_String. apply startswith_app, H.
    + right. apply IH, H.
Qed.

Lemma contains_app_l sub (w t : string) :
  contains sub t = true -> contains sub (w +:+ t) = true.
Proof.
  intros H. induction w as [|c w IH]; [exact H|].
  rewrite app_String. cbn [contains]. rewrite IH. apply orb_true_r.
Qed.

Lemma contains_lstrip sub s :
  contains sub (lstrip s) = true -> contains sub s = true.
Proof.
  intros H. destruct (lstrip_suffix s) as [w [Hs _]]. rewrite Hs.
  apply contains_app_l, H.
Qed.

Lemma contains_rstrip sub s :
  sub <> "" -> contains sub (rstrip s) = true -> contains sub s = true.
Proof.
  intros Hsub H. destruct (rstrip_prefix s) as [t Ht]. rewrite Ht.
  apply contains_app_r; assumption.
Qed.

Lemma contains_strip sub s :
  sub <> "" -> contains sub (strip s) = true -> contains sub s = true.
Proof.
  intros Hsub H. unfold strip in H.
  apply contains_lstrip, (contains_rstrip _ _ Hsub), H.
Qed.

Lemma In_middle {A} (x : A) (l : list A) : In x (middle l) -> In x l.
Proof.
  unfold middle. intros H.
  assert (forall k : list A, In x (removelast k) -> In x k) as Hrl.
  { induction k as [|y k IH]; [auto|]. cbn.
    destruct k as [|z k]; [contradiction|].
    intros [->|Hin]; [left; reflexivity|right; apply IH, Hin]. }
  apply Hrl in H. destruct l; [contradiction|right; exact H].
Qed.

(** A cell read from a row none of whose cells contains the word. *)
Lemma item_without_word word line i :
  word <> "" ->
  any_cell_contains word line = false ->
  (i < length (cells_of line))%nat ->
  contains word (item (cells_of line) i) = false.
Proof.
  intros Hword Hany Hi.
  destruct (contains word (item (cells_of line) i)) eqn:Hc; [|reflexivity].
  exfalso. unfold item in Hc.
  pose proof (nth_In (cells_of line) "" Hi) as Hin.
  unfold cells_of in Hin at 2. apply in_map_iff in Hin.
  destruct Hin as (c & Hstrip & Hmid).
  rewrite <- Hstrip in Hc. apply (contains_strip _ _ Hword) in Hc.
  apply In_middle in Hmid.
  unfold any_cell_contains in Hany.
  assert (existsb (contains word) (split "|" line) = true) as Hex.
  { apply existsb_exists. exists c. split; assumption. }
  congruence.
Qed.

End ContainsLemmas.

Section ExtractorProperties.

Implicit Types (st : extractor_state) (t : title_tables).

(** *** A row with a cell that contains Data changes no Data/Kondisi table *)

Lemma design_table_row_Data sub line t :
  any_cell_contains "Data" line = true ->
  data_tables (design_table_row sub line t) = data_tables t.
Proof.
  intros H. unfold design_table_row. rewrite H. cbn [negb andb].
  destruct sub; try reflexivity.
  - destruct (_ && _); reflexivity.
  - destruct (_ && _); reflexivity.
Qed.

Lemma read_assumption_data st line :
  data_tables (tables (read_assumption st line)) = data_tables (tables st).
Proof. unfold read_assumption. destruct (_ && _); reflexivity. Qed.

Lemma read_design_row_Data st line :
  any_cell_contains "Data" line = true ->
  data_tables (tables (read_design_row st line)) = data_tables (tables st).
Proof.
  intros H. unfold read_design_row.
  destruct (current_design_subsection st) as [sub|]; [|reflexivity].
  destruct (_ && _); [|reflexivity]. apply design_table_row_Data, H.
Qed.

Lemma read_error_row_data st line :
  data_tables (tables (read_error_row st line)) = data_tables (tables st).
Proof.
  unfold read_error_row. destruct (_ && _); [|reflexivity].
  unfold error_table_row. destruct (_ && _); reflexivity.
Qed.

Lemma read_testing_row_data st line :
  data_tables (tables (read_testing_row st line)) = data_tables (tables st).
Proof.
  unfold read_testing_row. destruct (_ && _); [|reflexivity].
  unfold testing_table_row. destruct (_ && _); reflexivity.
Qed.

Lemma track_lists_data st line :
  data_tables (tables (track_lists st line)) = data_tables (tables st).
Proof.
  unfold track_lists.
  destruct (contains "**Related Documents**:" line); [reflexivity|].
  destruct (contains "**Reviewers**:" line); [reflexivity|].
  destruct (contains "**Version History**:" line); [reflexivity|].
  destruct (_ && _); destruct (startswith "  - " line); cbn;
    try reflexivity; destruct (current_list st) as [[]|]; reflexivity.
Qed.

Lemma extract_content_Data st line :
  any_cell_contains "Data" line = true ->
  data_tables (tables (extract_content st line)) = data_tables (tables st).
Proof.
  intros H. unfold extract_content. destruct (_ && _); [reflexivity|].
  rewrite track_lists_data, read_testing_row_data, read_error_row_data,
    (read_design_row_Data _ _ H), read_assumption_data. reflexivity.
Qed.

Lemma extract_line_Data st raw :
  any_cell_contains "Data" (strip raw) = true ->
  data_tables (tables (extract_line st raw)) = data_tables (tables st).
Proof.
  intros H. unfold extract_line.
  do 6 match goal with
       | |- data_tables (tables (if ?c then _ else _)) = _ =>
           destruct c; [reflexivity|]
       end.
  cbv zeta.
  match goal with
  | |- context [if ?c then enter_section _ _ _ _ _ _ else st] =>
      destruct c
  end.
  - destruct (_ && _); [reflexivity|]. rewrite (extract_content_Data _ _ H). reflexivity.
  - destruct (_ && _); [reflexivity|]. apply (extract_content_Data _ _ H).
Qed.

(** *** No entry of a Data/Kondisi table contains Data *)

Lemma clean_same t t' : data_tables t' = data_tables t -> clean t -> clean t'.
Proof. unfold clean. intros ->. auto. Qed.

Lemma data_entry_clean line :
  any_cell_contains "Data" line = false ->
  (2 <= length (cells_of line))%nat ->
  entry_without_Data
    [("data", item (cells_of line) 0); ("condition", item (cells_of line) 1)].
Proof.
  intros Hany Hlen. eexists _, _. split; [reflexivity|].
  split; apply item_without_word; try assumption; try discriminate; lia.
Qed.

Lemma design_table_row_clean sub line t :
  clean t -> clean (design_table_row sub line t).
Proof.
  intros Hc. unfold design_table_row.
  destruct sub.
  1,2: destruct (_ && _); [|exact Hc]; apply (clean_same t); [reflexivity|exact Hc].
  all: destruct (negb (any_cell_contains "Data" line)) eqn:Hany; [|exact Hc];
    destruct (Nat.leb 2 (length (cells_of line))) eqn:Hlen; [|exact Hc];
    apply negb_true_iff in Hany; apply Nat.leb_le in Hlen;
    pose proof (data_entry_clean line Hany Hlen) as Hentry;
    unfold clean, data_tables in *; cbn [andb];
    repeat match goal with
      | H : Forall _ (_ :: _) |- _ => apply Forall_cons in H; destruct H as [? H]
      end;
    repeat (apply Forall_cons; split); try assumption; try constructor;
    apply Forall_app; split; [assumption|]; repeat constructor; exact Hentry.
Qed.

Lemma extract_content_clean st line :
  clean (tables st) -> clean (tables (extract_content st line)).
Proof.
  intros Hc. unfold extract_content. destruct (_ && _); [exact Hc|].
  apply (clean_same _ _ (track_lists_data _ _)).
  apply (clean_same _ _ (read_testing_row_data _ _)).
  apply (clean_same _ _ (read_error_row_data _ _)).
  unfold read_design_row.
  destruct (current_design_subsection (read_assumption st line)) as [sub|].
  - destruct (_ && _).
    + apply design_table_row_clean.
      apply (clean_same _ _ (read_assumption_data _ _)), Hc.
    + apply (clean_same _ _ (read_assumption_data _ _)), Hc.
  - apply (clean_same _ _ (read_assumption_data _ _)), Hc.
Qed.

Lemma extract_line_clean st raw :
  clean (tables st) -> clean (tables (extract_line st raw)).
Proof.
  intros Hc. unfold extract_line.
  do 6 match goal with
       | |- clean (tables (if ?c then _ else _)) => destruct c; [exact Hc|]
       end.
  cbv zeta.
  match goal with
  | |- context [if ?c then enter_section _ _ _ _ _ _ else st] => destruct c
  end.
  - destruct (_ && _); [exact Hc|]. apply extract_content_clean, Hc.
  - destruct (_ && _); [exact Hc|]. apply extract_content_clean, Hc.
Qed.

Lemma fold_extract_clean lines :
  forall st, clean (tables st) -> clean (tables (fold_left extract_line lines st)).
Proof.
  induction lines as [|raw rest IH]; intros st Hc; [exact Hc|].
  cbn. apply IH, extract_line_clean, Hc.
Qed.

(** C10. A line one of whose cells contains Data adds nothing to the
    four Data/Kondisi tables, whatever the state of the loop; and so no
    entry of these tables, for any Markdown text, has Data in its label or
    in its condition. *)
Theorem rows_with_Data_are_dropped :
  (forall st raw,
     any_cell_contains "Data" (strip raw) = true ->
     data_tables (tables (extract_line st raw)) = data_tables (tables st))
  /\ (forall markdown_content table entry,
        In table (data_tables (extract_tables markdown_content)) ->
        In entry table ->
        entry_without_Data entry).
Proof.
  split; [apply extract_line_Data|].
  intros md table entry Htable Hentry.
  assert (clean (extract_tables md)) as Hc.
  { unfold extract_tables. apply fold_extract_clean.
    unfold clean. cbn. repeat constructor. }
  unfold clean in Hc. rewrite List.Forall_forall in Hc.
  specialize (Hc table Htable). rewrite List.Forall_forall in Hc.
  apply Hc, Hentry.
Qed.

End ExtractorProperties.

(** In the country form of the design section, a row whose label holds
    Data leaves the tables as they are. *)
Lemma rows_with_Data_are_dropped_witness :
  let st := fold_left extract_line
              ["## 4. DESAIN"; "### Form Get_Country_Info"; "| LAND1 | T001-LAND1 |"]
              initial_extractor_state in
  data_tables (tables (extract_line st "| Data Negara | T005 |"))
  = data_tables (tables st).
Proof.
  intros st. apply (proj1 rows_with_Data_are_dropped).
  vm_compute. reflexivity.
Defined.

(** A design section with a row whose condition and a row whose label
    contain Data: both are missing from the extracted table and from the
    rows of the Word table; the row without Data is there. *)
Lemma rows_with_Data_example :
  let md := join nl
      [ "## 4. DESAIN";
        "### Form Get_Country_Info";
        "";
        "| Data | Kondisi |";
        "|------|---------|";
        "| BUTXT | Data perusahaan dari T001 |";
        "| Data Negara | T005 |";
        "| LAND1 | T001-LAND1 |" ] in
  country_info_table (extract_tables md)
  = [[("data", "LAND1"); ("condition", "T001-LAND1")]]
  /\ create_data_condition_table_data (country_info_table (extract_tables md))
     = ([["LAND1"; "T001-LAND1"]], ["Data"; "Kondisi"]).
Proof. split; vm_compute; reflexivity. Qed.

(* ===================================================================== *)
(** ** The Word template filler *)
(* ===================================================================== *)

(** *** Paragraphs and tables of a body *)

Lemma doc_tables_app b1 b2 : doc_tables (b1 ++ b2) = doc_tables b1 ++ doc_tables b2.
Proof.
  induction b1 as [|[p|t] b1 IH]; simpl; [reflexivity|assumption|].
  now rewrite IH.
Qed.

Lemma doc_paragraphs_app b1 b2 :
  doc_paragraphs (b1 ++ b2) = doc_paragraphs b1 ++ doc_paragraphs b2.
Proof.
  induction b1 as [|[p|t] b1 IH]; simpl; [reflexivity| |assumption].
  now rewrite IH.
Qed.

Lemma doc_tables_alter_paragraph f k b :
  doc_tables (alter_paragraph f k b) = doc_tables b.
Proof.
  revert k; induction b as [|[p|t] b IH]; intros k; simpl.
  - reflexivity.
  - destruct k; simpl; [reflexivity|apply IH].
  - now rewrite IH.
Qed.

Lemma doc_paragraphs_alter_paragraph f k b :
  length (doc_paragraphs (alter_paragraph f k b)) = length (doc_paragraphs b).
Proof.
  revert k; induction b as [|[p|t] b IH]; intros k; simpl.
  - reflexivity.
  - destruct k; simpl; [reflexivity|now rewrite IH].
  - apply IH.
Qed.

Lemma doc_tables_map_paragraphs f b : doc_tables (map_paragraphs f b) = doc_tables b.
Proof.
  induction b as [|[p|t] b IH]; simpl; [reflexivity|assumption|].
  now rewrite <- IH.
Qed.

Lemma doc_tables_map_tables f b : doc_tables (map_tables f b) = map f (doc_tables b).
Proof.
  induction b as [|[p|t] b IH]; simpl; [reflexivity|assumption|].
  now rewrite <- IH.
Qed.

Lemma doc_tables_insert k t b :
  k < length (doc_paragraphs b) ->
  doc_tables (insert_after_paragraph k t b) ≡ₚ t :: doc_tables b.
Proof.
  revert k; induction b as [|[p|t'] b IH]; intros k Hk; simpl in *.
  - lia.
  - destruct k; simpl; [reflexivity|]. apply IH. lia.
  - rewrite (IH k Hk). apply Permutation_swap.
Qed.

Lemma addnext_snoc k t b :
  addnext k (b ++ [BTable t]) = insert_after_paragraph k t b.
Proof.
  unfold addnext. rewrite last_snoc. now rewrite removelast_last.
Qed.

Lemma first_update_length {A} (f : A -> option A) l l' :
  first_update f l = Some l' -> length l' = length l.
Proof.
  revert l'; induction l as [|x l IH]; intros l' H; simpl in H; [discriminate|].
  destruct (f x) as [y|].
  - injection H as <-. reflexivity.
  - destruct (first_update f l) as [l0|]; simpl in H; [|discriminate].
    injection H as <-. simpl. f_equal. now apply IH.
Qed.

Lemma row_counts_summarize search_text summary b b' :
  first_update (summarize_block search_text summary) b = Some b' ->
  row_counts b' = row_counts b.
Proof.
  unfold row_counts.
  revert b'; induction b as [|x b IH]; intros b' H; simpl in H; [discriminate|].
  destruct (summarize_block search_text summary x) as [y|] eqn:Hx.
  - injection H as <-.
    destruct x as [p|t]; simpl in Hx; [discriminate|].
    unfold summarize_table in Hx.
    destruct (first_update _ (table_rows t)) as [rs|] eqn:Hrs; simpl in Hx; [|discriminate].
    injection Hx as <-. simpl. f_equal.
    now apply first_update_length in Hrs.
  - destruct (first_update _ b) as [b0|]; simpl in H; [|discriminate].
    injection H as <-. destruct x as [p|t]; simpl; [now apply IH|].
    f_equal. now apply IH.
Qed.

Lemma doc_tables_cleanup k b :
  doc_tables (_cleanup_testing_paragraphs_aggressive k b) = doc_tables b.
Proof.
  unfold _cleanup_testing_paragraphs_aggressive.
  generalize (List.filter
    (fun i => match doc_paragraphs b !! i with
              | Some p => marked_for_cleanup p
              | None => false
              end)
    (seq (k - 5) (Nat.min (k + 30) (length (doc_paragraphs b)) - (k - 5)))).
  intros ks. revert b. induction ks as [|i ks IH]; intros b; simpl; [reflexivity|].
  rewrite IH. apply doc_tables_alter_paragraph.
Qed.

(** *** The tables a step adds *)

Lemma grows_by_refl doc : grows_by [] doc doc.
Proof. split; [reflexivity|]. now rewrite app_nil_r. Qed.

Lemma grows_by_trans a a' d d' d'' :
  grows_by a d d' -> grows_by a' d' d'' -> grows_by (a ++ a') d d''.
Proof.
  intros [Hs Hc] [Hs' Hc']. split; [congruence|].
  rewrite Hc', Hc. now rewrite app_assoc.
Qed.

Lemma grows_by_body a d d' b :
  grows_by a d d' -> row_counts b = row_counts (body d') ->
  grows_by a d (with_body b d').
Proof.
  intros [Hs Hc] Hb. split; [exact Hs|]. simpl. now rewrite Hb.
Qed.

Lemma grows_by_grid a d d' : grows_by a d d' -> has_table_grid d -> has_table_grid d'.
Proof. intros [Hs _]. unfold has_table_grid. now rewrite Hs. Qed.

Lemma bordered_table_rows data headers :
  length (table_rows (bordered_table data headers)) = S (length data).
Proof. simpl. now rewrite !length_map. Qed.

Lemma create_bordered_table_grid doc data headers :
  has_table_grid doc ->
  is_nil data || is_nil headers = false ->
  create_bordered_table doc data headers
  = (with_body (body doc ++ [BTable (bordered_table data headers)]) doc,
     Ok (Some (bordered_table data headers))).
Proof.
  intros Hg Hd. unfold create_bordered_table. rewrite Hd.
  unfold has_table_grid in Hg. now rewrite Hg.
Qed.

(** A table moved behind a paragraph of the body adds its rows once. *)
Lemma row_counts_moved f k b data headers :
  k < length (doc_paragraphs b) ->
  row_counts (addnext k (alter_paragraph f k b ++ [BTable (bordered_table data headers)]))
  ≡ₚ row_counts b ++ [S (length data)].
Proof.
  intros Hk. rewrite addnext_snoc. unfold row_counts.
  rewrite doc_tables_insert by now rewrite doc_paragraphs_alter_paragraph.
  rewrite doc_tables_alter_paragraph, map_cons, bordered_table_rows.
  now rewrite Permutation_cons_append.
Qed.

(** The first loop of [find_and_insert_table_after_text] leaves the
    document as it is, or adds one table of the rows of the data. *)
Lemma insert_after_text_grows search_text data headers title ks doc :
  has_table_grid doc ->
  is_nil data || is_nil headers = false ->
  insert_after_text search_text data headers title ks doc = (doc, Ok false)
  \/ exists doc',
       insert_after_text search_text data headers title ks doc = (doc', Ok true)
       /\ grows_by [S (length data)] doc doc'.
Proof.
  intros Hg Hd. induction ks as [|k ks IH]; simpl; [now left|].
  destruct (doc_paragraphs (body doc) !! k) as [p|] eqn:Hp; [|exact IH].
  destruct (contains search_text (paragraph_text p)); [|exact IH].
  right. rewrite create_bordered_table_grid by assumption.
  eexists. split; [reflexivity|]. split; [reflexivity|].
  simpl. apply row_counts_moved. now apply lookup_lt_Some in Hp.
Qed.

Lemma find_and_insert_grows doc search_text data headers title :
  has_table_grid doc ->
  is_nil data || is_nil headers = false ->
  exists added,
    (added = [] \/ added = [S (length data)])
    /\ grows_by added doc
         (fst (find_and_insert_table_after_text doc search_text data headers title)).
Proof.
  intros Hg Hd. unfold find_and_insert_table_after_text.
  destruct (insert_after_text_grows search_text data headers title
              (seq 0 (length (doc_paragraphs (body doc)))) doc Hg Hd)
    as [-> | (doc' & -> & Hgrow)].
  - exists []. split; [now left|].
    destruct (first_update _ (body doc)) as [b|] eqn:Hb; simpl.
    + apply grows_by_body; [apply grows_by_refl|].
      now apply row_counts_summarize in Hb.
    + apply grows_by_refl.
  - exists [S (length data)]. split; [now right|]. exact Hgrow.
Qed.

(** The loops of [find_and_replace_testing_section]. *)
Lemma replace_testing_paragraph_grows pattern data headers ks doc :
  has_table_grid doc ->
  is_nil data || is_nil headers = false ->
  replace_testing_paragraph pattern data headers ks doc = (doc, Ok false)
  \/ exists doc',
       replace_testing_paragraph pattern data headers ks doc = (doc', Ok true)
       /\ grows_by [S (length data)] doc doc'.
Proof.
  intros Hg Hd. induction ks as [|k ks IH]; simpl; [now left|].
  destruct (doc_paragraphs (body doc) !! k) as [p|] eqn:Hp; [|exact IH].
  destruct (contains pattern (paragraph_text p)); [|exact IH].
  right. rewrite create_bordered_table_grid by assumption.
  eexists. split; [reflexivity|]. split; [reflexivity|].
  simpl. unfold row_counts at 1. rewrite doc_tables_cleanup.
  apply row_counts_moved. now apply lookup_lt_Some in Hp.
Qed.

Lemma replace_testing_patterns_grows patterns data headers doc :
  has_table_grid doc ->
  is_nil data || is_nil headers = false ->
  replace_testing_patterns patterns data headers doc = (doc, Ok false)
  \/ exists doc',
       replace_testing_patterns patterns data headers doc = (doc', Ok true)
       /\ grows_by [S (length data)] doc doc'.
Proof.
  intros Hg Hd. induction patterns as [|pattern patterns IH]; simpl; [now left|].
  destruct (replace_testing_paragraph_grows pattern data headers
              (seq 0 (length (doc_paragraphs (body doc)))) doc Hg Hd)
    as [-> | (doc' & -> & Hgrow)]; [exact IH|].
  right. now exists doc'.
Qed.

(** The rows of the data are the entries of the list. *)
Lemma sublist_added (added : list nat) n :
  added = [] \/ added = [n] -> sublist added [n].
Proof. intros [-> | ->]; [apply sublist_nil_l|reflexivity]. Qed.

Lemma table_step_grows search_text title (entries : list str_dict)
    (data : list (list string)) headers doc :
  has_table_grid doc ->
  length data = length entries ->
  (is_nil entries = true -> is_nil data || is_nil headers = true) ->
  exists added,
    sublist added (table_row_count entries)
    /\ grows_by added doc (table_step search_text title data headers doc).
Proof.
  intros Hg Hlen Hnil. unfold table_step, table_row_count.
  destruct (is_nil data || is_nil headers) eqn:Hd.
  - exists []. split; [apply sublist_nil_l|apply grows_by_refl].
  - destruct (is_nil entries); [now specialize (Hnil eq_refl)|].
    destruct (find_and_insert_grows doc search_text data headers (Some title) Hg Hd)
      as (added & Hadded & Hgrow).
    exists added. split; [|exact Hgrow].
    rewrite <- Hlen. now apply sublist_added.
Qed.

Lemma data_condition_step_grows search_text title entries doc :
  has_table_grid doc ->
  exists added,
    sublist added (table_row_count entries)
    /\ grows_by added doc (data_condition_step search_text title entries doc).
Proof.
  intros Hg. unfold data_condition_step, table_row_count, data_condition_headers.
  destruct entries as [|e entries]; simpl is_nil; cbv iota.
  - exists []. split; [apply sublist_nil_l|apply grows_by_refl].
  - destruct (find_and_insert_grows doc search_text
                (map (fun it => [item_get it "data" "N/A"; item_get it "condition" "N/A"])
                     (e :: entries))
                ["Data"; "Kondisi"] (Some title) Hg eq_refl)
      as (added & Hadded & Hgrow).
    exists added. split; [|exact Hgrow].
    rewrite length_map in Hadded. now apply sublist_added.
Qed.

Lemma enumerate1_length {A} (l : list A) : length (enumerate1 l) = length l.
Proof. unfold enumerate1. rewrite length_combine, length_seq. lia. Qed.

Lemma error_step_grows ti doc :
  has_table_grid doc ->
  exists added,
    sublist added (table_row_count (error_handling_table (info_tables ti)))
    /\ grows_by added doc (error_step ti doc).
Proof.
  intros Hg. unfold error_step, create_error_handling_table_data, table_row_count.
  destruct (error_handling_table (info_tables ti)) as [|e entries] eqn:He;
    simpl is_nil; cbv iota.
  - exists []. split; [apply sublist_nil_l|apply grows_by_refl].
  - match goal with
    | |- context [find_and_insert_table_after_text doc ?s ?d ?h ?t] =>
        destruct (find_and_insert_grows doc s d h t Hg eq_refl)
          as (added & Hadded & Hgrow)
    end.
    exists added. split.
    + rewrite length_map, enumerate1_length in Hadded. now apply sublist_added.
    + apply grows_by_body; [exact Hgrow|].
      unfold row_counts. now rewrite doc_tables_map_paragraphs.
Qed.

Lemma testing_step_grows ti doc :
  has_table_grid doc ->
  exists added,
    sublist added (table_row_count (testing_requirements_table (info_tables ti)))
    /\ grows_by added doc (testing_step ti doc).
Proof.
  intros Hg. unfold testing_step, create_testing_requirements_table_data, table_row_count.
  destruct (testing_requirements_table (info_tables ti)) as [|e entries] eqn:He;
    simpl is_nil; cbv iota.
  - exists []. split; [apply sublist_nil_l|apply grows_by_refl].
  - unfold find_and_replace_testing_section.
    match goal with
    | |- context [replace_testing_patterns ?ps ?d ?h doc] =>
        destruct (replace_testing_patterns_grows ps d h doc Hg eq_refl)
          as [Heq | (doc' & Heq & Hgrow)]; rewrite Heq; clear Heq;
        set (data := d) in *; set (headers := h) in *
    end.
    + destruct (find_and_insert_grows doc "{{kondisi_pengujian_tabel}}" data headers
                  None Hg eq_refl) as (added & Hadded & Hgrow).
      exists added. split; [|exact Hgrow].
      subst data. rewrite length_map, enumerate1_length in Hadded.
      now apply sublist_added.
    + exists [S (length data)]. split; [|exact Hgrow].
      subst data. now rewrite length_map, enumerate1_length.
Qed.

Lemma selection_step_grows ti doc :
  has_table_grid doc ->
  exists added,
    sublist added (table_row_count (selection_screen_table (info_tables ti)))
    /\ grows_by added doc (selection_step ti doc).
Proof.
  intros Hg. unfold selection_step, create_selection_screen_table_data.
  destruct (selection_screen_table (info_tables ti)) as [|e l]; simpl is_nil; cbv iota.
  - exists []. split; [apply sublist_nil_l|apply grows_by_refl].
  - apply table_step_grows; [exact Hg|now rewrite length_map|discriminate].
Qed.

Lemma detail_step_grows ti doc :
  has_table_grid doc ->
  exists added,
    sublist added (table_row_count (detail_processing_table (info_tables ti)))
    /\ grows_by added doc (detail_step ti doc).
Proof.
  intros Hg. unfold detail_step, create_detail_processing_table_data.
  destruct (detail_processing_table (info_tables ti)) as [|e l]; simpl is_nil; cbv iota.
  - exists []. split; [apply sublist_nil_l|apply grows_by_refl].
  - apply table_step_grows; [exact Hg|now rewrite length_map|discriminate].
Qed.

(** The eight steps add at most one table each, of the rows of its list. *)
Lemma insert_tables_grows ti doc :
  has_table_grid doc ->
  exists added,
    sublist added (expected_row_counts ti)
    /\ grows_by added doc (insert_tables ti doc).
Proof.
  intros Hg. unfold insert_tables, expected_row_counts.
  set (t := info_tables ti).
  destruct (selection_step_grows ti doc Hg) as (a1 & S1 & G1).
  pose proof (grows_by_grid _ _ _ G1 Hg) as Hg1.
  destruct (detail_step_grows ti _ Hg1) as (a2 & S2 & G2).
  pose proof (grows_by_grid _ _ _ G2 Hg1) as Hg2.
  destruct (data_condition_step_grows "Detail Process Only valid datasets"
              "Detail Process Only valid datasets:" (valid_datasets_table t) _ Hg2)
    as (a3 & S3 & G3).
  pose proof (grows_by_grid _ _ _ G3 Hg2) as Hg3.
  destruct (data_condition_step_grows "Form Get_Country_Info" "Form Get_Country_Info:"
              (country_info_table t) _ Hg3) as (a4 & S4 & G4).
  pose proof (grows_by_grid _ _ _ G4 Hg3) as Hg4.
  destruct (data_condition_step_grows "Form Get_Currency_T500C" "Form Get_Currency_T500C:"
              (currency_t500c_table t) _ Hg4) as (a5 & S5 & G5).
  pose proof (grows_by_grid _ _ _ G5 Hg4) as Hg5.
  destruct (data_condition_step_grows "Form Get_Currency_T001" "Form Get_Currency_T001:"
              (currency_t001_table t) _ Hg5) as (a6 & S6 & G6).
  pose proof (grows_by_grid _ _ _ G6 Hg5) as Hg6.
  destruct (error_step_grows ti _ Hg6) as (a7 & S7 & G7).
  pose proof (grows_by_grid _ _ _ G7 Hg6) as Hg7.
  destruct (testing_step_grows ti _ Hg7) as (a8 & S8 & G8).
  exists (a1 ++ a2 ++ a3 ++ a4 ++ a5 ++ a6 ++ a7 ++ a8). split.
  - repeat (apply sublist_app; [assumption|]). assumption.
  - eapply grows_by_trans; [exact G1|].
    eapply grows_by_trans; [exact G2|].
    eapply grows_by_trans; [exact G3|].
    eapply grows_by_trans; [exact G4|].
    eapply grows_by_trans; [exact G5|].
    eapply grows_by_trans; [exact G6|].
    eapply grows_by_trans; [exact G7|exact G8].
Qed.

(** *** The filling of a template *)

Lemma doc_paragraphs_map_paragraphs f b :
  length (doc_paragraphs (map_paragraphs f b)) = length (doc_paragraphs b).
Proof.
  induction b as [|[p|t] b IH]; simpl; [reflexivity| |assumption].
  now rewrite <- IH.
Qed.

Lemma row_counts_fill_tables ti b :
  row_counts (map_tables (fill_table ti) b) = row_counts b.
Proof.
  unfold row_counts. rewrite doc_tables_map_tables, map_map.
  apply map_ext. intros t. simpl. apply length_map.
Qed.

Lemma doc_tables_title ti b : doc_tables (replace_title_placeholder ti b) = doc_tables b.
Proof.
  unfold replace_title_placeholder.
  destruct (first_index _ (doc_paragraphs b)); [|reflexivity].
  apply doc_tables_alter_paragraph.
Qed.

Lemma doc_paragraphs_title ti b :
  length (doc_paragraphs (replace_title_placeholder ti b)) = length (doc_paragraphs b).
Proof.
  unfold replace_title_placeholder.
  destruct (first_index _ (doc_paragraphs b)); [|reflexivity].
  apply doc_paragraphs_alter_paragraph.
Qed.

Section FillerProperties.

Variable re_search : string -> string -> option string.

(** A template with a paragraph is filled. *)
Lemma fill_template_returns ti template :
  doc_paragraphs (body template) <> [] ->
  exists doc, fill_template re_search ti template = Ok doc.
Proof.
  intros Hp. unfold fill_template.
  rewrite doc_paragraphs_map_paragraphs, doc_paragraphs_title.
  destruct (doc_paragraphs (body template)) as [|p ps]; [contradiction|].
  simpl length. cbv iota. eexists. reflexivity.
Qed.

(** The filled document has the tables of the template, row for row, and
    at most one table for each list of the title information. *)
Lemma fill_template_grows ti template doc :
  has_table_grid template ->
  fill_template re_search ti template = Ok doc ->
  exists added,
    sublist added (expected_row_counts ti) /\ grows_by added template doc.
Proof.
  intros Hg. unfold fill_template.
  destruct (length (doc_paragraphs _)) as [|k]; [discriminate|].
  intros H. injection H as <-.
  match goal with
  | |- context [insert_tables ti ?d] =>
      destruct (insert_tables_grows ti d Hg) as (added & Hsub & Hgrow);
      set (start := d) in *
  end.
  exists added. split; [exact Hsub|].
  apply grows_by_body.
  - destruct Hgrow as [Hs Hc]. split; [exact Hs|].
    rewrite Hc. subst start. simpl body.
    rewrite row_counts_fill_tables. unfold row_counts.
    now rewrite doc_tables_alter_paragraph, doc_tables_map_paragraphs, doc_tables_title.
  - unfold row_counts. now rewrite doc_tables_map_paragraphs.
Qed.

(** A run reads the world through the template only. *)
Lemma generate_reads_template w path template ti output_path :
  path <> "" ->
  files w !! path = Some (DocxFile template) ->
  read_only w output_path = false ->
  generate_with_proper_tables re_search (Some path) w ti output_path
  = outcome output_path (fill_template re_search ti template) w.
Proof.
  intros Hpath Hfile Hwrite. unfold generate_with_proper_tables.
  assert (str_truthy path = true) as ->.
  { unfold str_truthy. apply negb_true_iff. now apply String.eqb_neq. }
  assert (path_exists w path = true) as ->.
  { unfold path_exists. apply bool_decide_eq_true. rewrite Hfile. now eexists. }
  simpl negb. simpl orb. cbv iota.
  unfold DocxDocument. rewrite Hfile.
  cbn [mbind res_mbind res_bind].
  destruct (fill_template re_search ti template) as [doc|e]; simpl; [|reflexivity].
  unfold save. rewrite Hwrite.
  assert (path_exists (write output_path (DocxFile doc) w) output_path = true) as ->;
    [|reflexivity].
  unfold path_exists. apply bool_decide_eq_true.
  simpl. rewrite lookup_insert_eq. now eexists.
Qed.

(** A second run in the world the first run has left, when the first run
    has not written over the template, fills the same document. *)
Lemma second_run_fills_the_same w path template ti output_path1 output_path2 :
  path <> "" ->
  files w !! path = Some (DocxFile template) ->
  output_path1 <> path ->
  read_only w output_path1 = false ->
  read_only w output_path2 = false ->
  let w1 := fst (generate_with_proper_tables re_search (Some path) w ti output_path1) in
  generate_with_proper_tables re_search (Some path) w1 ti output_path2
  = outcome output_path2 (fill_template re_search ti template) w1.
Proof.
  intros Hpath Hfile Hout Hw1 Hw2 w1.
  subst w1. rewrite (generate_reads_template w path template) by assumption.
  apply generate_reads_template; [exact Hpath| |].
  - destruct (fill_template re_search ti template); simpl; [|exact Hfile].
    now rewrite lookup_insert_ne.
  - now destruct (fill_template re_search ti template).
Qed.

(** C8. Two runs of the Word filler on the same title information, in two
    worlds whose template files hold the same document, fill the same
    document, whatever the paths, the other files and the rest of the two
    worlds: each run writes the document [fill_template] computes from the
    template and the title information alone, so the tables, their rows and
    every text put for a placeholder are the same. A template with a
    paragraph is filled; and its tables are then those of the template, row
    for row, with at most one table for each of the eight lists of the title
    information, of one header row and one row for each entry. *)
Theorem word_fill_repeats ti template w1 w2 path1 path2 output_path1 output_path2 :
  path1 <> "" ->
  path2 <> "" ->
  files w1 !! path1 = Some (DocxFile template) ->
  files w2 !! path2 = Some (DocxFile template) ->
  read_only w1 output_path1 = false ->
  read_only w2 output_path2 = false ->
  let filled := fill_template re_search ti template in
  generate_with_proper_tables re_search (Some path1) w1 ti output_path1
  = outcome output_path1 filled w1
  /\ generate_with_proper_tables re_search (Some path2) w2 ti output_path2
     = outcome output_path2 filled w2
  /\ (doc_paragraphs (body template) <> [] -> exists doc, filled = Ok doc)
  /\ (forall doc,
        filled = Ok doc ->
        has_table_grid template ->
        exists added,
          sublist added (expected_row_counts ti)
          /\ row_counts (body doc) ≡ₚ row_counts (body template) ++ added).
Proof.
  intros Hp1 Hp2 Hf1 Hf2 Hw1 Hw2 filled.
  split; [now apply generate_reads_template|].
  split; [now apply generate_reads_template|].
  split; [apply fill_template_returns|].
  intros doc Hdoc Hg.
  destruct (fill_template_grows ti template doc Hg Hdoc) as (added & Hsub & _ & Hc).
  now exists added.
Qed.

End FillerProperties.

Lemma word_fill_repeats_witness :
  let filled := fill_template no_match example_info example_template in
  generate_with_proper_tables no_match (Some "a/template.docx")
    (example_world "a/template.docx") example_info "a/out.docx"
  = outcome "a/out.docx" filled (example_world "a/template.docx")
  /\ generate_with_proper_tables no_match (Some "b/template.docx")
       (example_world "b/template.docx") example_info "b/FSD.docx"
     = outcome "b/FSD.docx" filled (example_world "b/template.docx")
  /\ (doc_paragraphs (body example_template) <> [] -> exists doc, filled = Ok doc)
  /\ (forall doc,
        filled = Ok doc ->
        has_table_grid example_template ->
        exists added,
          sublist added (expected_row_counts example_info)
          /\ row_counts (body doc) ≡ₚ row_counts (body example_template) ++ added).
Proof.
  apply (word_fill_repeats no_match example_info example_template
           (example_world "a/template.docx") (example_world "b/template.docx")
           "a/template.docx" "b/template.docx" "a/out.docx" "b/FSD.docx").
  - discriminate.
  - discriminate.
  - vm_compute. reflexivity.
  - vm_compute. reflexivity.
  - reflexivity.
  - reflexivity.
Defined.

(** The example: the template has a table of one row; the run adds the
    table of the two selection parameters behind the first of the two
    anchors and the table of the error. *)
Example word_fill_example :
  (fun doc => row_counts (body doc))
    <$> fill_template no_match example_info example_template
  = Ok [1; 3; 2]
  /\ expected_row_counts example_info = [3; 2].
Proof. split; vm_compute; reflexivity. Qed.

(** Filling the document a run has filled is another matter: the title put
    on the anchor of the selection screen holds the anchor, and the second
    filling puts a second table behind it. *)
Example refill_example :
  (doc ← fill_template no_match example_info example_template;
   (fun doc' => row_counts (body doc')) <$> fill_template no_match example_info doc)
  = Ok [1; 3; 3; 2].
Proof. vm_compute. reflexivity. Qed.

(** *** The missing template *)

(** C9. Without a template at the configured path,
    [generate_with_proper_tables] returns [False]: it raises nothing and
    leaves every file as it was; the constructor of the template processor
    raises [FileNotFoundError], which [_generate_word_document] logs, so
    that call returns too with every file as it was; and
    [generate_all_outputs], when the template directory has no template
    either, writes the Markdown, the JSON and the summary and returns their
    paths, without a Word document. *)
Theorem missing_template_is_no_exception :
  (forall re_search w template_path ti output_path,
      template_missing w template_path ->
      generate_with_proper_tables re_search template_path w ti output_path
      = (w, Ok false))
  /\ (forall fill w markdown_content template_path output_file,
        files w !! template_path = None ->
        _generate_word_document fill w markdown_content template_path output_file
        = (w, Ok tt))
  /\ (forall table _improve_text now_markdown now_summary output_dir template_dir
             glob_docx fill w d base_filename template_path,
        let md_file := joinpath output_dir (base_filename +:+ "_fsd.md") in
        let json_file := joinpath output_dir (base_filename +:+ "_fsd.json") in
        let summary_file := joinpath output_dir (base_filename +:+ "_summary.txt") in
        let w2 :=
          write json_file (JsonFile (dataclass_to_dict d))
            (write md_file
               (TextFile (_generate_markdown table _improve_text now_markdown d)) w) in
        read_only w md_file = false ->
        read_only w json_file = false ->
        read_only w summary_file = false ->
        template_missing w2 template_path ->
        _find_template_file template_dir glob_docx w2 = None ->
        generate_all_outputs table _improve_text now_markdown now_summary output_dir
          template_dir glob_docx fill w d base_filename template_path
        = (write summary_file (TextFile (join nl (summary_lines now_summary d))) w2,
           Ok [("markdown", md_file); ("json", json_file); ("summary", summary_file)])).
Proof.
  split; [|split].
  - intros re_search w [path|] ti output_path Hmiss; simpl; [|reflexivity].
    simpl in Hmiss. unfold path_exists.
    rewrite (bool_decide_eq_false_2 (is_Some (files w !! path))).
    + now rewrite orb_true_r.
    + rewrite Hmiss. now intros [x Hx].
  - intros fill w markdown_content template_path output_file Hmiss.
    unfold _generate_word_document, WordTemplateProcessor, path_exists.
    rewrite (bool_decide_eq_false_2 (is_Some (files w !! template_path))).
    + reflexivity.
    + rewrite Hmiss. now intros [x Hx].
  - intros table _improve_text now_markdown now_summary output_dir template_dir
      glob_docx fill w d base_filename template_path md_file json_file summary_file w2
      Hmd Hjson Hsum Hmiss Hfind.
    unfold generate_all_outputs, write_file.
    fold md_file json_file. rewrite Hmd. simpl read_only. rewrite Hjson.
    fold w2.
    assert (match template_path with
            | Some path => if str_truthy path && path_exists w2 path then Some path else None
            | None => None
            end = None) as ->.
    { destruct template_path as [path|]; [|reflexivity].
      unfold template_missing in Hmiss. unfold path_exists.
      rewrite (bool_decide_eq_false_2 (is_Some (files w2 !! path))).
      - now rewrite andb_false_r.
      - rewrite Hmiss. now intros [x Hx]. }
    rewrite Hfind. unfold write_summary, write_file. fold summary_file.
    simpl read_only. now rewrite Hsum.
Qed.

Lemma missing_template_witness :
  generate_with_proper_tables no_match (Some "templates/missing.docx")
    (example_world "templates/FSD.docx") example_info "out/FSD.docx"
  = (example_world "templates/FSD.docx", Ok false).
Proof.
  apply (proj1 missing_template_is_no_exception).
  vm_compute. reflexivity.
Defined.

(* ===================================================================== *)
(** ** More on the Word template filler *)
(* ===================================================================== *)

(** *** The table built for a list *)

Lemma join_single sep (x : string) : join sep [x] = x.
Proof. reflexivity. Qed.

Lemma text_cell_text align f text :
  cell_text (with_borders (text_cell align f text)) = text.
Proof. unfold cell_text, paragraph_text. cbn. reflexivity. Qed.

Lemma data_row_texts cols row_data :
  length row_data = cols ->
  map cell_text (map with_borders (data_row cols row_data)) = row_data.
Proof.
  intros <-. unfold data_row. rewrite firstn_all, Nat.sub_diag. cbn [repeat].
  rewrite app_nil_r, !map_map.
  induction row_data as [|x l IH]; [reflexivity|].
  cbn [map]. rewrite text_cell_text. f_equal. exact IH.
Qed.

Lemma bordered_table_texts data headers :
  Forall (fun row => length row = length headers) data ->
  table_texts (bordered_table data headers) = headers :: data.
Proof.
  intros Hrows. unfold table_texts, bordered_table. cbn [table_rows].
  rewrite map_map. cbn [map]. f_equal.
  - rewrite !map_map. induction headers as [|h hs IH]; [reflexivity|].
    cbn [map]. rewrite text_cell_text. f_equal.
    clear. induction hs as [|h hs IH]; [reflexivity|].
    cbn [map]. rewrite text_cell_text. f_equal. exact IH.
  - rewrite map_map. induction Hrows as [|row rows Hrow _ IH]; [reflexivity|].
    cbn [map]. rewrite (data_row_texts _ _ Hrow). f_equal. exact IH.
Qed.

Lemma Forall_map_length {A} (f : A -> list string) (n : nat) (l : list A) :
  (forall x, length (f x) = n) -> Forall (fun row => length row = n) (map f l).
Proof.
  intros Hf. induction l as [|x l IH]; cbn; constructor; auto.
Qed.

(** X1. The table of the Word document for a list of the title information
    shows the headers and then the rows of the data, one for each entry of
    the list: every row has a value for every header, so
    [create_bordered_table] leaves no value out and no cell empty. *)
Theorem word_table_shows_its_data (entries : list str_dict) :
  entries <> [] ->
  (let (data, headers) := create_selection_screen_table_data entries in
   table_texts (bordered_table data headers) = headers :: data
   /\ length data = length entries)
  /\ (let (data, headers) := create_detail_processing_table_data entries in
      table_texts (bordered_table data headers) = headers :: data
      /\ length data = length entries)
  /\ (let (data, headers) := create_data_condition_table_data entries in
      table_texts (bordered_table data headers) = headers :: data
      /\ length data = length entries)
  /\ (let (data, headers) := create_error_handling_table_data entries in
      table_texts (bordered_table data headers) = headers :: data
      /\ length data = length entries)
  /\ (let (data, headers) := create_testing_requirements_table_data entries in
      table_texts (bordered_table data headers) = headers :: data
      /\ length data = length entries).
Proof.
  intros Hne. destruct entries as [|e entries]; [contradiction|].
  unfold create_selection_screen_table_data, create_detail_processing_table_data,
    create_data_condition_table_data, create_error_handling_table_data,
    create_testing_requirements_table_data.
  cbn [is_nil].
  repeat split;
    try (apply bordered_table_texts, Forall_map_length; intros x; reflexivity);
    rewrite ?length_map, ?enumerate1_length; reflexivity.
Qed.

Lemma word_table_shows_its_data_witness :
  (let (data, headers) :=
     create_selection_screen_table_data (selection_screen_table (info_tables example_info)) in
   table_texts (bordered_table data headers) = headers :: data
   /\ length data = 2)
  /\ (let (data, headers) :=
        create_error_handling_table_data (selection_screen_table (info_tables example_info)) in
      table_texts (bordered_table data headers) = headers :: data
      /\ length data = 2).
Proof.
  pose proof (word_table_shows_its_data (selection_screen_table (info_tables example_info)))
    as H.
  destruct H as (H1 & _ & _ & H4 & _); [discriminate|].
  split; [exact H1|exact H4].
Defined.

(** *** Replacing a text in a paragraph *)

Lemma concat_snoc (l : list string) (x : string) :
  String.concat "" (l ++ [x]) = String.concat "" l +:+ x.
Proof.
  induction l as [|y l IH]; [cbn; now rewrite app_empty_l|].
  destruct l as [|z l].
  - cbn. now rewrite app_empty_l.
  - change (String.concat "" ((y :: z :: l) ++ [x]))
      with (y +:+ "" +:+ String.concat "" ((z :: l) ++ [x])).
    rewrite IH. change (String.concat "" (y :: z :: l))
      with (y +:+ "" +:+ String.concat "" (z :: l)).
    now rewrite !app_empty_l, app_assoc_str.
Qed.

Lemma add_run_text text f p :
  paragraph_text (add_run text f p) = paragraph_text p +:+ text.
Proof.
  unfold paragraph_text, add_run, join. cbn [runs].
  rewrite map_app. cbn [map run_text]. apply concat_snoc.
Qed.

Lemma clear_text p : paragraph_text (clear p) = "".
Proof. reflexivity. Qed.

Lemma set_text_text text p : paragraph_text (set_text text p) = text.
Proof. unfold set_text. now rewrite add_run_text, clear_text, app_empty_l. Qed.

Lemma join_split (s : string) : join nl (split LF s) = s.
Proof.
  induction s as [|c s IH]; [reflexivity|]. cbn [split].
  destruct (Ascii.eqb_spec c LF) as [->|Hc].
  - pose proof (split_nonempty LF s) as Hne.
    destruct (split LF s) as [|h t] eqn:Hs; [contradiction|].
    rewrite join_cons2, IH. reflexivity.
  - destruct (split LF s) as [|h t] eqn:Hs.
    + exfalso. now apply (split_nonempty LF s).
    + destruct t as [|h' t].
      * cbn in IH. cbn. now rewrite IH.
      * rewrite join_cons2 in IH. rewrite join_cons2, app_String, IH. reflexivity.
Qed.

(** The text after the runs of the lines [k], [k + 1], ... have been
    added. *)
Lemma add_lines_from (lines : list string) (f : Font) (k : nat) (p : Paragraph) :
  paragraph_text
    (fold_left
       (fun p il =>
          add_run (snd il) f (if Nat.ltb 0 (fst il) then add_run nl plain p else p))
       (combine (seq (S k) (length lines)) lines) p)
  = paragraph_text p +:+ String.concat "" (map (fun line => nl +:+ line) lines).
Proof.
  revert k p. induction lines as [|line lines IH]; intros k p.
  - cbn. now rewrite app_empty_r.
  - cbn [length seq combine fold_left fst snd]. rewrite IH.
    change (Nat.ltb 0 (S k)) with true. cbv iota.
    rewrite !add_run_text. cbn [map].
    destruct lines as [|line' lines].
    + cbn. now rewrite app_empty_r, !app_assoc_str.
    + change (String.concat "" ((nl +:+ line) :: map (fun l => nl +:+ l) (line' :: lines)))
        with ((nl +:+ line) +:+ "" +:+
              String.concat "" (map (fun l => nl +:+ l) (line' :: lines))).
      now rewrite app_empty_l, !app_assoc_str.
Qed.

Lemma join_nl_cons (line : string) (lines : list string) :
  join nl (line :: lines)
  = line +:+ String.concat "" (map (fun l => nl +:+ l) lines).
Proof.
  revert line. induction lines as [|l lines IH]; intros line.
  - cbn. now rewrite app_empty_r.
  - rewrite join_cons2, IH. cbn [map].
    destruct lines as [|l' lines].
    + cbn. now rewrite !app_empty_r.
    + change (String.concat "" ((nl +:+ l) :: map (fun x => nl +:+ x) (l' :: lines)))
        with ((nl +:+ l) +:+ "" +:+ String.concat "" (map (fun x => nl +:+ x) (l' :: lines))).
      now rewrite app_empty_l, !app_assoc_str.
Qed.

Lemma add_lines_text (lines : list string) (f : Font) (p : Paragraph) :
  lines <> [] ->
  paragraph_text (add_lines lines f p) = paragraph_text p +:+ join nl lines.
Proof.
  intros Hne. destruct lines as [|line lines]; [contradiction|].
  unfold add_lines, enumerate.
  cbn [length seq combine fold_left fst snd]. change (Nat.ltb 0 0) with false. cbv iota.
  rewrite add_lines_from, add_run_text, join_nl_cons. now rewrite app_assoc_str.
Qed.

Lemma alignment_fold_add (f : Font) (l : list (nat * string)) (p : Paragraph) :
  alignment
    (fold_left
       (fun p il =>
          add_run (snd il) f (if Nat.ltb 0 (fst il) then add_run nl plain p else p))
       l p)
  = alignment p.
Proof.
  revert p. induction l as [|il l IH]; intros p; [reflexivity|].
  cbn [fold_left]. rewrite IH. now destruct (Nat.ltb 0 (fst il)).
Qed.

(** X2. [replace_text_preserve_formatting] returns whether the paragraph held
    the old text; if it did not, the paragraph is as it was; if it did, the
    text of the paragraph is the old text with every occurrence replaced,
    also when the new text has several lines, and the properties of the
    paragraph are kept. *)
Theorem replace_text_replaces (p : Paragraph) (old_text new_text : string) :
  let (p', found) := replace_text_preserve_formatting p old_text new_text in
  found = contains old_text (paragraph_text p)
  /\ alignment p' = alignment p
  /\ (found = false -> p' = p)
  /\ (found = true ->
      paragraph_text p' = replace old_text new_text (paragraph_text p)).
Proof.
  unfold replace_text_preserve_formatting.
  destruct (contains old_text (paragraph_text p)) eqn:Hin.
  - split; [reflexivity|]. split; [|split; [discriminate|intros _]].
    + destruct (runs p) as [|first_run rest]; [reflexivity|].
      destruct (has_char LF _); [|reflexivity].
      unfold add_lines. now rewrite alignment_fold_add.
    + destruct (runs p) as [|first_run rest]; [apply set_text_text|].
      destruct (has_char LF _).
      * rewrite add_lines_text by apply split_nonempty.
        now rewrite clear_text, app_empty_l, join_split.
      * now rewrite add_run_text, clear_text, app_empty_l.
  - split; [reflexivity|]. split; [reflexivity|]. split; [reflexivity|discriminate].
Qed.

(** *** The anchor of a table *)

Lemma first_index_Some {A} (test : A -> bool) (l : list A) (k : nat) :
  first_index test l = Some k ->
  (exists x, l !! k = Some x /\ test x = true)
  /\ (forall i x, i < k -> l !! i = Some x -> test x = false).
Proof.
  revert k. induction l as [|y l IH]; intros k; cbn; [discriminate|].
  destruct (test y) eqn:Hy.
  - intros [= <-]. split; [exists y; auto|]. intros i x Hi. lia.
  - destruct (first_index test l) as [j|]; cbn; [|discriminate].
    intros [= <-]. destruct (IH j eq_refl) as [Hat Hbefore]. split; [exact Hat|].
    intros [|i] x Hi; cbn.
    + intros [= <-]. exact Hy.
    + apply Hbefore. lia.
Qed.

Lemma first_index_None {A} (test : A -> bool) (l : list A) :
  first_index test l = None -> forall i x, l !! i = Some x -> test x = false.
Proof.
  induction l as [|y l IH]; cbn; [intros _ i x; now rewrite lookup_nil|].
  destruct (test y) eqn:Hy; [discriminate|].
  destruct (first_index test l); cbn; [discriminate|]. intros _ [|i] x; cbn.
  - intros [= <-]. exact Hy.
  - now apply IH.
Qed.

Lemma first_index_Forall {A} (test : A -> bool) (l : list A) :
  Forall (fun x => test x = false) l -> first_index test l = None.
Proof.
  induction 1 as [|y l Hy _ IH]; cbn; [reflexivity|]. now rewrite Hy, IH.
Qed.

Lemma doc_paragraphs_alter f k b :
  doc_paragraphs (alter_paragraph f k b) = alter f k (doc_paragraphs b).
Proof.
  revert k. induction b as [|[p|t] b IH]; intros k; cbn; [reflexivity| |apply IH].
  destruct k; cbn; [reflexivity|]. now rewrite IH.
Qed.

Lemma doc_paragraphs_insert k t b :
  doc_paragraphs (insert_after_paragraph k t b) = doc_paragraphs b.
Proof.
  revert k. induction b as [|[p|t'] b IH]; intros k; cbn; [reflexivity| |apply IH].
  destruct k; cbn; [reflexivity|]. now rewrite IH.
Qed.

(** The loop passes the paragraphs that do not hold the text. *)
Lemma insert_after_text_skip search_text data headers title doc :
  forall m a k,
    a <= k < a + m ->
    (forall i x, a <= i < k -> doc_paragraphs (body doc) !! i = Some x ->
                 holds search_text x = false) ->
    insert_after_text search_text data headers title (seq a m) doc
    = insert_after_text search_text data headers title (seq k (a + m - k)) doc.
Proof.
  induction m as [|m IH]; intros a k Hk Hbefore; [lia|].
  destruct (decide (a = k)) as [->|Hne].
  - now replace (k + S m - k) with (S m) by lia.
  - cbn [seq insert_after_text].
    replace (a + S m - k) with (S a + m - k) by lia.
    destruct (doc_paragraphs (body doc) !! a) as [x|] eqn:Hx.
    + unfold holds in Hbefore. rewrite (Hbefore a x) by (auto; lia).
      apply IH; [lia|]. intros i y Hi. apply Hbefore. lia.
    + apply IH; [lia|]. intros i y Hi. apply Hbefore. lia.
Qed.

Lemma insert_after_text_none search_text data headers title doc ks :
  first_index (holds search_text) (doc_paragraphs (body doc)) = None ->
  insert_after_text search_text data headers title ks doc = (doc, Ok false).
Proof.
  intros Hnone. induction ks as [|k ks IH]; [reflexivity|]. cbn.
  destruct (doc_paragraphs (body doc) !! k) as [x|] eqn:Hx; [|exact IH].
  pose proof (first_index_None _ _ Hnone k x Hx) as Hh. unfold holds in Hh.
  now rewrite Hh.
Qed.

(** At the first paragraph that holds the text the loop stops. *)
Lemma insert_after_text_at search_text data headers title doc k :
  is_nil data || is_nil headers = false ->
  first_index (holds search_text) (doc_paragraphs (body doc)) = Some k ->
  insert_after_text search_text data headers title
    (seq 0 (length (doc_paragraphs (body doc)))) doc
  = match create_bordered_table
            (with_body (alter_paragraph (titled title) k (body doc)) doc)
            data headers with
    | (doc2, Ok (Some _)) => (with_body (addnext k (body doc2)) doc2, Ok true)
    | (doc2, Ok None) => (doc2, Ok false)
    | (doc2, Err e) => (doc2, Err e)
    end.
Proof.
  intros Hd Hk. destruct (first_index_Some _ _ _ Hk) as [(x & Hx & Hh) Hbefore].
  pose proof (lookup_lt_Some _ _ _ Hx) as Hlt.
  rewrite (insert_after_text_skip _ _ _ _ _ _ 0 k).
  2: lia.
  2: { intros i y Hi Hy. apply (Hbefore i y); [lia|exact Hy]. }
  cbn [Nat.add].
  destruct (length (doc_paragraphs (body doc)) - k) as [|m] eqn:Hm; [lia|]. cbn [seq insert_after_text]. rewrite Hx.
  unfold holds in Hh. rewrite Hh.
  unfold create_bordered_table. rewrite Hd. cbn [styles with_body].
  destruct (existsb _ (styles doc)); reflexivity.
Qed.

(** X3. With the style of the tables in the document, data and headers, and
    the text in a paragraph of the body: the first such paragraph is
    replaced by the title, the table is put right behind it, no other
    paragraph changes, and the answer is [True]. *)
Theorem table_goes_behind_first_anchor
    (doc : Document) (search_text : string) (data : list (list string))
    (headers : list string) (title : option string) (k : nat) :
  has_table_grid doc ->
  is_nil data || is_nil headers = false ->
  first_index (holds search_text) (doc_paragraphs (body doc)) = Some k ->
  let doc' :=
    with_body
      (insert_after_paragraph k (bordered_table data headers)
         (alter_paragraph (titled title) k (body doc)))
      doc in
  find_and_insert_table_after_text doc search_text data headers title = (doc', true)
  /\ doc_paragraphs (body doc') = alter (titled title) k (doc_paragraphs (body doc)).
Proof.
  intros Hg Hd Hk doc'. split.
  - unfold find_and_insert_table_after_text.
    rewrite (insert_after_text_at _ _ _ _ _ k Hd Hk).
    rewrite create_bordered_table_grid by assumption.
    cbn [body with_body]. rewrite addnext_snoc. reflexivity.
  - subst doc'. cbn [body with_body].
    now rewrite doc_paragraphs_insert, doc_paragraphs_alter.
Qed.

Lemma table_goes_behind_first_anchor_witness :
  let doc' :=
    with_body
      (insert_after_paragraph 3 (bordered_table [["P_BUKRS"; "BUKRS"]] ["Parameter"; "Type"])
         (alter_paragraph (titled (Some "Selection Screen:")) 3 (body example_template)))
      example_template in
  find_and_insert_table_after_text example_template "Selection Screen"
    [["P_BUKRS"; "BUKRS"]] ["Parameter"; "Type"] (Some "Selection Screen:")
  = (doc', true)
  /\ doc_paragraphs (body doc')
     = alter (titled (Some "Selection Screen:")) 3 (doc_paragraphs (body example_template)).
Proof.
  apply (table_goes_behind_first_anchor example_template "Selection Screen"
           [["P_BUKRS"; "BUKRS"]] ["Parameter"; "Type"] (Some "Selection Screen:") 3).
  - reflexivity.
  - reflexivity.
  - vm_compute. reflexivity.
Defined.

(** X4. Without the style of the tables the exception of [create_bordered_table]
    is caught: the answer is [False], the paragraph that held the text reads
    the title already, and the table [add_table] made, one row of empty
    cells, stays at the end of the body. *)
Theorem missing_style_leaves_half_an_edit
    (doc : Document) (search_text : string) (data : list (list string))
    (headers : list string) (title : option string) (k : nat) :
  ~ has_table_grid doc ->
  is_nil data || is_nil headers = false ->
  first_index (holds search_text) (doc_paragraphs (body doc)) = Some k ->
  find_and_insert_table_after_text doc search_text data headers title
  = (with_body
       (alter_paragraph (titled title) k (body doc)
        ++ [BTable (new_table (length headers))])
       doc,
     false).
Proof.
  intros Hg Hd Hk. unfold find_and_insert_table_after_text.
  rewrite (insert_after_text_at _ _ _ _ _ k Hd Hk).
  unfold create_bordered_table. rewrite Hd. cbn [styles with_body].
  unfold has_table_grid in Hg. destruct (existsb _ (styles doc)); [contradiction|].
  reflexivity.
Qed.

Lemma missing_style_leaves_half_an_edit_witness :
  let doc := {| styles := ["Normal"]; body := body example_template |} in
  find_and_insert_table_after_text doc "Selection Screen"
    [["P_BUKRS"; "BUKRS"]] ["Parameter"; "Type"] (Some "Selection Screen:")
  = (with_body
       (alter_paragraph (titled (Some "Selection Screen:")) 3 (body doc)
        ++ [BTable (new_table 2)])
       doc,
     false).
Proof.
  intros doc.
  apply (missing_style_leaves_half_an_edit doc "Selection Screen"
           [["P_BUKRS"; "BUKRS"]] ["Parameter"; "Type"] (Some "Selection Screen:") 3).
  - unfold has_table_grid. vm_compute. discriminate.
  - reflexivity.
  - vm_compute. reflexivity.
Defined.

(** *** The anchor in a table, or nowhere *)

Lemma first_update_None {A} (f : A -> option A) (l : list A) :
  first_update f l = None <-> Forall (fun x => f x = None) l.
Proof.
  induction l as [|x l IH]; cbn.
  - split; [constructor|reflexivity].
  - destruct (f x) as [y|] eqn:Hx.
    + split; [discriminate|]. intros H. inversion H. congruence.
    + rewrite fmap_None, IH. split; [now constructor|]. intros H. now inversion H.
Qed.

Lemma first_update_None_flat {A B} (upd : A -> option A) (g : A -> list B)
    (P : B -> Prop) (l : list A) :
  (forall a, upd a = None <-> Forall P (g a)) ->
  first_update upd l = None <-> Forall P (flat_map g l).
Proof.
  intros Hupd. rewrite first_update_None.
  induction l as [|a l IH]; cbn.
  - split; constructor.
  - rewrite Forall_app, <- IH, <- Hupd. split.
    + intros H. now inversion H.
    + intros [Ha Hl]. now constructor.
Qed.

Lemma summarize_cell_None search_text summary c :
  summarize_cell search_text summary c = None
  <-> Forall (fun p => holds search_text p = false) (cell_paragraphs c).
Proof.
  unfold summarize_cell. rewrite fmap_None, first_update_None.
  apply Forall_iff. intros p. unfold summarize_paragraph, holds.
  destruct (contains _ _); split; congruence.
Qed.

Lemma summarize_table_None search_text summary t :
  summarize_table search_text summary t = None
  <-> Forall (fun p => holds search_text p = false)
        (flat_map (flat_map cell_paragraphs) (table_rows t)).
Proof.
  unfold summarize_table. rewrite fmap_None.
  apply first_update_None_flat. intros row.
  apply first_update_None_flat. intros c. apply summarize_cell_None.
Qed.

Lemma summarize_None search_text summary b :
  first_update (summarize_block search_text summary) b = None
  <-> Forall (fun p => holds search_text p = false) (table_paragraphs b).
Proof.
  unfold table_paragraphs. rewrite first_update_None.
  induction b as [|[p|t] b IH]; cbn [doc_tables flat_map].
  - split; constructor.
  - rewrite <- IH. split.
    + intros H. now inversion H.
    + intros H. now constructor.
  - rewrite Forall_app, <- IH, <- (summarize_table_None search_text summary t).
    cbn [summarize_block]. split.
    + intros H. inversion H as [|? ? Ht Hb]; subst. split; [|exact Hb].
      now apply fmap_None in Ht.
    + intros [Ht Hb]. constructor; [|exact Hb]. now apply fmap_None.
Qed.

Lemma doc_paragraphs_summarize search_text summary b b' :
  first_update (summarize_block search_text summary) b = Some b' ->
  doc_paragraphs b' = doc_paragraphs b.
Proof.
  revert b'. induction b as [|x b IH]; intros b' H; cbn in H; [discriminate|].
  destruct (summarize_block search_text summary x) as [y|] eqn:Hx.
  - injection H as <-. destruct x as [p|t]; cbn in Hx; [discriminate|].
    destruct (summarize_table _ _ t); cbn in Hx; [|discriminate].
    now injection Hx as <-.
  - destruct (first_update _ b) as [b0|]; cbn in H; [|discriminate].
    injection H as <-. destruct x as [p|t]; cbn; [f_equal|]; now apply IH.
Qed.

(** X5. The text in no paragraph of the body and in no paragraph of a table:
    the document is as it was and the answer is [False], whatever the data. *)
Theorem anchor_nowhere_changes_nothing
    (doc : Document) (search_text : string) (data : list (list string))
    (headers : list string) (title : option string) :
  Forall (fun p => holds search_text p = false)
    (doc_paragraphs (body doc) ++ table_paragraphs (body doc)) ->
  find_and_insert_table_after_text doc search_text data headers title = (doc, false).
Proof.
  rewrite Forall_app. intros [Hbody Htables].
  unfold find_and_insert_table_after_text.
  rewrite insert_after_text_none by now apply first_index_Forall.
  apply (summarize_None search_text (summary_text title data)) in Htables.
  now rewrite Htables.
Qed.

Lemma anchor_nowhere_changes_nothing_witness :
  find_and_insert_table_after_text example_template "Form Get_Country_Info"
    [["LAND1"; "T001-LAND1"]] ["Data"; "Kondisi"] (Some "Form Get_Country_Info:")
  = (example_template, false).
Proof.
  apply anchor_nowhere_changes_nothing.
  vm_compute. repeat constructor.
Defined.

(** X6. The text in no paragraph of the body but in a paragraph of a table:
    the answer is [True] although no table is inserted; the paragraphs of
    the body, the number of the tables and of their rows are as before. *)
Theorem anchor_in_a_table_inserts_nothing
    (doc : Document) (search_text : string) (data : list (list string))
    (headers : list string) (title : option string) :
  Forall (fun p => holds search_text p = false) (doc_paragraphs (body doc)) ->
  Exists (fun p => holds search_text p = true) (table_paragraphs (body doc)) ->
  exists doc',
    find_and_insert_table_after_text doc search_text data headers title = (doc', true)
    /\ styles doc' = styles doc
    /\ doc_paragraphs (body doc') = doc_paragraphs (body doc)
    /\ row_counts (body doc') = row_counts (body doc).
Proof.
  intros Hbody Htables. unfold find_and_insert_table_after_text.
  rewrite insert_after_text_none by now apply first_index_Forall.
  destruct (first_update _ (body doc)) as [b|] eqn:Hb.
  - exists (with_body b doc). split; [reflexivity|]. split; [reflexivity|]. split.
    + now apply doc_paragraphs_summarize in Hb.
    + now apply row_counts_summarize in Hb.
  - exfalso. apply summarize_None in Hb.
    apply List.Exists_exists in Htables. destruct Htables as (p & Hin & Hp).
    rewrite List.Forall_forall in Hb. rewrite (Hb p Hin) in Hp. discriminate.
Qed.

Lemma anchor_in_a_table_inserts_nothing_witness :
  exists doc',
    find_and_insert_table_after_text example_template "Draft awal oleh"
      [["1"; "Initial"]] ["No"; "Change"] (Some "History:")
    = (doc', true)
    /\ styles doc' = styles example_template
    /\ doc_paragraphs (body doc') = doc_paragraphs (body example_template)
    /\ row_counts (body doc') = row_counts (body example_template).
Proof.
  apply anchor_in_a_table_inserts_nothing.
  - vm_compute. repeat constructor.
  - vm_compute. apply Exists_cons_hd. reflexivity.
Defined.

(** *** The paragraphs around the testing table *)

Lemma doc_paragraphs_fold_alter f ks b :
  doc_paragraphs (fold_left (fun b i => alter_paragraph f i b) ks b)
  = fold_left (fun l i => alter f i l) ks (doc_paragraphs b).
Proof.
  revert b. induction ks as [|k ks IH]; intros b; [reflexivity|].
  cbn [fold_left]. now rewrite IH, doc_paragraphs_alter.
Qed.

Lemma lookup_fold_alter {A} (f : A -> A) (ks : list nat) (l : list A) (i : nat) :
  (forall x, f (f x) = f x) ->
  fold_left (fun l i => alter f i l) ks l !! i
  = if bool_decide (i ∈ ks) then f <$> l !! i else l !! i.
Proof.
  intros Hf. revert l. induction ks as [|k ks IH]; intros l; [reflexivity|].
  cbn [fold_left]. rewrite IH, list_lookup_alter.
  destruct (decide (k = i)) as [->|Hne].
  - rewrite (bool_decide_eq_true_2 (i ∈ i :: ks)) by (apply elem_of_cons; now left).
    destruct (bool_decide (i ∈ ks)); [|reflexivity].
    destruct (l !! i); cbn; [|reflexivity]. now rewrite Hf.
  - destruct (bool_decide (i ∈ ks)) eqn:Hin.
    + apply bool_decide_eq_true in Hin.
      rewrite (bool_decide_eq_true_2 (i ∈ k :: ks)) by (apply elem_of_cons; now right).
      reflexivity.
    + apply bool_decide_eq_false in Hin.
      rewrite (bool_decide_eq_false_2 (i ∈ k :: ks)); [reflexivity|].
      intros Hin'. apply elem_of_cons in Hin'. destruct Hin'; [congruence|contradiction].
Qed.


(** *** What a run leaves behind *)

(** X8. [generate_with_proper_tables] raises nothing. When it answers [False]
    (no template, a template that is no Word document or has no paragraph,
    an output path that cannot be written) no file has been written or
    changed; when it answers [True] the output path holds a Word document
    and every other file is as it was. *)
Theorem a_run_writes_the_output_or_nothing
    (re_search : string -> string -> option string) (template_path : option string)
    (w : world) (ti : title_info) (output_path : string) :
  exists w' answer,
    generate_with_proper_tables re_search template_path w ti output_path = (w', Ok answer)
    /\ (answer = false -> w' = w)
    /\ (answer = true ->
        (exists doc, files w' !! output_path = Some (DocxFile doc))
        /\ (forall other, other <> output_path -> files w' !! other = files w !! other)
        /\ read_only w' = read_only w).
Proof.
  unfold generate_with_proper_tables.
  destruct template_path as [path|].
  2: { exists w, false. split; [reflexivity|]. split; [reflexivity|discriminate]. }
  destruct (negb (str_truthy path) || negb (path_exists w path)).
  { exists w, false. split; [reflexivity|]. split; [reflexivity|discriminate]. }
  destruct (DocxDocument w path ≫= fill_template re_search ti) as [doc|e].
  2: { exists w, false. split; [reflexivity|]. split; [reflexivity|discriminate]. }
  unfold save. destruct (read_only w output_path).
  { exists w, false. split; [reflexivity|]. split; [reflexivity|discriminate]. }
  exists (write output_path (DocxFile doc) w), true.
  assert (path_exists (write output_path (DocxFile doc) w) output_path = true) as ->.
  { unfold path_exists. apply bool_decide_eq_true. cbn. rewrite lookup_insert_eq. now eexists. }
  split; [reflexivity|]. split; [discriminate|]. intros _. split; [|split].
  - exists doc. cbn. apply lookup_insert_eq.
  - intros other Hother. cbn. now rewrite lookup_insert_ne.
  - reflexivity.
Qed.

(* ===================================================================== *)
(** ** More on generate_all_outputs *)
(* ===================================================================== *)

Lemma app_inj_l (a x y : string) : a +:+ x = a +:+ y -> x = y.
Proof.
  induction a as [|c a IH]; [auto|]. rewrite !app_String. intros [= H]. auto.
Qed.

Lemma joinpath_inj (directory base x y : string) :
  joinpath directory (base +:+ x) = joinpath directory (base +:+ y) -> x = y.
Proof.
  unfold joinpath. intros H.
  apply app_inj_l in H. apply (app_inj_l "/") in H. now apply app_inj_l in H.
Qed.

Section OutputProperties.

Variable table : reference_table.
Variable _improve_text : string -> string.
Variable now_markdown now_summary : string.
Variable output_dir template_dir : string.
Variable glob_docx : world -> option (list string).
Variable fill_template_with_markdown :
  world -> string -> string -> string -> world * exc unit.

(** X9. [_find_template_file] answers nothing without a directory or without
    a Word file in it; otherwise it answers a file of the directory, and one
    whose name holds FSD or template whenever there is one, wherever it
    stands in the listing. *)
Theorem template_search_prefers_FSD (w : world) :
  match glob_docx w with
  | None | Some [] => _find_template_file template_dir glob_docx w = None
  | Some names =>
      exists name,
        _find_template_file template_dir glob_docx w = Some (joinpath template_dir name)
        /\ In name names
        /\ (forall other, In other names -> preferred_template other = true ->
                          preferred_template name = true)
  end.
Proof.
  unfold _find_template_file.
  destruct (glob_docx w) as [[|first names]|]; [reflexivity| |reflexivity].
  fold preferred_template.
  destruct (List.find preferred_template (first :: names)) as [name|] eqn:Hfind.
  - apply find_some in Hfind. destruct Hfind as [Hin Hp].
    exists name. split; [reflexivity|]. split; [exact Hin|]. intros _ _ _. exact Hp.
  - exists first. split; [reflexivity|]. split; [now left|].
    intros other Hin Hp. rewrite (find_none _ _ Hfind other Hin) in Hp. discriminate.
Qed.

(** X10. A template that exists and a processor that raises without writing:
    [generate_all_outputs] raises nothing and returns the paths of the
    Markdown, the JSON and the summary it has written, and with them the
    path of a Word document that it has not written. *)
Theorem outputs_name_a_docx_that_is_not_written
    (w : world) (d : FSDDocument) (base_filename path : string) (e : exn) :
  let md_file := joinpath output_dir (base_filename +:+ "_fsd.md") in
  let json_file := joinpath output_dir (base_filename +:+ "_fsd.json") in
  let docx_file := joinpath output_dir (base_filename +:+ "_fsd.docx") in
  let summary_file := joinpath output_dir (base_filename +:+ "_summary.txt") in
  let markdown_content := _generate_markdown table _improve_text now_markdown d in
  let w2 :=
    write json_file (JsonFile (dataclass_to_dict d))
      (write md_file (TextFile markdown_content) w) in
  read_only w md_file = false ->
  read_only w json_file = false ->
  read_only w summary_file = false ->
  path <> "" ->
  is_Some (files w2 !! path) ->
  fill_template_with_markdown w2 path markdown_content docx_file = (w2, Err e) ->
  exists w',
    generate_all_outputs table _improve_text now_markdown now_summary output_dir
      template_dir glob_docx fill_template_with_markdown w d base_filename (Some path)
    = (w', Ok [("markdown", md_file); ("json", json_file); ("docx", docx_file);
               ("summary", summary_file)])
    /\ files w' !! md_file = Some (TextFile markdown_content)
    /\ files w' !! json_file = Some (JsonFile (dataclass_to_dict d))
    /\ files w' !! docx_file = files w !! docx_file.
Proof.
  intros md_file json_file docx_file summary_file markdown_content w2
    Hmd Hjson Hsum Hpath Hexists Hfill.
  assert (md_file <> json_file) as Hmj.
  { intros H. apply joinpath_inj in H. discriminate. }
  assert (md_file <> summary_file) as Hms.
  { intros H. apply joinpath_inj in H. discriminate. }
  assert (json_file <> summary_file) as Hjs.
  { intros H. apply joinpath_inj in H. discriminate. }
  assert (docx_file <> md_file) as Hdm.
  { intros H. apply joinpath_inj in H. discriminate. }
  assert (docx_file <> json_file) as Hdj.
  { intros H. apply joinpath_inj in H. discriminate. }
  assert (docx_file <> summary_file) as Hds.
  { intros H. apply joinpath_inj in H. discriminate. }
  exists (write summary_file (TextFile (join nl (summary_lines now_summary d))) w2).
  split; [|split; [|split]].
  - unfold generate_all_outputs, write_file.
    fold md_file json_file docx_file markdown_content. rewrite Hmd.
    cbn [read_only write]. rewrite Hjson. fold w2.
    assert (str_truthy path = true) as ->.
    { unfold str_truthy. apply negb_true_iff. now apply String.eqb_neq. }
    assert (path_exists w2 path = true) as ->.
    { unfold path_exists. now apply bool_decide_eq_true. }
    cbn [andb]. unfold _generate_word_document, WordTemplateProcessor.
    assert (path_exists w2 path = true) as ->.
    { unfold path_exists. now apply bool_decide_eq_true. }
    rewrite Hfill. unfold write_summary, write_file. fold summary_file.
    cbn [read_only write w2]. rewrite Hsum. reflexivity.
  - cbn. rewrite lookup_insert_ne by congruence.
    rewrite lookup_insert_ne by congruence. apply lookup_insert_eq.
  - cbn. rewrite lookup_insert_ne by congruence. apply lookup_insert_eq.
  - cbn. rewrite !lookup_insert_ne by congruence. reflexivity.
Qed.

End OutputProperties.

(** A processor that cannot open the template. *)
Lemma outputs_name_a_docx_that_is_not_written_witness :
  let output_dir := "out" in
  let fill : world -> string -> string -> string -> world * exc unit :=
    fun w _ _ _ => (w, raise (OtherException "PackageNotFoundError")) in
  let w := example_world "templates/FSD.docx" in
  let d := scenario_document [] in
  let md_file := joinpath output_dir "zhr_fsd.md" in
  let json_file := joinpath output_dir "zhr_fsd.json" in
  let docx_file := joinpath output_dir "zhr_fsd.docx" in
  let summary_file := joinpath output_dir "zhr_summary.txt" in
  let markdown_content :=
    _generate_markdown scenario_table (fun t => t) "2026-01-01 00:00:00" d in
  exists w',
    generate_all_outputs scenario_table (fun t => t) "2026-01-01 00:00:00"
      "2026-01-01 00:00:01" output_dir "templates" (fun _ => None) fill w d "zhr"
      (Some "templates/FSD.docx")
    = (w', Ok [("markdown", md_file); ("json", json_file); ("docx", docx_file);
               ("summary", summary_file)])
    /\ files w' !! md_file = Some (TextFile markdown_content)
    /\ files w' !! json_file = Some (JsonFile (dataclass_to_dict d))
    /\ files w' !! docx_file = files w !! docx_file.
Proof.
  intros output_dir fill w d md_file json_file docx_file summary_file markdown_content.
  apply (outputs_name_a_docx_that_is_not_written scenario_table (fun t => t)
           "2026-01-01 00:00:00" "2026-01-01 00:00:01" output_dir "templates"
           (fun _ => None) fill w d "zhr" "templates/FSD.docx"
           (OtherException "PackageNotFoundError")).
  - reflexivity.
  - reflexivity.
  - reflexivity.
  - discriminate.
  - eexists. vm_compute. reflexivity.
  - reflexivity.
Defined.

(* ===================================================================== *)
(** ** More on the merge and the batch *)
(* ===================================================================== *)

(** *** The merge appends *)

Lemma extends_refl d : extends d d.
Proof. unfold extends. repeat split; reflexivity. Qed.

Lemma extends_trans d1 d2 d3 : extends d1 d2 -> extends d2 d3 -> extends d1 d3.
Proof.
  unfold extends. intros H12 H23. destruct_and!.
  repeat split; etrans; eassumption.
Qed.

Lemma step_keeps_lists_refl d : step_keeps_lists d d.
Proof. split; [apply extends_refl|reflexivity]. Qed.

Lemma step_keeps_lists_trans d1 d2 d3 :
  step_keeps_lists d1 d2 -> step_keeps_lists d2 d3 -> step_keeps_lists d1 d3.
Proof.
  intros [E12 L12] [E23 L23]. split; [eapply extends_trans; eassumption|congruence].
Qed.

Ltac appended :=
  split; [unfold extends; cbn; repeat split; solve [reflexivity | now eexists]
         | reflexivity].

Ltac step_appends step :=
  let H := fresh "H" in
  unfold step; intros H;
  match type of H with
  | (if ?c then _ else _) = _ => destruct c
  end;
  [ step_inv H; injection H as <-; appended
  | injection H as <-; apply step_keeps_lists_refl ].

Lemma map_basic_info_appends v d d' :
  map_basic_info v d = Ok d' -> step_keeps_lists d d'.
Proof.
  unfold map_basic_info. intros H.
  destruct (truthy v); [|injection H as <-; apply step_keeps_lists_refl].
  step_inv H. injection H as <-.
  repeat match goal with
         | Hif : (if ?c then _ else _) = Ok _ |- _ =>
             destruct c;
             [ repeat match type of Hif with
                      | context [as_str ?f ?x] =>
                          destruct (as_str f x); cbn in Hif; [|discriminate Hif]
                      end
             | ];
             injection Hif as <-
         end;
    appended.
Qed.

Lemma map_selection_screen_appends v d d' :
  map_selection_screen v d = Ok d' -> step_keeps_lists d d'.
Proof. step_appends map_selection_screen. Qed.

Lemma map_field_mappings_appends v d d' :
  map_field_mappings v d = Ok d' -> step_keeps_lists d d'.
Proof. step_appends map_field_mappings. Qed.

Lemma map_valid_datasets_appends v d d' :
  map_valid_datasets v d = Ok d' -> step_keeps_lists d d'.
Proof. step_appends map_valid_datasets. Qed.

Lemma map_lookup_forms_appends v d d' :
  map_lookup_forms v d = Ok d' -> step_keeps_lists d d'.
Proof. step_appends map_lookup_forms. Qed.

Lemma map_error_handling_appends v d d' :
  map_error_handling v d = Ok d' -> step_keeps_lists d d'.
Proof. step_appends map_error_handling. Qed.

Lemma map_test_scenarios_appends v d d' :
  map_test_scenarios v d = Ok d' -> step_keeps_lists d d'.
Proof. step_appends map_test_scenarios. Qed.

Lemma map_validation_rules_appends v d d' :
  map_validation_rules v d = Ok d' -> step_keeps_lists d d'.
Proof.
  unfold map_validation_rules, extended. intros H.
  destruct (truthy v); [|injection H as <-; apply step_keeps_lists_refl].
  step_inv H. injection H as <-. step_inv Ha. injection Ha as <-. appended.
Qed.

Lemma map_authorization_appends v d d' :
  map_authorization v d = Ok d' -> step_keeps_lists d d'.
Proof.
  unfold map_authorization, extended. intros H.
  destruct (truthy v); [|injection H as <-; apply step_keeps_lists_refl].
  step_inv H. injection H as <-.
  step_inv Ha. injection Ha as <-. step_inv Ha0. injection Ha0 as <-. appended.
Qed.

Lemma merge_appends results d d' :
  _map_fixed_results_to_fsd results d = Ok d' -> step_keeps_lists d d'.
Proof.
  unfold _map_fixed_results_to_fsd. intros H. step_inv H.
  repeat match goal with
         | Hs : map_basic_info _ _ = Ok _ |- _ => apply map_basic_info_appends in Hs
         | Hs : map_selection_screen _ _ = Ok _ |- _ =>
             apply map_selection_screen_appends in Hs
         | Hs : map_field_mappings _ _ = Ok _ |- _ => apply map_field_mappings_appends in Hs
         | Hs : map_valid_datasets _ _ = Ok _ |- _ => apply map_valid_datasets_appends in Hs
         | Hs : map_lookup_forms _ _ = Ok _ |- _ => apply map_lookup_forms_appends in Hs
         | Hs : map_error_handling _ _ = Ok _ |- _ => apply map_error_handling_appends in Hs
         | Hs : map_test_scenarios _ _ = Ok _ |- _ => apply map_test_scenarios_appends in Hs
         | Hs : map_validation_rules _ _ = Ok _ |- _ =>
             apply map_validation_rules_appends in Hs
         end.
  apply map_authorization_appends in H.
  eapply step_keeps_lists_trans; [exact Ha|].
  eapply step_keeps_lists_trans; [exact Ha0|].
  eapply step_keeps_lists_trans; [exact Ha1|].
  eapply step_keeps_lists_trans; [exact Ha2|].
  eapply step_keeps_lists_trans; [exact Ha3|].
  eapply step_keeps_lists_trans; [exact Ha4|].
  eapply step_keeps_lists_trans; [exact Ha5|].
  eapply step_keeps_lists_trans; [exact Ha6|exact H].
Qed.

Lemma first_ricefw_id_app docs more id :
  first_ricefw_id docs = Some id -> first_ricefw_id (docs ++ more) = Some id.
Proof.
  induction docs as [|doc docs IH]; cbn; [discriminate|].
  destruct (ricefw_id_of doc); auto.
Qed.

Section MapperProperties.

Variable json_loads : string -> option json.
Variable _build_prompt : string -> json -> string.
Variable prompt_of : string -> string.

Local Abbreviation analyze_and_map' := (analyze_and_map json_loads _build_prompt prompt_of).


(** X12. When the remote call of every task raises, the call returns the
    document it was given with nothing but the location set: no error is
    raised and nothing tells the caller that the analysis found nothing. *)
Theorem outage_gives_the_document_back (llm : nat -> transport) (file_name : string)
    (d : FSDDocument) :
  (forall k task_name,
      task_names !! k = Some task_name ->
      remote_call_raises json_loads _build_prompt (llm k)
        (prompt_of task_name) (task_context task_name) = true) ->
  analyze_and_map' llm file_name d = Ok (with_document_location file_name d).
Proof.
  intros Hfail.
  destruct (run_batch_spec json_loads _build_prompt prompt_of llm)
    as (r & Hr & _ & Hin).
  unfold analyze_and_map. rewrite Hr. cbn [lift mbind res_mbind res_bind].
  assert (forall task_name, In task_name task_names ->
                            results_get r task_name = empty_dict) as Hget.
  { intros task_name Hmem. apply list_elem_of_In, list_elem_of_lookup in Hmem.
    destruct Hmem as [k Hk]. unfold results_get. rewrite (Hin k task_name Hk).
    cbn. apply answer_remote_call_raises, Hfail, Hk. }
  unfold _map_fixed_results_to_fsd.
  rewrite !Hget by (cbn; tauto). reflexivity.
Qed.

End MapperProperties.


Lemma outage_gives_the_document_back_witness :
  let silent : nat -> transport := fun _ _ => raise (OtherException "TimeoutError") in
  analyze_and_map (fun _ => None) (fun p _ => p) (fun name => name) silent
    "zhr_r_it0015.html" (mapper_document "SSoT")
  = Ok (with_document_location "zhr_r_it0015.html" (mapper_document "SSoT")).
Proof.
  intros silent.
  apply (outage_gives_the_document_back (fun _ => None) (fun p _ => p) (fun name => name)
           silent "zhr_r_it0015.html" (mapper_document "SSoT")).
  intros k task_name _. reflexivity.
Defined.

(** *** Reading back what is dumped *)

Lemma processing_type_round_trip (t : FieldProcessingType) :
  FieldProcessingType_call (JStr (value t)) = Ok t.
Proof. destruct t; reflexivity. Qed.

(** X13. The dicts [dataclass_to_dict] makes of the records of a document are
    read back by the constructors of the merge as the records they came
    from: every key is there with a value of its type, and the value of a
    processing type names its member again. *)
Theorem dumped_records_read_back :
  (forall f, make_FieldMapping (FieldMapping_to_dict f) = Ok f)
  /\ (forall p, make_SelectionParameter (SelectionParameter_to_dict p) = Ok p)
  /\ (forall r, make_DataConditionRow (DataConditionRow_to_dict r) = Ok r)
  /\ (forall e, make_ErrorScenario (ErrorScenario_to_dict e) = Ok e)
  /\ (forall t, make_TestScenario (TestScenario_to_dict t) = Ok t).
Proof.
  repeat split.
  - intros [dn tf st pl pt jc wc]. destruct pt; reflexivity.
  - intros []. reflexivity.
  - intros []. reflexivity.
  - intros []. reflexivity.
  - intros []. reflexivity.
Qed.

(** *** The answer of the service *)

Section ResponseProperties.

Variable json_loads : string -> option json.

(** X14. [_parse_response] on a response dict: without the key candidates it
    decodes the default text; with an empty list of candidates the
    [IndexError] of [[0]] is none of the two exceptions it catches and
    leaves the function; with a first candidate that holds a text it
    returns what the text decodes to, and [{}] when the text is no JSON. *)
Theorem parse_response_cases (response : list (string * json)) :
  (assoc_get "candidates" response = None ->
   _parse_response json_loads (JDict response)
   = Ok (default empty_dict (json_loads "{}")))
  /\ (assoc_get "candidates" response = Some (JList []) ->
      _parse_response json_loads (JDict response) = Err IndexError)
  /\ (forall text more_parts more_candidates candidate content part,
        assoc_get "candidates" response
        = Some (JList (JDict candidate :: more_candidates)) ->
        assoc_get "content" candidate = Some (JDict content) ->
        assoc_get "parts" content = Some (JList (JDict part :: more_parts)) ->
        assoc_get "text" part = Some (JStr text) ->
        _parse_response json_loads (JDict response)
        = Ok (default empty_dict (json_loads text))).
Proof.
  unfold _parse_response, _parse_response_body, py_get, try_except.
  split; [|split].
  - intros ->. cbn. destruct (json_loads "{}"); reflexivity.
  - intros ->. reflexivity.
  - intros text more_parts more_candidates candidate content part -> Hc Hp Ht.
    cbn. rewrite Hc. cbn. rewrite Hp. cbn. rewrite Ht. cbn.
    destruct (json_loads text); reflexivity.
Qed.

End ResponseProperties.

(* ===================================================================== *)
(** ** More on the Markdown parser and its readers *)
(* ===================================================================== *)

(** *** Texts without a line feed *)

Lemma has_char_drop_chars c n s :
  has_char c s = false -> has_char c (drop_chars n s) = false.
Proof.
  revert s. induction n as [|n IH]; intros s H; [exact H|].
  destruct s as [|x s]; [reflexivity|]. cbn. apply IH.
  cbn in H. now apply orb_false_iff in H.
Qed.

Lemma split_pieces c s : Forall (fun piece => has_char c piece = false) (split c s).
Proof.
  induction s as [|x s IH]; cbn; [repeat constructor|].
  destruct (Ascii.eqb x c) eqn:Hx.
  - constructor; [reflexivity|exact IH].
  - destruct (split c s) as [|h t]; [repeat constructor; cbn; now rewrite Hx|].
    inversion IH as [|? ? Hh Ht]; subst. constructor; [|exact Ht].
    cbn. now rewrite Hx.
Qed.

(** *** The title that is saved *)

Lemma titles_plain_section pd k sd :
  titles_plain pd -> titles_plain (<[k := PSection sd]> pd).
Proof.
  intros H k' t. destruct (decide (k = k')) as [->|Hne].
  - rewrite lookup_insert_eq. discriminate.
  - rewrite lookup_insert_ne by exact Hne. apply H.
Qed.

Lemma titles_plain_title pd k t :
  has_char LF t = false -> titles_plain pd -> titles_plain (<[k := PTitle t]> pd).
Proof.
  intros Ht H k' t'. destruct (decide (k = k')) as [->|Hne].
  - rewrite lookup_insert_eq. now intros [= <-].
  - rewrite lookup_insert_ne by exact Hne. apply H.
Qed.

Lemma titles_plain_ensure pd section :
  titles_plain pd -> titles_plain (ensure_section pd section).
Proof.
  intros H. unfold ensure_section. destruct (pd !! section); [exact H|].
  now apply titles_plain_section.
Qed.

Lemma titles_plain_save_subsection pd section sub lines pd' :
  _save_subsection pd section sub lines = Ok pd' -> titles_plain pd -> titles_plain pd'.
Proof.
  unfold _save_subsection. intros H Hpd.
  destruct (ensure_section pd section !! section) as [[t|sd]|]; try discriminate.
  injection H as <-. now apply titles_plain_section, titles_plain_ensure.
Qed.

Lemma titles_plain_save_section pd section subsection lines pd' :
  _save_section pd section subsection lines = Ok pd' -> titles_plain pd -> titles_plain pd'.
Proof.
  unfold _save_section. intros H Hpd.
  pose proof (titles_plain_ensure pd section Hpd) as He.
  destruct subsection as [sub|].
  - destruct (named (Some sub)).
    + eapply titles_plain_save_subsection; eassumption.
    + destruct (ensure_section pd section !! section) as [[t|sd]|]; try discriminate.
      injection H as <-. now apply titles_plain_section.
  - destruct (ensure_section pd section !! section) as [[t|sd]|]; try discriminate.
    injection H as <-. now apply titles_plain_section.
Qed.

Lemma titles_plain_parse_line st raw st' :
  has_char LF raw = false ->
  parse_line st raw = Ok st' ->
  titles_plain (parsed_data st) -> titles_plain (parsed_data st').
Proof.
  intros Hraw H Hpd. unfold parse_line in H.
  destruct (startswith "# " (strip raw)).
  { injection H as <-. cbn [parsed_data]. apply titles_plain_title; [|exact Hpd].
    apply has_char_strip.
    change (has_char LF (drop_chars 2 (strip raw)) = false).
    now apply has_char_drop_chars, has_char_strip. }
  destruct (startswith "## " (strip raw)).
  { destruct (named (current_section st)).
    - destruct (_save_section _ _ _ _) as [pd|e] eqn:Hsave; [|discriminate].
      injection H as <-. cbn. eapply titles_plain_save_section; eassumption.
    - injection H as <-. exact Hpd. }
  destruct (startswith "### " (strip raw)).
  { destruct (current_subsection st) as [sub|].
    - destruct (named (Some sub)).
      + destruct (_save_subsection _ _ _ _) as [pd|e] eqn:Hsave; [|discriminate].
        injection H as <-. cbn. eapply titles_plain_save_subsection; eassumption.
      + injection H as <-. exact Hpd.
    - injection H as <-. exact Hpd. }
  destruct (startswith "|" (strip raw) && contains "|" (strip raw)).
  { injection H as <-. exact Hpd. }
  destruct (negb (String.eqb (strip raw) "")); injection H as <-; exact Hpd.
Qed.

Lemma titles_plain_parse_lines lines :
  forall st st',
    Forall (fun raw => has_char LF raw = false) lines ->
    parse_lines st lines = Ok st' ->
    titles_plain (parsed_data st) -> titles_plain (parsed_data st').
Proof.
  induction lines as [|raw rest IH]; intros st st' Hlines H Hpd.
  - injection H as <-. exact Hpd.
  - cbn in H. inversion Hlines as [|? ? Hraw Hrest]; subst.
    destruct (parse_line st raw) as [st1|e] eqn:H1; [|discriminate].
    cbn in H. eapply IH; [exact Hrest|exact H|].
    eapply titles_plain_parse_line; eassumption.
Qed.

Lemma titles_plain_parse markdown_content pd :
  parse markdown_content = Ok pd -> titles_plain pd.
Proof.
  unfold parse. intros H.
  destruct (parse_lines initial_parser_state (split LF markdown_content)) as [st|e] eqn:Hst;
    [|discriminate].
  cbn in H.
  assert (titles_plain (parsed_data st)) as Hpd.
  { eapply titles_plain_parse_lines; [apply split_pieces|exact Hst|].
    intros k t. cbn. rewrite lookup_empty. discriminate. }
  destruct (named (current_section st)).
  - eapply titles_plain_save_section; eassumption.
  - injection H as <-. exact Hpd.
Qed.

(** X15. [_extract_program_name] and [_extract_description] read the title of
    the parsed Markdown, which is the text of one line: they see that text
    only, never the headings of the second and third level that follow the
    title in the Markdown. The answer is the fixed name unless the title
    itself starts with the marks of a heading. *)
Theorem program_name_is_read_from_the_title (markdown_content : string) (pd : parsed) :
  parse markdown_content = Ok pd ->
  match pd !! Some "title" with
  | Some (PTitle t) =>
      _extract_program_name pd
      = Ok (if startswith "## " t then strip (drop_chars 3 t) else "Unknown Program")
      /\ _extract_description pd
         = Ok (if startswith "### " t then strip (drop_chars 4 t)
               else "Program Description")
  | Some (PSection _) =>
      _extract_program_name pd = Err AttributeError
      /\ _extract_description pd = Err AttributeError
  | None =>
      _extract_program_name pd = Ok "Unknown Program"
      /\ _extract_description pd = Ok "Program Description"
  end.
Proof.
  intros Hparse. pose proof (titles_plain_parse _ _ Hparse) as Hplain.
  unfold _extract_program_name, _extract_description, title_text.
  destruct (pd !! Some "title") as [[t|sd]|] eqn:Ht.
  - cbn [mbind res_mbind res_bind].
    rewrite (split_no_sep LF t) by (eapply Hplain; exact Ht).
    cbn [List.find]. destruct (startswith "## " t), (startswith "### " t); split; reflexivity.
  - split; reflexivity.
  - split; reflexivity.
Qed.

(** The first lines of a rendered document: the program is named on the
    second line, and is not found. *)
Lemma program_name_is_read_from_the_title_witness :
  let md := join nl ["# Functional Specification Design (FSD)";
                     "## ZHR_R_IT0015";
                     "### Laporan tunjangan"] in
  exists pd,
    parse md = Ok pd
    /\ _extract_program_name pd = Ok "Unknown Program"
    /\ _extract_description pd = Ok "Program Description".
Proof.
  intros md.
  let r := eval vm_compute in (parse md) in
  match r with
  | Ok ?pd =>
      assert (parse md = Ok pd) as Hparse by (vm_compute; reflexivity);
      exists pd; split; [exact Hparse|];
      vm_cast_no_check (program_name_is_read_from_the_title md pd Hparse)
  end.
Defined.

(** *** Lines that reach no section *)

Lemma parse_lines_app lines1 lines2 st :
  parse_lines st (lines1 ++ lines2)
  = st' ← parse_lines st lines1; parse_lines st' lines2.
Proof.
  revert st. induction lines1 as [|raw rest IH]; intros st; [reflexivity|].
  cbn [app parse_lines]. destruct (parse_line st raw) as [st1|e]; [|reflexivity].
  cbn [mbind res_mbind res_bind]. apply IH.
Qed.

(** A line that is no heading and no title changes the content only. *)
Lemma parse_line_other st raw :
  classify raw = KOther ->
  exists lines,
    parse_line st raw
    = Ok {| parsed_data := parsed_data st;
            current_section := current_section st;
            current_subsection := current_subsection st;
            current_content := lines |}.
Proof.
  unfold classify, parse_line.
  destruct (startswith "# " (strip raw)); [discriminate|].
  destruct (startswith "## " (strip raw)); [discriminate|].
  destruct (startswith "### " (strip raw)); [discriminate|]. intros _.
  destruct (startswith "|" (strip raw) && contains "|" (strip raw)); [eauto|].
  destruct (negb (String.eqb (strip raw) "")); [eauto|].
  exists (current_content st). now destruct st.
Qed.

Lemma parse_line_title st raw :
  classify raw = KTitle ->
  parse_line st raw
  = Ok {| parsed_data :=
            <[Some "title" := PTitle (strip (drop_chars 2 (strip raw)))]> (parsed_data st);
          current_section := current_section st;
          current_subsection := current_subsection st;
          current_content := current_content st |}
  /\ startswith "# " (strip raw) = true.
Proof.
  unfold classify, parse_line.
  destruct (startswith "# " (strip raw)); [split; reflexivity|].
  destruct (startswith "## " (strip raw)); [discriminate|].
  destruct (startswith "### " (strip raw)); discriminate.
Qed.

Lemma classify_other_not_title raw :
  classify raw = KOther -> startswith "# " (strip raw) = false.
Proof.
  unfold classify. destruct (startswith "# " (strip raw)); [discriminate|reflexivity].
Qed.

(** The titles of the lines, saved one over the other. *)
Lemma parse_lines_no_heading lines :
  forall st,
    Forall (fun raw => no_heading raw = true) lines ->
    exists content,
      parse_lines st lines
      = Ok {| parsed_data :=
                fold_left (fun pd t => <[Some "title" := PTitle t]> pd)
                  (titles_in lines) (parsed_data st);
              current_section := current_section st;
              current_subsection := current_subsection st;
              current_content := content |}.
Proof.
  induction lines as [|raw rest IH]; intros st Hlines.
  - exists (current_content st). now destruct st.
  - inversion Hlines as [|? ? Hraw Hrest]; subst. cbn [parse_lines titles_in].
    unfold no_heading in Hraw.
    destruct (classify raw) eqn:Hk; try discriminate.
    + destruct (parse_line_title st raw Hk) as [-> ->].
      cbn [mbind res_mbind res_bind fold_left].
      match goal with
      | |- context [parse_lines ?s rest] => destruct (IH s Hrest) as [content ->]
      end. eauto.
    + destruct (parse_line_other st raw Hk) as [content1 ->].
      rewrite (classify_other_not_title raw Hk).
      cbn [mbind res_mbind res_bind].
      match goal with
      | |- context [parse_lines ?s rest] => destruct (IH s Hrest) as [content ->]
      end. eauto.
Qed.

Lemma fold_titles (titles : list string) (pd : parsed) :
  fold_left (fun pd t => <[Some "title" := PTitle t]> pd) titles pd
  = match last titles with
    | Some t => <[Some "title" := PTitle t]> pd
    | None => pd
    end.
Proof.
  induction titles as [|t titles IH] using rev_ind; [reflexivity|].
  rewrite fold_left_app, last_snoc, IH. cbn [fold_left].
  destruct (last titles); [apply insert_insert_eq|reflexivity].
Qed.

(** X16. A text without a heading of the second or third level: the parser
    returns the title only, that of the last title line, and an empty
    mapping when there is no title line. Every other line is dropped. *)
Theorem text_outside_sections_is_dropped (markdown_content : string) :
  Forall (fun raw => no_heading raw = true) (split LF markdown_content) ->
  parse markdown_content
  = Ok (match last (titles_in (split LF markdown_content)) with
        | Some t => {[ Some "title" := PTitle t ]}
        | None => ∅
        end).
Proof.
  intros Hlines. unfold parse.
  destruct (parse_lines_no_heading _ initial_parser_state Hlines) as [content ->].
  cbn [mbind res_mbind res_bind current_section initial_parser_state named parsed_data].
  rewrite fold_titles. destruct (last _); reflexivity.
Qed.

Lemma text_outside_sections_is_dropped_witness :
  let md := join nl ["# Catatan"; "Laporan ini belum selesai."; "| a | b |"; "- butir"] in
  Forall (fun raw => no_heading raw = true) (split LF md)
  /\ parse md
     = Ok (match last (titles_in (split LF md)) with
           | Some t => {[ Some "title" := PTitle t ]}
           | None => ∅
           end).
Proof.
  intros md.
  assert (Forall (fun raw => no_heading raw = true) (split LF md)) as Hlines
    by (apply List.Forall_forall, List.forallb_forall; vm_compute; reflexivity).
  split; [exact Hlines|].
  exact (text_outside_sections_is_dropped md Hlines).
Defined.

(** *** The lines between a section heading and its first subsection *)

Lemma parse_lines_plain lines :
  forall st,
    Forall (fun raw => is_content_line raw = true) lines ->
    exists content,
      parse_lines st lines
      = Ok {| parsed_data := parsed_data st;
              current_section := current_section st;
              current_subsection := current_subsection st;
              current_content := content |}.
Proof.
  induction lines as [|raw rest IH]; intros st Hlines.
  - exists (current_content st). now destruct st.
  - inversion Hlines as [|? ? Hraw Hrest]; subst. cbn [parse_lines].
    unfold is_content_line in Hraw.
    destruct (classify raw) eqn:Hk; try discriminate.
    destruct (parse_line_other st raw Hk) as [content1 ->].
    cbn [mbind res_mbind res_bind].
    match goal with
    | |- context [parse_lines ?s rest] => destruct (IH s Hrest) as [content ->]
    end. eauto.
Qed.

Lemma parse_line_section st raw st' :
  opens_section raw = true ->
  parse_line st raw = Ok st' ->
  current_subsection st' = None.
Proof.
  unfold opens_section, classify, parse_line.
  destruct (startswith "# " (strip raw)); [discriminate|].
  destruct (startswith "## " (strip raw)).
  - intros _ H.
    destruct (if named (current_section st) then _ else _); [|discriminate].
    cbn [mbind res_mbind res_bind] in H. injection H as <-. reflexivity.
  - destruct (startswith "### " (strip raw)); discriminate.
Qed.

(** A subsection heading after no subsection: the content so far is left. *)
Lemma parse_line_first_subsection st raw content :
  opens_subsection raw = true ->
  current_subsection st = None ->
  parse_line {| parsed_data := parsed_data st;
                current_section := current_section st;
                current_subsection := current_subsection st;
                current_content := content |} raw
  = parse_line st raw.
Proof.
  unfold opens_subsection, classify, parse_line.
  destruct (startswith "# " (strip raw)); [discriminate|].
  destruct (startswith "## " (strip raw)); [discriminate|].
  destruct (startswith "### " (strip raw)); [|discriminate].
  intros _ Hsub. cbn [parsed_data current_section current_subsection current_content].
  rewrite Hsub. reflexivity.
Qed.

Lemma last_split c s : exists front x, split c s = front ++ [x] /\ last (split c s) = Some x.
Proof.
  pose proof (split_nonempty c s) as Hne.
  destruct (split c s) as [|y l] using rev_ind; [contradiction|].
  exists l, y. split; [reflexivity|apply last_snoc].
Qed.

(** X17. The lines between a level-2 heading and the level-3 heading that
    follows it do not reach the result: the text parses as it does without
    them. *)
Theorem section_intro_is_dropped (before intro after : string) :
  opens_section (default "" (last (split LF before))) = true ->
  Forall (fun raw => is_content_line raw = true) (split LF intro) ->
  opens_subsection (default "" (head (split LF after))) = true ->
  parse (before +:+ nl +:+ intro +:+ nl +:+ after)
  = parse (before +:+ nl +:+ after).
Proof.
  intros Hsection Hintro Hsub. unfold parse, nl.
  rewrite !app_String, !app_empty_l, !split_app.
  destruct (last_split LF before) as (front & heading & Hfront & Hlast).
  rewrite Hlast in Hsection. rewrite Hfront. cbn [default] in Hsection.
  pose proof (split_nonempty LF after) as Hne.
  destruct (split LF after) as [|sub rest]; [contradiction|]. clear Hne.
  cbn [head default] in Hsub.
  rewrite <- !app_assoc. rewrite !(parse_lines_app front).
  destruct (parse_lines initial_parser_state front) as [st1|e]; [|reflexivity].
  cbn [mbind res_mbind res_bind app parse_lines].
  destruct (parse_line st1 heading) as [st2|e] eqn:Hheading; [|reflexivity].
  cbn [mbind res_mbind res_bind].
  rewrite parse_lines_app.
  destruct (parse_lines_plain _ st2 Hintro) as [content ->].
  cbn [mbind res_mbind res_bind parse_lines].
  rewrite (parse_line_first_subsection st2 sub content Hsub
             (parse_line_section _ _ _ Hsection Hheading)).
  reflexivity.
Qed.

Lemma section_intro_is_dropped_witness :
  let before := join nl ["# FSD"; "## Spesifikasi"] in
  let intro := join nl ["Bagian ini menjelaskan laporan."; "- butir pertama"] in
  let after := join nl ["### Tujuan"; "Menampilkan data karyawan."] in
  parse (before +:+ nl +:+ intro +:+ nl +:+ after)
  = parse (before +:+ nl +:+ after).
Proof.
  intros before intro after.
  apply (section_intro_is_dropped before intro after).
  - vm_compute; reflexivity.
  - apply List.Forall_forall, List.forallb_forall; vm_compute; reflexivity.
  - vm_compute; reflexivity.
Defined.

(* ===================================================================== *)
(** ** The content of a section, sorted into texts, tables and lists *)
(* ===================================================================== *)

Lemma startswith_truthy (prefix line : string) :
  prefix <> "" -> startswith prefix line = true -> str_truthy line = true.
Proof.
  intros Hp H. destruct line; [|reflexivity].
  destruct prefix; [contradiction|discriminate].
Qed.

Lemma length_snoc {A} (l : list A) (x : A) : length (l ++ [x]) = S (length l).
Proof. rewrite length_app. cbn. lia. Qed.

(** What holds after each turn of the loop of [_process_content]. *)
Lemma process_lines_invariant (content : list string) :
  let st := fold_left process_line content initial_content_state in
  let p := processed_so_far st in
  concat (processed_tables p) ++ (if in_table st then current_table st else [])
  = map cells_of (List.filter is_content_row content)
  /\ (in_table st = true -> current_table st <> [])
  /\ Forall (fun t => t <> []) (processed_tables p)
  /\ length (processed_text p) + length (processed_lists p)
     + length (List.filter is_content_row content)
     = length (List.filter str_truthy content).
Proof.
  induction content as [|line content IH] using rev_ind.
  - cbn. repeat split; auto.
  - rewrite fold_left_app, !List.filter_app. cbn [fold_left List.filter].
    cbn zeta in IH. destruct IH as (Hrows & Hopen & Htables & Hcount).
    set (st := fold_left process_line content initial_content_state) in *.
    unfold process_line. fold (is_content_row line).
    destruct (is_content_row line) eqn:Hrow.
    + assert (str_truthy line = true) as ->.
      { unfold is_content_row in Hrow. apply andb_prop in Hrow as [Hrow _].
        now apply (startswith_truthy "|"). }
      cbn [processed_so_far in_table current_table]. rewrite map_app, !length_app.
      cbn [map length]. repeat split.
      * rewrite <- Hrows. destruct (in_table st); rewrite <- ?app_assoc, ?app_nil_r; reflexivity.
      * intros _. destruct (if in_table st then current_table st else []); discriminate.
      * exact Htables.
      * lia.
    + cbn [processed_so_far in_table current_table]. rewrite !app_nil_r.
      assert (concat (processed_tables (close_table st))
              = map cells_of (List.filter is_content_row content)
              /\ Forall (fun t => t <> []) (processed_tables (close_table st))
              /\ processed_text (close_table st) = processed_text (processed_so_far st)
              /\ processed_lists (close_table st) = processed_lists (processed_so_far st))
        as (Hrows' & Htables' & Htext & Hlists).
      { unfold close_table. destruct (in_table st).
        - cbn [processed_tables processed_text processed_lists]. repeat split.
          + rewrite concat_app. cbn [concat]. rewrite app_nil_r. exact Hrows.
          + apply Forall_app. split; [exact Htables|]. constructor; [|constructor].
            now apply Hopen.
        - rewrite app_nil_r in Hrows. repeat split; assumption. }
      destruct (startswith "- " line) eqn:Hitem;
        [|destruct (startswith "**" line && endswith "**" line) eqn:Hbold;
          [|destruct (str_truthy line) eqn:Hline]];
        cbn [processed_text processed_tables processed_lists];
        rewrite ?length_snoc, ?Htext, ?Hlists.
      * rewrite (startswith_truthy "- " line) by (discriminate || exact Hitem).
        cbn [length]. repeat split; [assumption|discriminate|assumption|].
        rewrite ?length_app; cbn [length]; lia.
      * apply andb_prop in Hbold as [Hbold _].
        rewrite (startswith_truthy "**" line) by (discriminate || exact Hbold).
        cbn [length]. repeat split; [assumption|discriminate|assumption|].
        rewrite ?length_app; cbn [length]; lia.
      * repeat split; [assumption|discriminate|assumption|].
        rewrite ?length_app; cbn [length]; lia.
      * repeat split; [assumption|discriminate|assumption|].
        rewrite ?length_app; cbn [length]; lia.
Qed.

(** X18. Every line of the content that is not empty lands in one place: the
    rows of the tables are the rows of the content, in order and none twice;
    no table is empty; and the texts, the list items and the rows together
    are as many as the lines that are not empty. *)
Theorem every_line_lands_once (content : list string) :
  let p := _process_content content in
  concat (processed_tables p) = map cells_of (List.filter is_content_row content)
  /\ Forall (fun t => t <> []) (processed_tables p)
  /\ length (processed_text p) + length (processed_lists p)
     + length (concat (processed_tables p))
     = length (List.filter str_truthy content).
Proof.
  cbn zeta.
  destruct (process_lines_invariant content) as (Hrows & Hopen & Htables & Hcount).
  cbn zeta in *. unfold _process_content.
  set (st := fold_left process_line content initial_content_state) in *.
  assert (concat (processed_tables
            (if in_table st && negb (is_nil (current_table st))
             then close_table st else processed_so_far st))
          = map cells_of (List.filter is_content_row content)
          /\ Forall (fun t => t <> [])
               (processed_tables
                  (if in_table st && negb (is_nil (current_table st))
                   then close_table st else processed_so_far st))
          /\ processed_text
               (if in_table st && negb (is_nil (current_table st))
                then close_table st else processed_so_far st)
             = processed_text (processed_so_far st)
          /\ processed_lists
               (if in_table st && negb (is_nil (current_table st))
                then close_table st else processed_so_far st)
             = processed_lists (processed_so_far st))
    as (Hrows' & Htables' & -> & ->).
  { unfold close_table. destruct (in_table st) eqn:Hin.
    - specialize (Hopen eq_refl).
      destruct (current_table st) as [|row rows] eqn:Hcur; [contradiction|].
      cbn [andb negb is_nil processed_tables processed_text processed_lists].
      repeat split.
      + rewrite concat_app. cbn [concat]. rewrite app_nil_r. exact Hrows.
      + apply Forall_app. split; [exact Htables|]. constructor; [discriminate|constructor].
    - cbn [andb]. rewrite app_nil_r in Hrows. repeat split; assumption. }
  repeat split; [exact Hrows'|exact Htables'|].
  rewrite Hrows', length_map. exact Hcount.
Qed.

(** *** The two readers of table rows *)

Lemma process_content_rows (content : list string) :
  concat (processed_tables (_process_content content))
  = map cells_of (List.filter is_content_row content).
Proof.
  destruct (process_lines_invariant content) as (Hrows & Hopen & _).
  cbn zeta in *. unfold _process_content.
  set (st := fold_left process_line content initial_content_state) in *.
  unfold close_table. destruct (in_table st) eqn:Hin.
  - specialize (Hopen eq_refl).
    destruct (current_table st) as [|row rows] eqn:Hcur; [contradiction|].
    cbn [andb negb is_nil processed_tables]. rewrite concat_app. cbn [concat].
    rewrite app_nil_r. exact Hrows.
  - cbn [andb]. rewrite app_nil_r in Hrows. exact Hrows.
Qed.

Lemma startswith_contains (c : ascii) (line : string) :
  startswith (String c "") line = true -> contains (String c "") line = true.
Proof. destruct line as [|x line]; [discriminate|]. cbn [contains]. now intros ->. Qed.

(** A line that starts with its only pipe has no cell. *)
Lemma one_pipe_no_cell (line : string) :
  startswith "|" line = true ->
  Nat.leb 2 (count_pipes line) = false ->
  cells_of line = [].
Proof.
  destruct line as [|x line]; [discriminate|]. cbn [startswith].
  rewrite andb_true_r. intros Hx. unfold count_pipes, cells_of, middle.
  cbn [split]. rewrite Ascii.eqb_sym, Hx. cbn [length tail].
  pose proof (split_nonempty "|" line) as Hne.
  destruct (split "|"%char line) as [|piece [|piece' pieces]]; [contradiction|reflexivity|].
  intros H. apply Nat.leb_gt in H. cbn [length] in H. lia.
Qed.

(** X19. [_extract_table_from_content] returns the rows [_process_content] puts
    in its tables, without the rows of dashes and the rows of no cell, in the
    same order. *)
Theorem extracted_rows_are_the_processed_rows (content : list string) :
  _extract_table_from_content content
  = List.filter (fun cells => negb (is_nil cells) && negb (is_separator cells))
      (concat (processed_tables (_process_content content))).
Proof.
  rewrite process_content_rows. unfold _extract_table_from_content.
  induction content as [|line content IH]; [reflexivity|].
  cbn [flat_map List.filter]. rewrite IH. unfold is_content_row at 2.
  destruct (startswith "|" line) eqn:Hpipe; [|reflexivity].
  rewrite (startswith_contains _ _ Hpipe). cbn [andb map List.filter].
  destruct (Nat.leb 2 (count_pipes line)) eqn:Hcount.
  - destruct (negb (is_nil (cells_of line)) && negb (is_separator (cells_of line)));
      reflexivity.
  - rewrite (one_pipe_no_cell line Hpipe Hcount). reflexivity.
Qed.

(* ===================================================================== *)
(** ** The title extractor: what reaches the tables *)
(* ===================================================================== *)

Section ExtractorInvariants.

Implicit Types (st : extractor_state) (t : title_tables).

(** A property of the tables that every change of a turn on the line keeps
    is kept by the turn. *)
Lemma extract_line_keeps_at (P : title_tables -> Prop) st raw :
  (forall sub t, P t -> P (design_table_row sub (strip raw) t)) ->
  (forall t, P t -> P (error_table_row (strip raw) t)) ->
  (forall t, P t -> P (testing_table_row (strip raw) t)) ->
  (forall x t, P t -> P (add_title_assumptions x t)) ->
  (forall x t, P t -> P (add_title_related_documents x t)) ->
  (forall x t, P t -> P (add_title_reviewers x t)) ->
  (forall x t, P t -> P (add_title_version_history x t)) ->
  P (tables st) -> P (tables (extract_line st raw)).
Proof.
  intros Hdesign Herror Htesting Hassume Hrelated Hreviewers Hversion.
  set (line := strip raw) in *.
  assert (forall st, P (tables st) -> P (tables (read_assumption st line))) as Ha.
  { intros st' H. unfold read_assumption. destruct (_ && _); [|exact H].
    apply Hassume, H. }
  assert (forall st, P (tables st) -> P (tables (read_design_row st line))) as Hd.
  { intros st' H. unfold read_design_row.
    destruct (current_design_subsection st'); [|exact H].
    destruct (_ && _); [|exact H]. apply Hdesign, H. }
  assert (forall st, P (tables st) -> P (tables (read_error_row st line))) as He.
  { intros st' H. unfold read_error_row. destruct (_ && _); [|exact H].
    apply Herror, H. }
  assert (forall st, P (tables st) -> P (tables (read_testing_row st line))) as Ht.
  { intros st' H. unfold read_testing_row. destruct (_ && _); [|exact H].
    apply Htesting, H. }
  assert (forall st, P (tables st) -> P (tables (track_lists st line))) as Hl.
  { intros st' H. unfold track_lists.
    destruct (contains "**Related Documents**:" line); [exact H|].
    destruct (contains "**Reviewers**:" line); [exact H|].
    destruct (contains "**Version History**:" line); [exact H|].
    destruct (_ && _); destruct (startswith "  - " line); cbn; try exact H;
      destruct (current_list st') as [[]|]; cbn; auto. }
  assert (forall st, P (tables st) -> P (tables (extract_content st line))) as Hc.
  { intros st' H. unfold extract_content. destruct (_ && _); [exact H|].
    apply Hl, Ht, He, Hd, Ha, H. }
  intros H. unfold extract_line. fold line.
  do 6 match goal with
       | |- P (tables (if ?c then _ else _)) => destruct c; [exact H|]
       end.
  cbv zeta.
  match goal with
  | |- context [if ?c then enter_section _ _ _ _ _ _ else st] => destruct c
  end.
  - destruct (_ && _); [exact H|]. apply Hc, H.
  - destruct (_ && _); [exact H|]. apply Hc, H.
Qed.

Lemma extract_line_keeps (P : title_tables -> Prop) :
  (forall sub line t, P t -> P (design_table_row sub line t)) ->
  (forall line t, P t -> P (error_table_row line t)) ->
  (forall line t, P t -> P (testing_table_row line t)) ->
  (forall x t, P t -> P (add_title_assumptions x t)) ->
  (forall x t, P t -> P (add_title_related_documents x t)) ->
  (forall x t, P t -> P (add_title_reviewers x t)) ->
  (forall x t, P t -> P (add_title_version_history x t)) ->
  forall st raw, P (tables st) -> P (tables (extract_line st raw)).
Proof.
  intros Hdesign Herror Htesting Hassume Hrelated Hreviewers Hversion st raw.
  apply extract_line_keeps_at; auto.
Qed.

(** The same for a property that speaks of the lines of the text. *)
Lemma extract_tables_keep_in (P : title_tables -> Prop) markdown_content :
  (forall st raw, In raw (split LF markdown_content) ->
                  P (tables st) -> P (tables (extract_line st raw))) ->
  P empty_tables ->
  P (extract_tables markdown_content).
Proof.
  intros Hstep Hempty. unfold extract_tables.
  assert (forall lines st, incl lines (split LF markdown_content) ->
                           P (tables st) -> P (tables (fold_left extract_line lines st)))
    as Hfold.
  { induction lines as [|raw rest IH]; intros st Hin H; [exact H|].
    cbn. apply IH.
    - intros x Hx. apply Hin. now right.
    - apply Hstep; [apply Hin; now left|exact H]. }
  apply Hfold; [apply incl_refl|exact Hempty].
Qed.

Lemma extract_tables_keep (P : title_tables -> Prop) :
  (forall st raw, P (tables st) -> P (tables (extract_line st raw))) ->
  P empty_tables ->
  forall markdown_content, P (extract_tables markdown_content).
Proof.
  intros Hstep Hempty md. unfold extract_tables.
  assert (forall lines st, P (tables st) -> P (tables (fold_left extract_line lines st)))
    as Hfold.
  { induction lines as [|raw rest IH]; intros st H; [exact H|].
    cbn. apply IH, Hstep, H. }
  apply Hfold, Hempty.
Qed.

(** *** Every entry has its keys *)

Ltac kept :=
  repeat split; try assumption;
  apply Forall_app; split; [assumption|repeat constructor].

Lemma every_key_tables markdown_content : every_key (extract_tables markdown_content).
Proof.
  apply extract_tables_keep; [apply extract_line_keeps|].
  - intros sub line t H. unfold design_table_row.
    destruct sub; destruct (_ && _); try exact H;
      unfold every_key, keyed in *; cbn in *;
      destruct H as (? & ? & ? & ? & ? & ? & ? & ?); kept.
  - intros line t H. unfold error_table_row. destruct (_ && _); [|exact H].
    unfold every_key, keyed in *; cbn in *.
    destruct H as (? & ? & ? & ? & ? & ? & ? & ?); kept.
  - intros line t H. unfold testing_table_row. destruct (_ && _); [|exact H].
    unfold every_key, keyed in *; cbn in *.
    destruct H as (? & ? & ? & ? & ? & ? & ? & ?); kept.
  - intros x t H. exact H.
  - intros x t H. exact H.
  - intros x t H. exact H.
  - intros x t H. exact H.
  - unfold every_key, keyed. cbn. repeat split; constructor.
Qed.

(** *** Every entry is a full row of the text *)

Ltac stored_row raw Hraw :=
  match goal with
  | E : (_ && Nat.leb _ (length _))%bool = true |- _ =>
      apply andb_true_iff in E; destruct E as [_ E]; apply Nat.leb_le in E;
      exists raw; split; [exact Hraw|]; split; [exact E|];
      unfold item;
      let cells := fresh "cells" in
      let Hcells := fresh "Hcells" in
      remember (cells_of (strip raw)) as cells eqn:Hcells; clear Hcells;
      repeat (destruct cells as [|? cells]; [cbn in E; lia|]);
      reflexivity
  end.

Ltac one_more raw Hraw :=
  repeat split; try assumption;
  apply Forall_app; split; [assumption|];
  constructor; [|constructor]; stored_row raw Hraw.

(** X20. Whatever the Markdown text, every entry of the eight extracted tables
    is a row of the text: for some line of the text, the line stripped has at
    least as many cells between its pipes as the table has columns, and the
    entry holds the keys of the table in the order of the columns with the
    first cells of that line as their values. So a row too short for its
    table is never stored, and no value is made up. *)
Theorem stored_rows_are_full_rows (markdown_content : string) :
  every_entry_read (split LF markdown_content) (extract_tables markdown_content).
Proof.
  apply extract_tables_keep_in.
  - intros st raw Hraw. apply extract_line_keeps_at.
    + intros sub t H. unfold design_table_row.
      destruct sub; destruct (_ && _) eqn:E; try exact H;
        unfold every_entry_read, read_from, row_of in *; cbn [selection_screen_table
          detail_processing_table valid_datasets_table country_info_table
          currency_t500c_table currency_t001_table error_handling_table
          testing_requirements_table add_selection_screen_table
          add_detail_processing_table add_valid_datasets_table add_country_info_table
          add_currency_t500c_table add_currency_t001_table] in *;
        destruct H as (? & ? & ? & ? & ? & ? & ? & ?); one_more raw Hraw.
    + intros t H. unfold error_table_row. destruct (_ && _) eqn:E; [|exact H].
      unfold every_entry_read, read_from, row_of in *; cbn [selection_screen_table
          detail_processing_table valid_datasets_table country_info_table
          currency_t500c_table currency_t001_table error_handling_table
          testing_requirements_table add_error_handling_table] in *.
      destruct H as (? & ? & ? & ? & ? & ? & ? & ?); one_more raw Hraw.
    + intros t H. unfold testing_table_row. destruct (_ && _) eqn:E; [|exact H].
      unfold every_entry_read, read_from, row_of in *; cbn [selection_screen_table
          detail_processing_table valid_datasets_table country_info_table
          currency_t500c_table currency_t001_table error_handling_table
          testing_requirements_table add_testing_requirements_table] in *.
      destruct H as (? & ? & ? & ? & ? & ? & ? & ?); one_more raw Hraw.
    + intros x t H. exact H.
    + intros x t H. exact H.
    + intros x t H. exact H.
    + intros x t H. exact H.
  - unfold every_entry_read, read_from. cbn. repeat split; constructor.
Qed.

(** *** The header rows *)

Ltac header_row word :=
  match goal with
  | |- context [negb (any_cell_contains word ?line) && Nat.leb ?n (length (cells_of ?line))] =>
      let Hany := fresh "Hany" in
      let Hlen := fresh "Hlen" in
      destruct (negb (any_cell_contains word line)) eqn:Hany; [|assumption];
      destruct (Nat.leb n (length (cells_of line))) eqn:Hlen; [|assumption];
      apply negb_true_iff in Hany; apply Nat.leb_le in Hlen;
      cbn [andb]
  end.

Ltac without_word :=
  repeat split; try assumption;
  apply Forall_app; split; [assumption|];
  constructor; [|constructor];
  repeat (constructor; [cbn [snd]; apply item_without_word;
                        [discriminate|assumption|lia]|]);
  constructor.

Lemma header_free_tables markdown_content : header_free (extract_tables markdown_content).
Proof.
  apply extract_tables_keep; [apply extract_line_keeps|].
  - intros sub line t H. unfold design_table_row. destruct sub.
    + header_row "Parameter". unfold header_free, without in *.
      cbn [add_selection_screen_table selection_screen_table detail_processing_table
           error_handling_table testing_requirements_table].
      destruct H as (? & ? & ? & ?). without_word.
    + header_row "Field Name". unfold header_free, without in *.
      cbn [add_detail_processing_table selection_screen_table detail_processing_table
           error_handling_table testing_requirements_table].
      destruct H as (? & ? & ? & ?). without_word.
    + destruct (_ && _); exact H.
    + destruct (_ && _); exact H.
    + destruct (_ && _); exact H.
    + destruct (_ && _); exact H.
  - intros line t H. unfold error_table_row. header_row "Error Description".
    unfold header_free, without in *.
    cbn [add_error_handling_table selection_screen_table detail_processing_table
         error_handling_table testing_requirements_table].
    destruct H as (? & ? & ? & ?). without_word.
  - intros line t H. unfold testing_table_row. header_row "Test Condition".
    unfold header_free, without in *.
    cbn [add_testing_requirements_table selection_screen_table detail_processing_table
         error_handling_table testing_requirements_table].
    destruct H as (? & ? & ? & ?). without_word.
  - intros x t H. exact H.
  - intros x t H. exact H.
  - intros x t H. exact H.
  - intros x t H. exact H.
  - unfold header_free, without. cbn. repeat split; constructor.
Qed.

(** X21. Whatever the Markdown text, no value of the selection screen table
    contains Parameter, none of the detail processing table Field Name, none
    of the error table Error Description and none of the testing table Test
    Condition: a row with such a cell is taken for the header row and
    dropped, also when it is a row of data. *)
Theorem header_words_are_not_stored (markdown_content : string) :
  let t := extract_tables markdown_content in
  let never word table :=
    forall entry key value,
      In entry table -> In (key, value) entry -> contains word value = false in
  never "Parameter" (selection_screen_table t)
  /\ never "Field Name" (detail_processing_table t)
  /\ never "Error Description" (error_handling_table t)
  /\ never "Test Condition" (testing_requirements_table t).
Proof.
  intros t never.
  destruct (header_free_tables markdown_content) as (Hsel & Hdet & Herr & Htest).
  fold t in Hsel, Hdet, Herr, Htest. unfold without in *.
  rewrite !List.Forall_forall in *.
  repeat split; intros entry key value Hentry Hvalue.
  - specialize (Hsel entry Hentry). rewrite List.Forall_forall in Hsel.
    apply (Hsel (key, value) Hvalue).
  - specialize (Hdet entry Hentry). rewrite List.Forall_forall in Hdet.
    apply (Hdet (key, value) Hvalue).
  - specialize (Herr entry Hentry). rewrite List.Forall_forall in Herr.
    apply (Herr (key, value) Hvalue).
  - specialize (Htest entry Hentry). rewrite List.Forall_forall in Htest.
    apply (Htest (key, value) Hvalue).
Qed.

End ExtractorInvariants.

(** A selection screen with a parameter whose description names the
    parameter: the row is taken for a header row, and only the other row is
    stored. *)
Lemma header_words_example :
  let md := join nl
      [ "## 4. DESAIN";
        "### Selection Screen";
        "| Parameter | Type | Description | Mandatory | Select-Option | No Intervals |";
        "|---|---|---|---|---|---|";
        "| P_BUKRS | BUKRS | Parameter kode perusahaan | Yes | No | No |";
        "| P_GJAHR | GJAHR | Tahun fiskal | Yes | No | No |" ] in
  selection_screen_table (extract_tables md)
  = [[("parameter", "P_GJAHR"); ("type", "GJAHR"); ("description", "Tahun fiskal");
      ("mandatory", "Yes"); ("select_option", "No"); ("no_intervals", "No")]].
Proof. vm_compute. reflexivity. Qed.

(** *** From the extracted tables to the rows of the Word tables *)

Section ExtractedRows.

Lemma map_snd_enumerate1 {A} (l : list A) : map snd (enumerate1 l) = l.
Proof.
  unfold enumerate1. generalize 1. induction l as [|x l IH]; intros n; [reflexivity|].
  cbn. f_equal. apply IH.
Qed.

(** Rows built from the entries alone, though the position is at hand. *)
Lemma map_enumerate1 {A B} (g : nat * A -> B) (f : A -> B) (P : A -> Prop) (l : list A) :
  Forall P l ->
  (forall n x, P x -> g (n, x) = f x) ->
  map g (enumerate1 l) = map f l.
Proof.
  intros Hl Hg. rewrite <- (map_snd_enumerate1 l) at 2. rewrite map_map.
  apply map_ext_in. intros [n x] Hin. cbn [snd]. apply Hg.
  rewrite List.Forall_forall in Hl. apply Hl.
  rewrite <- (map_snd_enumerate1 l). apply in_map_iff. exists (n, x). split; [reflexivity|exact Hin].
Qed.

Ltac entry_of e H :=
  do 7 (try (destruct e as [|[? ?] e]; try discriminate H));
  cbn in H; injection H; intros; subst; reflexivity.

Lemma selection_values (e : str_dict) :
  map fst e = ["parameter"; "type"; "description"; "mandatory"; "select_option";
               "no_intervals"] ->
  [item_get e "parameter" "N/A"; item_get e "type" "N/A";
   item_get e "description" "N/A"; item_get e "mandatory" "No";
   item_get e "select_option" "No"; item_get e "no_intervals" "No"]
  = map snd e.
Proof. intros H. entry_of e H. Qed.

Lemma data_values (e : str_dict) :
  map fst e = ["data"; "condition"] ->
  [default "N/A" (assoc_get "data" e); default "N/A" (assoc_get "condition" e)]
  = map snd e.
Proof. intros H. entry_of e H. Qed.

Lemma testing_values (n : nat) (e : str_dict) :
  map fst e = ["no"; "test_condition"; "expected_result"; "test_data"; "priority"] ->
  [item_get e "no" (str_of_nat n); item_get e "test_condition" "N/A";
   item_get e "expected_result" "N/A"; item_get e "test_data" "N/A";
   upper (item_get e "priority" "MEDIUM")]
  = take 4 (map snd e) ++ map upper (drop 4 (map snd e)).
Proof. intros H. entry_of e H. Qed.

Lemma error_values (n : nat) (e : str_dict) (last_cell : string) :
  map fst e = ["no"; "error_description"; "resolution"; "error_code"; "severity"] ->
  take 3 [item_get e "no" (str_of_nat n); item_get e "error_description" "N/A";
          item_get e "resolution" "N/A"; last_cell]
  = take 3 (map snd e).
Proof. intros H. entry_of e H. Qed.

Lemma data_condition_rows (table : list str_dict) :
  keyed ["data"; "condition"] table ->
  fst (create_data_condition_table_data table) = map (map snd) table.
Proof.
  intros Hk. destruct table as [|e table]; [reflexivity|].
  unfold create_data_condition_table_data. cbn [fst].
  apply map_ext_in. intros x Hin. apply data_values.
  unfold keyed in Hk. rewrite List.Forall_forall in Hk. apply Hk, Hin.
Qed.

(** X22. The rows of the Word tables, for tables read from a Markdown text, are
    the values as they were read, in the order of the columns: no default
    (N/A, No, the place of the row for its number) is used. The selection
    screen and the Data/Kondisi rows are the values; the testing rows are
    the values with the priority in upper case; the first three cells of
    an error row are the first three values. *)
Theorem extracted_rows_are_shown_as_read (markdown_content : string) :
  let t := extract_tables markdown_content in
  fst (create_selection_screen_table_data (selection_screen_table t))
  = map (map snd) (selection_screen_table t)
  /\ Forall (fun table => fst (create_data_condition_table_data table) = map (map snd) table)
       (data_tables t)
  /\ fst (create_testing_requirements_table_data (testing_requirements_table t))
     = map (fun e => take 4 (map snd e) ++ map upper (drop 4 (map snd e)))
         (testing_requirements_table t)
  /\ map (take 3) (fst (create_error_handling_table_data (error_handling_table t)))
     = map (fun e => take 3 (map snd e)) (error_handling_table t).
Proof.
  intros t.
  destruct (every_key_tables markdown_content)
    as (Hsel & _ & Hvalid & Hcountry & Ht500c & Ht001 & Herr & Htest).
  fold t in Hsel, Hvalid, Hcountry, Ht500c, Ht001, Herr, Htest.
  repeat split.
  - unfold create_selection_screen_table_data.
    destruct (selection_screen_table t) as [|e table] eqn:Htable; [reflexivity|].
    cbn [is_nil fst]. apply map_ext_in. intros x Hin. apply selection_values.
    unfold keyed in Hsel. rewrite List.Forall_forall in Hsel. apply Hsel, Hin.
  - unfold data_tables. repeat constructor; now apply data_condition_rows.
  - unfold create_testing_requirements_table_data.
    destruct (testing_requirements_table t) as [|e table] eqn:Htable; [reflexivity|].
    cbn [is_nil fst]. apply (map_enumerate1 _ _ _ _ Htest).
    intros n x Hx. cbn [fst snd]. apply testing_values, Hx.
  - unfold create_error_handling_table_data.
    destruct (error_handling_table t) as [|e table] eqn:Htable; [reflexivity|].
    cbn [is_nil fst]. rewrite map_map. apply (map_enumerate1 _ _ _ _ Herr).
    intros n x Hx. cbn [fst snd]. apply error_values, Hx.
Qed.

End ExtractedRows.

(** *** Rows with dashes *)

Section DashedRows.

Lemma starts_with_pipe (line : string) :
  startswith "|" line = true -> exists rest, line = String "|" rest.
Proof.
  destruct line as [|c rest]; [discriminate|]. cbn [startswith].
  rewrite andb_true_r. intros H. apply Ascii.eqb_eq in H. subst c. eauto.
Qed.

(** X23. A line that starts with a pipe and has three dashes in a row anywhere,
    in a separator row or in a cell of data, leaves the tables and the lists
    as they are, whatever the state of the loop. *)
Theorem rows_with_dashes_are_dropped (st : extractor_state) (raw : string) :
  startswith "|" (strip raw) = true ->
  contains "---" (strip raw) = true ->
  tables (extract_line st raw) = tables st.
Proof.
  intros Hpipe Hdashes. unfold extract_line. cbv zeta.
  assert (is_table_row (strip raw) = false) as Hrow.
  { unfold is_table_row. rewrite Hpipe, Hdashes. reflexivity. }
  destruct (starts_with_pipe _ Hpipe) as [rest Hline].
  assert (startswith "## " (strip raw) = false) as -> by (rewrite Hline; reflexivity).
  assert (startswith "### " (strip raw) = false) as H3 by (rewrite Hline; reflexivity).
  cbn [andb]. rewrite H3, andb_false_r.
  unfold extract_content.
  destruct (in_general_requirements st && contains "**Assumptions**:" (strip raw));
    [reflexivity|].
  assert (read_assumption st (strip raw) = st) as ->.
  { unfold read_assumption. rewrite Hline. cbn [startswith Ascii.eqb Bool.eqb andb].
    rewrite andb_false_r. reflexivity. }
  assert (read_design_row st (strip raw) = st) as ->.
  { unfold read_design_row. rewrite Hrow, andb_false_r.
    destruct (current_design_subsection st); reflexivity. }
  assert (read_error_row st (strip raw) = st) as ->.
  { unfold read_error_row. rewrite Hrow, andb_false_r. reflexivity. }
  assert (read_testing_row st (strip raw) = st) as ->.
  { unfold read_testing_row. rewrite Hrow, andb_false_r. reflexivity. }
  unfold track_lists.
  destruct (contains "**Related Documents**:" (strip raw)); [reflexivity|].
  destruct (contains "**Reviewers**:" (strip raw)); [reflexivity|].
  destruct (contains "**Version History**:" (strip raw)); [reflexivity|].
  assert (startswith "##" (strip raw) = false) as -> by (rewrite Hline; reflexivity).
  assert (startswith "  - " (strip raw) = false) as -> by (rewrite Hline; reflexivity).
  reflexivity.
Qed.

(** A row of data whose last cell holds three dashes for an empty value. *)
Lemma rows_with_dashes_are_dropped_witness :
  let st := fold_left extract_line
              ["## 5. ERROR HANDLING"; "| 1 | Data kosong | Periksa input | E001 | ERROR |"]
              initial_extractor_state in
  let raw := "| 2 | Otorisasi gagal | Hubungi admin | --- | ERROR |" in
  tables (extract_line st raw) = tables st.
Proof.
  intros st raw.
  apply (rows_with_dashes_are_dropped st raw); vm_compute; reflexivity.
Defined.

End DashedRows.

(** *** The heading of the design changes *)

Section DesignChanges.

Lemma startswith_prefix (a b s : string) :
  startswith (a +:+ b) s = true -> startswith a s = true.
Proof.
  revert s. induction a as [|c a IH]; intros s; [reflexivity|].
  rewrite app_String. destruct s as [|x s]; [discriminate|]. cbn [startswith].
  rewrite !andb_true_iff. intros [Hc H]. split; [exact Hc|apply IH, H].
Qed.

Lemma contains_prefix (a b s : string) :
  contains (a +:+ b) s = true -> contains a s = true.
Proof.
  induction s as [|x s IH]; cbn [contains].
  - apply startswith_prefix.
  - rewrite !orb_true_iff. intros [H|H]; [left; apply (startswith_prefix _ _ _ H)|right; auto].
Qed.

Lemma startswith_then_contains (b s : string) :
  startswith b s = true -> contains b s = true.
Proof. destruct s as [|x s]; cbn [contains]; [auto|]. now intros ->. Qed.

Lemma startswith_suffix (a b s : string) :
  startswith (a +:+ b) s = true -> contains b s = true.
Proof.
  revert s. induction a as [|c a IH]; intros s.
  - rewrite app_empty_l. apply startswith_then_contains.
  - rewrite app_String. destruct s as [|x s]; [discriminate|]. cbn [startswith contains].
    rewrite andb_true_iff. intros [_ H]. rewrite (IH _ H). apply orb_true_r.
Qed.

Lemma contains_suffix (a b s : string) :
  contains (a +:+ b) s = true -> contains b s = true.
Proof.
  induction s as [|x s IH].
  - cbn [contains]. intros H. apply (startswith_suffix a b "" H).
  - intros H. cbn [contains] in H. apply orb_true_iff in H as [H|H].
    + apply (startswith_suffix a b _ H).
    + cbn [contains]. rewrite (IH H). apply orb_true_r.
Qed.

(** X24. A level-2 heading of the design changes is taken by an earlier test
    of the loop: it opens the design section (or, when it also names them,
    the general requirements or the existing objects), and the state of the
    design changes is never entered. *)
Theorem design_changes_open_the_design_section (st : extractor_state) (raw : string) :
  design_changes_heading (strip raw) = true ->
  extract_line st raw
  = if general_heading (strip raw) then enter_section st true false false false false
    else if existing_heading (strip raw) then enter_section st false true false false false
    else enter_section st false false true false false.
Proof.
  unfold design_changes_heading, general_heading, existing_heading, extract_line.
  cbv zeta. intros H. apply andb_prop in H as [Hh2 Hword]. rewrite Hh2. cbn [andb].
  assert (contains "DESIGN" (upper (strip raw)) || contains "DESAIN" (upper (strip raw))
          = true) as Hdesign.
  { apply orb_true_iff in Hword as [Hword|Hword]; apply orb_true_iff; [left|right].
    - change "DESIGN CHANGE" with ("DESIGN" +:+ " CHANGE") in Hword.
      apply (contains_prefix _ _ _ Hword).
    - change "PERUBAHAN DESAIN" with ("PERUBAHAN " +:+ "DESAIN") in Hword.
      apply (contains_suffix _ _ _ Hword). }
  rewrite Hdesign. reflexivity.
Qed.

Lemma design_changes_open_the_design_section_witness :
  let st := fold_left extract_line ["## 6. TESTING REQUIREMENTS"] initial_extractor_state in
  let raw := "## 7. Design Changes" in
  extract_line st raw
  = if general_heading (strip raw) then enter_section st true false false false false
    else if existing_heading (strip raw) then enter_section st false true false false false
    else enter_section st false false true false false.
Proof.
  intros st raw.
  apply (design_changes_open_the_design_section st raw). vm_compute. reflexivity.
Defined.

End DesignChanges.

(* ===================================================================== *)
(** ** The reference table and the report description *)
(* ===================================================================== *)

Section LookupProperties.

Lemma find_row_first (id_idx value_idx : nat) (ricefw_id : string)
    (before : list (list cell)) (row : list cell) (after : list (list cell))
    (id_cell value_cell : cell) :
  Forall (fun r => exists c, r !! id_idx = Some c /\ strip (str_of_cell c) <> ricefw_id)
    before ->
  row !! id_idx = Some id_cell ->
  strip (str_of_cell id_cell) = ricefw_id ->
  row !! value_idx = Some value_cell ->
  find_row id_idx value_idx ricefw_id (before ++ row :: after)
  = Ok (Some (strip <$> value_cell)).
Proof.
  intros Hbefore Hid Hmatch Hvalue.
  induction Hbefore as [|r before (c & Hc & Hne) _ IH]; cbn [app find_row].
  - unfold row_at. rewrite Hid. cbn [mbind res_mbind res_bind].
    rewrite Hmatch, String.eqb_refl, Hvalue. cbn [mbind res_mbind res_bind].
    destruct value_cell; reflexivity.
  - unfold row_at. rewrite Hc. cbn [mbind res_mbind res_bind].
    apply String.eqb_neq in Hne. rewrite Hne. exact IH.
Qed.

(** X25. The first row of the sheet whose id is the one looked for decides the
    lookup: its value is returned, stripped, or nothing when its cell is
    empty; the rows after it are not read. *)
Theorem first_matching_row_decides (table : reference_table) (column ricefw_id : string)
    (headers : list cell) (before : list (list cell)) (row : list cell)
    (after : list (list cell)) (id_idx value_idx : nat) (id_cell value_cell : cell) :
  excel_exists table = true ->
  load_rows table = Ok (headers :: before ++ row :: after) ->
  index_of "SAP WRICEF ID" headers = Ok id_idx ->
  index_of column headers = Ok value_idx ->
  Forall (fun r => exists c, r !! id_idx = Some c /\ strip (str_of_cell c) <> ricefw_id)
    before ->
  row !! id_idx = Some id_cell ->
  strip (str_of_cell id_cell) = ricefw_id ->
  row !! value_idx = Some value_cell ->
  lookup_column table column ricefw_id = strip <$> value_cell.
Proof.
  intros Hexists Hrows Hid_idx Hvalue_idx Hbefore Hid Hmatch Hvalue.
  unfold lookup_column, lookup_body. rewrite Hexists, Hrows. cbn [negb].
  cbn [mbind res_mbind res_bind tail]. rewrite Hid_idx. cbn [mbind res_mbind res_bind].
  rewrite Hvalue_idx. cbn [mbind res_mbind res_bind].
  rewrite (find_row_first _ _ _ _ _ _ _ _ Hbefore Hid Hmatch Hvalue). reflexivity.
Qed.

(** A sheet with two rows for the same id: the first one is returned. *)
Lemma first_matching_row_decides_witness :
  let table :=
    {| excel_exists := true;
       load_rows :=
         Ok [ [Some "No"; Some "SAP WRICEF ID"; Some "Assign Nodin"];
              [Some "1"; Some "R-001"; Some "ND-07"];
              [Some "2"; Some " R-002 "; Some " ND-11 "];
              [Some "3"; Some "R-002"; Some "ND-12"] ] |} in
  _lookup_assign_nodin table "R-002" = Some "ND-11".
Proof.
  intros table.
  apply (first_matching_row_decides table "Assign Nodin" "R-002"
           [Some "No"; Some "SAP WRICEF ID"; Some "Assign Nodin"]
           [[Some "1"; Some "R-001"; Some "ND-07"]]
           [Some "2"; Some " R-002 "; Some " ND-11 "]
           [[Some "3"; Some "R-002"; Some "ND-12"]]
           1 2 (Some " R-002 ") (Some " ND-11 ")); try reflexivity.
  constructor; [|constructor]. exists (Some "R-001"). split; [reflexivity|discriminate].
Defined.

End LookupProperties.

Section DescriptionProperties.

Variable table : reference_table.
Variable _improve_text : string -> string.

Lemma join_nonempty (sep x : string) (rest : list string) :
  x <> "" -> join sep (x :: rest) <> "".
Proof.
  intros Hx. destruct rest as [|y rest].
  - exact Hx.
  - rewrite join_cons2. destruct x; [contradiction|]. rewrite app_String. discriminate.
Qed.

(** X26. A report description that is given is returned as it is, and nothing
    is polished; without one, the text handed to the polishing is never
    empty. *)
Theorem report_description_is_given_or_polished (d : FSDDocument) :
  if String.eqb (desain_report_description d) "" then
    exists text,
      text <> ""
      /\ _compose_report_description table _improve_text d = _improve_text text
  else _compose_report_description table _improve_text d = desain_report_description d.
Proof.
  unfold _compose_report_description.
  destruct (String.eqb (desain_report_description d) ""); [|reflexivity].
  cbn [negb]. cbv zeta.
  match goal with
  | |- context [_improve_text (join " " ?parts)] =>
      exists (join " " parts); split; [|reflexivity]
  end.
  set (base := if String.eqb _ "" then user_requirements d else _).
  destruct (String.eqb base "") eqn:Hbase.
  - destruct (selection_parameters d), (field_mappings d); cbn [app];
      apply join_nonempty; rewrite ?app_String; discriminate.
  - apply String.eqb_neq in Hbase.
    destruct (selection_parameters d), (field_mappings d); cbn [app];
      apply join_nonempty; exact Hbase.
Qed.

End DescriptionProperties.

(* ===================================================================== *)
(** ** A batch of files *)
(* ===================================================================== *)

Section MultipleFilesProperties.

Context {G R : Type}.
Variable process_file : G -> string -> G * exc R.
Variable str_of_exception : exn -> string.

Lemma dict_set_keys {A} (k : string) (v : A) (d : list (string * A)) :
  map fst (dict_set k v d)
  = if bool_decide (k ∈ map fst d) then map fst d else map fst d ++ [k].
Proof.
  induction d as [|[k' v'] d IH]; [reflexivity|]. cbn [dict_set map fst].
  destruct (String.eqb k k') eqn:Hk.
  - apply String.eqb_eq in Hk. subst k'. rewrite bool_decide_true by (apply elem_of_cons; now left).
    reflexivity.
  - apply String.eqb_neq in Hk. cbn [map fst]. rewrite IH.
    destruct (bool_decide (k ∈ map fst d)) eqn:Hin.
    + apply bool_decide_eq_true in Hin.
      rewrite bool_decide_true by (apply elem_of_cons; now right). reflexivity.
    + apply bool_decide_eq_false in Hin.
      rewrite bool_decide_false; [reflexivity|].
      intros H. apply elem_of_cons in H as [H|H]; [contradiction|contradiction].
Qed.

(** What the loop keeps, from any values so far. *)
Lemma process_files_counts (html_files : list string) :
  forall g entries s f g' entries' s' f',
    process_files process_file str_of_exception g html_files entries s f
    = (g', (entries', s', f')) ->
    s' + f' = s + f + length html_files
    /\ (NoDup (map fst entries) -> NoDup (map fst entries'))
    /\ (forall name, name ∈ map fst entries' <-> name ∈ map fst entries \/ name ∈ html_files)
    /\ (NoDup (map fst entries ++ html_files) ->
        map fst entries' = map fst entries ++ html_files).
Proof.
  induction html_files as [|file rest IH]; intros g entries s f g' entries' s' f' H.
  - cbn in H. injection H as <- <- <- <-. cbn [length]. rewrite app_nil_r.
    split_and!; [lia|auto| |auto].
    intros name. split; [intros Hin; left; exact Hin|].
    intros [Hin|Hin]; [exact Hin|inversion Hin].
  - cbn [process_files] in H.
    assert (forall (v : file_entry R),
               (NoDup (map fst entries) -> NoDup (map fst (dict_set file v entries)))
               /\ (forall name, name ∈ map fst (dict_set file v entries)
                                <-> name ∈ map fst entries \/ name = file)
               /\ (file ∉ map fst entries ->
                   map fst (dict_set file v entries) = map fst entries ++ [file]))
      as Hset.
    { intros v. rewrite dict_set_keys.
      destruct (bool_decide (file ∈ map fst entries)) eqn:Hin.
      - apply bool_decide_eq_true in Hin. split_and!; [auto| |intros Hnot; contradiction].
        intros name. split; [intros H'; left; exact H'|].
        intros [H'|H']; [exact H'|]. subst name. exact Hin.
      - apply bool_decide_eq_false in Hin. split_and!; [| |reflexivity].
        + intros Hnd. apply NoDup_app. split_and!; [exact Hnd| |apply NoDup_singleton].
          intros x Hx Hx'. apply list_elem_of_singleton in Hx'. subst x. contradiction.
        + intros name. rewrite elem_of_app, list_elem_of_singleton. reflexivity. }
    assert (forall g1 (v : file_entry R) s1 f1,
               s1 + f1 = s + f + 1 ->
               process_files process_file str_of_exception g1 rest
                 (dict_set file v entries) s1 f1 = (g', (entries', s', f')) ->
               s' + f' = s + f + length (file :: rest)
               /\ (NoDup (map fst entries) -> NoDup (map fst entries'))
               /\ (forall name, name ∈ map fst entries'
                                <-> name ∈ map fst entries \/ name ∈ file :: rest)
               /\ (NoDup (map fst entries ++ file :: rest) ->
                   map fst entries' = map fst entries ++ file :: rest)) as Hstep.
    { intros g1 v s1 f1 Hs Hrest.
      apply IH in Hrest as (Hcount & Hnodup & Hkeys & Horder).
      destruct (Hset v) as (Hnd1 & Hk1 & Ho1).
      split_and!.
      - cbn [length]. lia.
      - auto.
      - intros name. rewrite Hkeys, Hk1, elem_of_cons. tauto.
      - intros Hnd.
        assert (file ∉ map fst entries) as Hfresh.
        { apply NoDup_app in Hnd as (_ & Hdisj & _). intros Hin.
          apply (Hdisj _ Hin), elem_of_cons. now left. }
        rewrite Horder; rewrite (Ho1 Hfresh), <- app_assoc; [reflexivity|exact Hnd]. }
    destruct (process_file g file) as [g1 [file_results|e]].
    + apply (Hstep g1 (FileResults file_results) (s + 1) f); [lia|exact H].
    + apply (Hstep g1 (FileError (str_of_exception e)) s (f + 1)); [lia|exact H].
Qed.

(** X27. The summary of a batch: every file of the list is counted once each
    time it is listed, as a success or as a failure, and a failure does not
    stop the batch; the results have one entry for each name, so a file
    listed twice is counted twice and reported once; files listed once are
    reported in the order of the list. *)
Theorem every_file_is_counted (g : G) (html_files : list string) :
  let summary := snd (process_multiple_files process_file str_of_exception g html_files) in
  total_files summary = length html_files
  /\ successful summary + failed summary = length html_files
  /\ NoDup (map fst (results summary))
  /\ (forall name, name ∈ map fst (results summary) <-> name ∈ html_files)
  /\ (NoDup html_files -> map fst (results summary) = html_files).
Proof.
  cbn zeta. unfold process_multiple_files.
  destruct (process_files process_file str_of_exception g html_files [] 0 0)
    as [g1 [[entries s] f]] eqn:Hloop.
  apply process_files_counts in Hloop as (Hcount & Hnodup & Hkeys & Horder).
  cbn [snd total_files successful failed results map] in *.
  split_and!.
  - reflexivity.
  - lia.
  - apply Hnodup. constructor.
  - intros name. rewrite Hkeys. split; [|tauto].
    intros [Hin|Hin]; [inversion Hin|exact Hin].
  - intros Hnd. apply Horder. exact Hnd.
Qed.

End MultipleFilesProperties.

(* ===================================================================== *)
(** ** The table of contents *)
(* ===================================================================== *)

Section TableOfContentsProperties.

Variable main_section_match : string -> option (nat * string).
Variable subsection_match : string -> option (nat * nat * string).

Lemma enumerate_from {A} (l : list A) (start : nat) (f : nat * A -> nat) :
  (forall i x, f (i, x) = start + i) ->
  map f (enumerate l) = seq start (length l).
Proof.
  intros Hf. unfold enumerate.
  assert (forall n k, (forall i x, f (i, x) = k + i) ->
                      map f (combine (seq n (length l)) l) = seq (k + n) (length l)) as H.
  { clear Hf. induction l as [|x l IH]; intros n k Hf; [reflexivity|].
    cbn [length seq combine map]. rewrite Hf. f_equal.
    rewrite (IH (S n) k Hf). f_equal. lia. }
  rewrite (H 0 start Hf). f_equal. lia.
Qed.

Lemma subsection_items_pages (current page : nat) (subs : list found_subsection) :
  map toc_page (subsection_items current page subs) = seq page (length subs).
Proof.
  unfold subsection_items. rewrite map_map. apply enumerate_from. reflexivity.
Qed.

Lemma number_sections_pages (sections : list found_section) :
  forall counter page,
    map toc_page (number_sections counter page sections)
    = seq page (headings_found sections).
Proof.
  unfold headings_found.
  induction sections as [|section rest IH]; intros counter page; [reflexivity|].
  cbn [number_sections map flat_map length]. rewrite map_app, subsection_items_pages, IH.
  rewrite !length_app. cbn [toc_page]. rewrite <- seq_app.
  replace (S (length rest) + (length (found_subsections section)
                              + length (flat_map found_subsections rest)))
    with (S (length (found_subsections section)
             + (length rest + length (flat_map found_subsections rest)))) by lia.
  cbn [seq]. f_equal. f_equal. lia.
Qed.

(** X28. The pages of the table of contents are the numbers from 2 on, one
    for each entry: the two fixed entries, then every main section and every
    subsection kept, whatever the length of the text below a heading. *)
Theorem toc_pages_count_the_entries (lines : list string) :
  let toc := _extract_table_of_contents main_section_match subsection_match lines in
  map toc_page toc = seq 2 (length toc)
  /\ length toc
     = 2 + headings_found (fold_left (collect main_section_match subsection_match) lines []).
Proof.
  cbn zeta. unfold _extract_table_of_contents.
  assert (length (number_sections 3 4
                    (fold_left (collect main_section_match subsection_match) lines []))
          = headings_found
              (fold_left (collect main_section_match subsection_match) lines [])) as Hlen.
  { rewrite <- (length_map toc_page), number_sections_pages. apply length_seq. }
  split.
  - rewrite map_app, number_sections_pages, length_app, Hlen. reflexivity.
  - rewrite length_app, Hlen. reflexivity.
Qed.

End TableOfContentsProperties.

(* ===================================================================== *)
(** ** The texts generated for the placeholders *)
(* ===================================================================== *)

Section GeneratedTexts.

Lemma filter_head_accepted {A} (test : A -> bool) (l : list A) (x : A) (rest : list A) :
  List.filter test l = x :: rest -> test x = true.
Proof.
  intros H. assert (In x (List.filter test l)) as Hin by (rewrite H; now left).
  apply filter_In in Hin. apply Hin.
Qed.

Lemma get_truthy_nonempty (key : string) (ti : title_info) :
  get_truthy key (info ti) = true -> title_get ti key "" <> "".
Proof.
  unfold get_truthy, title_get. destruct (assoc_get key (info ti)) as [s|]; [|discriminate].
  cbn [default]. unfold str_truthy. destruct s; [discriminate|discriminate].
Qed.

(** X29. The report description, the authorization text and the design
    constraints written into the template are never empty, whatever the
    title information holds. *)
Theorem generated_texts_are_never_empty (ti : title_info) :
  _generate_report_description ti <> ""
  /\ _generate_authorization_info ti <> ""
  /\ _generate_design_constraints ti <> "".
Proof.
  split_and!.
  - unfold _generate_report_description. cbv zeta.
    destruct (get_truthy "user_requirements" (info ti)) eqn:Hreq.
    + cbn [app is_nil]. apply join_nonempty, get_truthy_nonempty, Hreq.
    + destruct (is_nil (selection_screen_table (info_tables ti)));
        destruct (is_nil (detail_processing_table (info_tables ti)));
        cbn [app is_nil]; apply join_nonempty; rewrite ?app_String; discriminate.
  - unfold _generate_authorization_info. cbv zeta.
    destruct (List.filter _ (title_assumptions (info_tables ti))) as [|x rest] eqn:Hfilter.
    + cbn [is_nil]. apply join_nonempty. discriminate.
    + cbn [is_nil]. apply join_nonempty. apply filter_head_accepted in Hfilter.
      intros ->. discriminate Hfilter.
  - unfold _generate_design_constraints. cbv zeta.
    destruct (get_truthy "sap_program_name" (info ti)) eqn:Hname.
    + cbn [app is_nil]. apply join_nonempty. rewrite app_String. discriminate.
    + cbn [app].
      destruct (List.filter _ (title_assumptions (info_tables ti))) as [|x rest] eqn:Hfilter.
      * cbn [is_nil]. apply join_nonempty. discriminate.
      * cbn [is_nil]. apply join_nonempty. apply filter_head_accepted in Hfilter.
        intros ->. discriminate Hfilter.
Qed.

End GeneratedTexts.
